(** * crosslightning-plugins: the hedging plugin and its exchange adapters

    A shallow embedding of
      - [toDecimal] / [fromDecimal] and the [currencyDecimals] tables of the
        Binance and OKX adapters,
      - [getTradingPair], [getWithdrawalFee] and [withdraw] of the adapters,
        and their other methods ([getTrade], [marketTrade], [getBalance],
        [getWithdrawal], [getDeposit], [getDepositAddress], and the funds
        transfers of OKX),
      - the rebalancing state machine of [HedgingPlugin]
        ([check], [setState], [loadState], [serializeState], the
        [onBeforeTxReplace] callback and the balance monitor),
    a simulated world to run it in, and the properties proved about them:
    the conversions and the adapters first, then the engine (persistence,
    [setState], the callbacks), then the transitions of a job (which
    transitions [check] makes, where an exit from RETRYING leads, that
    [check] ends) and what a restarted process does with a job in OUT_TX.
    The last two parts go through the adapters method by method and
    through the engine state by state: what [check] does in a state, what
    is on the disk when a request leaves, and what the balance monitor
    counts. *)

From Stdlib Require Import ZArith Ascii String List Lia Bool.
From stdpp Require Import base option list strings gmap.

Set Warnings "-register-all".
Local Open Scope Z_scope.

(* ===================================================================== *)
(** * JavaScript strings and bn.js big integers *)
(* ===================================================================== *)

(** Strings are [string] at the interfaces; the string methods the adapters
    use are written over the list of their characters. *)
Module JS.

Abbreviation chars := (list ascii).

Definition str (s : string) : chars := list_ascii_of_string s.
Definition unstr (l : chars) : string := string_of_list_ascii l.

(** [s.length] *)
Definition length (s : chars) : Z := Z.of_nat (List.length s).

(** ["c".repeat(n)]; the adapters only call it with [n >= 0]. *)
Definition repeat (c : ascii) (n : Z) : chars := replicate (Z.to_nat n) c.

(** [s.padStart(n, c)] and [s.padEnd(n, c)] for a one-character filler. *)
Definition padStart (s : chars) (n : Z) (c : ascii) : chars :=
  repeat c (n - length s) ++ s.
Definition padEnd (s : chars) (n : Z) (c : ascii) : chars :=
  s ++ repeat c (n - length s).

(** [s.substring(a, b)]: both indices are clamped to [0 .. s.length] and
    swapped when [a > b]. *)
Definition clamp (s : chars) (i : Z) : nat :=
  Z.to_nat (Z.min (Z.max 0 i) (length s)).
Definition substring (s : chars) (a b : Z) : chars :=
  let a' := clamp s a in
  let b' := clamp s b in
  let lo := Nat.min a' b' in
  let hi := Nat.max a' b' in
  take (hi - lo) (drop lo s).

(** [s.includes(".")] *)
Definition includes (s : chars) (c : ascii) : bool :=
  existsb (Ascii.eqb c) s.

(** [s.split(".")]: the list of the segments between the separators. *)
Fixpoint split (c : ascii) (s : chars) : list chars :=
  match s with
  | [] => [[]]
  | x :: r =>
      if Ascii.eqb x c then [] :: split c r
      else match split c r with
           | seg :: segs => (x :: seg) :: segs
           | [] => [[x]]
           end
  end.

(** ** bn.js *)

(** The character of a digit below 16, as [BN.prototype.toString] prints
    it (lower case). *)
Definition digitChar (d : Z) : ascii :=
  match d with
  | 0 => "0" | 1 => "1" | 2 => "2" | 3 => "3" | 4 => "4"
  | 5 => "5" | 6 => "6" | 7 => "7" | 8 => "8" | 9 => "9"
  | 10 => "a" | 11 => "b" | 12 => "c" | 13 => "d" | 14 => "e"
  | _ => "f"
  end%char.

(** The value of a digit character, in either case. *)
Definition digitVal (c : ascii) : option Z :=
  let n := Z.of_N (N_of_ascii c) in
  if (48 <=? n) && (n <=? 57) then Some (n - 48)
  else if (97 <=? n) && (n <=? 102) then Some (n - 87)
  else if (65 <=? n) && (n <=? 70) then Some (n - 55)
  else None.

(** The digits of a non-negative [n], most significant first, in front
    of [acc]. *)
Fixpoint toDigits (fuel : nat) (base n : Z) (acc : chars) : chars :=
  match fuel with
  | O => acc
  | S f =>
      let acc' := digitChar (n mod base) :: acc in
      if n / base =? 0 then acc' else toDigits f base (n / base) acc'
  end.

Definition digitsFuel (n : Z) : nat := S (Z.to_nat (Z.log2 n)).

(** [n.toString(base)] *)
Definition BN_toString (base n : Z) : chars :=
  if n <? 0 then "-"%char :: toDigits (digitsFuel (- n)) base (- n) []
  else toDigits (digitsFuel n) base n [].

(** [n.toString(base, padding)]: zeros in front until the number of digits
    is a multiple of [padding]. *)
Definition BN_toString_padded (base : Z) (padding : nat) (n : Z) : chars :=
  let ds := toDigits (digitsFuel (Z.abs n)) base (Z.abs n) [] in
  let r := (List.length ds mod padding)%nat in
  let ds' := if (r =? 0)%nat then ds else replicate (padding - r) "0"%char ++ ds in
  if n <? 0 then "-"%char :: ds' else ds'.

(** Horner evaluation of a digit string; [None] on a character that is
    not a digit of the base (bn.js 5 fails its assertion there). *)
Fixpoint parseDigits (base : Z) (acc : Z) (s : chars) : option Z :=
  match s with
  | [] => Some acc
  | c :: r =>
      match digitVal c with
      | Some d => if d <? base then parseDigits base (acc * base + d) r else None
      | None => None
      end
  end.

(** [new BN(s, base)]: an optional minus sign, then digits. The empty
    string is zero. *)
Definition BN_parse (base : Z) (s : chars) : option Z :=
  match s with
  | c :: r =>
      if Ascii.eqb c "-" then Z.opp <$> parseDigits base 0 r
      else parseDigits base 0 s
  | [] => Some 0
  end.

(** [a.div(b)] of bn.js rounds towards zero; division by zero fails an
    assertion. *)
Definition BN_div (a b : Z) : option Z :=
  if b =? 0 then None else Some (Z.quot a b).

End JS.

(* ===================================================================== *)
(** * Decimal conversion at the exchange boundary *)
(* ===================================================================== *)

(** [toDecimal] and [fromDecimal] are defined, with the same text, at the top
    of both adapter files. *)

Definition toDecimalChars (amount : Z) (decimalCount : Z) : JS.chars :=
  if decimalCount <=? 0 then
    JS.BN_toString 10 amount ++ JS.repeat "0" (- decimalCount)
  else
    let amountStr := JS.padStart (JS.BN_toString 10 amount) (decimalCount + 1) "0" in
    let splitPoint := JS.length amountStr - decimalCount in
    JS.substring amountStr 0 splitPoint ++ "."%char ::
      JS.substring amountStr splitPoint (JS.length amountStr).

Definition toDecimal (amount : Z) (decimalCount : Z) : string :=
  JS.unstr (toDecimalChars amount decimalCount).

Definition fromDecimalChars (amount : JS.chars) (decimalCount : Z) : option Z :=
  if JS.includes amount "." then
    (* const [before, after] = amount.split("."); *)
    match JS.split "." amount with
    | before :: after :: _ =>
        if decimalCount <? 0 then
          JS.BN_parse 10 (JS.substring before 0 (JS.length before + decimalCount))
        else
          let whole := if String.eqb (JS.unstr before) "0" then [] else before in
          if JS.length after >? decimalCount then
            (* Cut the last digits *)
            JS.BN_parse 10 (whole ++ JS.substring after 0 decimalCount)
          else
            JS.BN_parse 10 (whole ++ JS.padEnd after decimalCount "0")
    | _ => None
    end
  else
    if decimalCount <? 0 then
      JS.BN_parse 10 (JS.substring amount 0 (JS.length amount + decimalCount))
    else
      JS.BN_parse 10 (amount ++ JS.repeat "0" decimalCount).

Definition fromDecimal (amount : string) (decimalCount : Z) : option Z :=
  fromDecimalChars (JS.str amount) decimalCount.

(** The closed set of currencies of the [currencyDecimals] tables. *)
Definition supportedCurrencies : list string :=
  ["BTC"; "BTC-LN"; "USDC"; "USDT"; "ETH"; "SOL"].

Definition isBtcLike (c : string) : bool :=
  String.eqb c "BTC" || String.eqb c "BTC-LN".

(** What [getTradingPair] returns; a field that was never assigned is
    [undefined], here [None]. *)
Record TradingPair := {
  buy : option bool;
  tradingPair : option string
}.

(** The shape of both [getTradingPair] methods: the two venues differ in the
    four instrument names only. *)
Definition getTradingPairWith (usdc usdt eth sol : string)
    (srcCurrency dstCurrency : string) : TradingPair :=
  let r0 := {| buy := None; tradingPair := None |} in
  let r1 :=
    if isBtcLike srcCurrency then
      if String.eqb dstCurrency "USDC" then {| buy := Some false; tradingPair := Some usdc |}
      else if String.eqb dstCurrency "USDT" then {| buy := Some false; tradingPair := Some usdt |}
      else if String.eqb dstCurrency "ETH" then {| buy := Some true; tradingPair := Some eth |}
      else if String.eqb dstCurrency "SOL" then {| buy := Some true; tradingPair := Some sol |}
      else r0
    else r0 in
  if isBtcLike dstCurrency then
    if String.eqb srcCurrency "USDC" then {| buy := Some true; tradingPair := Some usdc |}
    else if String.eqb srcCurrency "USDT" then {| buy := Some true; tradingPair := Some usdt |}
    else if String.eqb srcCurrency "ETH" then {| buy := Some false; tradingPair := Some eth |}
    else if String.eqb srcCurrency "SOL" then {| buy := Some false; tradingPair := Some sol |}
    else r1
  else r1.

(** [currencyDecimals[currency]] of an unsupported currency is [undefined].
    With [undefined] for [decimalCount] every comparison in the two functions
    is false and every padding leaves its string alone: [toDecimal] puts the
    point in front of the digits and [fromDecimal] reads the digits on both
    sides of the point. *)
Definition toDecimalAt (amount : Z) (decimalCount : option Z) : string :=
  match decimalCount with
  | Some d => toDecimal amount d
  | None => JS.unstr ("."%char :: JS.BN_toString 10 amount)
  end.

Definition fromDecimalAt (amount : string) (decimalCount : option Z) : option Z :=
  match decimalCount with
  | Some d => fromDecimal amount d
  | None =>
      let s := JS.str amount in
      if JS.includes s "." then
        match JS.split "." s with
        | before :: after :: _ =>
            JS.BN_parse 10 ((if String.eqb (JS.unstr before) "0" then [] else before) ++ after)
        | _ => None
        end
      else JS.BN_parse 10 s
  end.

(* ===================================================================== *)
(** * Exceptions, outcomes and the state-and-exception monad *)
(* ===================================================================== *)

Inductive Exn :=
  | OKXError (errorCode : string)
  | BinanceError (errorCode : string)
  | Error (msg : string)
  | TypeError.

(** An [async] method either returns, rejects, or never completes because the
    process died ([Crash]); [OutOfFuel] is the model running out of its
    recursion budget, not a behaviour of the program. *)
Inductive Outcome (St A : Type) :=
  | Ret (a : A) (s : St)
  | Throw (e : Exn) (s : St)
  | Crash (s : St)
  | OutOfFuel.
Arguments Ret {St A} a s.
Arguments Throw {St A} e s.
Arguments Crash {St A} s.
Arguments OutOfFuel {St A}.

Definition M (St A : Type) : Type := St -> Outcome St A.

Definition ret {St A} (a : A) : M St A := fun s => Ret a s.
Definition throw {St A} (e : Exn) : M St A := fun s => Throw e s.
Definition bind {St A B} (m : M St A) (k : A -> M St B) : M St B :=
  fun s => match m s with
           | Ret a s' => k a s'
           | Throw e s' => Throw e s'
           | Crash s' => Crash s'
           | OutOfFuel => OutOfFuel
           end.
Definition get {St} : M St St := fun s => Ret s s.
Definition modify {St} (f : St -> St) : M St unit := fun s => Ret tt (f s).

(** The state an outcome leaves behind. *)
Definition stateOf {St A} (o : Outcome St A) : option St :=
match o with
| Ret _ s | Throw _ s | Crash s => Some s
| OutOfFuel => None
end.

(** [try { m } catch (e) { h e }] *)
Definition try_catch {St A} (m : M St A) (h : Exn -> M St A) : M St A :=
  fun s => match m s with
           | Throw e s' => h e s'
           | o => o
           end.

(** A value that must not be [null] where a method is called on it. *)
Definition nonNull {St A} (o : option A) : M St A :=
  match o with Some a => ret a | None => throw TypeError end.

Declare Scope js_scope.
Delimit Scope js_scope with js.
Notation "x <- m ;; k" := (bind m (fun x => k))
  (at level 100, m at next level, right associativity) : js_scope.
Notation "m ;;; k" := (bind m (fun _ => k))
  (at level 100, right associativity) : js_scope.
Local Open Scope js_scope.

(** [for (const x of l) { body x }] *)
Fixpoint forEach {St A} (l : list A) (body : A -> M St unit) : M St unit :=
  match l with
  | [] => ret tt
  | x :: r => body x ;;; forEach r body
  end.

(** ** Specifications of computations *)

(** [wp3 short m Q T C s]: the run of [m] from [s] ends in a state where
    [Q] holds of the result if it returns, [T] of the exception if it
    throws, and [C] if the process dies; [short] is what is asked of a run
    that the fuel does not cover. *)
Definition wp3 {St R} (short : Prop) (m : M St R) (Q : R -> St -> Prop)
    (T : Exn -> St -> Prop) (C : St -> Prop) (s : St) : Prop :=
  match m s with
  | Ret a s' => Q a s'
  | Throw e s' => T e s'
  | Crash s' => C s'
  | OutOfFuel => short
  end.

(** A computation that leaves the state as it is, whatever it returns or
    throws: an adapter method that sends no request. *)
Definition quiet {St R} (m : M St R) : Prop := forall s, stateOf (m s) = Some s.

(* ===================================================================== *)
(** * JSON values of the exchange responses *)
(* ===================================================================== *)

Inductive json :=
  | JNull
  | JBool (b : bool)
  | JNum (n : Z)
  | JStr (s : string)
  | JArr (l : list json)
  | JObj (fields : list (string * json)).

Fixpoint assoc {A} (k : string) (l : list (string * A)) : option A :=
  match l with
  | [] => None
  | (k', v) :: r => if String.eqb k k' then Some v else assoc k r
  end.

(** [o.k]: [undefined] on a value without that property. *)
Definition jfield (k : string) (j : json) : option json :=
  match j with JObj l => assoc k l | _ => None end.

Definition jstring (j : option json) : option string :=
  match j with Some (JStr s) => Some s | _ => None end.

Definition jtruthy (j : option json) : bool :=
  match j with
  | Some (JBool b) => b
  | Some (JNum n) => negb (n =? 0)
  | Some (JStr s) => negb (String.eqb s "")
  | Some (JArr _) | Some (JObj _) => true
  | Some JNull | None => false
  end.

(* ===================================================================== *)
(** * The Binance adapter *)
(* ===================================================================== *)

Module Binance.

Definition currencyDecimals (currency : string) : option Z :=
  if String.eqb currency "BTC" then Some 8
  else if String.eqb currency "BTC-LN" then Some 8
  else if String.eqb currency "USDC" then Some 6
  else if String.eqb currency "USDT" then Some 6
  else if String.eqb currency "ETH" then Some 18
  else if String.eqb currency "SOL" then Some 9
  else None.

Definition getTradingPair : string -> string -> TradingPair :=
  getTradingPairWith "BTCUSDC" "BTCUSDT" "ETHBTC" "SOLBTC".

(** The argument of [client.withdraw]. *)
Record WithdrawParams := {
  coin : string;
  withdrawOrderId : string;
  network : string;
  address : string;
  walletType : Z;
  amount : string
}.

Section Client.
(** The [binance] client and the [bolt11] decoder are libraries: the
    client answers a withdrawal with its response or rejects with an
    error code, which the adapter wraps in a [BinanceError];
    [bolt11.decode(address).satoshis] is [None] where decoding throws. *)
Variable client_withdraw : WithdrawParams -> string + json.
Variable bolt11_satoshis : string -> option Z.

(** The state is the list of the requests sent to the venue, latest
    first. *)
Definition withdraw (currency chain address withdrawalId : string)
    (withdrawalFee : Z) (amount : option Z)
  : M (list WithdrawParams) (option json) :=
  let chain := if String.eqb currency "BTC" then "BTC" else chain in
  args <-
    (if String.eqb currency "BTC-LN" then
       match bolt11_satoshis address with
       | Some sats => ret ("BTC", "LIGHTNING", sats)
       | None => throw (Error "bolt11.decode")
       end
     else
       match amount with
       | None => throw (Error "Withdrawals must have an amount!")
       | Some a => ret (currency, chain, a)
       end) ;;
  let '(currency, chain, amount) := args in
  let params := {|
    coin := currency;
    withdrawOrderId := withdrawalId;
    network := chain;
    address := address;
    walletType := 0;
    amount := toDecimalAt (amount + withdrawalFee) (currencyDecimals currency)
  |} in
  modify (cons params) ;;;
  match client_withdraw params with
  | inl code => throw (BinanceError code)
  | inr resp => ret (jfield "id" resp)
  end.
End Client.

(** ** The other methods of the adapter *)

(** What the adapter reads of the responses of the [binance] client. A
    quantity is a string there, an order id and a status code are numbers. *)
Record OrderResponse := {
  orderStatus : string;
  cummulativeQuoteQty : string;
  executedQty : string;
  respOrderId : Z
}.
Record NetworkData := { networkName : string; withdrawFee : string }.
Record CoinBalance := { balanceCoin : string; free : string; networkList : list NetworkData }.
Record HistoryEntry := { entryStatus : Z; entryTxId : option string }.

(** The argument of [client.submitNewOrder]. *)
Record OrderParams := {
  symbol : string;
  side : string;
  type : string;
  newClientOrderId : string;
  quantity : option string;
  quoteOrderQty : option string
}.

(** The requests the adapter sends, [withdraw] apart. *)
Inductive Sent :=
  | GetOrder (symbol origClientOrderId : string)
  | SubmitNewOrder (p : OrderParams)
  | GetBalances
  | GetWithdrawHistory (withdrawOrderId : string)
  | GetDepositHistory (txId : string)
  | GetDepositAddress (coin network : string) (amount : option string).

(** What [getTrade], [getWithdrawal] and [getDeposit] return; a [state]
    that no branch assigned is [undefined]. *)
Record TradeInfo := {
  averagePrice : string;
  tradeState : option string;
  tradeOrderId : string
}.
Record WithdrawalInfo := { withdrawalState : option string; withdrawalTxId : option string }.
Record DepositInfo := { depositState : option string; depId : option string }.

(** [n.toString(10)] of an integer number. *)
Definition Number_toString (n : Z) : string := JS.unstr (JS.BN_toString 10 n).

Section Requests.
(** The client answers a request or rejects it with an error code, which
    the adapter wraps in a [BinanceError]. *)
Variable client_getOrder : string -> string -> string + OrderResponse.
Variable client_submitNewOrder : OrderParams -> string + Z.
Variable client_getBalances : string + list CoinBalance.
Variable client_getWithdrawHistory : string -> string + list HistoryEntry.
Variable client_getDepositHistory : string -> string + list HistoryEntry.
Variable client_getDepositAddress : string -> string -> option string -> string + string.

(** [await this.client.request(...)] inside [try]/[catch]. *)
Definition request {R} (r : Sent) (answer : string + R) : M (list Sent) R :=
  modify (cons r) ;;;
  match answer with
  | inl code => throw (BinanceError code)
  | inr resp => ret resp
  end.

(** [new BN(...)] on a string with a character that is no digit. *)
Definition parsed (o : option Z) : M (list Sent) Z :=
  match o with
  | Some n => ret n
  | None => throw (Error "Invalid character")
  end.

Definition getTrade (srcCurrency dstCurrency orderId : string)
  : M (list Sent) TradeInfo :=
  match tradingPair (getTradingPair srcCurrency dstCurrency) with
  | None => throw (Error "Invalid trade pair")
  | Some tradingPair =>
      resp <- request (GetOrder tradingPair orderId) (client_getOrder tradingPair orderId) ;;
      let state := None in
      let state := if String.eqb (orderStatus resp) "CANCELED" then Some "canceled" else state in
      let state := if String.eqb (orderStatus resp) "NEW" then Some "live" else state in
      let state :=
        if String.eqb (orderStatus resp) "PARTIALLY_FILLED" then Some "partially_filled" else state in
      let state := if String.eqb (orderStatus resp) "FILLED" then Some "filled" else state in
      let state := if String.eqb (orderStatus resp) "REJECTED" then Some "mmp_canceled" else state in
      quote <- parsed (fromDecimal (cummulativeQuoteQty resp) 12) ;;
      executed <- parsed (fromDecimal (executedQty resp) 9) ;;
      match JS.BN_div quote executed with
      | None => throw (Error "Assertion failed")
      | Some price =>
          ret {| averagePrice := toDecimal price 3;
                 tradeState := state;
                 tradeOrderId := Number_toString (respOrderId resp) |}
      end
  end.

Definition marketTrade (srcCurrency dstCurrency : string) (amount : Z) (orderId : string)
  : M (list Sent) string :=
  let p := getTradingPair srcCurrency dstCurrency in
  match tradingPair p with
  | None => throw (Error "Invalid trade pair")
  | Some tradingPair =>
      let amt := toDecimalAt amount (currencyDecimals srcCurrency) in
      let buy := match buy p with Some b => b | None => false end in
      let params := {|
        symbol := tradingPair;
        side := if buy then "BUY" else "SELL";
        type := "MARKET";
        newClientOrderId := orderId;
        quantity := if negb buy then Some amt else None;
        quoteOrderQty := if negb buy then None else Some amt
      |} in
      resp <- request (SubmitNewOrder params) (client_submitNewOrder params) ;;
      ret (Number_toString resp)
  end.

Definition getBalance (currency : string) : M (list Sent) Z :=
  let currency := if String.eqb currency "BTC-LN" then "BTC" else currency in
  balances <- request GetBalances client_getBalances ;;
  match List.find (fun e => String.eqb (balanceCoin e) currency) balances with
  | None => ret 0
  | Some balance => parsed (fromDecimalAt (free balance) (currencyDecimals currency))
  end.

Definition getWithdrawalFee (currency chain : string) : M (list Sent) Z :=
  let chain := if String.eqb currency "BTC" then "BTC" else chain in
  let '(currency, chain) :=
    if String.eqb currency "BTC-LN" then ("BTC", "LIGHTNING") else (currency, chain) in
  balances <- request GetBalances client_getBalances ;;
  match List.find (fun e => String.eqb (balanceCoin e) currency) balances with
  | None => throw (Error "Currency not found")
  | Some balance =>
      match List.find (fun e => String.eqb (networkName e) chain) (networkList balance) with
      | None => throw (Error "Chain in currency not found")
      | Some networkData =>
          parsed (fromDecimalAt (withdrawFee networkData) (currencyDecimals currency))
      end
  end.

Definition getWithdrawal (withdrawalId : string) : M (list Sent) (option WithdrawalInfo) :=
  resp <- request (GetWithdrawHistory withdrawalId) (client_getWithdrawHistory withdrawalId) ;;
  match resp with
  | [] => ret None
  | first :: _ =>
      let st := entryStatus first in
      let state := None in
      let state := if st =? 6 then Some "2" else state in
      let state := if st =? 4 then Some "1" else state in
      let state := if (st =? 0) || (st =? 2) then Some "0" else state in
      let state := if st =? 1 then Some "-1" else state in
      let state := if st =? 3 then Some "-2" else state in
      let state := if st =? 5 then Some "-3" else state in
      ret (Some {| withdrawalState := state; withdrawalTxId := entryTxId first |})
  end.

Definition getDeposit (txId : string) : M (list Sent) (option DepositInfo) :=
  resp <- request (GetDepositHistory txId) (client_getDepositHistory txId) ;;
  match resp with
  | [] => ret None
  | first :: _ =>
      let st := entryStatus first in
      let state := None in
      let state := if st =? 1 then Some "2" else state in
      let state := if st =? 6 then Some "1" else state in
      let state := if (st =? 0) || (st =? 8) then Some "0" else state in
      let state := if st =? 7 then Some "-1" else state in
      ret (Some {| depId := entryTxId first; depositState := state |})
  end.

Definition getDepositAddress (currency chain : string) (amount : option Z)
  : M (list Sent) string :=
  if String.eqb currency "BTC-LN" then
    match amount with
    | None => throw (Error "Lightning deposits must have an amount!")
    | Some amount =>
        request (GetDepositAddress "BTC" "LIGHTNING" (Some (toDecimal amount 8)))
          (client_getDepositAddress "BTC" "LIGHTNING" (Some (toDecimal amount 8)))
    end
  else
    let chain := if String.eqb currency "BTC" then "SEGWITBTC" else chain in
    request (GetDepositAddress currency chain None)
      (client_getDepositAddress currency chain None).

End Requests.

End Binance.

(* ===================================================================== *)
(** * The OKX adapter *)
(* ===================================================================== *)

Module OKX.

Definition currencyDecimals (currency : string) : option Z :=
  if String.eqb currency "BTC" then Some 8
  else if String.eqb currency "BTC-LN" then Some 8
  else if String.eqb currency "USDC" then Some 18
  else if String.eqb currency "USDT" then Some 18
  else if String.eqb currency "ETH" then Some 18
  else if String.eqb currency "SOL" then Some 9
  else None.

Definition getTradingPair : string -> string -> TradingPair :=
  getTradingPairWith "BTC-USDC" "BTC-USDT" "ETH-BTC" "SOL-BTC".

Inductive Method := GET | POST.

(** The argument of [call]. *)
Record Request := {
  path : string;
  method : Method;
  params : option (list (string * string));
  data : option (list (string * string))
}.

Section Venue.
(** [call] signs the request, sends it and returns the [data] of a
    response whose code is ["0"]; any other code is an [OKXError]. The
    venue is the function that decides the response. *)
Variable venue : Request -> Exn + json.

(** The state is the list of the requests sent, latest first. *)
Definition call (r : Request) : M (list Request) json :=
  modify (cons r) ;;;
  match venue r with
  | inl e => throw e
  | inr d => ret d
  end.

(** [currency+"-"+(currency==="BTC" ? "Bitcoin" : chain)] *)
Definition chainName (currency chain : string) : string :=
  currency +:+ "-" +:+ (if String.eqb currency "BTC" then "Bitcoin" else chain).

Definition getWithdrawalFee (currency chain : string) (amount : Z)
  : M (list Request) Z :=
  if String.eqb currency "BTC-LN" then
    ret (1000 + Z.quot amount 1000)
  else
    respCurrencies <- call {|
      path := "/api/v5/asset/currencies";
      method := GET;
      params := Some [("ccy", currency)];
      data := None |} ;;
    match respCurrencies with
    | JArr l =>
        match List.find (fun e =>
                match jstring (jfield "chain" e) with
                | Some c => String.eqb c (chainName currency chain)
                | None => false
                end) l with
        | None => throw (Error "Chain in currency not found")
        | Some currencyData =>
            if negb (jtruthy (jfield "canWd" currencyData)) then
              throw (Error "Cannot withdraw the desired currency")
            else
              match jstring (jfield "maxFee" currencyData) with
              | None => throw TypeError
              | Some maxFee =>
                  match fromDecimalAt maxFee (currencyDecimals currency) with
                  | Some fee => ret fee
                  | None => throw (Error "Invalid character")
                  end
              end
        end
    | _ => throw TypeError
    end.

Definition withdraw (currency chain address withdrawalId : string)
    (fee : Z) (amount : option Z)
  : M (list Request) (option json) :=
  if String.eqb currency "BTC-LN" then
    resp <- call {|
      path := "/api/v5/asset/withdrawal-lightning";
      method := POST;
      params := None;
      data := Some [("ccy", "BTC"); ("invoice", address)] |} ;;
    ret (jfield "invoice" resp)
  else
    match amount with
    | None => throw (Error "Withdrawals must have an amount!")
    | Some amount =>
        resp <- call {|
          path := "/api/v5/asset/withdrawal";
          method := POST;
          params := None;
          data := Some [
            ("ccy", currency);
            ("amt", toDecimalAt amount (currencyDecimals currency));
            ("dest", "4");
            ("toAddr", address);
            ("chain", chainName currency chain);
            ("clientId", withdrawalId);
            ("fee", toDecimalAt fee (currencyDecimals currency))] |} ;;
        ret (jfield "wdId" resp)
    end.
End Venue.

(** ** The other methods of the adapter *)

(** What [getTrade] returns; each field is what the response holds under
    the name, if anything. *)
Record TradeInfo := {
  averagePrice : option json;
  tradeState : option json;
  tradeOrderId : option json
}.

Section Methods.
Variable venue : Request -> Exn + json.

(** [v[0]] and [v.k] on a value that may be [undefined]: reading a
    property of [undefined] or [null] is a [TypeError]. *)
Definition at0 (v : option json) : M (list Request) (option json) :=
  match v with
  | None | Some JNull => throw TypeError
  | Some (JArr l) => ret (head l)
  | Some (JObj fields) => ret (assoc "0" fields)
  | Some (JStr (String c _)) => ret (Some (JStr (String c "")))
  | Some _ => ret None
  end.

Definition prop (k : string) (v : option json) : M (list Request) (option json) :=
  match v with
  | None | Some JNull => throw TypeError
  | Some j => ret (jfield k j)
  end.

Definition getTrade (srcCurrency dstCurrency orderId : string)
  : M (list Request) TradeInfo :=
  match tradingPair (getTradingPair srcCurrency dstCurrency) with
  | None => throw (Error "Invalid trade pair")
  | Some tradingPair =>
      resp <- call venue {|
        path := "/api/v5/trade/order";
        method := GET;
        params := Some [("instId", tradingPair); ("clOrdId", orderId)];
        data := None |} ;;
      first <- at0 (Some resp) ;;
      avgPx <- prop "avgPx" first ;;
      state <- prop "state" first ;;
      ordId <- prop "ordId" first ;;
      ret {| averagePrice := avgPx; tradeState := state; tradeOrderId := ordId |}
  end.

Definition marketTrade (srcCurrency dstCurrency : string) (amount : Z) (orderId : string)
  : M (list Request) (option json) :=
  let p := getTradingPair srcCurrency dstCurrency in
  match tradingPair p with
  | None => throw (Error "Invalid trade pair")
  | Some tradingPair =>
      let buy := match buy p with Some b => b | None => false end in
      resp <- call venue {|
        path := "/api/v5/trade/order";
        method := POST;
        params := None;
        data := Some [
          ("instId", tradingPair);
          ("tdMode", "cash");
          ("clOrdId", orderId);
          ("side", if buy then "buy" else "sell");
          ("ordType", "market");
          ("sz", toDecimalAt amount (currencyDecimals srcCurrency))] |} ;;
      first <- at0 (Some resp) ;;
      prop "ordId" first
  end.

Definition getFundsTransfer (transferId : string) : M (list Request) (option json) :=
  resp <- call venue {|
    path := "/api/v5/asset/transfer-state";
    method := GET;
    params := Some [("clientId", transferId)];
    data := None |} ;;
  at0 (Some resp).

Definition fundsTransfer (currency fromAcc toAcc : string) (amount : Z) (transferId : string)
  : M (list Request) (option json) :=
  resp <- call venue {|
    path := "/api/v5/asset/transfer";
    method := POST;
    params := None;
    data := Some [
      ("ccy", currency);
      ("amt", toDecimalAt amount (currencyDecimals currency));
      ("from", if String.eqb fromAcc "funding" then "6" else "18");
      ("to", if String.eqb toAcc "funding" then "6" else "18");
      ("clientId", transferId)] |} ;;
  first <- at0 (Some resp) ;;
  prop "transId" first.

Definition getBalance (currency : string) : M (list Request) Z :=
  resp <- call venue {|
    path := "/api/v5/account/balance";
    method := GET;
    params := Some [("ccy", currency)];
    data := None |} ;;
  first <- at0 (Some resp) ;;
  details <- prop "details" first ;;
  detail <- at0 details ;;
  match detail with
  | None | Some JNull => ret 0
  | Some detail =>
      match jstring (jfield "cashBal" detail) with
      | None => throw TypeError
      | Some cashBal =>
          match fromDecimalAt cashBal (currencyDecimals currency) with
          | Some balance => ret balance
          | None => throw (Error "Invalid character")
          end
      end
  end.

Definition getWithdrawal (withdrawalId : string) : M (list Request) (option json) :=
  resp <- call venue {|
    path := "/api/v5/asset/withdrawal-history";
    method := GET;
    params := Some [("clientId", withdrawalId)];
    data := None |} ;;
  at0 (Some resp).

Definition getDeposit (txId : string) : M (list Request) (option json) :=
  resp <- call venue {|
    path := "/api/v5/asset/deposit-history";
    method := GET;
    params := Some [("txId", txId)];
    data := None |} ;;
  at0 (Some resp).

(** [data.find(e => e.chain===name)] *)
Fixpoint findChain (name : string) (l : list json) : M (list Request) (option json) :=
  match l with
  | [] => ret None
  | e :: r =>
      chain <- prop "chain" (Some e) ;;
      match chain with
      | Some (JStr c) => if String.eqb c name then ret (Some e) else findChain name r
      | _ => findChain name r
      end
  end.

Definition getDepositAddress (currency chain : string) (amount : option Z)
  : M (list Request) (option json) :=
  if String.eqb currency "BTC-LN" then
    match amount with
    | None => throw (Error "Lightning deposits must have an amount!")
    | Some amount =>
        resp <- call venue {|
          path := "/api/v5/asset/deposit-lightning";
          method := GET;
          params := Some [("ccy", "BTC"); ("amt", toDecimal amount 8); ("to", "18")];
          data := None |} ;;
        first <- at0 (Some resp) ;;
        prop "invoice" first
    end
  else
    resp <- call venue {|
      path := "/api/v5/asset/deposit-address";
      method := GET;
      params := Some [("ccy", currency); ("to", "18")];
      data := None |} ;;
    match resp with
    | JArr data =>
        found <- findChain (chainName currency chain) data ;;
        match found with
        | None => ret None
        | Some found => ret (jfield "addr" found)
        end
    | _ => throw TypeError
    end.

End Methods.

End OKX.

(* ===================================================================== *)
(** * The hedging plugin *)
(* ===================================================================== *)

Module Hedging.

Inductive RebalancingState :=
  | RETRYING
  | IDLE
  | TRIGGERED
  | SC_WITHDRAWING
  | SC_WITHDRAWAL_CONFIRMED
  | OUT_TX
  | OUT_TX_CONFIRMED
  | DEPOSIT_RECEIVED
  | TRADE_EXECUTING
  | TRADE_EXECUTED
  | FUNDS_TRANSFERING
  | FUNDS_TRANSFERED
  | WITHDRAWING
  | WITHDRAWAL_SENT
  | IN_TX_CONFIRMED
  | SC_DEPOSITING
  | SC_DEPOSITED
  | FINISHED.

#[global] Instance RebalancingState_eq_dec : EqDecision RebalancingState.
Proof. solve_decision. Defined.

(** The numeric value of the enum member. *)
Definition stateIndex (s : RebalancingState) : Z :=
  match s with
  | RETRYING => -1
  | IDLE => 0
  | TRIGGERED => 1
  | SC_WITHDRAWING => 2
  | SC_WITHDRAWAL_CONFIRMED => 3
  | OUT_TX => 4
  | OUT_TX_CONFIRMED => 5
  | DEPOSIT_RECEIVED => 6
  | TRADE_EXECUTING => 7
  | TRADE_EXECUTED => 8
  | FUNDS_TRANSFERING => 9
  | FUNDS_TRANSFERED => 10
  | WITHDRAWING => 11
  | WITHDRAWAL_SENT => 12
  | IN_TX_CONFIRMED => 13
  | SC_DEPOSITING => 14
  | SC_DEPOSITED => 15
  | FINISHED => 16
  end.

(** ** Candidate maps

    [{[txId: string]: string}]: a JavaScript object used as a map. Its keys
    are enumerated in insertion order ([for ... in], [Object.keys]);
    assigning to a key that exists keeps its position. (Keys are
    transaction ids and payment hashes, never array indices.) *)
Definition TxMap := list (string * string).

Definition obj_get (k : string) (m : TxMap) : option string := assoc k m.

Fixpoint obj_set (k v : string) (m : TxMap) : TxMap :=
  match m with
  | [] => [(k, v)]
  | (k', v') :: r =>
      if String.eqb k k' then (k, v) :: r else (k', v') :: obj_set k v r
  end.

Definition obj_keys (m : TxMap) : list string := map fst m.

(** ** The job document

    [HedgingPluginState], over the representation of its three big-integer
    fields: [Z] in memory, the string written by [JSON.stringify] in the
    persisted document. A field that is [undefined] or [null] is [None]. *)
Record HedgingPluginState (BN : Type) := {

  state : option RebalancingState;
  cooldown : option Z;
  retryAt : option Z;
  retryState : option RebalancingState;
  srcToken : option string;
  srcTokenAddress : option string;
  dstToken : option string;
  dstTokenAddress : option string;
  amountOut : option BN;
  scWithdrawTxs : option TxMap;
  scWithdrawTxId : option string;
  outTxs : option TxMap;
  outTxId : option string;
  depositId : option string;
  clientOrderId : option string;
  orderId : option string;
  price : option string;
  amountIn : option BN;
  clientTransferId : option string;
  transferId : option string;
  receivingAddress : option string;
  withdrawalFee : option BN;
  withdrawalId : option string;
  inTxId : option string;
  scDepositTxs : option TxMap;
  scDepositTxId : option string

}.

Arguments state {BN} _.
Arguments cooldown {BN} _.
Arguments retryAt {BN} _.
Arguments retryState {BN} _.
Arguments srcToken {BN} _.
Arguments srcTokenAddress {BN} _.
Arguments dstToken {BN} _.
Arguments dstTokenAddress {BN} _.
Arguments amountOut {BN} _.
Arguments scWithdrawTxs {BN} _.
Arguments scWithdrawTxId {BN} _.
Arguments outTxs {BN} _.
Arguments outTxId {BN} _.
Arguments depositId {BN} _.
Arguments clientOrderId {BN} _.
Arguments orderId {BN} _.
Arguments price {BN} _.
Arguments amountIn {BN} _.
Arguments clientTransferId {BN} _.
Arguments transferId {BN} _.
Arguments receivingAddress {BN} _.
Arguments withdrawalFee {BN} _.
Arguments withdrawalId {BN} _.
Arguments inTxId {BN} _.
Arguments scDepositTxs {BN} _.
Arguments scDepositTxId {BN} _.

(** [{state: null}] *)
Definition emptyState {BN} : HedgingPluginState BN := {|

  state := None;
  cooldown := None;
  retryAt := None;
  retryState := None;
  srcToken := None;
  srcTokenAddress := None;
  dstToken := None;
  dstTokenAddress := None;
  amountOut := None;
  scWithdrawTxs := None;
  scWithdrawTxId := None;
  outTxs := None;
  outTxId := None;
  depositId := None;
  clientOrderId := None;
  orderId := None;
  price := None;
  amountIn := None;
  clientTransferId := None;
  transferId := None;
  receivingAddress := None;
  withdrawalFee := None;
  withdrawalId := None;
  inTxId := None;
  scDepositTxs := None;
  scDepositTxId := None

|}.

(** Assignments [this.state.f = v]. *)
Definition set_state {BN} (v : option RebalancingState) (d : HedgingPluginState BN) : HedgingPluginState BN :=
  {| state := v; cooldown := cooldown d; retryAt := retryAt d; retryState := retryState d; srcToken := srcToken d; srcTokenAddress := srcTokenAddress d; dstToken := dstToken d; dstTokenAddress := dstTokenAddress d; amountOut := amountOut d; scWithdrawTxs := scWithdrawTxs d; scWithdrawTxId := scWithdrawTxId d; outTxs := outTxs d; outTxId := outTxId d; depositId := depositId d; clientOrderId := clientOrderId d; orderId := orderId d; price := price d; amountIn := amountIn d; clientTransferId := clientTransferId d; transferId := transferId d; receivingAddress := receivingAddress d; withdrawalFee := withdrawalFee d; withdrawalId := withdrawalId d; inTxId := inTxId d; scDepositTxs := scDepositTxs d; scDepositTxId := scDepositTxId d |}.
Definition set_cooldown {BN} (v : option Z) (d : HedgingPluginState BN) : HedgingPluginState BN :=
  {| state := state d; cooldown := v; retryAt := retryAt d; retryState := retryState d; srcToken := srcToken d; srcTokenAddress := srcTokenAddress d; dstToken := dstToken d; dstTokenAddress := dstTokenAddress d; amountOut := amountOut d; scWithdrawTxs := scWithdrawTxs d; scWithdrawTxId := scWithdrawTxId d; outTxs := outTxs d; outTxId := outTxId d; depositId := depositId d; clientOrderId := clientOrderId d; orderId := orderId d; price := price d; amountIn := amountIn d; clientTransferId := clientTransferId d; transferId := transferId d; receivingAddress := receivingAddress d; withdrawalFee := withdrawalFee d; withdrawalId := withdrawalId d; inTxId := inTxId d; scDepositTxs := scDepositTxs d; scDepositTxId := scDepositTxId d |}.
Definition set_retryAt {BN} (v : option Z) (d : HedgingPluginState BN) : HedgingPluginState BN :=
  {| state := state d; cooldown := cooldown d; retryAt := v; retryState := retryState d; srcToken := srcToken d; srcTokenAddress := srcTokenAddress d; dstToken := dstToken d; dstTokenAddress := dstTokenAddress d; amountOut := amountOut d; scWithdrawTxs := scWithdrawTxs d; scWithdrawTxId := scWithdrawTxId d; outTxs := outTxs d; outTxId := outTxId d; depositId := depositId d; clientOrderId := clientOrderId d; orderId := orderId d; price := price d; amountIn := amountIn d; clientTransferId := clientTransferId d; transferId := transferId d; receivingAddress := receivingAddress d; withdrawalFee := withdrawalFee d; withdrawalId := withdrawalId d; inTxId := inTxId d; scDepositTxs := scDepositTxs d; scDepositTxId := scDepositTxId d |}.
Definition set_retryState {BN} (v : option RebalancingState) (d : HedgingPluginState BN) : HedgingPluginState BN :=
  {| state := state d; cooldown := cooldown d; retryAt := retryAt d; retryState := v; srcToken := srcToken d; srcTokenAddress := srcTokenAddress d; dstToken := dstToken d; dstTokenAddress := dstTokenAddress d; amountOut := amountOut d; scWithdrawTxs := scWithdrawTxs d; scWithdrawTxId := scWithdrawTxId d; outTxs := outTxs d; outTxId := outTxId d; depositId := depositId d; clientOrderId := clientOrderId d; orderId := orderId d; price := price d; amountIn := amountIn d; clientTransferId := clientTransferId d; transferId := transferId d; receivingAddress := receivingAddress d; withdrawalFee := withdrawalFee d; withdrawalId := withdrawalId d; inTxId := inTxId d; scDepositTxs := scDepositTxs d; scDepositTxId := scDepositTxId d |}.
Definition set_srcToken {BN} (v : option string) (d : HedgingPluginState BN) : HedgingPluginState BN :=
  {| state := state d; cooldown := cooldown d; retryAt := retryAt d; retryState := retryState d; srcToken := v; srcTokenAddress := srcTokenAddress d; dstToken := dstToken d; dstTokenAddress := dstTokenAddress d; amountOut := amountOut d; scWithdrawTxs := scWithdrawTxs d; scWithdrawTxId := scWithdrawTxId d; outTxs := outTxs d; outTxId := outTxId d; depositId := depositId d; clientOrderId := clientOrderId d; orderId := orderId d; price := price d; amountIn := amountIn d; clientTransferId := clientTransferId d; transferId := transferId d; receivingAddress := receivingAddress d; withdrawalFee := withdrawalFee d; withdrawalId := withdrawalId d; inTxId := inTxId d; scDepositTxs := scDepositTxs d; scDepositTxId := scDepositTxId d |}.
Definition set_srcTokenAddress {BN} (v : option string) (d : HedgingPluginState BN) : HedgingPluginState BN :=
  {| state := state d; cooldown := cooldown d; retryAt := retryAt d; retryState := retryState d; srcToken := srcToken d; srcTokenAddress := v; dstToken := dstToken d; dstTokenAddress := dstTokenAddress d; amountOut := amountOut d; scWithdrawTxs := scWithdrawTxs d; scWithdrawTxId := scWithdrawTxId d; outTxs := outTxs d; outTxId := outTxId d; depositId := depositId d; clientOrderId := clientOrderId d; orderId := orderId d; price := price d; amountIn := amountIn d; clientTransferId := clientTransferId d; transferId := transferId d; receivingAddress := receivingAddress d; withdrawalFee := withdrawalFee d; withdrawalId := withdrawalId d; inTxId := inTxId d; scDepositTxs := scDepositTxs d; scDepositTxId := scDepositTxId d |}.
Definition set_dstToken {BN} (v : option string) (d : HedgingPluginState BN) : HedgingPluginState BN :=
  {| state := state d; cooldown := cooldown d; retryAt := retryAt d; retryState := retryState d; srcToken := srcToken d; srcTokenAddress := srcTokenAddress d; dstToken := v; dstTokenAddress := dstTokenAddress d; amountOut := amountOut d; scWithdrawTxs := scWithdrawTxs d; scWithdrawTxId := scWithdrawTxId d; outTxs := outTxs d; outTxId := outTxId d; depositId := depositId d; clientOrderId := clientOrderId d; orderId := orderId d; price := price d; amountIn := amountIn d; clientTransferId := clientTransferId d; transferId := transferId d; receivingAddress := receivingAddress d; withdrawalFee := withdrawalFee d; withdrawalId := withdrawalId d; inTxId := inTxId d; scDepositTxs := scDepositTxs d; scDepositTxId := scDepositTxId d |}.
Definition set_dstTokenAddress {BN} (v : option string) (d : HedgingPluginState BN) : HedgingPluginState BN :=
  {| state := state d; cooldown := cooldown d; retryAt := retryAt d; retryState := retryState d; srcToken := srcToken d; srcTokenAddress := srcTokenAddress d; dstToken := dstToken d; dstTokenAddress := v; amountOut := amountOut d; scWithdrawTxs := scWithdrawTxs d; scWithdrawTxId := scWithdrawTxId d; outTxs := outTxs d; outTxId := outTxId d; depositId := depositId d; clientOrderId := clientOrderId d; orderId := orderId d; price := price d; amountIn := amountIn d; clientTransferId := clientTransferId d; transferId := transferId d; receivingAddress := receivingAddress d; withdrawalFee := withdrawalFee d; withdrawalId := withdrawalId d; inTxId := inTxId d; scDepositTxs := scDepositTxs d; scDepositTxId := scDepositTxId d |}.
Definition set_amountOut {BN} (v : option BN) (d : HedgingPluginState BN) : HedgingPluginState BN :=
  {| state := state d; cooldown := cooldown d; retryAt := retryAt d; retryState := retryState d; srcToken := srcToken d; srcTokenAddress := srcTokenAddress d; dstToken := dstToken d; dstTokenAddress := dstTokenAddress d; amountOut := v; scWithdrawTxs := scWithdrawTxs d; scWithdrawTxId := scWithdrawTxId d; outTxs := outTxs d; outTxId := outTxId d; depositId := depositId d; clientOrderId := clientOrderId d; orderId := orderId d; price := price d; amountIn := amountIn d; clientTransferId := clientTransferId d; transferId := transferId d; receivingAddress := receivingAddress d; withdrawalFee := withdrawalFee d; withdrawalId := withdrawalId d; inTxId := inTxId d; scDepositTxs := scDepositTxs d; scDepositTxId := scDepositTxId d |}.
Definition set_scWithdrawTxs {BN} (v : option TxMap) (d : HedgingPluginState BN) : HedgingPluginState BN :=
  {| state := state d; cooldown := cooldown d; retryAt := retryAt d; retryState := retryState d; srcToken := srcToken d; srcTokenAddress := srcTokenAddress d; dstToken := dstToken d; dstTokenAddress := dstTokenAddress d; amountOut := amountOut d; scWithdrawTxs := v; scWithdrawTxId := scWithdrawTxId d; outTxs := outTxs d; outTxId := outTxId d; depositId := depositId d; clientOrderId := clientOrderId d; orderId := orderId d; price := price d; amountIn := amountIn d; clientTransferId := clientTransferId d; transferId := transferId d; receivingAddress := receivingAddress d; withdrawalFee := withdrawalFee d; withdrawalId := withdrawalId d; inTxId := inTxId d; scDepositTxs := scDepositTxs d; scDepositTxId := scDepositTxId d |}.
Definition set_scWithdrawTxId {BN} (v : option string) (d : HedgingPluginState BN) : HedgingPluginState BN :=
  {| state := state d; cooldown := cooldown d; retryAt := retryAt d; retryState := retryState d; srcToken := srcToken d; srcTokenAddress := srcTokenAddress d; dstToken := dstToken d; dstTokenAddress := dstTokenAddress d; amountOut := amountOut d; scWithdrawTxs := scWithdrawTxs d; scWithdrawTxId := v; outTxs := outTxs d; outTxId := outTxId d; depositId := depositId d; clientOrderId := clientOrderId d; orderId := orderId d; price := price d; amountIn := amountIn d; clientTransferId := clientTransferId d; transferId := transferId d; receivingAddress := receivingAddress d; withdrawalFee := withdrawalFee d; withdrawalId := withdrawalId d; inTxId := inTxId d; scDepositTxs := scDepositTxs d; scDepositTxId := scDepositTxId d |}.
Definition set_outTxs {BN} (v : option TxMap) (d : HedgingPluginState BN) : HedgingPluginState BN :=
  {| state := state d; cooldown := cooldown d; retryAt := retryAt d; retryState := retryState d; srcToken := srcToken d; srcTokenAddress := srcTokenAddress d; dstToken := dstToken d; dstTokenAddress := dstTokenAddress d; amountOut := amountOut d; scWithdrawTxs := scWithdrawTxs d; scWithdrawTxId := scWithdrawTxId d; outTxs := v; outTxId := outTxId d; depositId := depositId d; clientOrderId := clientOrderId d; orderId := orderId d; price := price d; amountIn := amountIn d; clientTransferId := clientTransferId d; transferId := transferId d; receivingAddress := receivingAddress d; withdrawalFee := withdrawalFee d; withdrawalId := withdrawalId d; inTxId := inTxId d; scDepositTxs := scDepositTxs d; scDepositTxId := scDepositTxId d |}.
Definition set_outTxId {BN} (v : option string) (d : HedgingPluginState BN) : HedgingPluginState BN :=
  {| state := state d; cooldown := cooldown d; retryAt := retryAt d; retryState := retryState d; srcToken := srcToken d; srcTokenAddress := srcTokenAddress d; dstToken := dstToken d; dstTokenAddress := dstTokenAddress d; amountOut := amountOut d; scWithdrawTxs := scWithdrawTxs d; scWithdrawTxId := scWithdrawTxId d; outTxs := outTxs d; outTxId := v; depositId := depositId d; clientOrderId := clientOrderId d; orderId := orderId d; price := price d; amountIn := amountIn d; clientTransferId := clientTransferId d; transferId := transferId d; receivingAddress := receivingAddress d; withdrawalFee := withdrawalFee d; withdrawalId := withdrawalId d; inTxId := inTxId d; scDepositTxs := scDepositTxs d; scDepositTxId := scDepositTxId d |}.
Definition set_depositId {BN} (v : option string) (d : HedgingPluginState BN) : HedgingPluginState BN :=
  {| state := state d; cooldown := cooldown d; retryAt := retryAt d; retryState := retryState d; srcToken := srcToken d; srcTokenAddress := srcTokenAddress d; dstToken := dstToken d; dstTokenAddress := dstTokenAddress d; amountOut := amountOut d; scWithdrawTxs := scWithdrawTxs d; scWithdrawTxId := scWithdrawTxId d; outTxs := outTxs d; outTxId := outTxId d; depositId := v; clientOrderId := clientOrderId d; orderId := orderId d; price := price d; amountIn := amountIn d; clientTransferId := clientTransferId d; transferId := transferId d; receivingAddress := receivingAddress d; withdrawalFee := withdrawalFee d; withdrawalId := withdrawalId d; inTxId := inTxId d; scDepositTxs := scDepositTxs d; scDepositTxId := scDepositTxId d |}.
Definition set_clientOrderId {BN} (v : option string) (d : HedgingPluginState BN) : HedgingPluginState BN :=
  {| state := state d; cooldown := cooldown d; retryAt := retryAt d; retryState := retryState d; srcToken := srcToken d; srcTokenAddress := srcTokenAddress d; dstToken := dstToken d; dstTokenAddress := dstTokenAddress d; amountOut := amountOut d; scWithdrawTxs := scWithdrawTxs d; scWithdrawTxId := scWithdrawTxId d; outTxs := outTxs d; outTxId := outTxId d; depositId := depositId d; clientOrderId := v; orderId := orderId d; price := price d; amountIn := amountIn d; clientTransferId := clientTransferId d; transferId := transferId d; receivingAddress := receivingAddress d; withdrawalFee := withdrawalFee d; withdrawalId := withdrawalId d; inTxId := inTxId d; scDepositTxs := scDepositTxs d; scDepositTxId := scDepositTxId d |}.
Definition set_orderId {BN} (v : option string) (d : HedgingPluginState BN) : HedgingPluginState BN :=
  {| state := state d; cooldown := cooldown d; retryAt := retryAt d; retryState := retryState d; srcToken := srcToken d; srcTokenAddress := srcTokenAddress d; dstToken := dstToken d; dstTokenAddress := dstTokenAddress d; amountOut := amountOut d; scWithdrawTxs := scWithdrawTxs d; scWithdrawTxId := scWithdrawTxId d; outTxs := outTxs d; outTxId := outTxId d; depositId := depositId d; clientOrderId := clientOrderId d; orderId := v; price := price d; amountIn := amountIn d; clientTransferId := clientTransferId d; transferId := transferId d; receivingAddress := receivingAddress d; withdrawalFee := withdrawalFee d; withdrawalId := withdrawalId d; inTxId := inTxId d; scDepositTxs := scDepositTxs d; scDepositTxId := scDepositTxId d |}.
Definition set_price {BN} (v : option string) (d : HedgingPluginState BN) : HedgingPluginState BN :=
  {| state := state d; cooldown := cooldown d; retryAt := retryAt d; retryState := retryState d; srcToken := srcToken d; srcTokenAddress := srcTokenAddress d; dstToken := dstToken d; dstTokenAddress := dstTokenAddress d; amountOut := amountOut d; scWithdrawTxs := scWithdrawTxs d; scWithdrawTxId := scWithdrawTxId d; outTxs := outTxs d; outTxId := outTxId d; depositId := depositId d; clientOrderId := clientOrderId d; orderId := orderId d; price := v; amountIn := amountIn d; clientTransferId := clientTransferId d; transferId := transferId d; receivingAddress := receivingAddress d; withdrawalFee := withdrawalFee d; withdrawalId := withdrawalId d; inTxId := inTxId d; scDepositTxs := scDepositTxs d; scDepositTxId := scDepositTxId d |}.
Definition set_amountIn {BN} (v : option BN) (d : HedgingPluginState BN) : HedgingPluginState BN :=
  {| state := state d; cooldown := cooldown d; retryAt := retryAt d; retryState := retryState d; srcToken := srcToken d; srcTokenAddress := srcTokenAddress d; dstToken := dstToken d; dstTokenAddress := dstTokenAddress d; amountOut := amountOut d; scWithdrawTxs := scWithdrawTxs d; scWithdrawTxId := scWithdrawTxId d; outTxs := outTxs d; outTxId := outTxId d; depositId := depositId d; clientOrderId := clientOrderId d; orderId := orderId d; price := price d; amountIn := v; clientTransferId := clientTransferId d; transferId := transferId d; receivingAddress := receivingAddress d; withdrawalFee := withdrawalFee d; withdrawalId := withdrawalId d; inTxId := inTxId d; scDepositTxs := scDepositTxs d; scDepositTxId := scDepositTxId d |}.
Definition set_clientTransferId {BN} (v : option string) (d : HedgingPluginState BN) : HedgingPluginState BN :=
  {| state := state d; cooldown := cooldown d; retryAt := retryAt d; retryState := retryState d; srcToken := srcToken d; srcTokenAddress := srcTokenAddress d; dstToken := dstToken d; dstTokenAddress := dstTokenAddress d; amountOut := amountOut d; scWithdrawTxs := scWithdrawTxs d; scWithdrawTxId := scWithdrawTxId d; outTxs := outTxs d; outTxId := outTxId d; depositId := depositId d; clientOrderId := clientOrderId d; orderId := orderId d; price := price d; amountIn := amountIn d; clientTransferId := v; transferId := transferId d; receivingAddress := receivingAddress d; withdrawalFee := withdrawalFee d; withdrawalId := withdrawalId d; inTxId := inTxId d; scDepositTxs := scDepositTxs d; scDepositTxId := scDepositTxId d |}.
Definition set_transferId {BN} (v : option string) (d : HedgingPluginState BN) : HedgingPluginState BN :=
  {| state := state d; cooldown := cooldown d; retryAt := retryAt d; retryState := retryState d; srcToken := srcToken d; srcTokenAddress := srcTokenAddress d; dstToken := dstToken d; dstTokenAddress := dstTokenAddress d; amountOut := amountOut d; scWithdrawTxs := scWithdrawTxs d; scWithdrawTxId := scWithdrawTxId d; outTxs := outTxs d; outTxId := outTxId d; depositId := depositId d; clientOrderId := clientOrderId d; orderId := orderId d; price := price d; amountIn := amountIn d; clientTransferId := clientTransferId d; transferId := v; receivingAddress := receivingAddress d; withdrawalFee := withdrawalFee d; withdrawalId := withdrawalId d; inTxId := inTxId d; scDepositTxs := scDepositTxs d; scDepositTxId := scDepositTxId d |}.
Definition set_receivingAddress {BN} (v : option string) (d : HedgingPluginState BN) : HedgingPluginState BN :=
  {| state := state d; cooldown := cooldown d; retryAt := retryAt d; retryState := retryState d; srcToken := srcToken d; srcTokenAddress := srcTokenAddress d; dstToken := dstToken d; dstTokenAddress := dstTokenAddress d; amountOut := amountOut d; scWithdrawTxs := scWithdrawTxs d; scWithdrawTxId := scWithdrawTxId d; outTxs := outTxs d; outTxId := outTxId d; depositId := depositId d; clientOrderId := clientOrderId d; orderId := orderId d; price := price d; amountIn := amountIn d; clientTransferId := clientTransferId d; transferId := transferId d; receivingAddress := v; withdrawalFee := withdrawalFee d; withdrawalId := withdrawalId d; inTxId := inTxId d; scDepositTxs := scDepositTxs d; scDepositTxId := scDepositTxId d |}.
Definition set_withdrawalFee {BN} (v : option BN) (d : HedgingPluginState BN) : HedgingPluginState BN :=
  {| state := state d; cooldown := cooldown d; retryAt := retryAt d; retryState := retryState d; srcToken := srcToken d; srcTokenAddress := srcTokenAddress d; dstToken := dstToken d; dstTokenAddress := dstTokenAddress d; amountOut := amountOut d; scWithdrawTxs := scWithdrawTxs d; scWithdrawTxId := scWithdrawTxId d; outTxs := outTxs d; outTxId := outTxId d; depositId := depositId d; clientOrderId := clientOrderId d; orderId := orderId d; price := price d; amountIn := amountIn d; clientTransferId := clientTransferId d; transferId := transferId d; receivingAddress := receivingAddress d; withdrawalFee := v; withdrawalId := withdrawalId d; inTxId := inTxId d; scDepositTxs := scDepositTxs d; scDepositTxId := scDepositTxId d |}.
Definition set_withdrawalId {BN} (v : option string) (d : HedgingPluginState BN) : HedgingPluginState BN :=
  {| state := state d; cooldown := cooldown d; retryAt := retryAt d; retryState := retryState d; srcToken := srcToken d; srcTokenAddress := srcTokenAddress d; dstToken := dstToken d; dstTokenAddress := dstTokenAddress d; amountOut := amountOut d; scWithdrawTxs := scWithdrawTxs d; scWithdrawTxId := scWithdrawTxId d; outTxs := outTxs d; outTxId := outTxId d; depositId := depositId d; clientOrderId := clientOrderId d; orderId := orderId d; price := price d; amountIn := amountIn d; clientTransferId := clientTransferId d; transferId := transferId d; receivingAddress := receivingAddress d; withdrawalFee := withdrawalFee d; withdrawalId := v; inTxId := inTxId d; scDepositTxs := scDepositTxs d; scDepositTxId := scDepositTxId d |}.
Definition set_inTxId {BN} (v : option string) (d : HedgingPluginState BN) : HedgingPluginState BN :=
  {| state := state d; cooldown := cooldown d; retryAt := retryAt d; retryState := retryState d; srcToken := srcToken d; srcTokenAddress := srcTokenAddress d; dstToken := dstToken d; dstTokenAddress := dstTokenAddress d; amountOut := amountOut d; scWithdrawTxs := scWithdrawTxs d; scWithdrawTxId := scWithdrawTxId d; outTxs := outTxs d; outTxId := outTxId d; depositId := depositId d; clientOrderId := clientOrderId d; orderId := orderId d; price := price d; amountIn := amountIn d; clientTransferId := clientTransferId d; transferId := transferId d; receivingAddress := receivingAddress d; withdrawalFee := withdrawalFee d; withdrawalId := withdrawalId d; inTxId := v; scDepositTxs := scDepositTxs d; scDepositTxId := scDepositTxId d |}.
Definition set_scDepositTxs {BN} (v : option TxMap) (d : HedgingPluginState BN) : HedgingPluginState BN :=
  {| state := state d; cooldown := cooldown d; retryAt := retryAt d; retryState := retryState d; srcToken := srcToken d; srcTokenAddress := srcTokenAddress d; dstToken := dstToken d; dstTokenAddress := dstTokenAddress d; amountOut := amountOut d; scWithdrawTxs := scWithdrawTxs d; scWithdrawTxId := scWithdrawTxId d; outTxs := outTxs d; outTxId := outTxId d; depositId := depositId d; clientOrderId := clientOrderId d; orderId := orderId d; price := price d; amountIn := amountIn d; clientTransferId := clientTransferId d; transferId := transferId d; receivingAddress := receivingAddress d; withdrawalFee := withdrawalFee d; withdrawalId := withdrawalId d; inTxId := inTxId d; scDepositTxs := v; scDepositTxId := scDepositTxId d |}.
Definition set_scDepositTxId {BN} (v : option string) (d : HedgingPluginState BN) : HedgingPluginState BN :=
  {| state := state d; cooldown := cooldown d; retryAt := retryAt d; retryState := retryState d; srcToken := srcToken d; srcTokenAddress := srcTokenAddress d; dstToken := dstToken d; dstTokenAddress := dstTokenAddress d; amountOut := amountOut d; scWithdrawTxs := scWithdrawTxs d; scWithdrawTxId := scWithdrawTxId d; outTxs := outTxs d; outTxId := outTxId d; depositId := depositId d; clientOrderId := clientOrderId d; orderId := orderId d; price := price d; amountIn := amountIn d; clientTransferId := clientTransferId d; transferId := transferId d; receivingAddress := receivingAddress d; withdrawalFee := withdrawalFee d; withdrawalId := withdrawalId d; inTxId := inTxId d; scDepositTxs := scDepositTxs d; scDepositTxId := v |}.

(** [this.state[name] == null] *)
Definition isNullField {BN} (d : HedgingPluginState BN) (name : string) : bool :=
  let null {A} (o : option A) := match o with None => true | Some _ => false end in
  if String.eqb name "state" then null (state d)
  else if String.eqb name "cooldown" then null (cooldown d)
  else if String.eqb name "retryAt" then null (retryAt d)
  else if String.eqb name "retryState" then null (retryState d)
  else if String.eqb name "srcToken" then null (srcToken d)
  else if String.eqb name "srcTokenAddress" then null (srcTokenAddress d)
  else if String.eqb name "dstToken" then null (dstToken d)
  else if String.eqb name "dstTokenAddress" then null (dstTokenAddress d)
  else if String.eqb name "amountOut" then null (amountOut d)
  else if String.eqb name "scWithdrawTxs" then null (scWithdrawTxs d)
  else if String.eqb name "scWithdrawTxId" then null (scWithdrawTxId d)
  else if String.eqb name "outTxs" then null (outTxs d)
  else if String.eqb name "outTxId" then null (outTxId d)
  else if String.eqb name "depositId" then null (depositId d)
  else if String.eqb name "clientOrderId" then null (clientOrderId d)
  else if String.eqb name "orderId" then null (orderId d)
  else if String.eqb name "price" then null (price d)
  else if String.eqb name "amountIn" then null (amountIn d)
  else if String.eqb name "clientTransferId" then null (clientTransferId d)
  else if String.eqb name "transferId" then null (transferId d)
  else if String.eqb name "receivingAddress" then null (receivingAddress d)
  else if String.eqb name "withdrawalFee" then null (withdrawalFee d)
  else if String.eqb name "withdrawalId" then null (withdrawalId d)
  else if String.eqb name "inTxId" then null (inTxId d)
  else if String.eqb name "scDepositTxs" then null (scDepositTxs d)
  else if String.eqb name "scDepositTxId" then null (scDepositTxId d)
  else true.
Definition REQUIRED_FIELDS (s : RebalancingState) : list string :=
  match s with
  | RETRYING => ["retryAt"; "retryState"]
  | IDLE => []
  | TRIGGERED => ["srcToken"; "srcTokenAddress"; "dstToken"; "dstTokenAddress"; "amountOut"]
  | SC_WITHDRAWING => ["scWithdrawTxs"]
  | SC_WITHDRAWAL_CONFIRMED => ["scWithdrawTxId"]
  | OUT_TX => ["outTxs"]
  | OUT_TX_CONFIRMED => ["outTxId"]
  | DEPOSIT_RECEIVED => ["depositId"]
  | TRADE_EXECUTING => ["clientOrderId"]
  | TRADE_EXECUTED => ["orderId"; "price"; "amountIn"]
  | FUNDS_TRANSFERING => ["clientTransferId"]
  | FUNDS_TRANSFERED => ["transferId"]
  | WITHDRAWING => ["receivingAddress"; "withdrawalFee"; "withdrawalId"]
  | WITHDRAWAL_SENT => ["inTxId"]
  | IN_TX_CONFIRMED => []
  | SC_DEPOSITING => ["scDepositTxs"]
  | SC_DEPOSITED => ["scDepositTxId"]
  | FINISHED => []
  end.

Definition retryTime : Z := 15 * 1000.
Definition checkInterval : Z := 5 * 1000.

(** ** Persistence of the big-integer fields

    [JSON.stringify(value, replacer)] serializes a property in this order
    (ECMA-262, SerializeJSONProperty): it reads the value, replaces a
    value that has a [toJSON] method by the result of calling it, and only
    then calls the replacer with the result. [BN.prototype.toJSON] of bn.js
    is [this.toString(16)]. So for the three keys the replacer receives the
    hexadecimal string, and its [(value as BN).toString(10)] is
    [String.prototype.toString], which ignores its argument and returns the
    string. *)
Definition BN_toJSON (n : Z) : string := JS.unstr (JS.BN_toString 16 n).

Definition String_toString (s : string) (radix : Z) : string := s.

Definition isBigIntKey (key : string) : bool :=
  String.eqb key "amountOut" || String.eqb key "amountIn" || String.eqb key "withdrawalFee".

(** The replacer of [serializeState], on the value [JSON.stringify] hands
    it. *)
Definition replacer (key : string) (value : string) : string :=
  if isBigIntKey key then String_toString value 10 else value.

(** The reviver of [loadState]: [new BN(value, 16)] on the three keys. *)
Definition reviver (key : string) (value : string) : option Z :=
  JS.BN_parse 16 (JS.str value).

Definition serializeBN (key : string) (n : Z) : string :=
  replacer key (BN_toJSON n).

(** [serializeState]: the JSON document, with every other field as it
    is. *)
Definition serializeState (d : HedgingPluginState Z) : HedgingPluginState string :=
  {| state := state d; cooldown := cooldown d; retryAt := retryAt d;
     retryState := retryState d; srcToken := srcToken d;
     srcTokenAddress := srcTokenAddress d; dstToken := dstToken d;
     dstTokenAddress := dstTokenAddress d;
     amountOut := serializeBN "amountOut" <$> amountOut d;
     scWithdrawTxs := scWithdrawTxs d; scWithdrawTxId := scWithdrawTxId d;
     outTxs := outTxs d; outTxId := outTxId d; depositId := depositId d;
     clientOrderId := clientOrderId d; orderId := orderId d; price := price d;
     amountIn := serializeBN "amountIn" <$> amountIn d;
     clientTransferId := clientTransferId d; transferId := transferId d;
     receivingAddress := receivingAddress d;
     withdrawalFee := serializeBN "withdrawalFee" <$> withdrawalFee d;
     withdrawalId := withdrawalId d; inTxId := inTxId d;
     scDepositTxs := scDepositTxs d; scDepositTxId := scDepositTxId d |}.

(** The reviver on a field that may be absent. *)
Definition revive (key : string) (v : option string) : option (option Z) :=
  match v with
  | None => Some None
  | Some s => match reviver key s with Some n => Some (Some n) | None => None end
  end.

(** [JSON.parse(data, reviver)]; [None] where the reviver throws. *)
Definition parseState (j : HedgingPluginState string) : option (HedgingPluginState Z) :=
  match revive "amountOut" (amountOut j), revive "amountIn" (amountIn j),
        revive "withdrawalFee" (withdrawalFee j) with
  | Some ao, Some ai, Some wf =>
      Some {| state := state j; cooldown := cooldown j; retryAt := retryAt j;
              retryState := retryState j; srcToken := srcToken j;
              srcTokenAddress := srcTokenAddress j; dstToken := dstToken j;
              dstTokenAddress := dstTokenAddress j;
              amountOut := ao;
              scWithdrawTxs := scWithdrawTxs j; scWithdrawTxId := scWithdrawTxId j;
              outTxs := outTxs j; outTxId := outTxId j; depositId := depositId j;
              clientOrderId := clientOrderId j; orderId := orderId j; price := price j;
              amountIn := ai;
              clientTransferId := clientTransferId j; transferId := transferId j;
              receivingAddress := receivingAddress j;
              withdrawalFee := wf;
              withdrawalId := withdrawalId j; inTxId := inTxId j;
              scDepositTxs := scDepositTxs j; scDepositTxId := scDepositTxId j |}
  | _, _, _ => None
  end.

(** ** The plugin instance, its disk and the outside world *)

(** The constructor arguments the engine reads. *)
Record Config := {
  tokenAddresses_USDC : string;
  okxSmartChainName : string;
  rebalanceThresholdPPM : Z;
  rebalanceAmountPPM : Z
}.

(** [W] is the state of everything outside the process: the exchange, the
    Lightning node, the Bitcoin node and the smart chain. [Date.now()] is
    constant during one run of [check] and moves between runs. *)
Record Sys (W : Type) := {
  mem : option (HedgingPluginState Z);          (* this.state *)
  disk : option (HedgingPluginState string);    (* storage/hedge-plugin-state.json *)
  archived : list (Z * HedgingPluginState string); (* storage/archive/rebalance-<ms>.json *)
  clock : Z;                                    (* Date.now() *)
  world : W;
  transitions : list (option RebalancingState * RebalancingState);
    (* the "State transition old -> new" lines, latest first *)
  crashAfter : option nat
    (* the number of further external effects (adapter calls and file
       operations) the process lives to perform; None: it does not die *)
}.
Arguments mem {W} _.
Arguments disk {W} _.
Arguments archived {W} _.
Arguments clock {W} _.
Arguments world {W} _.
Arguments transitions {W} _.
Arguments crashAfter {W} _.

Definition with_mem {W} (m : option (HedgingPluginState Z)) (s : Sys W) : Sys W :=
  {| mem := m; disk := disk s; archived := archived s; clock := clock s;
     world := world s; transitions := transitions s; crashAfter := crashAfter s |}.
Definition with_disk {W} (f : option (HedgingPluginState string)) (s : Sys W) : Sys W :=
  {| mem := mem s; disk := f; archived := archived s; clock := clock s;
     world := world s; transitions := transitions s; crashAfter := crashAfter s |}.
Definition with_archived {W} (a : list (Z * HedgingPluginState string)) (s : Sys W) : Sys W :=
  {| mem := mem s; disk := disk s; archived := a; clock := clock s;
     world := world s; transitions := transitions s; crashAfter := crashAfter s |}.
Definition with_clock {W} (t : Z) (s : Sys W) : Sys W :=
  {| mem := mem s; disk := disk s; archived := archived s; clock := t;
     world := world s; transitions := transitions s; crashAfter := crashAfter s |}.
Definition with_world {W} (w : W) (s : Sys W) : Sys W :=
  {| mem := mem s; disk := disk s; archived := archived s; clock := clock s;
     world := w; transitions := transitions s; crashAfter := crashAfter s |}.
Definition with_transitions {W} (l : list (option RebalancingState * RebalancingState))
    (s : Sys W) : Sys W :=
  {| mem := mem s; disk := disk s; archived := archived s; clock := clock s;
     world := world s; transitions := l; crashAfter := crashAfter s |}.
Definition with_crashAfter {W} (c : option nat) (s : Sys W) : Sys W :=
  {| mem := mem s; disk := disk s; archived := archived s; clock := clock s;
     world := world s; transitions := transitions s; crashAfter := c |}.

(** ** The adapters *)

Inductive TxStatus := not_found | pending | reverted | success.

Record Utxo := { lock_id : string; transaction_id : string; transaction_vout : Z }.
Record FundPsbtResponse := { psbt : string; inputs : list Utxo }.
Record Payment := { pay_is_confirmed : bool; is_failed : bool }.
Record Invoice := { inv_is_confirmed : bool; is_canceled : bool }.
Record ChainAddress := { address : string; is_change : bool }.
Record Deposit := { dep_state : string; depId : option string }.
Record Trade := { averagePrice : option string; trade_state : string; trade_orderId : option string }.
Record Transfer := { tr_state : string; transId : option string }.
Record Withdrawal := { wd_state : string; txId : option string }.

(** The swaps the balance monitor scans in the four swap handlers. *)
Inductive SwapState :=
  | FromBtcLn_RECEIVED | FromBtcLn_COMMITED | FromBtcLn_CANCELED
  | FromBtc_CREATED | FromBtc_COMMITED
  | ToBtc_BTC_SENT | ToBtcLn_PAID
  | OtherSwapState.
#[global] Instance SwapState_eq_dec : EqDecision SwapState.
Proof. solve_decision. Defined.
Record SwapData := { getToken : string; getAmount : Z }.
Record Swap := { swap_state : SwapState; swap_data : option SwapData }.
Record SwapStores := {
  fromBtcLn : option (list Swap);
  fromBtc : option (list Swap);
  toBtc : option (list Swap);
  toBtcLn : option (list Swap)
}.

(** A call of an adapter: it answers or rejects, and changes the world. *)
Definition Call (W A : Type) : Type := W -> (Exn + A) * W.

(** The collaborators of the plugin: the [OKX] client it constructs, the
    [ln-service] functions on its [lnd], its [bitcoinRpc], [swapContract]
    and [swapPricing], and the three libraries [bolt11], [bitcoinjs-lib]
    and [crypto]. Arguments are passed as the source passes them; a field
    of the document that may be [undefined] is an [option]. *)
Record Adapters (W : Type) := {
  okx_getDepositAddress : option string -> option string -> option Z -> Call W (option string);
  okx_getDeposit : option string -> Call W (option Deposit);
  okx_marketTrade : option string -> option string -> option Z -> string -> Call W string;
  okx_getTrade : option string -> option string -> option string -> Call W Trade;
  okx_getBalance : option string -> Call W Z;
  okx_fundsTransfer : option string -> string -> string -> option Z -> string -> Call W string;
  okx_getFundsTransfer : option string -> Call W (option Transfer);
  okx_getWithdrawalFee : option string -> string -> option Z -> Call W Z;
  okx_withdraw : option string -> string -> option string -> string -> Z -> Z -> Call W unit;
  okx_getWithdrawal : option string -> Call W (option Withdrawal);
  ln_pay : string -> Call W unit;
  ln_fundPsbt : option string -> Z -> Call W FundPsbtResponse;
  ln_unlockUtxo : Utxo -> Call W unit;
  ln_signPsbt : string -> Call W string;
  ln_broadcastChainTransaction : string -> Call W unit;
  ln_getPayment : option string -> Call W Payment;
  ln_getChainAddresses : Call W (list ChainAddress);
  ln_createInvoice : string -> Call W string;
  ln_getInvoice : option string -> Call W Invoice;
  ln_getChannelBalance : Call W Z;
  ln_getChainBalance : Call W Z;
  btc_getTransaction : option string -> Call W (option Z);
  sc_txsWithdraw : option string -> option Z -> Call W (list string);
  sc_txsTransfer : option string -> option Z -> option string -> Call W (list string);
  sc_txsDeposit : option string -> Z -> Call W (list string);
  sc_sign : string -> Call W (string * string);
  sc_broadcast : string -> Call W unit;
  sc_getTxStatus : string -> Call W TxStatus;
  sc_getTxIdStatus : option string -> Call W TxStatus;
  sc_getBalance : string -> Call W Z;
  sc_isCommited : option SwapData -> Call W bool;
  sc_getAddress : W -> string;
  sc_toTokenAddress : string -> string;
  pricing_getToBtcSwapAmount : Z -> string -> Call W Z;
  pricing_getFromBtcSwapAmount : Z -> string -> bool -> Call W Z;
  swapStores : W -> SwapStores;
  bolt11_payment_hash : string -> option string;
  bitcoin_txId : string -> option string;
  randomBytes16 : W -> string * W
}.
Arguments okx_getDepositAddress {W} _.
Arguments okx_getDeposit {W} _.
Arguments okx_marketTrade {W} _.
Arguments okx_getTrade {W} _.
Arguments okx_getBalance {W} _.
Arguments okx_fundsTransfer {W} _.
Arguments okx_getFundsTransfer {W} _.
Arguments okx_getWithdrawalFee {W} _.
Arguments okx_withdraw {W} _.
Arguments okx_getWithdrawal {W} _.
Arguments ln_pay {W} _.
Arguments ln_fundPsbt {W} _.
Arguments ln_unlockUtxo {W} _.
Arguments ln_signPsbt {W} _.
Arguments ln_broadcastChainTransaction {W} _.
Arguments ln_getPayment {W} _.
Arguments ln_getChainAddresses {W} _.
Arguments ln_createInvoice {W} _.
Arguments ln_getInvoice {W} _.
Arguments ln_getChannelBalance {W} _.
Arguments ln_getChainBalance {W} _.
Arguments btc_getTransaction {W} _.
Arguments sc_txsWithdraw {W} _.
Arguments sc_txsTransfer {W} _.
Arguments sc_txsDeposit {W} _.
Arguments sc_sign {W} _.
Arguments sc_broadcast {W} _.
Arguments sc_getTxStatus {W} _.
Arguments sc_getTxIdStatus {W} _.
Arguments sc_getBalance {W} _.
Arguments sc_isCommited {W} _.
Arguments sc_getAddress {W} _.
Arguments sc_toTokenAddress {W} _.
Arguments pricing_getToBtcSwapAmount {W} _.
Arguments pricing_getFromBtcSwapAmount {W} _.
Arguments swapStores {W} _.
Arguments bolt11_payment_hash {W} _.
Arguments bitcoin_txId {W} _.
Arguments randomBytes16 {W} _.

(** ** The engine *)

Inductive ScanResult :=
  | Confirmed (txId : string)
  | Flags (isSomePending isNotFoundOrReverted : bool).

Definition opt_gt (o : option Z) (t : Z) : bool :=
  match o with Some c => c >? t | None => false end.
Definition opt_lt (o : option Z) (t : Z) : bool :=
  match o with Some c => c <? t | None => false end.
Definition opt_is (o : option string) (v : string) : bool :=
  match o with Some c => String.eqb c v | None => false end.

(** [this.state.state===RebalancingState.st], a comparison of numbers. *)
Definition inState {BN} (d : HedgingPluginState BN) (st : RebalancingState) : bool :=
  match state d with
  | Some s => stateIndex s =? stateIndex st
  | None => false
  end.

Section Engine.
Context {W : Type} (A : Adapters W) (cfg : Config).

Local Abbreviation E := (M (Sys W)).

(** Every adapter call and every file operation is a point where the
    process can die. *)
Definition effect : E unit := fun s =>
  match crashAfter s with
  | Some O => Crash s
  | Some (S n) => Ret tt (with_crashAfter (Some n) s)
  | None => Ret tt s
  end.

Definition adapter {R} (c : Call W R) : E R :=
  effect ;;;
  fun s => match c (world s) with
           | (inl e, w) => Throw e (with_world w s)
           | (inr a, w) => Ret a (with_world w s)
           end.

(** [m.catch(e => console.error(e))], and a [try] whose [catch] only
    logs: the value is [undefined] after an error. *)
Definition tryOpt {R} (m : E R) : E (option R) :=
  try_catch (a <- m ;; ret (Some a)) (fun _ => ret None).

Definition now : E Z := fun s => Ret (clock s) s.

(** [this.state], where a property of it is read or written. *)
Definition getState : E (HedgingPluginState Z) :=
  s <- get ;; nonNull (mem s).

Definition update (f : HedgingPluginState Z -> HedgingPluginState Z) : E unit :=
  d <- getState ;; modify (with_mem (Some (f d))).

(** [randomBytes(16).toString("hex")] *)
Definition random : E string := fun s =>
  let '(r, w) := randomBytes16 A (world s) in Ret r (with_world w s).

(** The write of the document, when the file system takes it; a write
    that it rejects is [saveStateFS], below. *)
Definition saveState : E unit :=
  d <- getState ;;
  effect ;;;
  modify (with_disk (Some (serializeState d))).

Definition archiveState : E unit :=
  d <- getState ;;
  t <- now ;;
  effect ;;;
  modify (fun s => with_archived ((t, serializeState d) :: archived s) s) ;;;
  effect ;;;
  s <- get ;;
  match disk s with
  | None => throw (Error "ENOENT")
  | Some _ => modify (with_disk None)
  end.

(** [loadState]: any error is swallowed and leaves [this.state] as it
    was. *)
Definition loadState : E unit := fun s =>
  match disk s with
  | None => Ret tt s
  | Some j =>
      match parseState j with
      | Some d => Ret tt (with_mem (Some d) s)
      | None => Ret tt s
      end
  end.

(** [setState], over the [check] it ends with. *)
Definition setStateWith (recheck : E unit) (newState : option RebalancingState) : E unit :=
  ns <- nonNull newState ;;
  forEach (REQUIRED_FIELDS ns) (fun requiredField =>
    d <- getState ;;
    if isNullField d requiredField
    then throw (Error ("Invalid state transition, missing field: " +:+ requiredField))
    else ret tt) ;;;
  d <- getState ;;
  let oldState := state d in
  update (set_state (Some ns)) ;;;
  saveState ;;;
  modify (fun s => with_transitions ((oldState, ns) :: transitions s) s) ;;;
  recheck.

(** ** A write that the file system rejects

    [fs.writeFile] resolves when the document is written. The file system
    can also reject the write (a full disk, a directory that cannot be
    written): the promise is rejected with the error [e] and the file holds
    [remains], what the failed write leaves of it: the earlier document when
    the file could not be opened, no readable document when the write was
    cut short.
    [saveState] awaits the write and has no handler for the rejection, and
    neither has [setState]. *)
Inductive WriteResult :=
  | Written
  | Rejected (e : Exn) (remains : option (HedgingPluginState string)).

Definition fs_writeFile (result : WriteResult) (data : HedgingPluginState string) : E unit :=
  effect ;;;
  match result with
  | Written => modify (with_disk (Some data))
  | Rejected e remains => modify (with_disk remains) ;;; throw e
  end.

(** [saveState], over what the file system does with the write. *)
Definition saveStateFS (result : WriteResult) : E unit :=
  d <- getState ;;
  fs_writeFile result (serializeState d).

(** [setState], over what the file system does with its write and over the
    [check] it ends with. *)
Definition setStateFS (result : WriteResult) (recheck : E unit)
    (newState : option RebalancingState) : E unit :=
  ns <- nonNull newState ;;
  forEach (REQUIRED_FIELDS ns) (fun requiredField =>
    d <- getState ;;
    if isNullField d requiredField
    then throw (Error ("Invalid state transition, missing field: " +:+ requiredField))
    else ret tt) ;;;
  d <- getState ;;
  let oldState := state d in
  update (set_state (Some ns)) ;;;
  saveStateFS result ;;;
  modify (fun s => with_transitions ((oldState, ns) :: transitions s) s) ;;;
  recheck.

Section Handlers.
Variable recheck : E unit.

Local Abbreviation setState := (fun st => setStateWith recheck (Some st)).

(** [this.state.cooldown = Date.now()+(5*1000)] *)
Definition setCooldown : E unit :=
  t <- now ;; update (set_cooldown (Some (t + 5 * 1000))).

(** [this.state.retryAt = Date.now()+retryTime;
     this.state.retryState = target;
     await this.setState(RebalancingState.RETRYING)] *)
Definition scheduleRetry (target : RebalancingState) : E unit :=
  t <- now ;;
  update (set_retryAt (Some (t + retryTime))) ;;;
  update (set_retryState (Some target)) ;;;
  setState RETRYING.

(** Modelled from the spec: [SwapContract.sendAndConfirm] is a library
    method. For every transaction in turn it signs, calls the
    callback with the id and the raw transaction before the broadcast
    is acknowledged, and broadcasts; the plugin passes
    [waitForConfirmation = false]. *)
Definition sendAndConfirm (txs : list string)
    (onBeforePublish : string -> string -> E unit) : E unit :=
  forEach txs (fun tx =>
    p <- adapter (sc_sign A tx) ;;
    onBeforePublish (fst p) (snd p) ;;;
    adapter (sc_broadcast A (snd p))).

(** The confirmation scan of the three smart-chain states. *)
Fixpoint scanTxs (entries : TxMap) (isSomePending isNotFoundOrReverted : bool)
  : E ScanResult :=
  match entries with
  | [] => ret (Flags isSomePending isNotFoundOrReverted)
  | (txId, txData) :: r =>
      result <- adapter (sc_getTxStatus A txData) ;;
      match result with
      | not_found => scanTxs r isSomePending true
      | pending => scanTxs r true isNotFoundOrReverted
      | reverted => scanTxs r isSomePending true
      | success => ret (Confirmed txId)
      end
  end.

(** Each handler is the body of one [if(this.state.state===S)] of
    [check]; its value says whether the body ended in [return]. *)

Definition onRETRYING : E bool :=
  d <- getState ;;
  t <- now ;;
  (if opt_lt (retryAt d) t then setStateWith recheck (retryState d) else ret tt) ;;;
  ret true.

Definition unlockUtxos (fundPsbtResponse : FundPsbtResponse) : E unit :=
  forEach (inputs fundPsbtResponse) (fun input => adapter (ln_unlockUtxo A input)).

Definition onTRIGGERED : E bool :=
  d <- getState ;;
  if opt_is (srcToken d) "BTC" || opt_is (srcToken d) "BTC-LN" then
    (* Send directly to exchange *)
    destinationAddress <- adapter (okx_getDepositAddress A (srcToken d) None (amountOut d)) ;;
    if opt_is (srcToken d) "BTC-LN" then
      (* LN *)
      pr <- match destinationAddress with
            | Some a => ret a
            | None => throw (Error "bolt11.decode")
            end ;;
      payment_hash <- match bolt11_payment_hash A pr with
                      | Some h => ret h
                      | None => throw (Error "bolt11.decode")
                      end ;;
      update (set_outTxs (Some [(payment_hash, pr)])) ;;;
      setCooldown ;;;
      setState OUT_TX ;;;
      payment <- tryOpt (adapter (ln_pay A pr)) ;;
      match payment with
      | None => setState IDLE ;;; ret true
      | Some _ => ret true
      end
    else
      (* On-chain *)
      fundPsbtResponse <- tryOpt (
        d <- getState ;;
        tokens <- nonNull (amountOut d) ;;
        adapter (ln_fundPsbt A destinationAddress tokens)) ;;
      match fundPsbtResponse with
      | None => setState IDLE ;;; ret true
      | Some fundPsbtResponse =>
          signedPsbt <- tryOpt (adapter (ln_signPsbt A (psbt fundPsbtResponse))) ;;
          match signedPsbt with
          | None =>
              unlockUtxos fundPsbtResponse ;;;
              setState IDLE ;;;
              ret true
          | Some transaction =>
              txId <- match bitcoin_txId A transaction with
                      | Some i => ret i
                      | None => throw (Error "Transaction.fromHex")
                      end ;;
              setCooldown ;;;
              update (set_outTxs (Some [(txId, transaction)])) ;;;
              setState OUT_TX ;;;
              txSendResult <- tryOpt (adapter (ln_broadcastChainTransaction A transaction)) ;;
              match txSendResult with
              | None =>
                  unlockUtxos fundPsbtResponse ;;;
                  setState IDLE ;;;
                  ret true
              | Some _ => ret true
              end
          end
      end
  else
    (* Withdraw from SC first *)
    withdrawTxs <- adapter (sc_txsWithdraw A (srcTokenAddress d) (amountOut d)) ;;
    update (set_scWithdrawTxs (Some [])) ;;;
    sendAndConfirm withdrawTxs (fun txId rawTx =>
      (* Save the rawTx *)
      d <- getState ;;
      m <- nonNull (scWithdrawTxs d) ;;
      update (set_scWithdrawTxs (Some (obj_set txId rawTx m))) ;;;
      setCooldown ;;;
      setState SC_WITHDRAWING) ;;;
    ret true.

Definition onSC_WITHDRAWING : E bool :=
  d <- getState ;;
  (* Object.keys(this.state.scWithdrawTxs) *)
  m <- nonNull (scWithdrawTxs d) ;;
  r <- scanTxs m false false ;;
  match r with
  | Confirmed txId =>
      update (set_scWithdrawTxId (Some txId)) ;;;
      setState SC_WITHDRAWAL_CONFIRMED ;;;
      ret true
  | Flags isSomePending isNotFoundOrReverted =>
      (if isNotFoundOrReverted && negb isSomePending then
         update (set_scWithdrawTxs (Some [])) ;;;
         setState IDLE
       else ret tt) ;;;
      ret true
  end.

Definition onSC_WITHDRAWAL_CONFIRMED : E bool :=
  d <- getState ;;
  destinationAddress <-
    adapter (okx_getDepositAddress A (srcToken d) (Some (okxSmartChainName cfg)) None) ;;
  transferTxs <-
    adapter (sc_txsTransfer A (srcTokenAddress d) (amountOut d) destinationAddress) ;;
  update (set_outTxs (Some [])) ;;;
  sendAndConfirm transferTxs (fun txId rawTx =>
    (* Save the rawTx *)
    d <- getState ;;
    m <- nonNull (outTxs d) ;;
    update (set_outTxs (Some (obj_set txId rawTx m))) ;;;
    setCooldown ;;;
    setState OUT_TX) ;;;
  ret true.

Definition onOUT_TX : E bool :=
  d <- getState ;;
  (* Object.keys(this.state.outTxs) *)
  m <- nonNull (outTxs d) ;;
  if opt_is (srcToken d) "BTC" then
    let txId := head (obj_keys m) in
    tx <- adapter (btc_getTransaction A txId) ;;
    match tx with
    | None => setState IDLE ;;; ret true
    | Some confirmations =>
        (if confirmations >=? 1 then
           update (set_outTxId txId) ;;;
           setState OUT_TX_CONFIRMED
         else ret tt) ;;;
        ret true
    end
  else if opt_is (srcToken d) "BTC-LN" then
    let txId := head (obj_keys m) in
    result <- tryOpt (adapter (ln_getPayment A txId)) ;;
    match result with
    | None => setState IDLE ;;; ret true
    | Some result =>
        if is_failed result then setState IDLE ;;; ret true
        else if pay_is_confirmed result then
          update (set_outTxId txId) ;;;
          setState OUT_TX_CONFIRMED ;;;
          ret true
        else ret true
    end
  else
    r <- scanTxs m false false ;;
    match r with
    | Confirmed txId =>
        update (set_outTxId (Some txId)) ;;;
        setState OUT_TX_CONFIRMED ;;;
        ret true
    | Flags isSomePending isNotFoundOrReverted =>
        (if isNotFoundOrReverted && negb isSomePending then
           update (set_outTxs (Some [])) ;;;
           scheduleRetry SC_WITHDRAWAL_CONFIRMED
         else ret tt) ;;;
        ret true
    end.

Definition onOUT_TX_CONFIRMED : E bool :=
  d <- getState ;;
  (* Check deposit on exchange *)
  depositState <- adapter (okx_getDeposit A (outTxId d)) ;;
  match depositState with
  | Some ds =>
      (if String.eqb (dep_state ds) "1" || String.eqb (dep_state ds) "2" then
         update (set_depositId (depId ds)) ;;;
         setState DEPOSIT_RECEIVED
       else ret tt) ;;;
      ret true
  | None => ret true
  end.

Definition onDEPOSIT_RECEIVED : E bool :=
  clientOrderId <- random ;;
  update (set_clientOrderId (Some clientOrderId)) ;;;
  setCooldown ;;;
  setState TRADE_EXECUTING ;;;
  tryOpt (
    d <- getState ;;
    adapter (okx_marketTrade A (srcToken d) (dstToken d) (amountOut d) clientOrderId)) ;;;
  ret true.

Definition onTRADE_EXECUTING : E bool :=
  d <- getState ;;
  tradeData <- try_catch (
      tradeData <- adapter (okx_getTrade A (srcToken d) (dstToken d) (clientOrderId d)) ;;
      ret (Some tradeData))
    (fun e =>
      match e with
      | OKXError errorCode =>
          if String.eqb errorCode "52907" || String.eqb errorCode "51603"
          then scheduleRetry DEPOSIT_RECEIVED ;;; ret None
          else ret None
      | _ => ret None
      end) ;;
  match tradeData with
  | None => ret true
  | Some tradeData =>
      if String.eqb (trade_state tradeData) "canceled"
         || String.eqb (trade_state tradeData) "mmp_canceled" then
        scheduleRetry DEPOSIT_RECEIVED ;;; ret true
      else if String.eqb (trade_state tradeData) "filled" then
        update (set_orderId (trade_orderId tradeData)) ;;;
        update (set_price (averagePrice tradeData)) ;;;
        d <- getState ;;
        balance <- adapter (okx_getBalance A (dstToken d)) ;;
        update (set_amountIn (Some balance)) ;;;
        setState TRADE_EXECUTED ;;;
        ret true
      else ret false
  end.

Definition onTRADE_EXECUTED : E bool :=
  transferId <- random ;;
  update (set_clientTransferId (Some transferId)) ;;;
  setCooldown ;;;
  setState FUNDS_TRANSFERING ;;;
  tryOpt (
    d <- getState ;;
    adapter (okx_fundsTransfer A (dstToken d) "trading" "funding" (amountIn d) transferId)) ;;;
  ret true.

Definition onFUNDS_TRANSFERING : E bool :=
  try_catch (
    d <- getState ;;
    resp <- adapter (okx_getFundsTransfer A (clientTransferId d)) ;;
    match resp with
    | None => scheduleRetry TRADE_EXECUTED
    | Some resp =>
        if String.eqb (tr_state resp) "failed" then scheduleRetry TRADE_EXECUTED
        else if String.eqb (tr_state resp) "success" then
          update (set_transferId (transId resp)) ;;;
          setState FUNDS_TRANSFERED
        else ret tt
    end)
  (fun _ => ret tt) ;;;
  ret true.

Definition onFUNDS_TRANSFERED : E bool :=
  d <- getState ;;
  fee <- adapter (okx_getWithdrawalFee A (dstToken d) (okxSmartChainName cfg) (amountIn d)) ;;
  update (set_withdrawalFee (Some fee)) ;;;
  (if opt_is (dstToken d) "BTC" then
     resp <- adapter (ln_getChainAddresses A) ;;
     addrObj <- nonNull (List.find (fun addr => negb (is_change addr)) resp) ;;
     update (set_receivingAddress (Some (address addrObj)))
   else if opt_is (dstToken d) "BTC-LN" then
     d <- getState ;;
     amountIn <- nonNull (amountIn d) ;;
     withdrawalFee <- nonNull (withdrawalFee d) ;;
     request <- adapter (ln_createInvoice A
                  (JS.unstr (JS.BN_toString 10 ((amountIn - withdrawalFee) * 1000)))) ;;
     update (set_receivingAddress (Some request))
   else
     s <- get ;;
     update (set_receivingAddress (Some (sc_getAddress A (world s))))) ;;;
  withdrawalId <- random ;;
  update (set_withdrawalId (Some withdrawalId)) ;;;
  setCooldown ;;;
  setState WITHDRAWING ;;;
  try_catch (
    d <- getState ;;
    amountIn <- nonNull (amountIn d) ;;
    withdrawalFee <- nonNull (withdrawalFee d) ;;
    adapter (okx_withdraw A (dstToken d) (okxSmartChainName cfg) (receivingAddress d)
               withdrawalId withdrawalFee (amountIn - withdrawalFee)))
  (fun e =>
    match e with
    | OKXError _ => scheduleRetry FUNDS_TRANSFERED
    | _ => ret tt
    end) ;;;
  ret true.

Definition onWITHDRAWING : E bool :=
  d <- getState ;;
  withdrawal <- adapter (okx_getWithdrawal A (withdrawalId d)) ;;
  match withdrawal with
  | None => scheduleRetry FUNDS_TRANSFERED ;;; ret true
  | Some withdrawal =>
      if String.eqb (wd_state withdrawal) "-3"
         || String.eqb (wd_state withdrawal) "-2"
         || String.eqb (wd_state withdrawal) "-1" then
        scheduleRetry FUNDS_TRANSFERED ;;; ret true
      else
        (if String.eqb (wd_state withdrawal) "2" then
           update (set_inTxId (txId withdrawal)) ;;;
           setState WITHDRAWAL_SENT
         else ret tt) ;;;
        ret true
  end.

Definition onWITHDRAWAL_SENT : E bool :=
  d <- getState ;;
  (* Check if incoming transaction is confirmed *)
  if opt_is (dstToken d) "BTC" then
    tx <- adapter (btc_getTransaction A (inTxId d)) ;;
    match tx with
    | None => scheduleRetry WITHDRAWING ;;; ret true
    | Some confirmations =>
        (if confirmations >=? 1 then setState IN_TX_CONFIRMED else ret tt) ;;;
        ret true
    end
  else if opt_is (dstToken d) "BTC-LN" then
    invoice <- adapter (ln_getInvoice A (inTxId d)) ;;
    (if inv_is_confirmed invoice then setState IN_TX_CONFIRMED else ret tt) ;;;
    (if is_canceled invoice then scheduleRetry WITHDRAWING else ret tt) ;;;
    ret true
  else
    result <- adapter (sc_getTxIdStatus A (inTxId d)) ;;
    (match result with success => setState IN_TX_CONFIRMED | _ => ret tt end) ;;;
    (match result with reverted => scheduleRetry WITHDRAWING | _ => ret tt end) ;;;
    ret true.

Definition onIN_TX_CONFIRMED : E bool :=
  d <- getState ;;
  if negb (opt_is (dstToken d) "BTC") && negb (opt_is (dstToken d) "BTC-LN") then
    (* Deposit back to SC *)
    amountIn <- nonNull (amountIn d) ;;
    withdrawalFee <- nonNull (withdrawalFee d) ;;
    depositTxs <- adapter (sc_txsDeposit A (dstTokenAddress d) (amountIn - withdrawalFee)) ;;
    update (set_scDepositTxs (Some [])) ;;;
    sendAndConfirm depositTxs (fun txId rawTx =>
      (* Save the rawTx *)
      d <- getState ;;
      m <- nonNull (scDepositTxs d) ;;
      update (set_scDepositTxs (Some (obj_set txId rawTx m))) ;;;
      setCooldown ;;;
      setState SC_DEPOSITING) ;;;
    ret false
  else
    setState FINISHED ;;;
    ret true.

Definition onSC_DEPOSITING : E bool :=
  d <- getState ;;
  (* for..in over an undefined map runs no iteration *)
  r <- scanTxs (default [] (scDepositTxs d)) false false ;;
  match r with
  | Confirmed txId =>
      update (set_scDepositTxId (Some txId)) ;;;
      setState SC_DEPOSITED ;;;
      ret true
  | Flags isSomePending isNotFoundOrReverted =>
      (if isNotFoundOrReverted && negb isSomePending then
         scheduleRetry IN_TX_CONFIRMED
       else ret tt) ;;;
      ret true
  end.

Definition onSC_DEPOSITED : E bool :=
  setState FINISHED ;;;
  ret false.

Definition onFINISHED : E bool :=
  archiveState ;;;
  modify (with_mem (Some emptyState)) ;;;
  ret false.

(** [if(this.state.state===st) { handler }], followed by the rest of
    [check] unless the handler returned. *)
Definition whenState (st : RebalancingState) (handler : E bool) (rest : E unit) : E unit :=
  d <- getState ;;
  if inState d st then
    returned <- handler ;;
    if returned : bool then ret tt else rest
  else rest.

Definition checkWith : E unit :=
  s <- get ;;
  match mem s with
  | None => ret tt
  | Some d =>
      if opt_gt (cooldown d) (clock s) then ret tt
      else
        whenState RETRYING onRETRYING (
        whenState TRIGGERED onTRIGGERED (
        whenState SC_WITHDRAWING onSC_WITHDRAWING (
        whenState SC_WITHDRAWAL_CONFIRMED onSC_WITHDRAWAL_CONFIRMED (
        whenState OUT_TX onOUT_TX (
        whenState OUT_TX_CONFIRMED onOUT_TX_CONFIRMED (
        whenState DEPOSIT_RECEIVED onDEPOSIT_RECEIVED (
        whenState TRADE_EXECUTING onTRADE_EXECUTING (
        whenState TRADE_EXECUTED onTRADE_EXECUTED (
        whenState FUNDS_TRANSFERING onFUNDS_TRANSFERING (
        whenState FUNDS_TRANSFERED onFUNDS_TRANSFERED (
        whenState WITHDRAWING onWITHDRAWING (
        whenState WITHDRAWAL_SENT onWITHDRAWAL_SENT (
        whenState IN_TX_CONFIRMED onIN_TX_CONFIRMED (
        whenState SC_DEPOSITING onSC_DEPOSITING (
        whenState SC_DEPOSITED onSC_DEPOSITED (
        whenState FINISHED onFINISHED (
        ret tt)))))))))))))))))
  end.

End Handlers.

(** [check]; [fuel] bounds the depth of the [setState] -> [check]
    recursion. *)
Fixpoint check (fuel : nat) : E unit :=
  match fuel with
  | O => fun _ => OutOfFuel
  | S f => checkWith (check f)
  end.

Definition setState (fuel : nat) (newState : option RebalancingState) : E unit :=
  setStateWith (check fuel) newState.

(** The system once [setState(st)] has set the state field of [d], written
    the document and logged the transition. *)
Definition persisted (s : Sys W) (d : HedgingPluginState Z) (st : RebalancingState) : Sys W :=
  with_transitions ((state d, st) :: transitions s)
    (with_disk (Some (serializeState (set_state (Some st) d)))
       (with_mem (Some (set_state (Some st) d)) s)).

(** ** The tx-replacement callback registered in [onEnable] *)
Definition onBeforeTxReplace (oldTx oldTxId newTx newTxId : string) : E unit :=
  d <- getState ;;
  (if inState d SC_WITHDRAWING then
     m <- nonNull (scWithdrawTxs d) ;;
     match obj_get oldTxId m with
     | Some _ =>
         update (set_scWithdrawTxs (Some (obj_set newTxId newTx m))) ;;;
         setCooldown ;;;
         saveState
     | None => ret tt
     end
   else ret tt) ;;;
  d <- getState ;;
  (if inState d OUT_TX then
     m <- nonNull (outTxs d) ;;
     match obj_get oldTxId m with
     | Some _ =>
         update (set_outTxs (Some (obj_set newTxId newTx m))) ;;;
         setCooldown ;;;
         saveState
     | None => ret tt
     end
   else ret tt) ;;;
  d <- getState ;;
  (if inState d SC_DEPOSITING then
     m <- nonNull (scDepositTxs d) ;;
     match obj_get oldTxId m with
     | Some _ =>
         update (set_scDepositTxs (Some (obj_set newTxId newTx m))) ;;;
         setCooldown ;;;
         saveState
     | None => ret tt
     end
   else ret tt).

(** ** The balance monitor: the interval callback of [onEnable] *)

(** [balances[token] = balances[token]==null ? amount : balances[token].add(amount)] *)
Definition addBalance (balances : gmap string Z) (token : string) (amount : Z)
  : gmap string Z :=
  match balances !! token with
  | None => <[token := amount]> balances
  | Some b => <[token := b + amount]> balances
  end.

Fixpoint foldM {X B} (f : B -> X -> E B) (l : list X) (b : B) : E B :=
  match l with
  | [] => ret b
  | x :: r => b' <- f b x ;; foldM f r b'
  end.

(** [swap.data.getToken().toString()] and [swap.data.getAmount()] *)
Definition addSwap (balances : gmap string Z) (swap : Swap) : E (gmap string Z) :=
  data <- nonNull (swap_data swap) ;;
  ret (addBalance balances (getToken data) (getAmount data)).

(** The two records built from the four swap stores: the balances locked
    in committed swaps and the balances being refunded. *)
Definition scanSwaps (stores : SwapStores) : E (gmap string Z * gmap string Z) :=
  b <- match fromBtcLn stores with
       | None => ret (∅ : gmap string Z, ∅ : gmap string Z)
       | Some swaps =>
           foldM (fun b swap =>
             let '(lockedBalances, returningBalances) := b in
             isCommitted <-
               (if decide (swap_state swap = FromBtcLn_RECEIVED)
                then adapter (sc_isCommited A (swap_data swap))
                else ret false) ;;
             let isCommitted :=
               if decide (swap_state swap = FromBtcLn_COMMITED) then true else isCommitted in
             lockedBalances <-
               (if isCommitted : bool then addSwap lockedBalances swap else ret lockedBalances) ;;
             returningBalances <-
               (match swap_data swap with
                | Some _ =>
                    if decide (swap_state swap = FromBtcLn_CANCELED)
                    then addSwap returningBalances swap else ret returningBalances
                | None => ret returningBalances
                end) ;;
             ret (lockedBalances, returningBalances)) swaps (∅ : gmap string Z, ∅ : gmap string Z)
       end ;;
  b <- match fromBtc stores with
       | None => ret b
       | Some swaps =>
           foldM (fun b swap =>
             let '(lockedBalances, returningBalances) := b in
             isCommitted <-
               (if decide (swap_state swap = FromBtc_CREATED)
                then adapter (sc_isCommited A (swap_data swap))
                else ret false) ;;
             let isCommitted :=
               if decide (swap_state swap = FromBtc_COMMITED) then true else isCommitted in
             lockedBalances <-
               (if isCommitted : bool then addSwap lockedBalances swap else ret lockedBalances) ;;
             ret (lockedBalances, returningBalances)) swaps b
       end ;;
  b <- match toBtc stores with
       | None => ret b
       | Some swaps =>
           foldM (fun b swap =>
             let '(lockedBalances, returningBalances) := b in
             if decide (swap_state swap = ToBtc_BTC_SENT) then
               returningBalances <- addSwap returningBalances swap ;;
               ret (lockedBalances, returningBalances)
             else ret b) swaps b
       end ;;
  match toBtcLn stores with
  | None => ret b
  | Some swaps =>
      foldM (fun b swap =>
        let '(lockedBalances, returningBalances) := b in
        if decide (swap_state swap = ToBtcLn_PAID) then
          returningBalances <- addSwap returningBalances swap ;;
          ret (lockedBalances, returningBalances)
        else ret b) swaps b
  end.

(** What the callback reads before it decides: the usable USDC balance,
    the BTC value of the USDC inventory, and the on-chain BTC balance. *)
Definition monitorReadings : E (Z * Z * Z) :=
  balanceUSDC <- adapter (sc_getBalance A (sc_toTokenAddress A (tokenAddresses_USDC cfg))) ;;
  let usableBalanceUSDC := balanceUSDC in
  s <- get ;;
  b <- scanSwaps (swapStores A (world s)) ;;
  let '(lockedBalances, returningBalances) := b in
  let balanceUSDC :=
    match lockedBalances !! tokenAddresses_USDC cfg with
    | Some l => balanceUSDC + l
    | None => balanceUSDC
    end in
  let balanceUSDC :=
    match returningBalances !! tokenAddresses_USDC cfg with
    | Some r => balanceUSDC + r
    | None => balanceUSDC
    end in
  balanceUSDCinBTC <-
    adapter (pricing_getToBtcSwapAmount A balanceUSDC
               (sc_toTokenAddress A (tokenAddresses_USDC cfg))) ;;
  channel_balance_mtokens <- adapter (ln_getChannelBalance A) ;;
  (* TODO: Leave out lightning for now *)
  balanceOnchain <- adapter (ln_getChainBalance A) ;;
  ret (usableBalanceUSDC, balanceUSDCinBTC, balanceOnchain).

(** [this.state = {state: null}] followed by the five assignments. *)
Definition seedJob (srcToken srcTokenAddress dstToken dstTokenAddress : string)
    (amountOut : Z) : HedgingPluginState Z :=
  set_amountOut (Some amountOut) (
  set_dstTokenAddress (Some dstTokenAddress) (
  set_dstToken (Some dstToken) (
  set_srcTokenAddress (Some srcTokenAddress) (
  set_srcToken (Some srcToken) emptyState)))).

Definition bn_div (a b : Z) : E Z :=
  match JS.BN_div a b with
  | Some q => ret q
  | None => throw (Error "Assertion failed")
  end.

(** The callback from [sumOnChainAndUSDC] on. *)
Definition rebalance (fuel : nat) (usableBalanceUSDC balanceUSDCinBTC balanceOnchain : Z)
  : E unit :=
  let sumOnChainAndUSDC := balanceUSDCinBTC + balanceOnchain in
  ppmUSDC <- bn_div (balanceUSDCinBTC * 1000000) sumOnChainAndUSDC ;;
  ppmBTC <- bn_div (balanceOnchain * 1000000) sumOnChainAndUSDC ;;
  let diffPPM := ppmUSDC - ppmBTC in
  if Z.abs diffPPM >? rebalanceThresholdPPM cfg then
    btcValueToSwap <- (
      q <- bn_div (sumOnChainAndUSDC * Z.abs diffPPM * rebalanceAmountPPM cfg) 1000000 ;;
      bn_div q 1000000) ;;
    if diffPPM <? 0 then
      (* We have more BTC *)
      modify (with_mem (Some (
        seedJob "BTC" "" "USDC" (tokenAddresses_USDC cfg) btcValueToSwap))) ;;;
      setState fuel (Some TRIGGERED)
    else
      (* We have more USDC *)
      usdcAmount <- adapter (pricing_getFromBtcSwapAmount A btcValueToSwap
                               (tokenAddresses_USDC cfg) false) ;;
      if usdcAmount >? usableBalanceUSDC then ret tt
      else
        modify (with_mem (Some (
          seedJob "USDC" (tokenAddresses_USDC cfg) "BTC" "" usdcAmount))) ;;;
        setState fuel (Some TRIGGERED)
  else ret tt.

(** [this.state!=null && this.state.state!=null &&
     this.state.state!==RebalancingState.IDLE] *)
Definition jobRunning (s : Sys W) : bool :=
  match mem s with
  | Some d =>
      match state d with
      | Some st => negb (stateIndex st =? stateIndex IDLE)
      | None => false
      end
  | None => false
  end.

Definition balanceMonitor (fuel : nat) : E unit :=
  s <- get ;;
  if jobRunning s then ret tt
  else
    r <- monitorReadings ;;
    let '(usableBalanceUSDC, balanceUSDCinBTC, balanceOnchain) := r in
    rebalance fuel usableBalanceUSDC balanceUSDCinBTC balanceOnchain.

(** ** The supervisor *)

(** One run of the function [runSwapStateChecker] schedules: [check]
    with its error logged. *)
Definition tick (fuel : nat) : E unit :=
  try_catch (check fuel) (fun _ => ret tt).

Definition advance (dt : Z) : E unit :=
  modify (fun s => with_clock (clock s + dt) s).

(** [n] runs, [checkInterval] apart. *)
Fixpoint runSwapStateChecker (n fuel : nat) : E unit :=
  match n with
  | O => ret tt
  | S k => tick fuel ;;; advance checkInterval ;;; runSwapStateChecker k fuel
  end.

(** [onEnable] up to the checker: the state is loaded from the disk and
    the chain addresses are listed. *)
Definition onEnable (n fuel : nat) : E unit :=
  loadState ;;;
  resp <- adapter (ln_getChainAddresses A) ;;
  addrObj <- nonNull (List.find (fun addr => negb (is_change addr)) resp) ;;
  runSwapStateChecker n fuel.

(** ** The life of one job *)

(** What happens while a job runs: a run of the state checker, the
    passing of time, the replacement of a transaction announced by the swap
    contract, and a change of the world outside the plugin. An error of a
    callback is left to the runtime. *)
Inductive Event :=
  | Tick
  | Wait (dt : Z)
  | Replaced (oldTx oldTxId newTx newTxId : string)
  | Outside (change : W -> W).

Definition deliver (fuel : nat) (e : Event) : E unit :=
  match e with
  | Tick => tick fuel
  | Wait dt => advance dt
  | Replaced oldTx oldTxId newTx newTxId =>
      try_catch (onBeforeTxReplace oldTx oldTxId newTx newTxId) (fun _ => ret tt)
  | Outside change => modify (fun s => with_world (change (world s)) s)
  end.

(** The job is started the way [rebalance] starts it, with the seeded
    document [job]; then the events are delivered in turn, each when the
    one before has ended. *)
Definition jobLife (fuel : nat) (job : HedgingPluginState Z) (events : list Event)
  : E unit :=
  try_catch (modify (with_mem (Some job)) ;;; setState fuel (Some TRIGGERED))
            (fun _ => ret tt) ;;;
  forEach events (deliver fuel).

(** ** Runs that overlap

    [jobLife] delivers its events one after the other: a run of [check] has
    ended when the next event is delivered. Nothing in the source makes it
    so. The callback of [setInterval] (the balance monitor) and the
    [setTimeout] chain of the checker share [this.state] and take no lock,
    and [setState] assigns the state before its first [await], so the timer
    of the checker can fire while a run started by the monitor waits for an
    answer. *)

(** The body of TRIGGERED for a smart-chain source, from the answer of
    [txsWithdraw] on. *)
Definition afterTxsWithdraw (recheck : E unit) (withdrawTxs : list string) : E bool :=
  update (set_scWithdrawTxs (Some [])) ;;;
  sendAndConfirm withdrawTxs (fun txId rawTx =>
    (* Save the rawTx *)
    d <- getState ;;
    m <- nonNull (scWithdrawTxs d) ;;
    update (set_scWithdrawTxs (Some (obj_set txId rawTx m))) ;;;
    setCooldown ;;;
    setStateWith recheck (Some SC_WITHDRAWING)) ;;;
  ret true.

(** A run of the monitor that the checker overtakes. The monitor seeds a
    job with a smart-chain source and calls [setState(TRIGGERED)]; the
    [check] that ends it enters the body of TRIGGERED (the state was just
    set, the seeded document has no cooldown) and awaits [txsWithdraw].
    While the answer is awaited, the events [meanwhile] are delivered: the
    timer of the checker fires, time passes. Then the run of the monitor goes
    on, with the answer it was given and on the document as it is by then. *)
Definition overlappedMonitor (fuel : nat) (job : HedgingPluginState Z)
    (meanwhile : list Event) : E unit :=
  modify (with_mem (Some job)) ;;;
  setStateWith (
    d <- getState ;;
    withdrawTxs <- adapter (sc_txsWithdraw A (srcTokenAddress d) (amountOut d)) ;;
    forEach meanwhile (deliver fuel) ;;;
    afterTxsWithdraw (check fuel) withdrawTxs ;;;
    ret tt) (Some TRIGGERED).

(** A new process on the disk and the world the dead one left. *)
Definition reboot (s : Sys W) : Sys W :=
  {| mem := None; disk := disk s; archived := archived s; clock := clock s;
     world := world s; transitions := transitions s; crashAfter := None |}.

(** What is left of an outcome when the process is gone. *)
Definition final {R} (o : Outcome (Sys W) R) : option (Sys W) :=
  match o with
  | Ret _ s | Throw _ s | Crash s => Some s
  | OutOfFuel => None
  end.

End Engine.

End Hedging.

(* ===================================================================== *)
(** * A simulated world *)
(* ===================================================================== *)

(** Collaborators that accept everything: the exchange credits a deposit
    once a payment was sent, fills every order it received, and completes
    every transfer and withdrawal it was asked for; the Lightning node knows
    the payments it made; the chains know the transactions that were
    broadcast. It is the adapter script of the end-to-end scenarios. *)
Module Sim.
Import Hedging.

Record World := {
  ln_paid : list string;          (* invoices paid by the node *)
  btc_sent : list string;         (* Bitcoin transactions broadcast *)
  sc_sent : list string;          (* smart-chain transactions broadcast *)
  okx_orders : list string;       (* client order ids the exchange has seen *)
  okx_transfers : list string;    (* client transfer ids *)
  okx_withdrawals : list string;  (* client withdrawal ids *)
  unlocked : list string;         (* lock ids released *)
  rng : nat;                      (* how many random ids were drawn *)
  okx_down : bool                 (* the exchange answers with an error code *)
}.

Definition world0 : World :=
  {| ln_paid := []; btc_sent := []; sc_sent := []; okx_orders := [];
     okx_transfers := []; okx_withdrawals := []; unlocked := []; rng := 0;
     okx_down := false |}.

Definition worldDown : World :=
  {| ln_paid := []; btc_sent := []; sc_sent := []; okx_orders := [];
     okx_transfers := []; okx_withdrawals := []; unlocked := []; rng := 0;
     okx_down := true |}.

Definition pay (x : string) (w : World) : World :=
  {| ln_paid := x :: ln_paid w; btc_sent := btc_sent w; sc_sent := sc_sent w;
     okx_orders := okx_orders w; okx_transfers := okx_transfers w;
     okx_withdrawals := okx_withdrawals w; unlocked := unlocked w; rng := rng w;
     okx_down := okx_down w |}.
Definition sendBtc (x : string) (w : World) : World :=
  {| ln_paid := ln_paid w; btc_sent := x :: btc_sent w; sc_sent := sc_sent w;
     okx_orders := okx_orders w; okx_transfers := okx_transfers w;
     okx_withdrawals := okx_withdrawals w; unlocked := unlocked w; rng := rng w;
     okx_down := okx_down w |}.
Definition sendSc (x : string) (w : World) : World :=
  {| ln_paid := ln_paid w; btc_sent := btc_sent w; sc_sent := x :: sc_sent w;
     okx_orders := okx_orders w; okx_transfers := okx_transfers w;
     okx_withdrawals := okx_withdrawals w; unlocked := unlocked w; rng := rng w;
     okx_down := okx_down w |}.
Definition order (x : string) (w : World) : World :=
  {| ln_paid := ln_paid w; btc_sent := btc_sent w; sc_sent := sc_sent w;
     okx_orders := x :: okx_orders w; okx_transfers := okx_transfers w;
     okx_withdrawals := okx_withdrawals w; unlocked := unlocked w; rng := rng w;
     okx_down := okx_down w |}.
Definition transfer (x : string) (w : World) : World :=
  {| ln_paid := ln_paid w; btc_sent := btc_sent w; sc_sent := sc_sent w;
     okx_orders := okx_orders w; okx_transfers := x :: okx_transfers w;
     okx_withdrawals := okx_withdrawals w; unlocked := unlocked w; rng := rng w;
     okx_down := okx_down w |}.
Definition requestWithdrawal (x : string) (w : World) : World :=
  {| ln_paid := ln_paid w; btc_sent := btc_sent w; sc_sent := sc_sent w;
     okx_orders := okx_orders w; okx_transfers := okx_transfers w;
     okx_withdrawals := x :: okx_withdrawals w; unlocked := unlocked w; rng := rng w;
     okx_down := okx_down w |}.
Definition unlock (x : string) (w : World) : World :=
  {| ln_paid := ln_paid w; btc_sent := btc_sent w; sc_sent := sc_sent w;
     okx_orders := okx_orders w; okx_transfers := okx_transfers w;
     okx_withdrawals := okx_withdrawals w; unlocked := x :: unlocked w; rng := rng w;
     okx_down := okx_down w |}.
Definition draw (w : World) : World :=
  {| ln_paid := ln_paid w; btc_sent := btc_sent w; sc_sent := sc_sent w;
     okx_orders := okx_orders w; okx_transfers := okx_transfers w;
     okx_withdrawals := okx_withdrawals w; unlocked := unlocked w; rng := S (rng w);
     okx_down := okx_down w |}.

Definition mem_str (x : string) (l : list string) : bool :=
  existsb (String.eqb x) l.

Definition ok {R} (r : R) : Call World R := fun w => (inr r, w).

(** A call of the exchange: error 50001 while it is down. *)
Definition okx {R} (c : Call World R) : Call World R := fun w =>
  if okx_down w then (inl (OKXError "50001"), w) else c w.

Definition simAdapters : Adapters World := {|
  okx_getDepositAddress := fun currency chain amount =>
    okx (if opt_is currency "BTC-LN" then ok (Some "lnbc1deposit")
         else if opt_is currency "BTC" then ok (Some "bc1qdeposit")
         else ok (Some "0xdeposit"));
  okx_getDeposit := fun txId =>
    okx (fun w =>
      match ln_paid w, btc_sent w, sc_sent w with
      | [], [], [] => (inr None, w)
      | _, _, _ => (inr (Some {| dep_state := "2"; depId := Some "D" |}), w)
      end);
  okx_marketTrade := fun src dst amount clientOrderId =>
    okx (fun w => (inr "O", order clientOrderId w));
  okx_getTrade := fun src dst clientOrderId =>
    okx (fun w =>
      match clientOrderId with
      | Some i =>
          if mem_str i (okx_orders w)
          then (inr {| averagePrice := Some "24.5"; trade_state := "filled";
                       trade_orderId := Some "O" |}, w)
          else (inl (OKXError "51603"), w)
      | None => (inl (OKXError "51603"), w)
      end);
  okx_getBalance := fun currency => okx (ok 20000000);
  okx_fundsTransfer := fun currency fromAcc toAcc amount transferId =>
    okx (fun w => (inr "T", transfer transferId w));
  okx_getFundsTransfer := fun transferId =>
    okx (fun w =>
      match transferId with
      | Some i =>
          if mem_str i (okx_transfers w)
          then (inr (Some {| tr_state := "success"; transId := Some "T" |}), w)
          else (inr None, w)
      | None => (inr None, w)
      end);
  okx_getWithdrawalFee := fun currency chain amount => okx (ok 1000);
  okx_withdraw := fun currency chain address withdrawalId fee amount =>
    okx (fun w => (inr tt, requestWithdrawal withdrawalId w));
  okx_getWithdrawal := fun withdrawalId =>
    okx (fun w =>
      match withdrawalId with
      | Some i =>
          if mem_str i (okx_withdrawals w)
          then (inr (Some {| wd_state := "2"; txId := Some "T_in" |}), w)
          else (inr None, w)
      | None => (inr None, w)
      end);
  ln_pay := fun request w => (inr tt, pay request w);
  ln_fundPsbt := fun address tokens =>
    ok {| psbt := "psbt";
          inputs := [{| lock_id := "lock"; transaction_id := "utxo"; transaction_vout := 0 |}] |};
  ln_unlockUtxo := fun u w => (inr tt, unlock (lock_id u) w);
  ln_signPsbt := fun psbt => ok "signedtx";
  ln_broadcastChainTransaction := fun transaction w => (inr tt, sendBtc transaction w);
  ln_getPayment := fun id w =>
    if opt_is id "hash1" && mem_str "lnbc1deposit" (ln_paid w)
    then (inr {| pay_is_confirmed := true; is_failed := false |}, w)
    else (inl (Error "SentPaymentNotFound"), w);
  ln_getChainAddresses := ok [{| address := "bc1qown"; is_change := false |}];
  ln_createInvoice := fun mtokens => ok "lnbc1own";
  ln_getInvoice := fun id => ok {| inv_is_confirmed := true; is_canceled := false |};
  ln_getChannelBalance := ok 0;
  ln_getChainBalance := ok 3000000;
  btc_getTransaction := fun txId w =>
    if opt_is txId "T_out" then
      (inr (if mem_str "signedtx" (btc_sent w) then Some 1 else None), w)
    else if opt_is txId "T_in" then (inr (Some 1), w)
    else (inr None, w);
  sc_txsWithdraw := fun token amount => ok ["withdraw"];
  sc_txsTransfer := fun token amount dst => ok ["transfer"];
  sc_txsDeposit := fun token amount => ok ["deposit"];
  sc_sign := fun tx => ok ("id:" +:+ tx, "raw:" +:+ tx);
  sc_broadcast := fun rawTx w => (inr tt, sendSc rawTx w);
  sc_getTxStatus := fun rawTx w =>
    (inr (if mem_str rawTx (sc_sent w) then success else not_found), w);
  sc_getTxIdStatus := fun txId => ok success;
  sc_getBalance := fun token => ok 50000000;
  sc_isCommited := fun data => ok true;
  sc_getAddress := fun w => "0xown";
  sc_toTokenAddress := fun a => a;
  pricing_getToBtcSwapAmount := fun amount token => ok (amount / 25);
  pricing_getFromBtcSwapAmount := fun amount token roundUp => ok (amount * 25);
  swapStores := fun w =>
    {| fromBtcLn := None; fromBtc := None; toBtc := None; toBtcLn := None |};
  bolt11_payment_hash := fun pr =>
    if String.eqb pr "lnbc1deposit" then Some "hash1" else None;
  bitcoin_txId := fun transaction =>
    if String.eqb transaction "signedtx" then Some "T_out" else None;
  randomBytes16 := fun w => (String (ascii_of_nat (97 + rng w)) "", draw w)
|}.

Definition simConfig : Config :=
  {| tokenAddresses_USDC := "0xusdc"; okxSmartChainName := "Polygon";
     rebalanceThresholdPPM := 100000; rebalanceAmountPPM := 500000 |}.

(** A plugin with the given job in memory, nothing on the disk, at time
    [1000000]. *)
Definition startWith (job : option (HedgingPluginState Z)) (w : World)
    (crash : option nat) : Sys World :=
  {| mem := job; disk := None; archived := []; clock := 1000000; world := w;
     transitions := []; crashAfter := crash |}.

(** The job of scenario S2: 100000 sats over Lightning into USDC. *)
Definition lnJob : HedgingPluginState Z :=
  seedJob "BTC-LN" "" "USDC" "0xusdc" 100000.
(** The job of scenario S1: 100000 sats on chain into USDC. *)
Definition btcJob : HedgingPluginState Z :=
  seedJob "BTC" "" "USDC" "0xusdc" 100000.
(** The job of scenario S3: USDC into on-chain BTC. *)
Definition usdcJob : HedgingPluginState Z :=
  seedJob "USDC" "0xusdc" "BTC" "" 25000000.

(** The on-chain job once its transaction is signed and recorded, the
    transaction not broadcast. *)
Definition btcJobOutTx : HedgingPluginState Z :=
  set_state (Some OUT_TX) (set_outTxs (Some [("T_out", "signedtx")]) btcJob).

(** Scenario S4: a smart-chain job in OUT_TX with the candidate [t1]. *)
Definition usdcJobOutTx : HedgingPluginState Z :=
  set_state (Some OUT_TX) (set_outTxs (Some [("t1", "raw1")]) usdcJob).

(** A smart-chain job whose withdrawal from the contract has succeeded. *)
Definition usdcJobWithdrawn : HedgingPluginState Z :=
  set_state (Some SC_WITHDRAWING) (
  set_scWithdrawTxId (Some "id:withdraw") (
  set_scWithdrawTxs (Some [("id:withdraw", "raw:withdraw")]) usdcJob)).

(** The job is triggered, then the checker runs [n] times. *)
Definition runJob (job : HedgingPluginState Z) (crash : option nat) (n : nat)
  : Outcome (Sys World) unit :=
  bind (setState simAdapters simConfig 40 (Some TRIGGERED))
       (fun _ => bind (advance checkInterval)
                      (fun _ => runSwapStateChecker simAdapters simConfig n 40))
       (startWith (Some job) world0 crash).

(** The process is started again on what a dead one left and the checker
    runs [n] times. *)
Definition resume (o : Outcome (Sys World) unit) (n : nat) : Outcome (Sys World) unit :=
  match o with
  | Crash s => onEnable simAdapters simConfig n 40 (reboot s)
  | o => o
  end.

(** The job state on the disk and the number of archived jobs. *)
Definition summary (o : Outcome (Sys World) unit)
  : option (option (option RebalancingState) * nat) :=
  match final o with
  | Some s => Some (state <$> disk s, List.length (archived s))
  | None => None
  end.

(** What is left of the job at the end of a run without a crash. *)
Definition crashFree (job : HedgingPluginState Z)
  : option (option (option RebalancingState) * nat) :=
  summary (runJob job None 40).

(** What is left of the job when the process dies at its [k]-th effect (an
    adapter call or a file operation, counted from 0) and is started
    again. *)
Definition restarted (job : HedgingPluginState Z) (k : nat)
  : option (option (option RebalancingState) * nat) :=
  summary (resume (runJob job (Some k) 40) 30).

(** The outcomes of the crash points of a job: the job is lost when the
    process dies at the first write; it is given up in IDLE at [giveUp];
    it is archived twice at [twice]; it is archived once, as without a
    crash, everywhere else. *)
Definition expected (giveUp twice k : nat)
  : option (option (option RebalancingState) * nat) :=
  if (k =? 0)%nat then Some (None, 0%nat)
  else if (k =? giveUp)%nat then Some (Some (Some IDLE), 0%nat)
  else if (k =? twice)%nat then Some (None, 2%nat)
  else Some (None, 1%nat).

Definition crashPoints (job : HedgingPluginState Z) (giveUp twice n : nat) : bool :=
  forallb (fun k => bool_decide (restarted job k = expected giveUp twice k)) (seq 0 n).

(** Does the process die? *)
Definition dies (o : Outcome (Sys World) unit) : bool :=
  match o with Crash _ => true | _ => false end.

(** The checker runs [n] times, [checkInterval] apart. *)
Fixpoint ticks (n : nat) : list (@Event World) :=
  match n with
  | O => []
  | S k => Wait checkInterval :: Tick :: ticks k
  end.

(** The exchange forgets the orders it was given. *)
Definition loseOrders (w : World) : World :=
  {| ln_paid := ln_paid w; btc_sent := btc_sent w; sc_sent := sc_sent w;
     okx_orders := []; okx_transfers := okx_transfers w;
     okx_withdrawals := okx_withdrawals w; unlocked := unlocked w; rng := rng w;
     okx_down := okx_down w |}.

(** Swaps of the intermediary: in USDC, 7000000 and 2000000 locked in the
    contract, 1000000, 3000000 and 4000000 on their way back, and 9000000
    in a swap that is neither; in another token, 600 locked. *)
Definition usdcSwaps : SwapStores :=
  let swap st token amount :=
    {| swap_state := st;
       swap_data := Some {| getToken := token; getAmount := amount |} |} in
  {| fromBtcLn := Some [swap FromBtcLn_COMMITED "0xusdc" 7000000;
                        swap FromBtcLn_CANCELED "0xusdc" 1000000;
                        swap FromBtcLn_RECEIVED "0xeth" 600];
     fromBtc := Some [swap FromBtc_CREATED "0xusdc" 2000000];
     toBtc := Some [swap ToBtc_BTC_SENT "0xusdc" 3000000;
                    swap OtherSwapState "0xusdc" 9000000];
     toBtcLn := Some [swap ToBtcLn_PAID "0xusdc" 4000000] |}.

End Sim.

(* ===================================================================== *)
(** * Statements of the specification *)
(* ===================================================================== *)

Module Spec.

Definition isDigit (c : ascii) : bool :=
  let n := Z.of_N (N_of_ascii c) in (48 <=? n) && (n <=? 57).

(** A decimal numeral for a non-negative integer: digits, at least one,
    and no zero in front of another digit. *)
Definition isNumeral (s : JS.chars) : bool :=
  match s with
  | [] => false
  | c :: r =>
      forallb isDigit s
      && (negb (Ascii.eqb c "0") || match r with [] => true | _ => false end)
  end.

(** A decimal string with at most [d] fractional digits: a numeral,
    alone or followed by a point and at most [d] digits. *)
Definition isDecimalString (s : string) (d : Z) : bool :=
  match JS.split "." (JS.str s) with
  | [whole] => isNumeral whole
  | [whole; frac] =>
      isNumeral whole && forallb isDigit frac && (JS.length frac <=? d)
  | _ => false
  end.

(** The normalization of a decimal string: its fractional part padded on
    the right with zeros to exactly [d] digits. *)
Definition normalized (s : string) (d : Z) : string :=
  match JS.split "." (JS.str s) with
  | whole :: frac :: _ => JS.unstr (whole ++ "."%char :: JS.padEnd frac d "0")
  | whole :: [] => JS.unstr (whole ++ "."%char :: JS.padEnd [] d "0")
  | [] => s
  end.

(** The trading-pair involution at one pair of currencies: the same
    instrument in both directions, and buy flags that are complements. *)
Definition pairInvolution (getTradingPair : string -> string -> TradingPair)
    (src dst : string) : Prop :=
  tradingPair (getTradingPair src dst) = tradingPair (getTradingPair dst src)
  /\ exists b, buy (getTradingPair src dst) = Some b
               /\ buy (getTradingPair dst src) = Some (negb b).

(** The candidate map of the state the job is in: [scWithdrawTxs] in
    SC_WITHDRAWING, [outTxs] in OUT_TX, [scDepositTxs] in SC_DEPOSITING. *)
Definition candidates (d : Hedging.HedgingPluginState Z) : option Hedging.TxMap :=
match Hedging.state d with
| Some Hedging.SC_WITHDRAWING => Hedging.scWithdrawTxs d
| Some Hedging.OUT_TX => Hedging.outTxs d
| Some Hedging.SC_DEPOSITING => Hedging.scDepositTxs d
| _ => None
end.

(** The three candidate maps of a document. *)
Definition maps (d : Hedging.HedgingPluginState Z)
  : option Hedging.TxMap * option Hedging.TxMap * option Hedging.TxMap :=
(Hedging.scWithdrawTxs d, Hedging.outTxs d, Hedging.scDepositTxs d).

(** The first required field of [st] that is null in [d]. *)
Definition missingField (d : Hedging.HedgingPluginState Z) (st : Hedging.RebalancingState)
  : option string :=
List.find (Hedging.isNullField d) (Hedging.REQUIRED_FIELDS st).

(** What C4 says of one call of [setState]: it returns, every required
    field having been found non-null, or it throws with the state field and
    the disk as they were. *)
Definition setStateAtomic {W} (before : Hedging.Sys W) (st : Hedging.RebalancingState)
    (o : Outcome (Hedging.Sys W) unit) : Prop :=
match o with
| Ret _ s' =>
    exists d, Hedging.mem before = Some d /\ missingField d st = None
| Throw _ s' =>
    Hedging.state <$> Hedging.mem s' = Hedging.state <$> Hedging.mem before
    /\ Hedging.disk s' = Hedging.disk before
| Crash _ | OutOfFuel => True
end.

(** ** Transition logs *)

Definition Log := list (option Hedging.RebalancingState * Hedging.RebalancingState).

(** The transitions the engine makes: the index does not decrease, or
    the job enters or leaves RETRYING, or it is given up for IDLE before
    funds have left (from TRIGGERED, SC_WITHDRAWING or OUT_TX). *)
Definition allowed (old : option Hedging.RebalancingState) (new : Hedging.RebalancingState)
  : bool :=
match old with
| None => true
| Some o =>
    (Hedging.stateIndex o <=? Hedging.stateIndex new)
    || (Hedging.stateIndex new =? Hedging.stateIndex Hedging.RETRYING)
    || (Hedging.stateIndex o =? Hedging.stateIndex Hedging.RETRYING)
    || ((Hedging.stateIndex new =? Hedging.stateIndex Hedging.IDLE)
        && ((Hedging.stateIndex o =? Hedging.stateIndex Hedging.TRIGGERED)
            || (Hedging.stateIndex o =? Hedging.stateIndex Hedging.SC_WITHDRAWING)
            || (Hedging.stateIndex o =? Hedging.stateIndex Hedging.OUT_TX)))
end.

(** What the specification allows: the index does not decrease, or the
    job leaves RETRYING. *)
Definition monotone (old : option Hedging.RebalancingState) (new : Hedging.RebalancingState)
  : bool :=
match old with
| None => true
| Some o =>
    (Hedging.stateIndex o <=? Hedging.stateIndex new)
    || (Hedging.stateIndex o =? Hedging.stateIndex Hedging.RETRYING)
end.

(** The log of [s] is [t0] followed by allowed transitions. *)
Definition Logged {W} (t0 : Log) (s : Hedging.Sys W) : Prop :=
exists new, Hedging.transitions s = new ++ t0
            /\ Forall (fun p => allowed (fst p) (snd p) = true) new.

Definition sameState (a b : Hedging.RebalancingState) : bool :=
Hedging.stateIndex a =? Hedging.stateIndex b.

(** Was [st] entered by a transition of the log? *)
Definition visited (log : Log) (st : Hedging.RebalancingState) : bool :=
existsb (fun p => sameState (snd p) st) log.

(** Every exit from RETRYING in the log (latest first) enters a state that
    an earlier transition entered. *)
Fixpoint wormholes (log : Log) : bool :=
match log with
| [] => true
| (old, new) :: earlier =>
    match old with
    | Some o => if sameState o Hedging.RETRYING then visited earlier new else true
    | None => true
    end && wormholes earlier
end.

(** The only state from which the handlers enter [st], when there is one. *)
Definition enteredFrom (st : Hedging.RebalancingState) : option Hedging.RebalancingState :=
match st with
| Hedging.TRADE_EXECUTING => Some Hedging.DEPOSIT_RECEIVED
| Hedging.FUNDS_TRANSFERING => Some Hedging.TRADE_EXECUTED
| Hedging.WITHDRAWING => Some Hedging.FUNDS_TRANSFERED
| Hedging.WITHDRAWAL_SENT => Some Hedging.WITHDRAWING
| Hedging.SC_DEPOSITING => Some Hedging.IN_TX_CONFIRMED
| _ => None
end.

(** [this.state.srcToken==="BTC" || this.state.srcToken==="BTC-LN"] *)
Definition btcLike (d : Hedging.HedgingPluginState Z) : bool :=
Hedging.opt_is (Hedging.srcToken d) "BTC" || Hedging.opt_is (Hedging.srcToken d) "BTC-LN".

Definition closedLog (log : Log) : Prop :=
forall st p, enteredFrom st = Some p -> visited log st = true -> visited log p = true.

(** The document of a job agrees with the log of the job. *)
Definition docOK (log : Log) (d : Hedging.HedgingPluginState Z) : Prop :=
match Hedging.state d with
| None => True
| Some st =>
    visited log st = true
    /\ (st = Hedging.OUT_TX -> btcLike d = false ->
        visited log Hedging.SC_WITHDRAWAL_CONFIRMED = true)
    /\ (st = Hedging.RETRYING ->
        exists r, Hedging.retryState d = Some r /\ visited log r = true
                  /\ r <> Hedging.OUT_TX)
end.

(** The transitions logged since [t0] are those of one job: every exit
    from RETRYING re-enters a visited state, the states of [known] are
    visited, and the document in memory agrees with the log. *)
Definition Traced {W} (known : list Hedging.RebalancingState) (t0 : Log)
    (s : Hedging.Sys W) : Prop :=
exists new, Hedging.transitions s = new ++ t0 /\ wormholes new = true /\ closedLog new
  /\ (forall x, In x known -> visited new x = true)
  /\ match Hedging.mem s with Some d => docOK new d | None => True end.

Definition Wormholed {W} (t0 : Log) (s : Hedging.Sys W) : Prop :=
exists new, Hedging.transitions s = new ++ t0 /\ wormholes new = true.

(** May the handler of state [h] move to [n], with [retryState = r'] in
    the document it leaves? *)
Definition stepOK (btc : bool) (h n : Hedging.RebalancingState)
    (r' : option Hedging.RebalancingState) : bool :=
negb (sameState h Hedging.RETRYING)
&& match enteredFrom n with
   | Some p => sameState p h || sameState n h
   | None => true
   end
&& (if sameState n Hedging.OUT_TX
    then btc || sameState h Hedging.SC_WITHDRAWAL_CONFIRMED || sameState h Hedging.OUT_TX
    else true)
&& (if sameState n Hedging.RETRYING
    then match r' with
         | Some t =>
             negb (sameState t Hedging.OUT_TX)
             && (sameState t h
                 || match enteredFrom h with Some p => sameState p t | None => false end
                 || (sameState h Hedging.OUT_TX && negb btc
                     && sameState t Hedging.SC_WITHDRAWAL_CONFIRMED))
         | None => false
         end
    else true).

(** ** The depth of the recursion of [check] *)

(** How many nested runs of [check] the handler of [st] starts at most:
    one for each state of a higher index. *)
Definition stateDepth (st : Hedging.RebalancingState) : nat :=
match st with
| Hedging.RETRYING | Hedging.IDLE => 1
| Hedging.TRIGGERED => 17
| Hedging.SC_WITHDRAWING => 16
| Hedging.SC_WITHDRAWAL_CONFIRMED => 15
| Hedging.OUT_TX => 14
| Hedging.OUT_TX_CONFIRMED => 13
| Hedging.DEPOSIT_RECEIVED => 12
| Hedging.TRADE_EXECUTING => 11
| Hedging.TRADE_EXECUTED => 10
| Hedging.FUNDS_TRANSFERING => 9
| Hedging.FUNDS_TRANSFERED => 8
| Hedging.WITHDRAWING => 7
| Hedging.WITHDRAWAL_SENT => 6
| Hedging.IN_TX_CONFIRMED => 5
| Hedging.SC_DEPOSITING => 4
| Hedging.SC_DEPOSITED => 3
| Hedging.FINISHED => 2
end%nat.

(** The same for a document at time [now]: a job in RETRYING whose time
    has come goes on from its retry state. *)
Definition depth (now : Z) (d : Hedging.HedgingPluginState Z) : nat :=
match Hedging.state d with
| None => 1
| Some Hedging.RETRYING =>
    if Hedging.opt_lt (Hedging.retryAt d) now
    then match Hedging.retryState d with
         | Some r => S (stateDepth r)
         | None => 1
         end
    else 1
| Some st => stateDepth st
end%nat.

(** [fuel] covers the run of [check] from [s] at time [c]; the retry state
    is never RETRYING itself. *)
Definition Fueled {W} (fuel : nat) (c : Z) (s : Hedging.Sys W) : Prop :=
Hedging.clock s = c
/\ match Hedging.mem s with
   | Some d => Hedging.retryState d <> Some Hedging.RETRYING /\ (depth c d <= fuel)%nat
   | None => (1 <= fuel)%nat
   end.

(** The retry state of the document in memory is not RETRYING. *)
Definition retryTargetOK {W} (s : Hedging.Sys W) : Prop :=
match Hedging.mem s with
| Some d => Hedging.retryState d <> Some Hedging.RETRYING
| None => True
end.

(** What the monotone-progress property asks of the transitions [new] of a
    job, latest first. *)
Definition progress (new : Log) : Prop :=
Forall (fun p => allowed (fst p) (snd p) = true) new /\ wormholes new = true.

(** ** Decimal strings and trading pairs *)

(** The number a string of decimal digits denotes. *)
Definition digitsValue (s : JS.chars) : Z :=
fold_left (fun acc c => acc * 10 + (Z.of_N (N_of_ascii c) - 48)) s 0.

(** The asset a currency is traded as: Lightning bitcoin is bitcoin. *)
Definition tradedAs (c : string) : string :=
if String.eqb c "BTC-LN" then "BTC" else c.

(** The currencies traded against bitcoin. *)
Definition counterparts : list string := ["USDC"; "USDT"; "ETH"; "SOL"].

Definition inList (c : string) (l : list string) : bool := existsb (String.eqb c) l.

(** The entry of a chain in the answer of the OKX currencies request. *)
Definition chainEntry (chain : string) (canWd : bool) (maxFee : string)
    (other : list (string * json)) : json :=
JObj (("chain", JStr chain) :: ("canWd", JBool canWd) :: ("maxFee", JStr maxFee) :: other)%string.

(* ---- the confirmation scans, the funding inputs, the order poll, the swaps ---- *)
(** ** The confirmation scans *)

(** The first candidate, in the order of the map, whose transaction has
    succeeded. *)
Definition firstConfirmed (status : string -> Hedging.TxStatus) (m : Hedging.TxMap)
  : option string :=
fst <$> List.find (fun e => match status (snd e) with Hedging.success => true | _ => false end) m.

Definition somePending (status : string -> Hedging.TxStatus) (m : Hedging.TxMap) : bool :=
existsb (fun e => match status (snd e) with Hedging.pending => true | _ => false end) m.

Definition someFailed (status : string -> Hedging.TxStatus) (m : Hedging.TxMap) : bool :=
existsb (fun e => match status (snd e) with
                  | Hedging.not_found | Hedging.reverted => true
                  | _ => false
                  end) m.

(** The statuses of the transactions do not depend on when they are asked
    for, and asking changes nothing. *)
Definition statusOracle {W} (A : Hedging.Adapters W) (status : string -> Hedging.TxStatus)
    (s : Hedging.Sys W) : Prop :=
forall raw, Hedging.sc_getTxStatus A raw (Hedging.world s) = (inr (status raw), Hedging.world s).

(** The three states that scan a map of candidates, with the map. *)
Definition scanning (d : Hedging.HedgingPluginState Z) (m : Hedging.TxMap) : Prop :=
(Hedging.state d = Some Hedging.SC_WITHDRAWING /\ Hedging.scWithdrawTxs d = Some m)
\/ (Hedging.state d = Some Hedging.OUT_TX /\ Hedging.outTxs d = Some m
    /\ Hedging.opt_is (Hedging.srcToken d) "BTC" = false
    /\ Hedging.opt_is (Hedging.srcToken d) "BTC-LN" = false)
\/ (Hedging.state d = Some Hedging.SC_DEPOSITING
    /\ default [] (Hedging.scDepositTxs d) = m).

(** ** The funding inputs of an on-chain payment *)

(** The inputs are unlocked in turn, up to the first one whose unlocking
    fails. *)
Fixpoint unlockAll {W} (A : Hedging.Adapters W) (inputs : list Hedging.Utxo) (w : W)
  : option Exn * W :=
match inputs with
| [] => (None, w)
| input :: r =>
    match Hedging.ln_unlockUtxo A input w with
    | (inl e, w') => (Some e, w')
    | (inr _, w') => unlockAll A r w'
    end
end.

(** The adapters [A] with another [signPsbt]. *)
Definition withSignPsbt {W} (sign : string -> Hedging.Call W string) (A : Hedging.Adapters W)
  : Hedging.Adapters W :=
{| Hedging.okx_getDepositAddress := Hedging.okx_getDepositAddress A;
   Hedging.okx_getDeposit := Hedging.okx_getDeposit A;
   Hedging.okx_marketTrade := Hedging.okx_marketTrade A;
   Hedging.okx_getTrade := Hedging.okx_getTrade A;
   Hedging.okx_getBalance := Hedging.okx_getBalance A;
   Hedging.okx_fundsTransfer := Hedging.okx_fundsTransfer A;
   Hedging.okx_getFundsTransfer := Hedging.okx_getFundsTransfer A;
   Hedging.okx_getWithdrawalFee := Hedging.okx_getWithdrawalFee A;
   Hedging.okx_withdraw := Hedging.okx_withdraw A;
   Hedging.okx_getWithdrawal := Hedging.okx_getWithdrawal A;
   Hedging.ln_pay := Hedging.ln_pay A;
   Hedging.ln_fundPsbt := Hedging.ln_fundPsbt A;
   Hedging.ln_unlockUtxo := Hedging.ln_unlockUtxo A;
   Hedging.ln_signPsbt := sign;
   Hedging.ln_broadcastChainTransaction := Hedging.ln_broadcastChainTransaction A;
   Hedging.ln_getPayment := Hedging.ln_getPayment A;
   Hedging.ln_getChainAddresses := Hedging.ln_getChainAddresses A;
   Hedging.ln_createInvoice := Hedging.ln_createInvoice A;
   Hedging.ln_getInvoice := Hedging.ln_getInvoice A;
   Hedging.ln_getChannelBalance := Hedging.ln_getChannelBalance A;
   Hedging.ln_getChainBalance := Hedging.ln_getChainBalance A;
   Hedging.btc_getTransaction := Hedging.btc_getTransaction A;
   Hedging.sc_txsWithdraw := Hedging.sc_txsWithdraw A;
   Hedging.sc_txsTransfer := Hedging.sc_txsTransfer A;
   Hedging.sc_txsDeposit := Hedging.sc_txsDeposit A;
   Hedging.sc_sign := Hedging.sc_sign A;
   Hedging.sc_broadcast := Hedging.sc_broadcast A;
   Hedging.sc_getTxStatus := Hedging.sc_getTxStatus A;
   Hedging.sc_getTxIdStatus := Hedging.sc_getTxIdStatus A;
   Hedging.sc_getBalance := Hedging.sc_getBalance A;
   Hedging.sc_isCommited := Hedging.sc_isCommited A;
   Hedging.sc_getAddress := Hedging.sc_getAddress A;
   Hedging.sc_toTokenAddress := Hedging.sc_toTokenAddress A;
   Hedging.pricing_getToBtcSwapAmount := Hedging.pricing_getToBtcSwapAmount A;
   Hedging.pricing_getFromBtcSwapAmount := Hedging.pricing_getFromBtcSwapAmount A;
   Hedging.swapStores := Hedging.swapStores A;
   Hedging.bolt11_payment_hash := Hedging.bolt11_payment_hash A;
   Hedging.bitcoin_txId := Hedging.bitcoin_txId A;
   Hedging.randomBytes16 := Hedging.randomBytes16 A |}.

(** ** The answers of the exchange to the poll of an order *)

(** The order is not there, or was canceled. *)
Definition orderGone (res : Exn + Hedging.Trade) : bool :=
match res with
| inl (OKXError errorCode) => String.eqb errorCode "52907" || String.eqb errorCode "51603"
| inl _ => false
| inr tradeData =>
    String.eqb (Hedging.trade_state tradeData) "canceled"
    || String.eqb (Hedging.trade_state tradeData) "mmp_canceled"
end.

Definition orderFilled (res : Exn + Hedging.Trade) : bool :=
match res with
| inl _ => false
| inr tradeData => String.eqb (Hedging.trade_state tradeData) "filled"
end.

(** ** The balances the monitor finds in the swaps *)

(** The amounts of the swaps in [token]. *)
Definition amounts (token : string) (swaps : list Hedging.Swap) : list Z :=
flat_map (fun swap =>
            match Hedging.swap_data swap with
            | Some data =>
                if String.eqb (Hedging.getToken data) token then [Hedging.getAmount data] else []
            | None => []
            end) swaps.

(** The entry of a record of balances: absent when nothing was added. *)
Definition total (l : list Z) : option Z :=
match l with
| [] => None
| _ => Some (fold_right Z.add 0 l)
end.

Definition lockedFromBtcLn (committed : option Hedging.SwapData -> bool) (swap : Hedging.Swap)
  : bool :=
bool_decide (Hedging.swap_state swap = Hedging.FromBtcLn_RECEIVED)
  && committed (Hedging.swap_data swap)
|| bool_decide (Hedging.swap_state swap = Hedging.FromBtcLn_COMMITED).

Definition lockedFromBtc (committed : option Hedging.SwapData -> bool) (swap : Hedging.Swap)
  : bool :=
bool_decide (Hedging.swap_state swap = Hedging.FromBtc_CREATED)
  && committed (Hedging.swap_data swap)
|| bool_decide (Hedging.swap_state swap = Hedging.FromBtc_COMMITED).

Definition inSwapState (st : Hedging.SwapState) (swap : Hedging.Swap) : bool :=
bool_decide (Hedging.swap_state swap = st).

(** The swaps whose funds are locked in the contract, and the swaps whose
    funds are on their way back. *)
Definition lockedSwaps (committed : option Hedging.SwapData -> bool)
    (stores : Hedging.SwapStores) : list Hedging.Swap :=
List.filter (lockedFromBtcLn committed) (default [] (Hedging.fromBtcLn stores))
++ List.filter (lockedFromBtc committed) (default [] (Hedging.fromBtc stores)).

Definition returningSwaps (stores : Hedging.SwapStores) : list Hedging.Swap :=
List.filter (inSwapState Hedging.FromBtcLn_CANCELED) (default [] (Hedging.fromBtcLn stores))
++ List.filter (inSwapState Hedging.ToBtc_BTC_SENT) (default [] (Hedging.toBtc stores))
++ List.filter (inSwapState Hedging.ToBtcLn_PAID) (default [] (Hedging.toBtcLn stores)).

Definition allSwaps (stores : Hedging.SwapStores) : list Hedging.Swap :=
default [] (Hedging.fromBtcLn stores) ++ default [] (Hedging.fromBtc stores)
++ default [] (Hedging.toBtc stores) ++ default [] (Hedging.toBtcLn stores).

(** Whether a swap is committed does not depend on when the contract is
    asked, and asking changes nothing. *)
Definition commitOracle {W} (A : Hedging.Adapters W)
    (committed : option Hedging.SwapData -> bool) (s : Hedging.Sys W) : Prop :=
forall data, Hedging.sc_isCommited A data (Hedging.world s)
             = (inr (committed data), Hedging.world s).

(** A record of balances holds, for every token, the total of the swaps
    [l] in that token. *)
Definition tallies (m : gmap string Z) (l : list Hedging.Swap) : Prop :=
forall token, m !! token = total (amounts token l).

(** The adapters [A] with other stores of swaps and another balance of the
    Lightning channels. *)
Definition withSwaps {W} (stores : W -> Hedging.SwapStores) (channel : Hedging.Call W Z)
    (A : Hedging.Adapters W) : Hedging.Adapters W :=
{| Hedging.okx_getDepositAddress := Hedging.okx_getDepositAddress A;
   Hedging.okx_getDeposit := Hedging.okx_getDeposit A;
   Hedging.okx_marketTrade := Hedging.okx_marketTrade A;
   Hedging.okx_getTrade := Hedging.okx_getTrade A;
   Hedging.okx_getBalance := Hedging.okx_getBalance A;
   Hedging.okx_fundsTransfer := Hedging.okx_fundsTransfer A;
   Hedging.okx_getFundsTransfer := Hedging.okx_getFundsTransfer A;
   Hedging.okx_getWithdrawalFee := Hedging.okx_getWithdrawalFee A;
   Hedging.okx_withdraw := Hedging.okx_withdraw A;
   Hedging.okx_getWithdrawal := Hedging.okx_getWithdrawal A;
   Hedging.ln_pay := Hedging.ln_pay A;
   Hedging.ln_fundPsbt := Hedging.ln_fundPsbt A;
   Hedging.ln_unlockUtxo := Hedging.ln_unlockUtxo A;
   Hedging.ln_signPsbt := Hedging.ln_signPsbt A;
   Hedging.ln_broadcastChainTransaction := Hedging.ln_broadcastChainTransaction A;
   Hedging.ln_getPayment := Hedging.ln_getPayment A;
   Hedging.ln_getChainAddresses := Hedging.ln_getChainAddresses A;
   Hedging.ln_createInvoice := Hedging.ln_createInvoice A;
   Hedging.ln_getInvoice := Hedging.ln_getInvoice A;
   Hedging.ln_getChannelBalance := channel;
   Hedging.ln_getChainBalance := Hedging.ln_getChainBalance A;
   Hedging.btc_getTransaction := Hedging.btc_getTransaction A;
   Hedging.sc_txsWithdraw := Hedging.sc_txsWithdraw A;
   Hedging.sc_txsTransfer := Hedging.sc_txsTransfer A;
   Hedging.sc_txsDeposit := Hedging.sc_txsDeposit A;
   Hedging.sc_sign := Hedging.sc_sign A;
   Hedging.sc_broadcast := Hedging.sc_broadcast A;
   Hedging.sc_getTxStatus := Hedging.sc_getTxStatus A;
   Hedging.sc_getTxIdStatus := Hedging.sc_getTxIdStatus A;
   Hedging.sc_getBalance := Hedging.sc_getBalance A;
   Hedging.sc_isCommited := Hedging.sc_isCommited A;
   Hedging.sc_getAddress := Hedging.sc_getAddress A;
   Hedging.sc_toTokenAddress := Hedging.sc_toTokenAddress A;
   Hedging.pricing_getToBtcSwapAmount := Hedging.pricing_getToBtcSwapAmount A;
   Hedging.pricing_getFromBtcSwapAmount := Hedging.pricing_getFromBtcSwapAmount A;
   Hedging.swapStores := stores;
   Hedging.bolt11_payment_hash := Hedging.bolt11_payment_hash A;
   Hedging.bitcoin_txId := Hedging.bitcoin_txId A;
   Hedging.randomBytes16 := Hedging.randomBytes16 A |}.

End Spec.

(* ===================================================================== *)
(** * Properties *)
(* ===================================================================== *)

(** ** Digits: printing and parsing big integers *)

Section Digits.
Import JS Spec.

Lemma digitVal_digitChar d : 0 <= d < 16 -> digitVal (digitChar d) = Some d.
Proof.
  intros H.
  assert (d = 0 \/ d = 1 \/ d = 2 \/ d = 3 \/ d = 4 \/ d = 5 \/ d = 6 \/ d = 7 \/
          d = 8 \/ d = 9 \/ d = 10 \/ d = 11 \/ d = 12 \/ d = 13 \/ d = 14 \/ d = 15) as Hd by lia.
  repeat (destruct Hd as [-> | Hd]; [reflexivity |]). subst. reflexivity.
Qed.

Lemma digitChar_not_minus d : digitChar d <> "-"%char.
Proof. destruct d as [|p|p]; try discriminate; do 4 (try destruct p as [p|p|]); discriminate. Qed.

Lemma parse_toDigits fuel base n rest :
  2 <= base <= 16 -> 0 <= n < 2 ^ Z.of_nat fuel ->
  parseDigits base 0 (toDigits fuel base n rest) = parseDigits base n rest.
Proof.
  intros Hb. revert n rest. induction fuel as [|f IH]; intros n rest Hn.
  - simpl in *. assert (n = 0) by lia. subst. reflexivity.
  - cbn [toDigits].
    assert (Hmod : 0 <= n mod base < base) by (apply Z.mod_pos_bound; lia).
    assert (Hdm : n = base * (n / base) + n mod base) by (apply Z.div_mod; lia).
    destruct (n / base =? 0) eqn:Hq.
    + apply Z.eqb_eq in Hq. cbn [parseDigits].
      rewrite digitVal_digitChar by lia.
      destruct (n mod base <? base) eqn:Hlt; [|lia].
      f_equal. lia.
    + apply Z.eqb_neq in Hq. rewrite IH.
      * cbn [parseDigits]. rewrite digitVal_digitChar by lia.
        destruct (n mod base <? base) eqn:Hlt; [|lia].
        f_equal. lia.
      * assert (0 <= n / base) by (apply Z.div_pos; lia).
        split; [lia|].
        rewrite Nat2Z.inj_succ, Z.pow_succ_r in Hn by lia.
        apply Z.div_lt_upper_bound; [lia|]. nia.
Qed.

Lemma digitsFuel_bound n : 0 <= n -> 0 <= n < 2 ^ Z.of_nat (digitsFuel n).
Proof.
  intros Hn. split; [lia|]. unfold digitsFuel.
  rewrite Nat2Z.inj_succ, Z2Nat.id by apply Z.log2_nonneg.
  destruct (Z.eq_dec n 0) as [->|Hne]; [reflexivity|].
  apply Z.log2_spec. lia.
Qed.

Lemma toDigits_head f base n rest :
  exists d tl, toDigits (S f) base n rest = digitChar d :: tl.
Proof.
  revert n rest. induction f as [|f IH]; intros n rest.
  - simpl. destruct (n / base =? 0); eauto.
  - cbn [toDigits]. destruct (n / base =? 0); [eauto|].
    apply (IH (n / base)).
Qed.

Lemma str_unstr l : str (unstr l) = l.
Proof. apply list_ascii_of_string_of_list_ascii. Qed.

Lemma unstr_str s : unstr (str s) = s.
Proof. apply string_of_list_ascii_of_string. Qed.

Lemma BN_parse_digits base s d tl :
  s = digitChar d :: tl -> BN_parse base s = parseDigits base 0 s.
Proof.
  intros ->. unfold BN_parse.
  destruct (Ascii.eqb (digitChar d) "-") eqn:E; [|reflexivity].
  apply Ascii.eqb_eq in E. by apply digitChar_not_minus in E.
Qed.

Lemma BN_parse_toString base n :
  2 <= base <= 16 -> BN_parse base (BN_toString base n) = Some n.
Proof.
  intros Hb. unfold BN_toString.
  destruct (n <? 0) eqn:Hn.
  - apply Z.ltb_lt in Hn. cbn [BN_parse].
    rewrite parse_toDigits by (auto using digitsFuel_bound with lia).
    simpl. f_equal. lia.
  - apply Z.ltb_ge in Hn.
    destruct (toDigits_head (Z.to_nat (Z.log2 n)) base n []) as (d & tl & E).
    unfold digitsFuel. rewrite (BN_parse_digits _ _ _ _ E).
    rewrite parse_toDigits; [reflexivity|lia|].
    apply (digitsFuel_bound n Hn).
Qed.

Lemma parse_zeros base k s :
  2 <= base -> parseDigits base 0 (replicate k "0"%char ++ s) = parseDigits base 0 s.
Proof.
  intros Hb. induction k as [|k IH]; [reflexivity|].
  cbn [replicate app parseDigits]. change (digitVal "0") with (Some 0). cbv beta iota.
  destruct (0 <? base) eqn:E; [|lia]. rewrite Z.mul_0_l, Z.add_0_l. exact IH.
Qed.

Lemma BN_parse_toString_padded base padding n :
  2 <= base <= 16 -> BN_parse base (BN_toString_padded base padding n) = Some n.
Proof.
  intros Hb. unfold BN_toString_padded.
  set (ds := toDigits _ _ _ _).
  assert (Hds : parseDigits base 0 ds = Some (Z.abs n)).
  { subst ds. rewrite parse_toDigits; [reflexivity|lia|]. apply digitsFuel_bound. lia. }
  set (ds' := if (_ =? 0)%nat then ds else _).
  assert (Hds' : parseDigits base 0 ds' = Some (Z.abs n)).
  { subst ds'. destruct (_ =? _)%nat; [done|]. rewrite parse_zeros by lia. done. }
  assert (Hhd : exists d tl, ds' = digitChar d :: tl).
  { subst ds'. destruct (toDigits_head (Z.to_nat (Z.log2 (Z.abs n))) base (Z.abs n) []) as (d & tl & E).
    fold (digitsFuel (Z.abs n)) in E. fold ds in E.
    destruct (_ =? _)%nat; [eauto|].
    destruct (padding - _)%nat; [eauto|]. exists 0. eexists. reflexivity. }
  destruct (n <? 0) eqn:Hn.
  - apply Z.ltb_lt in Hn. cbn [BN_parse]. simpl. rewrite Hds'. simpl. f_equal. lia.
  - apply Z.ltb_ge in Hn. destruct Hhd as (d & tl & E).
    rewrite (BN_parse_digits _ _ _ _ E), Hds'. f_equal. lia.
Qed.


Lemma isDigit_spec c :
  isDigit c = true -> exists d, digitVal c = Some d /\ 0 <= d < 10 /\ digitChar d = c.
Proof.
  intros H.
  destruct c as [[] [] [] [] [] [] [] []]; try (cbv in H; discriminate H);
    eexists; (split; [vm_compute; reflexivity|]);
    (split; [split; [cbv; discriminate|reflexivity]|reflexivity]).
Qed.

Lemma isDigit_digitChar d : 0 <= d < 10 -> isDigit (digitChar d) = true.
Proof.
  intros H.
  assert (d = 0 \/ d = 1 \/ d = 2 \/ d = 3 \/ d = 4 \/ d = 5 \/ d = 6 \/ d = 7 \/
          d = 8 \/ d = 9) as Hd by lia.
  repeat (destruct Hd as [-> | Hd]; [reflexivity |]). subst. reflexivity.
Qed.

Lemma isDigit_not_dot c : isDigit c = true -> Ascii.eqb c "." = false.
Proof. destruct c as [[] [] [] [] [] [] [] []]; cbv; congruence. Qed.

Lemma isDigit_not_minus c : isDigit c = true -> Ascii.eqb c "-" = false.
Proof. destruct c as [[] [] [] [] [] [] [] []]; cbv; congruence. Qed.

Lemma parse_app base acc s t :
  parseDigits base acc (s ++ t) =
  match parseDigits base acc s with
  | Some v => parseDigits base v t
  | None => None
  end.
Proof.
  revert acc. induction s as [|c s IH]; intros acc; [reflexivity|].
  cbn [app parseDigits]. destruct (digitVal c) as [d|]; [|reflexivity].
  destruct (d <? base); [apply IH|reflexivity].
Qed.

Lemma parse_digits_some acc s :
  forallb isDigit s = true -> exists v, parseDigits 10 acc s = Some v.
Proof.
  revert acc. induction s as [|c s IH]; intros acc H; [simpl; eauto|].
  cbn [forallb] in H. apply andb_true_iff in H as [Hc Hs].
  destruct (isDigit_spec c Hc) as (d & Hd & Hr & _).
  cbn [parseDigits]. rewrite Hd. destruct (d <? 10) eqn:E; [|lia]. auto.
Qed.

Lemma parse_ge acc s v :
  0 <= acc -> parseDigits 10 acc s = Some v -> acc <= v.
Proof.
  revert acc. induction s as [|c s IH]; intros acc Ha H.
  - simpl in H. injection H as <-. lia.
  - cbn [parseDigits] in H. destruct (digitVal c) as [d|] eqn:Hd; [|discriminate].
    assert (0 <= d).
    { unfold digitVal in Hd. repeat (destruct (_ && _) eqn:? in Hd);
        try discriminate; injection Hd as <-; lia. }
    destruct (d <? 10); [|discriminate]. apply IH in H; lia.
Qed.

Lemma BN_parse_isDigit s :
  forallb isDigit s = true -> BN_parse 10 s = parseDigits 10 0 s.
Proof.
  destruct s as [|c s]; [reflexivity|]. cbn [forallb]. intros H.
  apply andb_true_iff in H as [Hc _]. unfold BN_parse.
  by rewrite (isDigit_not_minus c Hc).
Qed.

Lemma toDigits_isDigit fuel n rest :
  0 <= n -> forallb isDigit rest = true ->
  forallb isDigit (toDigits fuel 10 n rest) = true.
Proof.
  revert n rest. induction fuel as [|f IH]; intros n rest Hn Hr; [exact Hr|].
  cbn [toDigits].
  assert (Hd : isDigit (digitChar (n mod 10)) = true).
  { apply isDigit_digitChar. apply Z.mod_pos_bound. lia. }
  destruct (n / 10 =? 0).
  - cbn [forallb]. by rewrite Hd.
  - apply IH; [apply Z.div_pos; lia|]. cbn [forallb]. by rewrite Hd.
Qed.

(** Printing the value of a numeral that does not start with a zero gives
    the numeral back. *)
Lemma toDigits_parse t :
  forall v, forallb isDigit t = true ->
  (exists c r, t = c :: r /\ Ascii.eqb c "0" = false) ->
  parseDigits 10 0 t = Some v ->
  forall fuel rest, v < 2 ^ Z.of_nat fuel -> toDigits fuel 10 v rest = t ++ rest.
Proof.
  induction t as [|c t' IH] using rev_ind; intros v Hall (c0 & r & Ht & Hc0) Hp fuel rest Hv.
  { discriminate. }
  rewrite forallb_app in Hall. apply andb_true_iff in Hall as [Hall' Hc].
  cbn [forallb] in Hc. rewrite andb_true_r in Hc.
  destruct (isDigit_spec c Hc) as (d & Hd & Hr & Hch).
  rewrite parse_app in Hp.
  destruct (parseDigits 10 0 t') as [v'|] eqn:Hv'; [|discriminate].
  cbn [parseDigits] in Hp. rewrite Hd in Hp.
  destruct (d <? 10) eqn:E; [|lia]. injection Hp as <-.
  assert (Hv'0 : 0 <= v') by (eapply (parse_ge 0); [lia|exact Hv']).
  assert (Hmod : (v' * 10 + d) mod 10 = d).
  { rewrite Z.add_comm, Z.mod_add by lia. apply Z.mod_small. lia. }
  assert (Hdiv : (v' * 10 + d) / 10 = v').
  { rewrite Z.add_comm, Z.div_add by lia. rewrite Z.div_small by lia. lia. }
  destruct t' as [|c1 t1].
  - simpl in Hv'. injection Hv' as <-. simpl in Ht. injection Ht as <- <-.
    assert (d <> 0). { intros ->. simpl in Hch. subst c. discriminate. }
    destruct fuel as [|f]; [simpl in Hv; lia|].
    cbn [toDigits]. rewrite Hmod, Hdiv, Hch. reflexivity.
  - assert (Hpos : 1 <= v').
    { cbn [app] in Ht. injection Ht as <- _.
      cbn [forallb] in Hall'. apply andb_true_iff in Hall' as [Hc1 _].
      destruct (isDigit_spec c1 Hc1) as (d1 & Hd1 & Hr1 & Hch1).
      cbn [parseDigits] in Hv'. rewrite Hd1 in Hv'.
      destruct (d1 <? 10) eqn:E1; [|lia].
      assert (d1 <> 0). { intros ->. simpl in Hch1. subst c1. discriminate. }
      apply parse_ge in Hv'; lia. }
    destruct fuel as [|f]; [simpl in Hv; lia|].
    cbn [toDigits]. rewrite Hmod, Hdiv, Hch.
    destruct (v' =? 0) eqn:Ez; [apply Z.eqb_eq in Ez; lia|].
    rewrite (IH v' Hall'); [by rewrite <- app_assoc| |reflexivity|].
    + cbn [app] in Ht. injection Ht as <- _. eauto.
    + rewrite Nat2Z.inj_succ, Z.pow_succ_r in Hv by lia. lia.
Qed.

Lemma BN_toString_parse t v :
  forallb isDigit t = true ->
  (exists c r, t = c :: r /\ Ascii.eqb c "0" = false) ->
  parseDigits 10 0 t = Some v ->
  BN_toString 10 v = t.
Proof.
  intros Hall Hhd Hp.
  assert (0 <= v) by (eapply (parse_ge 0); [lia|exact Hp]).
  unfold BN_toString. destruct (v <? 0) eqn:E; [lia|].
  rewrite (toDigits_parse t v Hall Hhd Hp), app_nil_r; [reflexivity|].
  apply digitsFuel_bound. lia.
Qed.

(** ** The string methods and the two conversions *)

Lemma substring_prefix s b :
  0 <= b <= JS.length s -> substring s 0 b = take (Z.to_nat b) s.
Proof.
  intros H. unfold substring, clamp, JS.length in *.
  replace (Z.to_nat (Z.min (Z.max 0 0) _)) with 0%nat by lia.
  replace (Z.to_nat (Z.min (Z.max 0 b) _)) with (Z.to_nat b) by lia.
  rewrite Nat.min_0_l, Nat.max_0_l, Nat.sub_0_r. reflexivity.
Qed.

Lemma substring_suffix s a :
  0 <= a <= JS.length s -> substring s a (JS.length s) = drop (Z.to_nat a) s.
Proof.
  intros H. unfold substring, clamp, JS.length in *.
  replace (Z.to_nat (Z.min (Z.max 0 a) _)) with (Z.to_nat a) by lia.
  replace (Z.to_nat (Z.min (Z.max 0 (Z.of_nat (List.length s))) _))
    with (List.length s) by lia.
  rewrite Nat.min_l, Nat.max_r by lia.
  rewrite <- (length_drop s (Z.to_nat a)). apply firstn_all.
Qed.

Lemma split_no_sep c s :
  existsb (Ascii.eqb c) s = false -> split c s = [s].
Proof.
  induction s as [|x s IH]; [reflexivity|]. cbn [existsb split]. intros H.
  apply orb_false_iff in H as [Hx Hs]. rewrite Ascii.eqb_sym in Hx.
  rewrite Hx, (IH Hs). reflexivity.
Qed.

Lemma split_sep c a b :
  existsb (Ascii.eqb c) a = false -> split c (a ++ c :: b) = a :: split c b.
Proof.
  induction a as [|x a IH]; cbn [existsb split app]; intros H.
  - by rewrite Ascii.eqb_refl.
  - apply orb_false_iff in H as [Hx Hs]. rewrite Ascii.eqb_sym in Hx.
    rewrite Hx, (IH Hs). reflexivity.
Qed.

Lemma split_nonempty c s : split c s <> [].
Proof.
  destruct s as [|x s]; [discriminate|]. cbn [split].
  destruct (Ascii.eqb x c); [discriminate|]. destruct (split c s); discriminate.
Qed.

Lemma split_inv1 c s a :
  split c s = [a] -> s = a /\ existsb (Ascii.eqb c) a = false.
Proof.
  revert a. induction s as [|x s IH]; intros a H.
  - injection H as <-. auto.
  - cbn [split] in H. destruct (Ascii.eqb x c) eqn:Hx.
    + injection H as _ H. by apply split_nonempty in H.
    + destruct (split c s) as [|seg segs] eqn:Hss; [by apply split_nonempty in Hss|].
      injection H as <- ->. destruct (IH seg eq_refl) as (-> & Ha).
      split; [reflexivity|]. cbn [existsb]. rewrite Ascii.eqb_sym, Hx. exact Ha.
Qed.

Lemma split_inv2 c s a b :
  split c s = [a; b] ->
  s = a ++ c :: b /\ existsb (Ascii.eqb c) a = false /\ existsb (Ascii.eqb c) b = false.
Proof.
  revert a. induction s as [|x s IH]; intros a H; [discriminate|].
  cbn [split] in H. destruct (Ascii.eqb x c) eqn:Hx.
  - apply Ascii.eqb_eq in Hx. subst x. injection H as <- Hs.
    apply split_inv1 in Hs as [-> Hb]. auto.
  - destruct (split c s) as [|seg segs] eqn:Hss; [discriminate|].
    injection H as <- ->. destruct (IH seg eq_refl) as (-> & Ha & Hb).
    split; [reflexivity|]. split; [|exact Hb].
    cbn [existsb]. rewrite Ascii.eqb_sym, Hx. exact Ha.
Qed.

Lemma digits_no_dot s :
  forallb isDigit s = true -> existsb (Ascii.eqb ".") s = false.
Proof.
  induction s as [|c s IH]; [reflexivity|]. cbn [forallb existsb]. intros H.
  apply andb_true_iff in H as [Hc Hs]. rewrite Ascii.eqb_sym, (isDigit_not_dot c Hc).
  by apply IH.
Qed.

Lemma includes_sep a b : includes (a ++ "."%char :: b) "." = true.
Proof.
  unfold includes. rewrite existsb_app. cbn [existsb].
  rewrite Ascii.eqb_refl. apply orb_true_iff. right. reflexivity.
Qed.

Lemma unstr_inj a b : unstr a = unstr b -> a = b.
Proof. intros H. rewrite <- (str_unstr a), <- (str_unstr b). by rewrite H. Qed.

Lemma parse_zero_head s :
  parseDigits 10 0 ("0"%char :: s) = parseDigits 10 0 s.
Proof. apply (parse_zeros 10 1 s). lia. Qed.

(** What [fromDecimal] reads between the digits and after them. *)
Lemma fromDecimalChars_point before after d :
  0 <= d -> forallb isDigit before = true -> forallb isDigit after = true ->
  JS.length after <= d ->
  fromDecimalChars (before ++ "."%char :: after) d =
  parseDigits 10 0 (before ++ after ++ replicate (Z.to_nat (d - JS.length after)) "0"%char).
Proof.
  intros Hd Hb Ha Hlen. unfold fromDecimalChars.
  rewrite includes_sep, split_sep, split_no_sep by auto using digits_no_dot.
  destruct (d <? 0) eqn:E; [lia|].
  destruct (JS.length after >? d) eqn:E2; [lia|].
  unfold padEnd, JS.repeat.
  assert (Hz : forallb isDigit (replicate (Z.to_nat (d - JS.length after)) "0"%char) = true).
  { induction (Z.to_nat _); [reflexivity|]. cbn [replicate forallb]. by rewrite IHn. }
  destruct (String.eqb (unstr before) "0") eqn:E3.
  - apply String.eqb_eq in E3. change "0" with (unstr ["0"%char]) in E3.
    apply unstr_inj in E3. subst before.
    cbn [app]. rewrite BN_parse_isDigit by (rewrite forallb_app, Ha, Hz; reflexivity).
    by rewrite parse_zero_head.
  - apply BN_parse_isDigit. rewrite !forallb_app, Hb, Ha, Hz. reflexivity.
Qed.

Lemma replicate_isDigit k : forallb isDigit (replicate k "0"%char) = true.
Proof. induction k; [reflexivity|]. cbn [replicate forallb]. by rewrite IHk. Qed.

Lemma fromDecimal_toDecimal_chars x d :
  0 <= x -> 0 < d -> fromDecimalChars (toDecimalChars x d) d = Some x.
Proof.
  intros Hx Hd. unfold toDecimalChars.
  destruct (d <=? 0) eqn:E; [lia|].
  set (ds := BN_toString 10 x).
  assert (Hds : forallb isDigit ds = true).
  { subst ds. unfold BN_toString. destruct (x <? 0) eqn:E1; [lia|].
    by apply toDigits_isDigit. }
  assert (Hp : parseDigits 10 0 ds = Some x).
  { subst ds. rewrite <- BN_parse_isDigit by exact Hds. apply BN_parse_toString. lia. }
  set (padded := padStart ds (d + 1) "0").
  assert (Hpd : forallb isDigit padded = true).
  { subst padded. unfold padStart, JS.repeat. by rewrite forallb_app, replicate_isDigit. }
  assert (Hpp : parseDigits 10 0 padded = Some x).
  { subst padded. unfold padStart, JS.repeat. rewrite parse_zeros by lia. exact Hp. }
  assert (Hlen : d + 1 <= JS.length padded).
  { subst padded. unfold padStart, JS.repeat, JS.length.
    rewrite length_app, length_replicate. unfold JS.length. lia. }
  rewrite substring_prefix, substring_suffix by lia.
  set (k := Z.to_nat (JS.length padded - d)).
  assert (Hk : (k <= List.length padded)%nat) by (unfold JS.length in *; lia).
  assert (Hafter : JS.length (drop k padded) = d).
  { unfold JS.length in *. rewrite length_drop. lia. }
  rewrite fromDecimalChars_point.
  - rewrite Hafter, Z.sub_diag. simpl replicate. rewrite app_nil_r, take_drop. exact Hpp.
  - lia.
  - rewrite <- (take_drop k padded), forallb_app in Hpd. by apply andb_true_iff in Hpd as [].
  - rewrite <- (take_drop k padded), forallb_app in Hpd. by apply andb_true_iff in Hpd as [].
  - lia.
Qed.

Lemma strip_zeros t :
  exists k g, t = replicate k "0"%char ++ g
              /\ (g = [] \/ exists c r, g = c :: r /\ Ascii.eqb c "0" = false).
Proof.
  induction t as [|c t (k & g & -> & Hg)].
  - exists 0%nat, []. auto.
  - destruct (Ascii.eqb c "0") eqn:E.
    + apply Ascii.eqb_eq in E. subst c. exists (S k), g. auto.
    + exists 0%nat, (c :: replicate k "0"%char ++ g). split; [reflexivity|]. right. eauto.
Qed.

Lemma padStart_value t v N :
  forallb isDigit t = true -> parseDigits 10 0 t = Some v ->
  JS.length t <= N -> 1 <= N ->
  padStart (BN_toString 10 v) N "0" = replicate (Z.to_nat (N - JS.length t)) "0"%char ++ t.
Proof.
  intros Hall Hp HN H1.
  destruct (strip_zeros t) as (k & g & -> & Hg).
  rewrite parse_zeros in Hp by lia.
  rewrite forallb_app in Hall. apply andb_true_iff in Hall as [_ Hgd].
  unfold padStart, JS.repeat, JS.length in *. rewrite length_app, length_replicate in *.
  rewrite app_assoc, <- replicate_add.
  destruct Hg as [-> | Hhd].
  - simpl in Hp. injection Hp as <-. change (BN_toString 10 0) with ["0"%char].
    simpl List.length. rewrite app_nil_r.
    replace (Z.to_nat (N - Z.of_nat (k + 0)) + k)%nat with (S (Z.to_nat (N - 1))) by lia.
    rewrite replicate_S_end. reflexivity.
  - rewrite (BN_toString_parse g v Hgd Hhd Hp). f_equal. f_equal. lia.
Qed.

Lemma toDecimalChars_digits t v n d :
  forallb isDigit t = true -> parseDigits 10 0 t = Some v ->
  0 < d -> (1 <= n)%nat -> JS.length t = Z.of_nat n + d ->
  (n = 1%nat \/ exists c r, t = c :: r /\ Ascii.eqb c "0" = false) ->
  toDecimalChars v d = take n t ++ "."%char :: drop n t.
Proof.
  intros Hall Hp Hd Hn Hlen Hhd. unfold toDecimalChars.
  destruct (d <=? 0) eqn:E; [lia|].
  assert (Hpad : padStart (BN_toString 10 v) (d + 1) "0" = t).
  { destruct Hhd as [-> | Hhd].
    - rewrite (padStart_value t v) by (auto; lia).
      replace (Z.to_nat (d + 1 - JS.length t)) with 0%nat by lia. reflexivity.
    - rewrite (BN_toString_parse t v Hall Hhd Hp). unfold padStart, JS.repeat.
      replace (Z.to_nat (d + 1 - JS.length t)) with 0%nat by lia. reflexivity. }
  rewrite Hpad, substring_prefix, substring_suffix by lia.
  replace (Z.to_nat (JS.length t - d)) with n by lia. reflexivity.
Qed.

Lemma isNumeral_spec w :
  isNumeral w = true ->
  forallb isDigit w = true /\ (1 <= List.length w)%nat
  /\ (List.length w = 1%nat \/ exists c r, w = c :: r /\ Ascii.eqb c "0" = false).
Proof.
  destruct w as [|c r]; [discriminate|]. unfold isNumeral. intros H.
  apply andb_true_iff in H as [Hall H]. split; [exact Hall|]. split; [simpl; lia|].
  apply orb_true_iff in H as [H|H].
  - right. exists c, r. split; [reflexivity|]. by apply negb_true_iff.
  - left. by destruct r.
Qed.

Lemma toDecimal_fromDecimal_string s d :
  0 < d -> isDecimalString s d = true ->
  exists x, fromDecimal s d = Some x /\ toDecimal x d = normalized s d.
Proof.
  intros Hd H. unfold isDecimalString in H. unfold fromDecimal, toDecimal, normalized.
  destruct (split "." (str s)) as [|whole [|frac [|? ?]]] eqn:Hs; try discriminate.
  - apply split_inv1 in Hs as [Hs Hnodot].
    apply isNumeral_spec in H as (Hall & Hlen & Hhd).
    rewrite Hs. unfold fromDecimalChars, includes. rewrite Hnodot.
    destruct (d <? 0) eqn:E; [lia|].
    set (t := whole ++ JS.repeat "0" d).
    assert (Ht : forallb isDigit t = true).
    { subst t. unfold JS.repeat. by rewrite forallb_app, Hall, replicate_isDigit. }
    destruct (parse_digits_some 0 t Ht) as [v Hv].
    exists v. rewrite BN_parse_isDigit by exact Ht. split; [exact Hv|].
    rewrite (toDecimalChars_digits t v (List.length whole) d Ht Hv Hd Hlen).
    + subst t. rewrite take_app_length, drop_app_length.
      unfold padEnd, JS.length. cbn [List.length app]. by rewrite Z.sub_0_r.
    + subst t. unfold JS.length, JS.repeat. rewrite length_app, length_replicate. lia.
    + destruct Hhd as [?|(c & r & -> & Hc)]; [by left|right; subst t; simpl; eauto].
  - apply split_inv2 in Hs as (Hs & _ & _).
    apply andb_true_iff in H as [H Hle]. apply andb_true_iff in H as [Hw Hf].
    apply Z.leb_le in Hle.
    apply isNumeral_spec in Hw as (Hall & Hlen & Hhd).
    rewrite Hs, fromDecimalChars_point by (auto; lia).
    set (t := whole ++ frac ++ replicate (Z.to_nat (d - JS.length frac)) "0"%char).
    assert (Ht : forallb isDigit t = true).
    { subst t. by rewrite !forallb_app, Hall, Hf, replicate_isDigit. }
    destruct (parse_digits_some 0 t Ht) as [v Hv].
    exists v. split; [exact Hv|].
    rewrite (toDecimalChars_digits t v (List.length whole) d Ht Hv Hd Hlen).
    + subst t. rewrite take_app_length, drop_app_length. reflexivity.
    + subst t. unfold JS.length in *. rewrite !length_app, length_replicate. lia.
    + destruct Hhd as [?|(c & r & -> & Hc)]; [by left|right; subst t; simpl; eauto].
Qed.

End Digits.

(** C5. Decimal conversion round-trip: for every currency of the
    [currencyDecimals] table of either adapter, with decimal count [d], and
    every non-negative integer [x], [fromDecimal(toDecimal(x, d), d)] is [x];
    and for every decimal string [s] with at most [d] fractional digits,
    [toDecimal(fromDecimal(s, d), d)] is [s] with its fractional part padded
    with zeros to exactly [d] digits. *)
Theorem decimal_round_trip (currency : string) (d : Z) :
  Binance.currencyDecimals currency = Some d \/ OKX.currencyDecimals currency = Some d ->
  (forall x, 0 <= x -> fromDecimal (toDecimal x d) d = Some x)
  /\ (forall s, Spec.isDecimalString s d = true ->
        exists x, fromDecimal s d = Some x /\ toDecimal x d = Spec.normalized s d).
Proof.
  intros Htable.
  assert (Hd : 0 < d).
  { unfold Binance.currencyDecimals, OKX.currencyDecimals in Htable.
    destruct Htable as [H|H];
      repeat (destruct (String.eqb currency _); [injection H as <-; lia|]);
      discriminate. }
  split.
  - intros x Hx. unfold fromDecimal, toDecimal. rewrite str_unstr.
    by apply fromDecimal_toDecimal_chars.
  - intros s Hs. by apply toDecimal_fromDecimal_string.
Qed.

Lemma decimal_round_trip_witness :
  fromDecimal (toDecimal 100000000 8) 8 = Some 100000000
  /\ exists x, fromDecimal "20.5" 8 = Some x /\ toDecimal x 8 = Spec.normalized "20.5" 8.
Proof.
  destruct (decimal_round_trip "BTC-LN" 8 (or_introl eq_refl)) as [H1 H2].
  split; [apply H1; lia | apply H2; reflexivity].
Defined.

(** ** The adapters *)

(** C6 as stated fails: BTC and BTC-LN are two supported currencies, they
    differ and one of them (both, in fact) is BTC-like, but no instrument
    trades one against the other: both directions return no pair and no
    flag, on either venue. *)
Lemma trading_pair_involution_fails_BTC_BTCLN :
  In "BTC" supportedCurrencies /\ In "BTC-LN" supportedCurrencies
  /\ "BTC" <> "BTC-LN"
  /\ isBtcLike "BTC" || isBtcLike "BTC-LN" = true
  /\ ~ Spec.pairInvolution Binance.getTradingPair "BTC" "BTC-LN"
  /\ ~ Spec.pairInvolution OKX.getTradingPair "BTC" "BTC-LN".
Proof.
  repeat split; try (simpl; tauto); try discriminate;
    intros [_ (b & Hb & _)]; vm_compute in Hb; discriminate.
Qed.

(** C6, amended. Trading-pair mapping involution: for every pair (src, dst)
    of supported currencies with src <> dst and exactly one of the two being
    BTC or BTC-LN, [getTradingPair(src, dst)] and [getTradingPair(dst, src)]
    return the same, defined, trading-pair string, and their buy flags are
    boolean complements, on both the Binance and the OKX adapter. *)
Theorem trading_pair_involution (src dst : string) :
  In src supportedCurrencies -> In dst supportedCurrencies -> src <> dst ->
  xorb (isBtcLike src) (isBtcLike dst) = true ->
  (Spec.pairInvolution Binance.getTradingPair src dst
   /\ is_Some (tradingPair (Binance.getTradingPair src dst)))
  /\ (Spec.pairInvolution OKX.getTradingPair src dst
      /\ is_Some (tradingPair (OKX.getTradingPair src dst))).
Proof.
  unfold supportedCurrencies. intros Hs Hd Hne Hx.
  repeat (destruct Hs as [<-|Hs]; [|]); try contradiction;
    repeat (destruct Hd as [<-|Hd]; [|]); try contradiction;
    try (vm_compute in Hx; discriminate Hx);
    (split; (split; [split; [reflexivity | eexists; split; reflexivity] | eexists; reflexivity])).
Qed.

Lemma trading_pair_involution_witness :
  Spec.pairInvolution Binance.getTradingPair "BTC-LN" "ETH"
  /\ Spec.pairInvolution OKX.getTradingPair "USDC" "BTC".
Proof.
  split.
  - refine (proj1 (proj1 (trading_pair_involution "BTC-LN" "ETH" _ _ _ _)));
      [simpl; tauto | simpl; tauto | discriminate | reflexivity].
  - refine (proj1 (proj2 (trading_pair_involution "USDC" "BTC" _ _ _ _)));
      [simpl; tauto | simpl; tauto | discriminate | reflexivity].
Defined.

(** C9. [OKX.getWithdrawalFee("BTC-LN", chain, a)] returns
    [1000 + floor(a / 1000)] for every amount [a] (amounts are non-negative)
    and every chain, and sends no request: the list of the requests sent is
    what it was, whatever the venue would have answered. *)
Theorem okx_lightning_withdrawal_fee
    (venue : OKX.Request -> Exn + json) (chain : string) (a : Z)
    (sent : list OKX.Request) :
  0 <= a ->
  OKX.getWithdrawalFee venue "BTC-LN" chain a sent = Ret (1000 + a / 1000) sent.
Proof.
  intros Ha. unfold OKX.getWithdrawalFee. cbn [String.eqb Ascii.eqb Bool.eqb].
  unfold ret. f_equal. f_equal. apply Z.quot_div_nonneg; lia.
Qed.

Lemma okx_lightning_withdrawal_fee_witness :
  OKX.getWithdrawalFee (fun _ => inl (OKXError "50001")) "BTC-LN" "Polygon" 123456 []
  = Ret 1123 [].
Proof. apply (okx_lightning_withdrawal_fee _ "Polygon" 123456 []). lia. Defined.

(** C10. For every non-Lightning currency, [Binance.withdraw] submits a
    withdrawal whose amount field is [amount + withdrawalFee] converted to
    decimal (so called with [amount = amountIn - fee] it withdraws [amountIn]
    in total), whereas [OKX.withdraw] submits the given amount and the fee
    as two separate fields; and for BTC-LN, [Binance.withdraw] ignores its
    amount argument and takes the amount from the invoice passed as the
    address. *)
Theorem withdraw_amount_fields
    (client : Binance.WithdrawParams -> string + json)
    (bolt11_satoshis : string -> option Z)
    (venue : OKX.Request -> Exn + json)
    (currency chain address withdrawalId : string) (fee amount : Z) :
  In currency supportedCurrencies -> currency <> "BTC-LN" ->
  (forall sent, exists p,
      stateOf (Binance.withdraw client bolt11_satoshis currency chain address
                 withdrawalId fee (Some amount) sent) = Some (p :: sent)
      /\ Binance.coin p = currency
      /\ Binance.amount p = toDecimalAt (amount + fee) (Binance.currencyDecimals currency)
      /\ is_Some (Binance.currencyDecimals currency))
  /\ (forall amountIn, amount = amountIn - fee ->
        toDecimalAt (amount + fee) (Binance.currencyDecimals currency)
        = toDecimalAt amountIn (Binance.currencyDecimals currency))
  /\ (forall sent, exists r fields,
        stateOf (OKX.withdraw venue currency chain address withdrawalId fee
                   (Some amount) sent) = Some (r :: sent)
        /\ OKX.data r = Some fields
        /\ assoc "amt" fields = Some (toDecimalAt amount (OKX.currencyDecimals currency))
        /\ assoc "fee" fields = Some (toDecimalAt fee (OKX.currencyDecimals currency))
        /\ is_Some (OKX.currencyDecimals currency))
  /\ (forall invoice a1 a2 sent,
        Binance.withdraw client bolt11_satoshis "BTC-LN" chain invoice withdrawalId fee a1 sent
        = Binance.withdraw client bolt11_satoshis "BTC-LN" chain invoice withdrawalId fee a2 sent)
  /\ (forall invoice a1 sats sent, bolt11_satoshis invoice = Some sats ->
        exists p,
          stateOf (Binance.withdraw client bolt11_satoshis "BTC-LN" chain invoice
                     withdrawalId fee a1 sent) = Some (p :: sent)
          /\ Binance.coin p = "BTC" /\ Binance.network p = "LIGHTNING"
          /\ Binance.amount p = toDecimal (sats + fee) 8).
Proof.
  intros Hc Hne.
  assert (Hln : String.eqb currency "BTC-LN" = false) by (by apply String.eqb_neq).
  split; [|split; [|split; [|split]]].
  - intros sent. unfold Binance.withdraw, bind, ret, modify, throw. rewrite Hln.
    eexists. split.
    + destruct (client _); reflexivity.
    + cbn. split; [reflexivity|]. split; [reflexivity|].
      unfold supportedCurrencies in Hc.
      repeat (destruct Hc as [<-|Hc]; [eexists; reflexivity|]). contradiction.
  - intros amountIn ->. f_equal. lia.
  - intros sent. unfold OKX.withdraw, OKX.call, bind, ret, modify, throw. rewrite Hln.
    eexists. eexists. split.
    + destruct (venue _); reflexivity.
    + cbn. split; [reflexivity|]. split; [reflexivity|]. split; [reflexivity|].
      unfold supportedCurrencies in Hc.
      repeat (destruct Hc as [<-|Hc]; [eexists; reflexivity|]). contradiction.
  - intros invoice a1 a2 sent. unfold Binance.withdraw, bind. cbn [String.eqb Ascii.eqb Bool.eqb].
    reflexivity.
  - intros invoice a1 sats sent Hs. unfold Binance.withdraw, bind, ret, modify, throw.
    cbn [String.eqb Ascii.eqb Bool.eqb]. rewrite Hs.
    eexists. split.
    + destruct (client _); reflexivity.
    + cbn. auto.
Qed.

Lemma withdraw_amount_fields_witness :
  exists p,
    stateOf (Binance.withdraw (fun _ => inr JNull) (fun _ => None) "USDC" "MATIC" "0xown"
               "id" 1000000 (Some 19000000) []) = Some [p]
    /\ Binance.amount p = "20.000000".
Proof.
  destruct (withdraw_amount_fields (fun _ => inr JNull) (fun _ => None)
              (fun _ => inr JNull) "USDC" "MATIC" "0xown" "id" 1000000 19000000)
    as [H _]; [simpl; tauto | discriminate |].
  destruct (H []) as (p & Hp & _ & Ha & _). exists p. split; [exact Hp | exact Ha].
Defined.

(** ** The persisted document *)

(** C2. Persistence round-trip of the big-integer amounts: loading the
    document [serializeState] produced ([loadState] after [saveState])
    yields the same [amountOut], [amountIn] and [withdrawalFee], and the
    same document altogether. The replacer's [toString(10)] is applied to
    the string [JSON.stringify] already obtained from [BN.prototype.toJSON],
    which is hexadecimal, the base the reviver reads. *)
Theorem persisted_amounts_round_trip {W} (s : Hedging.Sys W) (d : Hedging.HedgingPluginState Z) :
  Hedging.mem s = Some d -> Hedging.crashAfter s = None ->
  Hedging.parseState (Hedging.serializeState d) = Some d
  /\ exists s1 s2,
       Hedging.saveState s = Ret tt s1
       /\ Hedging.loadState (Hedging.reboot s1) = Ret tt s2
       /\ Hedging.mem s2 = Some d.
Proof.
  intros Hm Hc.
  assert (Hr : forall key o, Hedging.revive key (Hedging.serializeBN key <$> o) = Some o).
  { intros key [n|]; [|reflexivity]. unfold Hedging.revive, Hedging.reviver,
      Hedging.serializeBN, Hedging.replacer, Hedging.String_toString, Hedging.BN_toJSON.
    simpl. destruct (Hedging.isBigIntKey key); rewrite str_unstr, BN_parse_toString by lia;
      reflexivity. }
  assert (Hp : Hedging.parseState (Hedging.serializeState d) = Some d).
  { unfold Hedging.parseState. cbn [Hedging.serializeState Hedging.amountOut
      Hedging.amountIn Hedging.withdrawalFee]. rewrite !Hr. by destruct d. }
  split; [exact Hp|].
  unfold Hedging.saveState, Hedging.getState, Hedging.effect, bind, get, nonNull, ret, modify.
  rewrite Hm, Hc. eexists. eexists. split; [reflexivity|].
  unfold Hedging.loadState. cbn. rewrite Hp. split; reflexivity.
Qed.

Lemma persisted_amounts_round_trip_witness :
  Hedging.parseState (Hedging.serializeState Sim.lnJob) = Some Sim.lnJob.
Proof.
  exact (proj1 (persisted_amounts_round_trip
                  (Sim.startWith (Some Sim.lnJob) Sim.world0 None) Sim.lnJob
                  eq_refl eq_refl)).
Defined.

(** The same holds for the serialization of bn.js 5, whose [toJSON] is
    [toString(16, 2)]. *)
Lemma reviver_toJSON_padded key n :
  Hedging.reviver key (JS.unstr (JS.BN_toString_padded 16 2 n)) = Some n.
Proof. unfold Hedging.reviver. rewrite str_unstr. apply BN_parse_toString_padded. lia. Qed.

(** Without the [toJSON] step the replacer's decimal string would be read
    back in base 16: ten would come back as sixteen. *)
Lemma reviver_of_decimal_string :
  Hedging.reviver "amountOut" (JS.unstr (JS.BN_toString 10 10)) = Some 16.
Proof. reflexivity. Qed.

(** ** The engine *)

Section Engine_facts.
Import Hedging.
Context {W : Type} (A : Adapters W) (cfg : Config).

(** *** Running the monad *)

Lemma bind_Ret {St X Y} (m : M St X) (k : X -> M St Y) s a s' :
  m s = Ret a s' -> bind m k s = k a s'.
Proof. intros H. unfold bind. by rewrite H. Qed.

Lemma adapter_ok {R} (c : Call W R) (s : Sys W) a w :
  crashAfter s = None -> c (world s) = (inr a, w) ->
  adapter c s = Ret a (with_world w s).
Proof. intros Hc Hw. unfold adapter, bind, effect. by rewrite Hc, Hw. Qed.

Lemma adapter_fail {R} (c : Call W R) (s : Sys W) e w :
  crashAfter s = None -> c (world s) = (inl e, w) ->
  adapter c s = Throw e (with_world w s).
Proof. intros Hc Hw. unfold adapter, bind, effect. by rewrite Hc, Hw. Qed.

(** ** Candidate maps *)


Lemma assoc_eqb_refl {X} k (v : X) r : assoc k ((k, v) :: r) = Some v.
Proof. simpl. by rewrite String.eqb_refl. Qed.

Lemma obj_get_set_eq k v m : obj_get k (obj_set k v m) = Some v.
Proof.
  unfold obj_get. induction m as [|[k' v'] m IH]; cbn [obj_set assoc].
  - by rewrite String.eqb_refl.
  - destruct (String.eqb k k') eqn:E; cbn [assoc]; rewrite ?String.eqb_refl, ?E; auto.
Qed.

Lemma obj_get_set_ne k k0 v m : k0 <> k -> obj_get k0 (obj_set k v m) = obj_get k0 m.
Proof.
  intros Hne. apply String.eqb_neq in Hne.
  unfold obj_get. induction m as [|[k' v'] m IH]; cbn [obj_set assoc].
  - by rewrite Hne.
  - destruct (String.eqb k k') eqn:E; cbn [assoc].
    + apply String.eqb_eq in E. subst k'. by rewrite Hne.
    + by rewrite IH.
Qed.

Lemma obj_set_keeps k0 k v m : is_Some (obj_get k0 m) -> is_Some (obj_get k0 (obj_set k v m)).
Proof.
  intros H. destruct (string_dec k0 k) as [->|Hne].
  - rewrite obj_get_set_eq. eauto.
  - by rewrite obj_get_set_ne.
Qed.

(** C8. Tx-replacement handling: when the job is in SC_WITHDRAWING, OUT_TX
    or SC_DEPOSITING and [oldTxId] is a key of the candidate map of that
    state, the callback inserts [newTxId -> newTx] into that map, keeps the
    key [oldTxId] and every entry under another key than [newTxId], sets the
    cooldown to five seconds from now and persists the updated document; in
    every other case the three maps are what they were. *)
Theorem tx_replacement (oldTx oldTxId newTx newTxId : string) (s : Sys W) :
  (forall d m,
      mem s = Some d -> crashAfter s = None ->
      Spec.candidates d = Some m -> is_Some (obj_get oldTxId m) ->
      exists s' d',
        onBeforeTxReplace oldTx oldTxId newTx newTxId s = Ret tt s'
        /\ mem s' = Some d'
        /\ state d' = state d
        /\ Spec.candidates d' = Some (obj_set newTxId newTx m)
        /\ obj_get newTxId (obj_set newTxId newTx m) = Some newTx
        /\ is_Some (obj_get oldTxId (obj_set newTxId newTx m))
        /\ (forall k, k <> newTxId ->
              obj_get k (obj_set newTxId newTx m) = obj_get k m)
        /\ cooldown d' = Some (clock s + 5 * 1000)
        /\ disk s' = Some (serializeState d'))
  /\ ((forall d m, mem s = Some d -> Spec.candidates d = Some m ->
         obj_get oldTxId m = None) ->
      forall s', stateOf (onBeforeTxReplace oldTx oldTxId newTx newTxId s) = Some s' ->
                 Spec.maps <$> mem s' = Spec.maps <$> mem s).
Proof.
  split.
  - intros d m Hm Hc Hcand Hold.
    assert (Hkeep := obj_set_keeps oldTxId newTxId newTx m Hold).
    assert (Hne := fun k => obj_get_set_ne newTxId k newTx m).
    assert (Heq := obj_get_set_eq newTxId newTx m).
    destruct Hold as [old Hold].
    unfold Spec.candidates in Hcand.
    destruct s as [mm dk ar ck wd tr cr]. simpl in Hm, Hc. subst mm cr.
    destruct d as [st cd ra rs sT sTA dT dTA aO sW sWI oT oTI dI cO oI pr aI cT tI rA wF wI iT sD sDI].
    simpl in Hcand.
    destruct st as [[]|]; try discriminate; subst;
      (eexists; eexists; split;
       [unfold onBeforeTxReplace, bind, getState, get, nonNull, ret, update, modify,
          setCooldown, now, saveState, effect; cbn; rewrite Hold; cbn; reflexivity|]);
      cbn; repeat split; auto.
  - intros Hnone s' Hs'.
    destruct s as [mm dk ar ck wd tr cr].
    destruct mm as [d|].
    + specialize (Hnone d). unfold Spec.candidates in Hnone. simpl in Hnone.
      destruct d as [st cd ra rs sT sTA dT dTA aO sW sWI oT oTI dI cO oI pr aI cT tI rA wF wI iT sD sDI].
      simpl in Hnone.
      destruct st as [[]|];
        unfold onBeforeTxReplace, bind, getState, get, nonNull, ret, update, modify,
          setCooldown, now, saveState, effect, throw in Hs'; cbn in Hs';
        try (injection Hs' as <-; reflexivity).
      * destruct sW as [m|]; cbn in Hs'; [rewrite (Hnone m) in Hs' by auto; cbn in Hs'|];
          injection Hs' as <-; reflexivity.
      * destruct oT as [m|]; cbn in Hs'; [rewrite (Hnone m) in Hs' by auto; cbn in Hs'|];
          injection Hs' as <-; reflexivity.
      * destruct sD as [m|]; cbn in Hs'; [rewrite (Hnone m) in Hs' by auto; cbn in Hs'|];
          injection Hs' as <-; reflexivity.
    + cbn in Hs'. injection Hs' as <-. reflexivity.
Qed.

(** *** [setState] *)

(** The loop over [REQUIRED_FIELDS] throws at the first null field and
    touches nothing. *)
Lemma required_fields_loop (s : Sys W) d l :
  mem s = Some d ->
  forEach l (fun requiredField =>
    bind getState (fun d =>
      if isNullField d requiredField
      then throw (Error ("Invalid state transition, missing field: " +:+ requiredField))
      else ret tt)) s
  = match List.find (isNullField d) l with
    | Some f => Throw (Error ("Invalid state transition, missing field: " +:+ f)) s
    | None => Ret tt s
    end.
Proof.
  intros Hm. induction l as [|f l IH]; [reflexivity|].
  cbn [forEach List.find]. unfold bind at 1. unfold bind at 1.
  unfold getState at 1. unfold bind at 1, get, nonNull. rewrite Hm. unfold ret at 1.
  destruct (isNullField d f); [reflexivity|]. unfold ret at 1. exact IH.
Qed.

Lemma setStateWith_unfold (recheck : M (Sys W) unit) (s : Sys W) d st :
  mem s = Some d ->
  setStateWith recheck (Some st) s =
  match Spec.missingField d st with
  | Some f => Throw (Error ("Invalid state transition, missing field: " +:+ f)) s
  | None =>
      match crashAfter s with
      | Some O => Crash (with_mem (Some (set_state (Some st) d)) s)
      | Some (S n) => recheck (with_crashAfter (Some n) (persisted s d st))
      | None => recheck (persisted s d st)
      end
  end.
Proof.
  intros Hm. unfold setStateWith. unfold bind at 1. unfold nonNull, ret at 1.
  unfold bind at 1. rewrite (required_fields_loop s d _ Hm).
  unfold Spec.missingField. destruct (List.find _ _); [reflexivity|].
  destruct s as [mm dk ar ck wd tr cr]. simpl in Hm. subst mm.
  unfold bind, getState, get, nonNull, ret, update, modify, saveState, effect, persisted.
  cbn. destruct cr as [[|n]|]; reflexivity.
Qed.

(** The same for a write that can be rejected: the state is assigned before
    the write is awaited, and the transition is logged after it. *)
Lemma setStateFS_unfold (result : WriteResult) (recheck : M (Sys W) unit) (s : Sys W) d st :
  mem s = Some d ->
  setStateFS result recheck (Some st) s =
  match Spec.missingField d st with
  | Some f => Throw (Error ("Invalid state transition, missing field: " +:+ f)) s
  | None =>
      match crashAfter s, result with
      | Some O, _ => Crash (with_mem (Some (set_state (Some st) d)) s)
      | Some (S n), Written => recheck (with_crashAfter (Some n) (persisted s d st))
      | Some (S n), Rejected e remains =>
          Throw e (with_disk remains
                     (with_crashAfter (Some n) (with_mem (Some (set_state (Some st) d)) s)))
      | None, Written => recheck (persisted s d st)
      | None, Rejected e remains =>
          Throw e (with_disk remains (with_mem (Some (set_state (Some st) d)) s))
      end
  end.
Proof.
  intros Hm. unfold setStateFS. unfold bind at 1. unfold nonNull, ret at 1.
  unfold bind at 1. rewrite (required_fields_loop s d _ Hm).
  unfold Spec.missingField. destruct (List.find _ _); [reflexivity|].
  destruct s as [mm dk ar ck wd tr cr]. simpl in Hm. subst mm.
  unfold bind, getState, get, nonNull, ret, update, modify, saveStateFS, fs_writeFile, effect,
    persisted, throw.
  cbn. destruct cr as [[|n]|]; destruct result; reflexivity.
Qed.

(** With a write that succeeds it is the [setState] of the engine. *)
Lemma setStateFS_Written (recheck : M (Sys W) unit) newState (s : Sys W) :
  setStateFS Written recheck newState s = setStateWith recheck newState s.
Proof. reflexivity. Qed.

(** C4 as stated fails: with the exchange down, [setState] of a job whose
    smart-chain withdrawal has succeeded writes SC_WITHDRAWAL_CONFIRMED to
    the document and the disk, re-enters [check], and throws the error of
    the deposit-address request: it throws after the mutation, and neither
    the state field nor the disk is what it was. *)
Lemma setState_throws_after_persisting :
  exists s',
    setState Sim.simAdapters Sim.simConfig 40 (Some SC_WITHDRAWAL_CONFIRMED)
      (Sim.startWith (Some Sim.usdcJobWithdrawn) Sim.worldDown None)
    = Throw (OKXError "50001") s'
    /\ state <$> mem s' = Some (Some SC_WITHDRAWAL_CONFIRMED)
    /\ state <$> disk s' = Some (Some SC_WITHDRAWAL_CONFIRMED)
    /\ ~ Spec.setStateAtomic
          (Sim.startWith (Some Sim.usdcJobWithdrawn) Sim.worldDown None)
          SC_WITHDRAWAL_CONFIRMED
          (setState Sim.simAdapters Sim.simConfig 40 (Some SC_WITHDRAWAL_CONFIRMED)
             (Sim.startWith (Some Sim.usdcJobWithdrawn) Sim.worldDown None)).
Proof.
  eexists. split; [vm_compute; reflexivity|].
  split; [reflexivity|]. split; [reflexivity|].
  intros H. vm_compute in H. destruct H as [H _]. discriminate H.
Qed.

(** C4 as stated fails, in the two ways in which [setState] throws after it
    has assigned the state: the re-entered [check] throws once the document
    is written (above), and the file system rejects the write. A job seeded
    by the monitor, with nothing on the disk, and a disk that is full:
    [setState(TRIGGERED)] throws the error of the write with TRIGGERED in
    the document in memory, where the state was null, and with nothing on the
    disk. *)
Lemma setState_throws_after_mutation :
  (exists s',
     setState Sim.simAdapters Sim.simConfig 40 (Some SC_WITHDRAWAL_CONFIRMED)
       (Sim.startWith (Some Sim.usdcJobWithdrawn) Sim.worldDown None)
     = Throw (OKXError "50001") s'
     /\ state <$> mem s' = Some (Some SC_WITHDRAWAL_CONFIRMED)
     /\ state <$> disk s' = Some (Some SC_WITHDRAWAL_CONFIRMED)
     /\ ~ Spec.setStateAtomic
           (Sim.startWith (Some Sim.usdcJobWithdrawn) Sim.worldDown None)
           SC_WITHDRAWAL_CONFIRMED
           (setState Sim.simAdapters Sim.simConfig 40 (Some SC_WITHDRAWAL_CONFIRMED)
              (Sim.startWith (Some Sim.usdcJobWithdrawn) Sim.worldDown None)))
  /\ (exists s',
        setStateFS (Rejected (Error "ENOSPC") None)
          (check Sim.simAdapters Sim.simConfig 40) (Some TRIGGERED)
          (Sim.startWith (Some Sim.lnJob) Sim.world0 None)
        = Throw (Error "ENOSPC") s'
        /\ state <$> mem s' = Some (Some TRIGGERED)
        /\ state <$> mem (Sim.startWith (Some Sim.lnJob) Sim.world0 None) = Some None
        /\ disk s' = None
        /\ ~ Spec.setStateAtomic (Sim.startWith (Some Sim.lnJob) Sim.world0 None) TRIGGERED
              (setStateFS (Rejected (Error "ENOSPC") None)
                 (check Sim.simAdapters Sim.simConfig 40) (Some TRIGGERED)
                 (Sim.startWith (Some Sim.lnJob) Sim.world0 None))).
Proof.
  split.
  - exact setState_throws_after_persisting.
  - eexists. split; [vm_compute; reflexivity|].
    split; [reflexivity|]. split; [reflexivity|]. split; [reflexivity|].
    intros H. vm_compute in H. destruct H as [H _]. discriminate H.
Qed.

(** C4, amended. [setState(S)] first checks [REQUIRED_FIELDS[S]] against the
    in-memory document. If a required field is null (or there is no
    document) it throws before mutating anything: the in-memory document and
    the disk are unchanged. Otherwise it sets the state field in memory and
    writes the document. If the file system rejects the write, it throws the
    error of the write there: [S] is in memory, the disk holds what the
    failed write left of the file, no transition is logged and [check] is
    not re-entered. If the write succeeds, the document on the disk has every
    required field non-null and the state [S], and only then [setState]
    re-enters [check]: whatever it returns or throws from there on is what
    the re-entered [check] returns or throws, with [S] already persisted. *)
Theorem setState_atomic (fuel : nat) (st : RebalancingState) (s : Sys W)
    (result : WriteResult) :
  (mem s = None -> setStateFS result (check A cfg fuel) (Some st) s = Throw TypeError s)
  /\ (forall d f, mem s = Some d -> Spec.missingField d st = Some f ->
        setStateFS result (check A cfg fuel) (Some st) s
        = Throw (Error ("Invalid state transition, missing field: " +:+ f)) s)
  /\ (forall d, mem s = Some d -> Spec.missingField d st = None ->
        crashAfter s = None ->
        match result with
        | Rejected e remains =>
            setStateFS result (check A cfg fuel) (Some st) s
            = Throw e (with_disk remains (with_mem (Some (set_state (Some st) d)) s))
        | Written =>
            setStateFS result (check A cfg fuel) (Some st) s
            = check A cfg fuel (persisted s d st)
            /\ Forall (fun f => isNullField (set_state (Some st) d) f = false)
                 (REQUIRED_FIELDS st)
            /\ disk (persisted s d st) = Some (serializeState (set_state (Some st) d))
            /\ state (serializeState (set_state (Some st) d)) = Some st
        end).
Proof.
  split; [|split].
  - intros Hm. unfold setStateFS, bind, nonNull, ret.
    destruct st; cbn; unfold bind, getState, get, nonNull, throw; cbn; rewrite ?Hm; reflexivity.
  - intros d f Hm Hf. by rewrite (setStateFS_unfold _ _ s d st Hm), Hf.
  - intros d Hm Hf Hc.
    rewrite (setStateFS_unfold _ _ s d st Hm), Hf, Hc.
    destruct result as [|e remains]; [|reflexivity].
    split; [reflexivity|]. split; [|split; [reflexivity|by destruct d]].
    unfold Spec.missingField in Hf.
    rewrite Forall_forall. intros x Hx. apply list_elem_of_In in Hx.
    assert (Hn := find_none _ _ Hf x Hx).
    destruct d; destruct st; cbn in Hx; intuition subst; cbn in *; exact Hn.
Qed.

(** *** The balance monitor *)

(** C7. BalanceMonitor trigger arithmetic: when the job slot is idle and
    [|ppmSC - ppmBTC| > rebalanceThresholdPPM], the monitor computes
    [notional = sum * |diff| * rebalanceAmountPPM / 10^12] by integer
    division; if [diff < 0] it seeds the job [{src=BTC, dst=USDC,
    amountOut=notional}] and triggers it; otherwise it converts the notional
    to USDC base units with the price oracle, returns without seeding when
    that amount exceeds the usable USDC balance, and otherwise seeds and
    triggers [{src=USDC, dst=BTC, amountOut=usdcAmount}]. *)
Theorem balance_monitor_trigger (fuel : nat) (s s1 : Sys W)
    (usable btcOfSC onchain : Z) :
  let sum := btcOfSC + onchain in
  let ppmSC := Z.quot (btcOfSC * 1000000) sum in
  let ppmBTC := Z.quot (onchain * 1000000) sum in
  let diff := ppmSC - ppmBTC in
  let notional := Z.quot (sum * Z.abs diff * rebalanceAmountPPM cfg) (10 ^ 12) in
  jobRunning s = false ->
  monitorReadings A cfg s = Ret (usable, btcOfSC, onchain) s1 ->
  sum <> 0 ->
  Z.abs diff > rebalanceThresholdPPM cfg ->
  (0 <= sum * rebalanceAmountPPM cfg ->
     notional = (sum * Z.abs diff * rebalanceAmountPPM cfg) / 10 ^ 12)
  /\ (diff < 0 ->
        balanceMonitor A cfg fuel s
        = setState A cfg fuel (Some TRIGGERED)
            (with_mem (Some (seedJob "BTC" "" "USDC" (tokenAddresses_USDC cfg) notional)) s1))
  /\ (0 <= diff -> crashAfter s1 = None ->
        forall usdcAmount w,
          pricing_getFromBtcSwapAmount A notional (tokenAddresses_USDC cfg) false (world s1)
          = (inr usdcAmount, w) ->
          (usdcAmount > usable ->
             balanceMonitor A cfg fuel s = Ret tt (with_world w s1))
          /\ (usdcAmount <= usable ->
                balanceMonitor A cfg fuel s
                = setState A cfg fuel (Some TRIGGERED)
                    (with_mem (Some (seedJob "USDC" (tokenAddresses_USDC cfg) "BTC" ""
                                       usdcAmount))
                       (with_world w s1)))).
Proof.
  intros sum ppmSC ppmBTC diff notional Hidle Hread Hsum Hthr.
  assert (Hnot : Z.quot (Z.quot (sum * Z.abs diff * rebalanceAmountPPM cfg) 1000000) 1000000
                 = notional).
  { unfold notional. rewrite Z.quot_quot by lia. reflexivity. }
  assert (Hmon : balanceMonitor A cfg fuel s
                 = rebalance A cfg fuel usable btcOfSC onchain s1).
  { unfold balanceMonitor. unfold bind at 1, get. rewrite Hidle.
    unfold bind at 1. rewrite Hread. reflexivity. }
  assert (Hreb : rebalance A cfg fuel usable btcOfSC onchain s1
                 = (if diff <? 0 then
                      bind (modify (with_mem (Some (
                              seedJob "BTC" "" "USDC" (tokenAddresses_USDC cfg) notional))))
                           (fun _ => setState A cfg fuel (Some TRIGGERED))
                    else
                      bind (adapter (pricing_getFromBtcSwapAmount A notional
                                       (tokenAddresses_USDC cfg) false))
                           (fun usdcAmount =>
                              if usdcAmount >? usable then ret tt
                              else bind (modify (with_mem (Some (
                                           seedJob "USDC" (tokenAddresses_USDC cfg) "BTC" ""
                                             usdcAmount))))
                                        (fun _ => setState A cfg fuel (Some TRIGGERED)))) s1).
  { unfold rebalance, bn_div, JS.BN_div. fold sum.
    destruct (sum =? 0) eqn:E; [apply Z.eqb_eq in E; lia|].
    unfold bind at 1, ret at 1. unfold bind at 1, ret at 1.
    fold ppmSC ppmBTC diff.
    destruct (Z.abs diff >? rebalanceThresholdPPM cfg) eqn:E2; [|lia].
    change (1000000 =? 0) with false. cbv iota.
    unfold bind at 1. unfold bind at 1, ret at 1. unfold ret at 1.
    rewrite Hnot. reflexivity. }
  split; [|split].
  - intros Hpos. unfold notional. apply Z.quot_div_nonneg; [|lia].
    assert (0 <= Z.abs diff) by lia. nia.
  - intros Hneg. rewrite Hmon, Hreb.
    destruct (diff <? 0) eqn:E; [|lia]. reflexivity.
  - intros Hpos Hc usdcAmount w Hprice. rewrite Hmon, Hreb.
    destruct (diff <? 0) eqn:E; [lia|].
    rewrite (bind_Ret _ _ _ _ _ (adapter_ok _ s1 usdcAmount w Hc Hprice)).
    split; intros Hcmp.
    + destruct (usdcAmount >? usable) eqn:E3; [reflexivity|lia].
    + destruct (usdcAmount >? usable) eqn:E3; [lia|]. reflexivity.
Qed.

End Engine_facts.

Lemma tx_replacement_witness :
  exists s' d',
    Hedging.onBeforeTxReplace "raw1" "t1" "raw2" "t2"
      (Sim.startWith (Some Sim.usdcJobOutTx) Sim.world0 None) = Ret tt s'
    /\ Hedging.mem s' = Some d'
    /\ Spec.candidates d' = Some [("t1", "raw1"); ("t2", "raw2")].
Proof.
  destruct (proj1 (tx_replacement "raw1" "t1" "raw2" "t2"
                     (Sim.startWith (Some Sim.usdcJobOutTx) Sim.world0 None))
              Sim.usdcJobOutTx [("t1", "raw1")] eq_refl eq_refl eq_refl
              (ex_intro _ "raw1" eq_refl))
    as (s' & d' & H1 & H2 & _ & H3 & _).
  exists s', d'. split; [exact H1|]. split; [exact H2|exact H3].
Defined.

Lemma setState_atomic_witness :
  Hedging.setStateFS Hedging.Written (Hedging.check Sim.simAdapters Sim.simConfig 40)
    (Some Hedging.TRIGGERED)
    (Sim.startWith (Some (Hedging.set_amountOut None Sim.lnJob)) Sim.world0 None)
  = Throw (Error "Invalid state transition, missing field: amountOut")
      (Sim.startWith (Some (Hedging.set_amountOut None Sim.lnJob)) Sim.world0 None)
  /\ Hedging.setStateFS Hedging.Written (Hedging.check Sim.simAdapters Sim.simConfig 40)
       (Some Hedging.TRIGGERED) (Sim.startWith (Some Sim.lnJob) Sim.world0 None)
     = Hedging.check Sim.simAdapters Sim.simConfig 40
         (Hedging.persisted (Sim.startWith (Some Sim.lnJob) Sim.world0 None) Sim.lnJob
            Hedging.TRIGGERED)
  /\ Hedging.setStateFS (Hedging.Rejected (Error "ENOSPC") None)
       (Hedging.check Sim.simAdapters Sim.simConfig 40)
       (Some Hedging.TRIGGERED) (Sim.startWith (Some Sim.lnJob) Sim.world0 None)
     = Throw (Error "ENOSPC")
         (Hedging.with_disk None
            (Hedging.with_mem (Some (Hedging.set_state (Some Hedging.TRIGGERED) Sim.lnJob))
               (Sim.startWith (Some Sim.lnJob) Sim.world0 None))).
Proof.
  split; [|split].
  - apply (proj1 (proj2 (setState_atomic Sim.simAdapters Sim.simConfig 40 Hedging.TRIGGERED
                           (Sim.startWith (Some (Hedging.set_amountOut None Sim.lnJob))
                              Sim.world0 None) Hedging.Written))
             (Hedging.set_amountOut None Sim.lnJob) "amountOut"); reflexivity.
  - apply (proj2 (proj2 (setState_atomic Sim.simAdapters Sim.simConfig 40 Hedging.TRIGGERED
                           (Sim.startWith (Some Sim.lnJob) Sim.world0 None) Hedging.Written))
             Sim.lnJob); reflexivity.
  - apply (proj2 (proj2 (setState_atomic Sim.simAdapters Sim.simConfig 40 Hedging.TRIGGERED
                           (Sim.startWith (Some Sim.lnJob) Sim.world0 None)
                           (Hedging.Rejected (Error "ENOSPC") None)))
             Sim.lnJob); reflexivity.
Defined.

Lemma balance_monitor_trigger_witness :
  Hedging.balanceMonitor Sim.simAdapters Sim.simConfig 40 (Sim.startWith None Sim.world0 None)
  = Hedging.setState Sim.simAdapters Sim.simConfig 40 (Some Hedging.TRIGGERED)
      (Hedging.with_mem (Some (Hedging.seedJob "BTC" "" "USDC" "0xusdc" 500000))
         (Sim.startWith None Sim.world0 None)).
Proof.
  apply (proj1 (proj2 (balance_monitor_trigger Sim.simAdapters Sim.simConfig 40
                         (Sim.startWith None Sim.world0 None)
                         (Sim.startWith None Sim.world0 None)
                         50000000 2000000 3000000
                         eq_refl eq_refl ltac:(vm_compute; discriminate)
                         ltac:(vm_compute; reflexivity)))).
  vm_compute. reflexivity.
Defined.
(** ** Rules for [wp3] *)

Arguments wp3 : simpl never.

Section WP.
Context {St : Type} {short : Prop}.
Implicit Types (T : Exn -> St -> Prop) (C : St -> Prop).

Lemma wp_ret {R} (a : R) Q T C s : Q a s -> wp3 short (ret a) Q T C s.
Proof. auto. Qed.

Lemma wp_throw {R} e (Q : R -> St -> Prop) T C s : T e s -> wp3 short (throw e) Q T C s.
Proof. auto. Qed.

Lemma wp_bind {R R'} (m : M St R) (k : R -> M St R') Q T C s :
  wp3 short m (fun a s' => wp3 short (k a) Q T C s') T C s -> wp3 short (bind m k) Q T C s.
Proof. unfold wp3, bind. destruct (m s); auto. Qed.

Lemma wp_try_catch {R} (m : M St R) h Q T C s :
  wp3 short m Q (fun e s' => wp3 short (h e) Q T C s') C s ->
  wp3 short (try_catch m h) Q T C s.
Proof. unfold wp3, try_catch. destruct (m s); auto. Qed.

Lemma wp_get Q T C s : Q s s -> wp3 short get Q T C s.
Proof. auto. Qed.

Lemma wp_modify f Q T C s : Q tt (f s) -> wp3 short (modify f) Q T C s.
Proof. auto. Qed.

Lemma wp_conseq {R} (m : M St R) (Q Q' : R -> St -> Prop) T T' C C' s :
  wp3 short m Q T C s -> (forall a s', Q a s' -> Q' a s') ->
  (forall e s', T e s' -> T' e s') -> (forall s', C s' -> C' s') ->
  wp3 short m Q' T' C' s.
Proof. unfold wp3. destruct (m s); auto. Qed.

Lemma wp_mono {R} (m : M St R) (Q Q' : R -> St -> Prop) T C s :
  wp3 short m Q T C s -> (forall a s', Q a s' -> Q' a s') -> wp3 short m Q' T C s.
Proof. intros H HQ. apply (wp_conseq m Q Q' T T C C); auto. Qed.

Lemma wp_nonNull {R} (o : option R) Q T C s :
  (forall a, o = Some a -> Q a s) -> (o = None -> T TypeError s) ->
  wp3 short (nonNull o) Q T C s.
Proof. destruct o; unfold wp3; cbn; auto. Qed.

(** A loop with an invariant. *)
Lemma wp_forEach {X} (I : St -> Prop) (l : list X) body Q T C s :
  I s ->
  (forall x s', I s' -> wp3 short (body x) (fun _ s'' => I s'') T C s') ->
  (forall s', I s' -> Q tt s') ->
  wp3 short (forEach l body) Q T C s.
Proof.
  intros HI Hb HQ. revert s HI. induction l as [|x l IH]; intros s HI.
  - apply wp_ret. auto.
  - cbn [forEach]. apply wp_bind. eapply wp_mono; [apply Hb, HI|].
    intros ? s' HI'. apply IH, HI'.
Qed.

End WP.

Section SysWP.
Import Hedging.
Context {W : Type} {short : Prop} (A : Adapters W) (cfg : Config).
Implicit Types (s : Sys W) (T : Exn -> Sys W -> Prop) (C : Sys W -> Prop).

Lemma with_crashAfter_None s : crashAfter s = None -> with_crashAfter None s = s.
Proof. destruct s; simpl; intros ->; reflexivity. Qed.

Lemma wp_effect Q T C s :
  C s -> (forall cr, Q tt (with_crashAfter cr s)) -> wp3 short effect Q T C s.
Proof.
  intros HC HQ. unfold wp3, effect. destruct (crashAfter s) as [[|n]|] eqn:E; auto.
  specialize (HQ None). by rewrite with_crashAfter_None in HQ.
Qed.

Lemma wp_adapter {R} (c : Call W R) Q T C s :
  C s ->
  (forall cr w a, Q a (with_world w (with_crashAfter cr s))) ->
  (forall cr w e, T e (with_world w (with_crashAfter cr s))) ->
  wp3 short (adapter c) Q T C s.
Proof.
  intros HC HQ HT. unfold adapter. apply wp_bind. apply wp_effect; [exact HC|].
  intros cr. unfold wp3. destruct (c _) as [[e|a] w]; auto.
Qed.

Lemma wp_getState Q T C s :
  (forall d, mem s = Some d -> Q d s) -> (mem s = None -> T TypeError s) ->
  wp3 short getState Q T C s.
Proof.
  intros HQ HT. unfold getState. apply wp_bind, wp_get. by apply wp_nonNull.
Qed.

Lemma wp_update f Q T C s :
  (forall d, mem s = Some d -> Q tt (with_mem (Some (f d)) s)) ->
  (mem s = None -> T TypeError s) ->
  wp3 short (update f) Q T C s.
Proof.
  intros HQ HT. unfold update. apply wp_bind, wp_getState; [|exact HT].
  intros d Hd. apply wp_modify. auto.
Qed.

Lemma wp_now Q T C s : Q (clock s) s -> wp3 short now Q T C s.
Proof. auto. Qed.

Lemma wp_random Q T C s :
  (forall r w, Q r (with_world w s)) -> wp3 short (random A) Q T C s.
Proof. intros HQ. unfold wp3, random. destruct (randomBytes16 A _). auto. Qed.

Lemma wp_setCooldown Q T C s :
  (forall d, mem s = Some d ->
     Q tt (with_mem (Some (set_cooldown (Some (clock s + 5 * 1000)) d)) s)) ->
  (mem s = None -> T TypeError s) ->
  wp3 short setCooldown Q T C s.
Proof. intros HQ HT. unfold setCooldown. apply wp_bind, wp_now. by apply wp_update. Qed.

Lemma touch_twice s w cr w' cr' :
  with_world w' (with_crashAfter cr' (with_world w (with_crashAfter cr s)))
  = with_world w' (with_crashAfter cr' s).
Proof. reflexivity. Qed.

Lemma touch_self s : with_world (world s) (with_crashAfter (crashAfter s) s) = s.
Proof. by destruct s. Qed.

(** A loop of adapter calls changes the world and the crash budget only. *)
Lemma wp_forEach_adapter {X} (l : list X) (c : X -> Call W unit) Q T C s :
  (forall w cr, C (with_world w (with_crashAfter cr s))) ->
  (forall w cr, Q tt (with_world w (with_crashAfter cr s))) ->
  (forall w cr e, T e (with_world w (with_crashAfter cr s))) ->
  wp3 short (forEach l (fun x => adapter (c x))) Q T C s.
Proof.
  intros HC HQ HT.
  apply (wp_forEach (fun s' => exists w cr, s' = with_world w (with_crashAfter cr s))).
  - exists (world s), (crashAfter s). by rewrite touch_self.
  - intros x s' (w & cr & ->). apply wp_adapter.
    + apply HC.
    + intros cr' w' a. exists w', cr'. apply touch_twice.
    + intros cr' w' e. rewrite touch_twice. apply HT.
  - intros s' (w & cr & ->). apply HQ.
Qed.

Lemma wp_scanTxs entries p n Q T C s :
  (forall w cr, C (with_world w (with_crashAfter cr s))) ->
  (forall w cr r, Q r (with_world w (with_crashAfter cr s))) ->
  (forall w cr e, T e (with_world w (with_crashAfter cr s))) ->
  wp3 short (scanTxs A entries p n) Q T C s.
Proof.
  intros HC HQ HT.
  assert (G : forall s', (exists w cr, s' = with_world w (with_crashAfter cr s)) ->
              forall p n, wp3 short (scanTxs A entries p n) Q T C s').
  { clear p n. induction entries as [|[txId txData] r IH]; intros s' (w & cr & ->) p n.
    - apply wp_ret, HQ.
    - cbn [scanTxs]. apply wp_bind, wp_adapter.
      + apply HC.
      + intros cr' w' a. rewrite touch_twice.
        destruct a; try (apply IH; eauto). apply wp_ret, HQ.
      + intros cr' w' e. rewrite touch_twice. apply HT. }
  apply G. exists (world s), (crashAfter s). by rewrite touch_self.
Qed.

Lemma stateIndex_inj a b : stateIndex a = stateIndex b -> a = b.
Proof. destruct a, b; cbv; congruence. Qed.

Lemma inState_true (d : HedgingPluginState Z) st : inState d st = true -> state d = Some st.
Proof.
  unfold inState. destruct (state d) as [x|]; [|discriminate].
  intros H. apply Z.eqb_eq, stateIndex_inj in H. by subst.
Qed.

Lemma check_blocked fuel s d :
  mem s = Some d -> opt_gt (cooldown d) (clock s) = true ->
  check A cfg fuel s = Ret tt s \/ check A cfg fuel s = OutOfFuel.
Proof.
  intros Hm Hb. destruct fuel as [|f]; [by right|left].
  cbn [check]. unfold checkWith, bind, get. by rewrite Hm, Hb.
Qed.

End SysWP.

(** ** Symbolic execution of the handlers *)

Ltac norm_proj :=
  cbn [Hedging.mem Hedging.disk Hedging.archived Hedging.clock Hedging.world
       Hedging.transitions Hedging.crashAfter
       Hedging.with_mem Hedging.with_disk Hedging.with_archived Hedging.with_clock
       Hedging.with_world Hedging.with_transitions Hedging.with_crashAfter
       Hedging.persisted fst snd
       Hedging.state Hedging.cooldown Hedging.retryAt Hedging.retryState
       Hedging.srcToken Hedging.srcTokenAddress Hedging.dstToken
       Hedging.dstTokenAddress Hedging.amountOut Hedging.scWithdrawTxs
       Hedging.scWithdrawTxId Hedging.outTxs Hedging.outTxId Hedging.depositId
       Hedging.clientOrderId Hedging.orderId Hedging.price Hedging.amountIn
       Hedging.clientTransferId Hedging.transferId Hedging.receivingAddress
       Hedging.withdrawalFee Hedging.withdrawalId Hedging.inTxId
       Hedging.scDepositTxs Hedging.scDepositTxId
       Hedging.set_state Hedging.set_cooldown Hedging.set_retryAt
       Hedging.set_retryState Hedging.set_srcToken Hedging.set_srcTokenAddress
       Hedging.set_dstToken Hedging.set_dstTokenAddress Hedging.set_amountOut
       Hedging.set_scWithdrawTxs Hedging.set_scWithdrawTxId Hedging.set_outTxs
       Hedging.set_outTxId Hedging.set_depositId Hedging.set_clientOrderId
       Hedging.set_orderId Hedging.set_price Hedging.set_amountIn
       Hedging.set_clientTransferId Hedging.set_transferId
       Hedging.set_receivingAddress Hedging.set_withdrawalFee
       Hedging.set_withdrawalId Hedging.set_inTxId Hedging.set_scDepositTxs
       Hedging.set_scDepositTxId Hedging.emptyState] in *.

Ltac use_mem :=
  repeat match goal with
  | H : Hedging.mem ?s = Some ?d, H' : Hedging.mem ?s = Some ?d' |- _ =>
      rewrite H in H'; injection H' as <-
  | H : Hedging.mem ?s = Some _, H' : Hedging.mem ?s = None |- _ =>
      rewrite H in H'; discriminate H'
  | H : Some ?x = Some ?y |- _ => injection H as <-
  | H : Some _ = None |- _ => discriminate H
  | H : None = Some _ |- _ => discriminate H
  end.

Ltac rw_state :=
  repeat match goal with
  | H : Hedging.state ?d = Some _ |- context [Hedging.state ?d] => rewrite H
  end.

Ltac side := norm_proj; rw_state; first [eassumption | reflexivity].

Ltac solve_blocked :=
  norm_proj; unfold Hedging.opt_gt; apply Z.gtb_lt; lia.

(** One step: [setst] treats a [setState], [leaf] a goal that is no longer
    about a computation. *)
Ltac wp_step setst leaf :=
  norm_proj; use_mem; cbv beta;
  lazymatch goal with
  | |- wp3 _ (bind _ _) _ _ _ _ => apply wp_bind
  | |- wp3 _ (ret _) _ _ _ _ => apply wp_ret
  | |- wp3 _ (throw _) _ _ _ _ => apply wp_throw
  | |- wp3 _ Hedging.getState _ _ _ _ =>
      apply wp_getState; [intros ? ? | intros ?]; use_mem
  | |- wp3 _ (Hedging.update _) _ _ _ _ =>
      apply wp_update; [intros ? ? | intros ?]; use_mem
  | |- wp3 _ Hedging.setCooldown _ _ _ _ =>
      apply wp_setCooldown; [intros ? ? | intros ?]; use_mem
  | |- wp3 _ (Hedging.adapter _) _ _ _ _ =>
      apply wp_adapter; [ | intros ? ? ? | intros ? ? ?]
  | |- wp3 _ (Hedging.random _) _ _ _ _ => apply wp_random; intros ? ?
  | |- wp3 _ Hedging.now _ _ _ _ => apply wp_now
  | |- wp3 _ get _ _ _ _ => apply wp_get
  | |- wp3 _ (modify _) _ _ _ _ => apply wp_modify
  | |- wp3 _ (nonNull _) _ _ _ _ => apply wp_nonNull; [intros ? ? | intros ?]
  | |- wp3 _ (Hedging.tryOpt _) _ _ _ _ => unfold Hedging.tryOpt; apply wp_try_catch
  | |- wp3 _ (try_catch _ _) _ _ _ _ => apply wp_try_catch
  | |- wp3 _ (Hedging.setStateWith _ _) _ _ _ _ => setst
  | |- wp3 _ (Hedging.scheduleRetry _ _) _ _ _ _ => unfold Hedging.scheduleRetry
  | |- wp3 _ Hedging.archiveState _ _ _ _ => unfold Hedging.archiveState
  | |- wp3 _ Hedging.saveState _ _ _ _ => unfold Hedging.saveState
  | |- wp3 _ Hedging.effect _ _ _ _ => apply wp_effect; [ | intros ?]
  | |- wp3 _ (Hedging.unlockUtxos _ _) _ _ _ _ =>
      unfold Hedging.unlockUtxos; apply wp_forEach_adapter;
      [intros ? ? | intros ? ? | intros ? ? ?]
  | |- wp3 _ (Hedging.scanTxs _ _ _ _) _ _ _ _ =>
      apply wp_scanTxs; [intros ? ? | intros ? ? ? | intros ? ? ?]
  | |- wp3 _ (if ?b then _ else _) _ _ _ _ => destruct b eqn:?
  | |- wp3 _ (match ?x with _ => _ end) _ _ _ _ => destruct x eqn:?
  | |- wp3 _ _ _ _ _ _ => fail
  | |- _ => leaf
  end.

(** ** Every transition of [check] is an allowed one *)

(** The handlers are taken one by one over [recheck], the run of [check]
    that ends [setState]. Two facts are assumed of it, and proved of
    [check] by induction on the fuel: it keeps the invariant ([Hre]), and it
    returns at once when the cooldown of the document has not passed
    ([Hblk]). The second one is what lets a handler go on after a
    [setState] that it has armed with a cooldown: the document is then
    the one it has just written. *)
Section Allowed.
Import Hedging Spec.
Context {W : Type} (A : Adapters W) (cfg : Config).
Variable recheck : M (Sys W) unit.
Variable t0 : Log.

Local Abbreviation wpL m Q s :=
  (wp3 True m Q (fun _ s' => Logged t0 s') (Logged t0) s) (only parsing).

Hypothesis Hre : forall s, Logged t0 s -> wpL recheck (fun _ s' => Logged t0 s') s.
Hypothesis Hblk : forall s d, mem s = Some d -> opt_gt (cooldown d) (clock s) = true ->
  recheck s = Ret tt s \/ recheck s = OutOfFuel.

Lemma Logged_touch (s s' : Sys W) :
  Logged t0 s -> transitions s' = transitions s -> Logged t0 s'.
Proof. intros (new & Ht & Hall) Ht'. exists new. by rewrite Ht'. Qed.

Lemma Logged_cons (s s' : Sys W) o n :
  Logged t0 s -> transitions s' = (o, n) :: transitions s -> allowed o n = true ->
  Logged t0 s'.
Proof.
  intros (new & Ht & Hall) Ht' Ha. exists ((o, n) :: new). rewrite Ht', Ht.
  split; [reflexivity|]. by constructor.
Qed.

Lemma allowed_retrying o : allowed o RETRYING = true.
Proof. destruct o as [[]|]; reflexivity. Qed.

Lemma allowed_from_retrying n : allowed (Some RETRYING) n = true.
Proof. destruct n; reflexivity. Qed.

(** [setState] when the [check] it ends with may run: what is known of the
    document afterwards is the invariant only. *)
Lemma wpL_setState_any (o : option RebalancingState) s Q :
  Logged t0 s ->
  (forall d st, mem s = Some d -> o = Some st -> Logged t0 (persisted s d st)) ->
  (forall s', Logged t0 s' -> Q tt s') ->
  wpL (setStateWith recheck o) Q s.
Proof.
  intros HI Hstep HQ.
  destruct o as [st|]; [|apply wp_bind, wp_nonNull; [discriminate|auto]].
  destruct (mem s) as [d|] eqn:Hm.
  - unfold wp3. rewrite (setStateWith_unfold recheck s d st Hm).
    destruct (Spec.missingField d st); [exact HI|].
    assert (Hp : forall cr, match recheck (with_crashAfter cr (persisted s d st)) with
                 | Ret a s' => Q a s' | Throw _ s' => Logged t0 s'
                 | Crash s' => Logged t0 s'
                 | OutOfFuel => True end).
    { intros cr.
      assert (HI' : Logged t0 (with_crashAfter cr (persisted s d st)))
        by (by apply (Logged_touch (persisted s d st)); [apply Hstep|]).
      specialize (Hre _ HI'). unfold wp3 in Hre.
      destruct (recheck _) as [[] ?| | |]; auto. }
    destruct (crashAfter s) as [[|n]|] eqn:Hc.
    + by apply (Logged_touch s).
    + apply Hp.
    + specialize (Hp None). rewrite with_crashAfter_None in Hp; [exact Hp|exact Hc].
  - unfold wp3, setStateWith, bind, nonNull, ret.
    destruct st; cbn; unfold bind, getState, get, nonNull, throw, bind; cbn; rewrite ?Hm; cbn;
      exact HI.
Qed.

(** [setState] under a cooldown: the [check] it ends with returns at once. *)
Lemma wpL_setState_blocked st s d Q :
  mem s = Some d -> opt_gt (cooldown d) (clock s) = true ->
  Logged t0 s -> Logged t0 (persisted s d st) ->
  (forall cr, Logged t0 (with_crashAfter cr (persisted s d st)) ->
              Q tt (with_crashAfter cr (persisted s d st))) ->
  wpL (setStateWith recheck (Some st)) Q s.
Proof.
  intros Hm Hb HI HI' HQ.
  unfold wp3. rewrite (setStateWith_unfold recheck s d st Hm).
  destruct (Spec.missingField d st); [exact HI|].
  assert (Hp : forall cr, match recheck (with_crashAfter cr (persisted s d st)) with
               | Ret a s' => Q a s' | Throw _ s' => Logged t0 s'
               | Crash s' => Logged t0 s'
               | OutOfFuel => True end).
  { intros cr. destruct (Hblk (with_crashAfter cr (persisted s d st))
                           (set_state (Some st) d) eq_refl Hb) as [-> | ->]; [|exact I].
    apply HQ. by apply (Logged_touch (persisted s d st)). }
  destruct (crashAfter s) as [[|n]|] eqn:Hc.
  + by apply (Logged_touch s).
  + apply Hp.
  + specialize (Hp None). rewrite with_crashAfter_None in Hp; [exact Hp|exact Hc].
Qed.

Ltac solve_allowed :=
  norm_proj; rw_state;
  first [ assumption | reflexivity | apply allowed_retrying | apply allowed_from_retrying ].

Ltac leafL :=
  cbv beta; norm_proj;
  match goal with
  | H : Logged _ ?S |- Logged _ _ =>
      first
      [ apply (Logged_touch S); [exact H | reflexivity]
      | eapply (Logged_cons S); [exact H | norm_proj; reflexivity | solve_allowed] ]
  end.

Ltac setStateL :=
  first
    [ eapply wpL_setState_blocked;
        [ norm_proj; first [reflexivity | eassumption]
        | solve_blocked
        | leafL
        | leafL
        | intros ? ? ]
    | eapply wpL_setState_any;
        [ leafL
        | let d := fresh "d" in let st := fresh "st" in
          let H1 := fresh in let H2 := fresh in
          intros d st H1 H2; norm_proj; use_mem; leafL
        | intros ? ? ] ].

(** The publish loop of the three smart-chain steps: the callback
    records the transaction and moves the job to [target]; the later
    transactions of the batch find the job there. *)
Lemma wpL_sendAndConfirm
    (getm : HedgingPluginState Z -> option TxMap)
    (setm : option TxMap -> HedgingPluginState Z -> HedgingPluginState Z)
    (from target : RebalancingState) txs s d Q :
  (forall v d, state (setm v d) = state d) ->
  allowed (Some from) target = true ->
  allowed (Some target) target = true ->
  Logged t0 s -> mem s = Some d ->
  (state d = Some from \/ state d = Some target) ->
  (forall s', Logged t0 s' -> Q tt s') ->
  wpL (sendAndConfirm A txs (fun txId rawTx =>
         d <- getState;;
         m <- nonNull (getm d);;
         update (setm (Some (obj_set txId rawTx m)));;;
         setCooldown;;; setStateWith recheck (Some target))) Q s.
Proof.
  intros Hs Ha1 Ha2 HI Hm Hst HQ. unfold sendAndConfirm.
  apply (wp_forEach (fun s' => Logged t0 s' /\ exists d', mem s' = Some d' /\
           (state d' = Some from \/ state d' = Some target))).
  - eauto.
  - intros tx s1 (HI1 & d1 & Hm1 & Hst1).
    assert (Hal : forall v, allowed (state (setm v d1)) target = true).
    { intros v. rewrite Hs. destruct Hst1 as [-> | ->]; assumption. }
    repeat wp_step setStateL leafL. norm_proj; use_mem.
    pose proof (Hal (Some (obj_set a.1 a.2 a0))).
    eapply wpL_setState_blocked.
    + norm_proj. reflexivity.
    + solve_blocked.
    + leafL.
    + leafL.
    + intros cr1 Hper. repeat wp_step setStateL leafL.
      split; [leafL|]. norm_proj. eexists; split; [reflexivity|]. right. reflexivity.
  - intros s' [HI' _]. auto.
Qed.

Ltac publishL :=
  match goal with
  | Hst : state _ = Some ?from |- wp3 _ (sendAndConfirm _ _ _) _ _ _ _ =>
      eapply (wpL_sendAndConfirm _ _ from);
        [ reflexivity | reflexivity | reflexivity | leafL
        | norm_proj; reflexivity
        | norm_proj; left; exact Hst
        | intros ? ? ]
  end.

Ltac goL := repeat first [wp_step setStateL leafL | publishL].

Lemma onRETRYING_logged (s : Sys W) d :
  Logged t0 s -> mem s = Some d -> state d = Some RETRYING ->
  wpL (onRETRYING recheck) (fun _ s' => Logged t0 s') s.
Proof. intros HI Hm Hst. unfold onRETRYING. goL. Qed.

Lemma onTRIGGERED_logged (s : Sys W) d :
  Logged t0 s -> mem s = Some d -> state d = Some TRIGGERED ->
  wpL (onTRIGGERED A recheck) (fun _ s' => Logged t0 s') s.
Proof. intros HI Hm Hst. unfold onTRIGGERED. goL. Qed.

Lemma onSC_WITHDRAWING_logged (s : Sys W) d :
  Logged t0 s -> mem s = Some d -> state d = Some SC_WITHDRAWING ->
  wpL (onSC_WITHDRAWING A recheck) (fun _ s' => Logged t0 s') s.
Proof. intros HI Hm Hst. unfold onSC_WITHDRAWING. goL. Qed.

Lemma onSC_WITHDRAWAL_CONFIRMED_logged (s : Sys W) d :
  Logged t0 s -> mem s = Some d -> state d = Some SC_WITHDRAWAL_CONFIRMED ->
  wpL (onSC_WITHDRAWAL_CONFIRMED A cfg recheck) (fun _ s' => Logged t0 s') s.
Proof. intros HI Hm Hst. unfold onSC_WITHDRAWAL_CONFIRMED. goL. Qed.

Lemma onOUT_TX_logged (s : Sys W) d :
  Logged t0 s -> mem s = Some d -> state d = Some OUT_TX ->
  wpL (onOUT_TX A recheck) (fun _ s' => Logged t0 s') s.
Proof. intros HI Hm Hst. unfold onOUT_TX. goL. Qed.

Lemma onOUT_TX_CONFIRMED_logged (s : Sys W) d :
  Logged t0 s -> mem s = Some d -> state d = Some OUT_TX_CONFIRMED ->
  wpL (onOUT_TX_CONFIRMED A recheck) (fun _ s' => Logged t0 s') s.
Proof. intros HI Hm Hst. unfold onOUT_TX_CONFIRMED. goL. Qed.

Lemma onDEPOSIT_RECEIVED_logged (s : Sys W) d :
  Logged t0 s -> mem s = Some d -> state d = Some DEPOSIT_RECEIVED ->
  wpL (onDEPOSIT_RECEIVED A recheck) (fun _ s' => Logged t0 s') s.
Proof. intros HI Hm Hst. unfold onDEPOSIT_RECEIVED. goL. Qed.

Lemma onTRADE_EXECUTING_logged (s : Sys W) d :
  Logged t0 s -> mem s = Some d -> state d = Some TRADE_EXECUTING ->
  wpL (onTRADE_EXECUTING A recheck) (fun _ s' => Logged t0 s') s.
Proof. intros HI Hm Hst. unfold onTRADE_EXECUTING. goL. Qed.

Lemma onTRADE_EXECUTED_logged (s : Sys W) d :
  Logged t0 s -> mem s = Some d -> state d = Some TRADE_EXECUTED ->
  wpL (onTRADE_EXECUTED A recheck) (fun _ s' => Logged t0 s') s.
Proof. intros HI Hm Hst. unfold onTRADE_EXECUTED. goL. Qed.

Lemma onFUNDS_TRANSFERING_logged (s : Sys W) d :
  Logged t0 s -> mem s = Some d -> state d = Some FUNDS_TRANSFERING ->
  wpL (onFUNDS_TRANSFERING A recheck) (fun _ s' => Logged t0 s') s.
Proof. intros HI Hm Hst. unfold onFUNDS_TRANSFERING. goL. Qed.

Lemma onFUNDS_TRANSFERED_logged (s : Sys W) d :
  Logged t0 s -> mem s = Some d -> state d = Some FUNDS_TRANSFERED ->
  wpL (onFUNDS_TRANSFERED A cfg recheck) (fun _ s' => Logged t0 s') s.
Proof. intros HI Hm Hst. unfold onFUNDS_TRANSFERED. goL. Qed.

Lemma onWITHDRAWING_logged (s : Sys W) d :
  Logged t0 s -> mem s = Some d -> state d = Some WITHDRAWING ->
  wpL (onWITHDRAWING A recheck) (fun _ s' => Logged t0 s') s.
Proof. intros HI Hm Hst. unfold onWITHDRAWING. goL. Qed.

Lemma onWITHDRAWAL_SENT_logged (s : Sys W) d :
  Logged t0 s -> mem s = Some d -> state d = Some WITHDRAWAL_SENT ->
  wpL (onWITHDRAWAL_SENT A recheck) (fun _ s' => Logged t0 s') s.
Proof. intros HI Hm Hst. unfold onWITHDRAWAL_SENT. goL. Qed.

Lemma onIN_TX_CONFIRMED_logged (s : Sys W) d :
  Logged t0 s -> mem s = Some d -> state d = Some IN_TX_CONFIRMED ->
  wpL (onIN_TX_CONFIRMED A recheck) (fun _ s' => Logged t0 s') s.
Proof. intros HI Hm Hst. unfold onIN_TX_CONFIRMED. goL. Qed.

Lemma onSC_DEPOSITING_logged (s : Sys W) d :
  Logged t0 s -> mem s = Some d -> state d = Some SC_DEPOSITING ->
  wpL (onSC_DEPOSITING A recheck) (fun _ s' => Logged t0 s') s.
Proof. intros HI Hm Hst. unfold onSC_DEPOSITING. goL. Qed.

Lemma onSC_DEPOSITED_logged (s : Sys W) d :
  Logged t0 s -> mem s = Some d -> state d = Some SC_DEPOSITED ->
  wpL (onSC_DEPOSITED recheck) (fun _ s' => Logged t0 s') s.
Proof. intros HI Hm Hst. unfold onSC_DEPOSITED. goL. Qed.

Lemma onFINISHED_logged (s : Sys W) d :
  Logged t0 s -> mem s = Some d -> state d = Some FINISHED ->
  wpL (@onFINISHED W) (fun _ s' => Logged t0 s') s.
Proof. intros HI Hm Hst. unfold onFINISHED. goL. Qed.

Lemma wpL_whenState st (handler : M (Sys W) bool) rest :
  (forall s d, Logged t0 s -> mem s = Some d -> state d = Some st ->
     wpL handler (fun _ s' => Logged t0 s') s) ->
  (forall s, Logged t0 s -> wpL rest (fun _ s' => Logged t0 s') s) ->
  forall s, Logged t0 s -> wpL (whenState st handler rest) (fun _ s' => Logged t0 s') s.
Proof.
  intros Hh Hr s HI. unfold whenState.
  apply wp_bind, wp_getState; [|intros _; exact HI].
  intros d Hm. destruct (inState d st) eqn:E; [|by apply Hr].
  apply inState_true in E. apply wp_bind.
  eapply wp_mono; [exact (Hh s d HI Hm E)|].
  intros [] s' HI'; [exact HI'|by apply Hr].
Qed.

Lemma checkWith_logged s :
  Logged t0 s -> wpL (checkWith A cfg recheck) (fun _ s' => Logged t0 s') s.
Proof.
  intros HI. unfold checkWith. apply wp_bind, wp_get.
  destruct (mem s) as [d|]; [|exact HI].
  destruct (opt_gt (cooldown d) (clock s)); [exact HI|].
  revert s HI.
  apply wpL_whenState; [apply onRETRYING_logged|].
  apply wpL_whenState; [apply onTRIGGERED_logged|].
  apply wpL_whenState; [apply onSC_WITHDRAWING_logged|].
  apply wpL_whenState; [apply onSC_WITHDRAWAL_CONFIRMED_logged|].
  apply wpL_whenState; [apply onOUT_TX_logged|].
  apply wpL_whenState; [apply onOUT_TX_CONFIRMED_logged|].
  apply wpL_whenState; [apply onDEPOSIT_RECEIVED_logged|].
  apply wpL_whenState; [apply onTRADE_EXECUTING_logged|].
  apply wpL_whenState; [apply onTRADE_EXECUTED_logged|].
  apply wpL_whenState; [apply onFUNDS_TRANSFERING_logged|].
  apply wpL_whenState; [apply onFUNDS_TRANSFERED_logged|].
  apply wpL_whenState; [apply onWITHDRAWING_logged|].
  apply wpL_whenState; [apply onWITHDRAWAL_SENT_logged|].
  apply wpL_whenState; [apply onIN_TX_CONFIRMED_logged|].
  apply wpL_whenState; [apply onSC_DEPOSITING_logged|].
  apply wpL_whenState; [apply onSC_DEPOSITED_logged|].
  apply wpL_whenState; [apply onFINISHED_logged|].
  intros s HI. exact HI.
Qed.

(** The replacement callback logs nothing. *)
Lemma onBeforeTxReplace_logged oldTx oldTxId newTx newTxId (s : Sys W) :
  Logged t0 s ->
  wpL (onBeforeTxReplace oldTx oldTxId newTx newTxId) (fun _ s' => Logged t0 s') s.
Proof. intros HI. unfold onBeforeTxReplace. goL. Qed.

End Allowed.

Section Allowed_check.
Import Hedging Spec.
Context {W : Type} (A : Adapters W) (cfg : Config).

Lemma check_logged t0 fuel : forall s : Sys W,
  Logged t0 s ->
  wp3 True (check A cfg fuel) (fun _ s' => Logged t0 s') (fun _ s' => Logged t0 s')
      (Logged t0) s.
Proof.
  induction fuel as [|f IH]; intros s HI; [exact I|].
  cbn [check]. apply (checkWith_logged A cfg (check A cfg f) t0 IH (check_blocked A cfg f)).
  exact HI.
Qed.

End Allowed_check.

(** ** Every exit from RETRYING re-enters a visited state *)

Section Visits.
Import Hedging Spec.
Context {W : Type}.
Implicit Types (s : Sys W) (log : Log) (d : HedgingPluginState Z).

Lemma sameState_eq a b : sameState a b = true <-> a = b.
Proof.
  unfold sameState. rewrite Z.eqb_eq. split; [|by intros ->].
  destruct a, b; cbv; congruence.
Qed.

Lemma sameState_refl a : sameState a a = true.
Proof. by apply sameState_eq. Qed.

Lemma visited_cons o n log x :
  visited ((o, n) :: log) x = sameState n x || visited log x.
Proof. reflexivity. Qed.

Lemma visited_again o n log x :
  visited log n = true -> visited ((o, n) :: log) x = visited log x.
Proof.
  intros H. rewrite visited_cons. destruct (sameState n x) eqn:E; [|reflexivity].
  apply sameState_eq in E. subst. by rewrite H.
Qed.

Lemma visited_mono o n log x : visited log x = true -> visited ((o, n) :: log) x = true.
Proof. intros H. rewrite visited_cons, H. apply orb_true_r. Qed.

(** A handler's transition keeps the document and the log in agreement. *)
Lemma docOK_step log d d' h n :
  closedLog log -> docOK log d -> state d = Some h -> state d' = Some n ->
  btcLike d' = btcLike d ->
  stepOK (btcLike d) h n (retryState d') = true ->
  wormholes ((Some h, n) :: log) = wormholes log
  /\ closedLog ((Some h, n) :: log) /\ docOK ((Some h, n) :: log) d'.
Proof.
  unfold docOK. intros Hc Hd Hh Hn Hb Hs. rewrite Hh in Hd. rewrite Hn, Hb.
  destruct Hd as (Hv & Ho & Hx).
  unfold stepOK in Hs. apply andb_true_iff in Hs as [Hs Hr].
  apply andb_true_iff in Hs as [Hs Hot].
  apply andb_true_iff in Hs as [Hnr He]. apply negb_true_iff in Hnr.
  split; [cbn [wormholes]; by rewrite Hnr|].
  split; [|split; [by rewrite visited_cons, sameState_refl|split]].
  - intros st p Hp. rewrite !visited_cons. intros Hst.
    apply orb_true_iff in Hst as [Hst|Hst].
    + apply sameState_eq in Hst. subst st. rewrite Hp in He.
      apply orb_true_iff in He as [He|He]; apply sameState_eq in He; subst.
      * rewrite Hv. apply orb_true_r.
      * rewrite (Hc h p Hp Hv). apply orb_true_r.
    + rewrite (Hc st p Hp Hst). apply orb_true_r.
  - intros -> Hbtc. rewrite sameState_refl, Hbtc in Hot. cbn [orb] in Hot.
    apply visited_mono.
    apply orb_true_iff in Hot as [Hot|Hot]; apply sameState_eq in Hot; subst; auto.
  - intros ->. rewrite sameState_refl in Hr.
    destruct (retryState d') as [t|]; [|discriminate]. exists t.
    apply andb_true_iff in Hr as [Hne Hr]. apply negb_true_iff in Hne.
    split; [reflexivity|]. split.
    + apply visited_mono.
      apply orb_true_iff in Hr as [Hr|Hr]; [apply orb_true_iff in Hr as [Hr|Hr]|].
      * apply sameState_eq in Hr. by subst.
      * destruct (enteredFrom h) as [p|] eqn:Ep; [|discriminate].
        apply sameState_eq in Hr. subst. by apply (Hc h t).
      * apply andb_true_iff in Hr as [Hr Ht]. apply andb_true_iff in Hr as [Hr Hbtc].
        apply sameState_eq in Hr, Ht. subst. apply negb_true_iff in Hbtc. auto.
    + intros ->. discriminate.
Qed.

(** Leaving RETRYING for the state recorded in the document. *)
Lemma docOK_exit log d d' r :
  closedLog log -> docOK log d -> state d = Some RETRYING -> retryState d = Some r ->
  state d' = Some r -> retryState d' = retryState d ->
  wormholes ((Some RETRYING, r) :: log) = wormholes log
  /\ closedLog ((Some RETRYING, r) :: log) /\ docOK ((Some RETRYING, r) :: log) d'.
Proof.
  unfold docOK. intros Hc Hd Hh Hr Hn Hr'. rewrite Hh in Hd. rewrite Hn, Hr'.
  destruct Hd as (Hv & _ & Hx). destruct (Hx eq_refl) as (r0 & Hr0 & Hvr & Hne).
  rewrite Hr in Hr0. injection Hr0 as <-.
  split; [cbn [wormholes]; by rewrite sameState_refl, Hvr|].
  split; [|split; [by rewrite visited_cons, sameState_refl|split]].
  - intros st p Hp. rewrite !visited_again by exact Hvr. by apply Hc.
  - intros ->. congruence.
  - intros ->. exists RETRYING. by rewrite Hr, visited_again.
Qed.

(** A change of the document that keeps the state and the source. *)
Lemma docOK_same log d d' :
  docOK log d -> state d' = state d -> btcLike d' = btcLike d ->
  (retryState d' = retryState d \/ state d <> Some RETRYING) ->
  docOK log d'.
Proof.
  unfold docOK. intros Hd Hs Hb Hr. rewrite Hs, Hb.
  destruct (state d) as [st|]; [|exact I].
  destruct Hd as (Hv & Hc & Hx). repeat split; auto.
  intros ->. destruct Hr as [-> | Hr]; [auto|congruence].
Qed.

Variable t0 : Log.
Implicit Type V : list RebalancingState.

Lemma Traced_touch V s s' :
  Traced V t0 s -> transitions s' = transitions s -> mem s' = mem s -> Traced V t0 s'.
Proof. unfold Traced. intros H -> ->. exact H. Qed.

Lemma Traced_log V s s' :
  Traced V t0 s -> transitions s' = transitions s -> Wormholed t0 s'.
Proof. intros (new & Ht & Hw & _) Ht'. exists new. by rewrite Ht'. Qed.

Lemma Traced_weaken V V' s :
  Traced V' t0 s -> (forall x, In x V -> In x V') -> Traced V t0 s.
Proof.
  intros (new & Ht & Hw & Hc & Hk & Hd) Hsub. exists new. repeat split; auto.
Qed.

Lemma Traced_same V s s' d d' :
  Traced V t0 s -> mem s = Some d -> transitions s' = transitions s -> mem s' = Some d' ->
  state d' = state d -> btcLike d' = btcLike d ->
  (retryState d' = retryState d \/ state d <> Some RETRYING) ->
  Traced V t0 s'.
Proof.
  intros (new & Ht & Hw & Hc & Hk & Hd) Hm Ht' Hm' Hs Hb Hr. rewrite Hm in Hd.
  exists new. rewrite Ht', Hm'. repeat split; auto. by apply (docOK_same new d).
Qed.

Lemma Traced_step V s s' d d' h n :
  Traced V t0 s -> mem s = Some d -> state d = Some h ->
  transitions s' = (Some h, n) :: transitions s -> mem s' = Some d' ->
  state d' = Some n -> btcLike d' = btcLike d ->
  stepOK (btcLike d) h n (retryState d') = true ->
  Traced V t0 s'.
Proof.
  intros (new & Ht & Hw & Hc & Hk & Hd) Hm Hh Ht' Hm' Hn Hb Hs. rewrite Hm in Hd.
  destruct (docOK_step new d d' h n Hc Hd Hh Hn Hb Hs) as (Hw' & Hc' & Hd').
  exists ((Some h, n) :: new). rewrite Ht', Ht, Hm'. repeat split; auto; [congruence|].
  intros x Hx. apply visited_mono. auto.
Qed.

Lemma Traced_exit V s s' d d' r :
  Traced V t0 s -> mem s = Some d -> state d = Some RETRYING -> retryState d = Some r ->
  transitions s' = (Some RETRYING, r) :: transitions s -> mem s' = Some d' ->
  state d' = Some r -> retryState d' = retryState d ->
  Traced V t0 s'.
Proof.
  intros (new & Ht & Hw & Hc & Hk & Hd) Hm Hh Hr Ht' Hm' Hn Hr'. rewrite Hm in Hd.
  destruct (docOK_exit new d d' r Hc Hd Hh Hr Hn Hr') as (Hw' & Hc' & Hd').
  exists ((Some RETRYING, r) :: new). rewrite Ht', Ht, Hm'. repeat split; auto; [congruence|].
  intros x Hx. apply visited_mono. auto.
Qed.

(** The job is over: the document is the empty one. *)
Lemma Traced_over V s s' d' :
  Traced V t0 s -> transitions s' = transitions s -> mem s' = Some d' -> state d' = None ->
  Traced V t0 s'.
Proof.
  intros (new & Ht & Hw & Hc & Hk & _) Ht' Hm' Hn. exists new. rewrite Ht', Hm'.
  repeat split; auto. unfold docOK. by rewrite Hn.
Qed.

(** A retry scheduled for a state known to be visited, whatever the
    document says of the state the job is in. *)
Lemma Traced_retry_known V s s' d d' t :
  Traced V t0 s -> mem s = Some d ->
  transitions s' = (state d, RETRYING) :: transitions s -> mem s' = Some d' ->
  state d' = Some RETRYING -> retryState d' = Some t ->
  In t V -> sameState t OUT_TX = false ->
  Traced V t0 s'.
Proof.
  intros (new & Ht & Hw & Hc & Hk & Hd) Hm Ht' Hm' Hn Hr Hin Hne. rewrite Hm in Hd.
  exists ((state d, RETRYING) :: new). rewrite Ht', Ht, Hm'.
  split; [reflexivity|]. split; [|split; [|split]].
  - cbn [wormholes]. rewrite Hw, andb_true_r. unfold docOK in Hd.
    destruct (state d) as [h|]; [|reflexivity].
    destruct (sameState h RETRYING) eqn:E; [|reflexivity].
    apply sameState_eq in E. subst. apply Hd.
  - intros st p Hp. rewrite !visited_cons. intros Hst.
    apply orb_true_iff in Hst as [Hst|Hst].
    + apply sameState_eq in Hst. subst. discriminate.
    + rewrite (Hc st p Hp Hst). apply orb_true_r.
  - intros x Hx. apply visited_mono. auto.
  - unfold docOK. rewrite Hn, Hr. split; [reflexivity|]. split; [discriminate|].
    intros _. exists t. split; [reflexivity|]. split; [apply visited_mono; auto|].
    intros ->. discriminate.
Qed.

(** The retry target is replaced by a state known to be visited. *)
Lemma Traced_retarget V s s' d d' t :
  Traced V t0 s -> mem s = Some d ->
  transitions s' = transitions s -> mem s' = Some d' ->
  state d' = state d -> btcLike d' = btcLike d -> retryState d' = Some t ->
  In t V -> sameState t OUT_TX = false ->
  Traced V t0 s'.
Proof.
  intros (new & Ht & Hw & Hc & Hk & Hd) Hm Ht' Hm' Hs Hb Hr Hin Hne. rewrite Hm in Hd.
  exists new. rewrite Ht', Hm'. repeat split; auto.
  unfold docOK in *. rewrite Hs, Hb, Hr. destruct (state d) as [st|]; [|exact I].
  destruct Hd as (Hv & Ho & _). repeat split; auto.
  intros _. exists t. repeat split; auto. intros ->. discriminate.
Qed.

(** What the handler of [h] may take as visited. *)
Lemma Traced_learn V s d h x :
  Traced V t0 s -> mem s = Some d -> state d = Some h ->
  (x = h \/ enteredFrom h = Some x) ->
  Traced (x :: V) t0 s.
Proof.
  intros (new & Ht & Hw & Hc & Hk & Hd) Hm Hh Hx. exists new.
  repeat split; auto. rewrite Hm in Hd. unfold docOK in Hd. rewrite Hh in Hd.
  destruct Hd as [Hv _]. intros y [<- | Hy]; [|auto].
  destruct Hx as [-> | Hx]; [exact Hv|]. by apply (Hc h x).
Qed.

End Visits.

(** The handlers again, over the invariant [Traced]. *)
Section Wormholes.
Import Hedging Spec.
Context {W : Type} (A : Adapters W) (cfg : Config).
Variable recheck : M (Sys W) unit.
Variable t0 : Log.
Implicit Type V : list RebalancingState.

Local Abbreviation wpJ V m Q s :=
  (wp3 True m Q (fun _ s' => Traced V t0 s') (Wormholed t0) s) (only parsing).

Hypothesis Hre : forall V s, Traced V t0 s -> wpJ V recheck (fun _ s' => Traced V t0 s') s.
Hypothesis Hblk : forall s d, mem s = Some d -> opt_gt (cooldown d) (clock s) = true ->
  recheck s = Ret tt s \/ recheck s = OutOfFuel.

(** [setState] when the [check] it ends with may run: [V'] adds to the
    states known to be visited. *)
Lemma wpJ_setState_more V V' (o : option RebalancingState) s Q :
  (forall x, In x V -> In x V') ->
  Traced V t0 s ->
  (forall d st, mem s = Some d -> o = Some st -> Traced V' t0 (persisted s d st)) ->
  (forall s', Traced V' t0 s' -> Q tt s') ->
  wpJ V (setStateWith recheck o) Q s.
Proof.
  intros Hsub HI Hstep HQ.
  destruct o as [st|]; [|apply wp_bind, wp_nonNull; [discriminate|auto]].
  destruct (mem s) as [d|] eqn:Hm.
  - unfold wp3. rewrite (setStateWith_unfold recheck s d st Hm).
    destruct (Spec.missingField d st); [exact HI|].
    assert (HI' : forall cr, Traced V' t0 (with_crashAfter cr (persisted s d st))).
    { intros cr. by apply (Traced_touch t0 V' (persisted s d st)); [apply Hstep|..]. }
    assert (Hp : forall cr, match recheck (with_crashAfter cr (persisted s d st)) with
                 | Ret a s' => Q a s' | Throw _ s' => Traced V t0 s'
                 | Crash s' => Wormholed t0 s'
                 | OutOfFuel => True end).
    { intros cr. specialize (Hre _ _ (HI' cr)). unfold wp3 in Hre.
      destruct (recheck _) as [[] ?| | |]; auto. by apply (Traced_weaken t0 V V'). }
    destruct (crashAfter s) as [[|n]|] eqn:Hc.
    + by apply (Traced_log t0 V s).
    + apply Hp.
    + specialize (Hp None). rewrite with_crashAfter_None in Hp; [exact Hp|exact Hc].
  - unfold wp3, setStateWith, bind, nonNull, ret.
    destruct st; cbn; unfold bind, getState, get, nonNull, throw, bind; cbn; rewrite ?Hm; cbn;
      exact HI.
Qed.

Lemma wpJ_setState_any V (o : option RebalancingState) s Q :
  Traced V t0 s ->
  (forall d st, mem s = Some d -> o = Some st -> Traced V t0 (persisted s d st)) ->
  (forall s', Traced V t0 s' -> Q tt s') ->
  wpJ V (setStateWith recheck o) Q s.
Proof. apply wpJ_setState_more. auto. Qed.

Lemma wpJ_setState_blocked V st s d Q :
  mem s = Some d -> opt_gt (cooldown d) (clock s) = true ->
  Traced V t0 s -> Traced V t0 (persisted s d st) ->
  (forall cr, Traced V t0 (with_crashAfter cr (persisted s d st)) ->
              Q tt (with_crashAfter cr (persisted s d st))) ->
  wpJ V (setStateWith recheck (Some st)) Q s.
Proof.
  intros Hm Hb HI HI' HQ.
  unfold wp3. rewrite (setStateWith_unfold recheck s d st Hm).
  destruct (Spec.missingField d st); [exact HI|].
  assert (Hp : forall cr, match recheck (with_crashAfter cr (persisted s d st)) with
               | Ret a s' => Q a s' | Throw _ s' => Traced V t0 s'
               | Crash s' => Wormholed t0 s'
               | OutOfFuel => True end).
  { intros cr. destruct (Hblk (with_crashAfter cr (persisted s d st))
                           (set_state (Some st) d) eq_refl Hb) as [-> | ->]; [|exact I].
    apply HQ. by apply (Traced_touch t0 V (persisted s d st)). }
  destruct (crashAfter s) as [[|n]|] eqn:Hc.
  + by apply (Traced_log t0 V s).
  + apply Hp.
  + specialize (Hp None). rewrite with_crashAfter_None in Hp; [exact Hp|exact Hc].
Qed.

Ltac solve_stepOK :=
  norm_proj; rw_state;
  first
    [ reflexivity
    | match goal with
      | |- context [btcLike ?d] =>
          let E := fresh "E" in
          destruct (btcLike d) eqn:E; first
            [ reflexivity
            | exfalso; unfold btcLike in E; congruence
            | exfalso; unfold btcLike in E;
              repeat match goal with
              | H : opt_is _ _ = _ |- _ => rewrite H in E
              end; simpl in E; congruence ]
      end ].

Ltac leafJ :=
  cbv beta; norm_proj;
  match goal with
  | H : Traced ?V _ ?S |- Traced ?V _ _ =>
      first
      [ apply (Traced_touch t0 V S); [exact H | reflexivity | reflexivity]
      | eapply (Traced_same t0 V S);
          [ exact H | side | reflexivity | norm_proj; reflexivity
          | norm_proj; reflexivity | reflexivity
          | first [left; reflexivity | right; rw_state; discriminate] ]
      | eapply (Traced_over t0 V S); [exact H | reflexivity | norm_proj; reflexivity | reflexivity]
      | eapply (Traced_step t0 V S);
          [ exact H | side | side | side | norm_proj; reflexivity
          | norm_proj; reflexivity | reflexivity | solve_stepOK ]
      | eapply (Traced_exit t0 V S);
          [ exact H | side | side | side | side | norm_proj; reflexivity
          | norm_proj; reflexivity | reflexivity ]
      | eapply (Traced_retarget t0 V S);
          [ exact H | side | reflexivity | norm_proj; reflexivity
          | norm_proj; reflexivity | reflexivity | norm_proj; reflexivity
          | simpl; tauto | reflexivity ]
      | eapply (Traced_retry_known t0 V S);
          [ exact H | side | norm_proj; reflexivity | norm_proj; reflexivity
          | norm_proj; reflexivity | norm_proj; reflexivity
          | simpl; tauto | reflexivity ] ]
  | H : Traced ?V _ ?S |- Wormholed _ _ =>
      apply (Traced_log t0 V S); [exact H | reflexivity]
  end.

Ltac wpJ_setState :=
  idtac;
  match goal with
  | H : Traced ?V _ _ |- _ =>
  first
    [ eapply (wpJ_setState_blocked V);
        [ norm_proj; first [reflexivity | eassumption]
        | solve_blocked
        | leafJ
        | leafJ
        | intros ? ? ]
    | eapply (wpJ_setState_any V);
        [ leafJ
        | let d := fresh "d" in let st := fresh "st" in
          let H1 := fresh in let H2 := fresh in
          intros d st H1 H2; norm_proj; use_mem; leafJ
        | intros ? ? ] ]
  end.

Ltac wpJ_step := wp_step wpJ_setState leafJ.

Lemma onRETRYING_traced V (s : Sys W) d :
  Traced V t0 s -> mem s = Some d -> state d = Some RETRYING ->
  wpJ V (onRETRYING recheck) (fun _ s' => Traced V t0 s') s.
Proof.
  intros HI Hm Hst. unfold onRETRYING.
  repeat wpJ_step.
Qed.

Lemma wpJ_sendAndConfirm
    (getm : HedgingPluginState Z -> option TxMap)
    (setm : option TxMap -> HedgingPluginState Z -> HedgingPluginState Z)
    (from target : RebalancingState) V txs s d Q :
  (forall v d, state (setm v d) = state d) ->
  (forall v d, btcLike (setm v d) = btcLike d) ->
  (forall v d, retryState (setm v d) = retryState d) ->
  (forall b r, stepOK b from target r = true) ->
  (forall b r, stepOK b target target r = true) ->
  Traced V t0 s -> mem s = Some d ->
  (state d = Some from \/ state d = Some target) ->
  (forall s', Traced V t0 s' -> Q tt s') ->
  wpJ V (sendAndConfirm A txs (fun txId rawTx =>
         d <- getState;;
         m <- nonNull (getm d);;
         update (setm (Some (obj_set txId rawTx m)));;;
         setCooldown;;; setStateWith recheck (Some target))) Q s.
Proof.
  intros Hs Hb Hr Ha1 Ha2 HI Hm Hst HQ. unfold sendAndConfirm.
  apply (wp_forEach (fun s' => Traced V t0 s' /\ exists d', mem s' = Some d' /\
           (state d' = Some from \/ state d' = Some target))).
  - eauto.
  - intros tx s1 (HI1 & d1 & Hm1 & Hst1).
    assert (Hup : forall v c w cr,
      Traced V t0 (with_mem (Some (set_cooldown c (setm v d1)))
                   (with_mem (Some (setm v d1)) (with_world w (with_crashAfter cr s1))))).
    { intros v c w cr.
      eapply (Traced_same t0 V s1); [exact HI1|exact Hm1|reflexivity|reflexivity| | |].
      - norm_proj. apply Hs.
      - rewrite <- (Hb v d1). reflexivity.
      - left. norm_proj. apply Hr. }
    assert (Hup' : forall v w cr,
      Traced V t0 (with_mem (Some (setm v d1)) (with_world w (with_crashAfter cr s1)))).
    { intros v w cr.
      eapply (Traced_same t0 V s1); [exact HI1|exact Hm1|reflexivity|reflexivity| | |].
      - apply Hs.
      - apply Hb.
      - left. apply Hr. }
    repeat wpJ_step. norm_proj; use_mem.
    pose proof (Hup (Some (obj_set a.1 a.2 a0)) (Some (clock s1 + 5 * 1000)) w cr) as Hnow.
    eapply (wpJ_setState_blocked V).
    + norm_proj. reflexivity.
    + solve_blocked.
    + exact Hnow.
    + destruct Hst1 as [Hst1 | Hst1];
        (eapply (Traced_step t0 V _ _ _ _ _ target);
          [ exact Hnow | norm_proj; reflexivity | norm_proj; rewrite Hs; exact Hst1
          | norm_proj; rewrite Hs, Hst1; reflexivity | norm_proj; reflexivity
          | norm_proj; reflexivity | reflexivity | auto ]).
    + intros cr1 Hper. repeat wpJ_step.
      split; [leafJ|]. norm_proj. eexists; split; [reflexivity|]. right. reflexivity.
  - intros s' [HI' _]. auto.
Qed.

Ltac wpJ_publish :=
  match goal with
  | Hst : state _ = Some ?from, H : Traced ?V _ _
    |- wp3 _ (sendAndConfirm _ _ _) _ _ _ _ =>
      eapply (wpJ_sendAndConfirm _ _ from _ V);
        [ reflexivity | reflexivity | reflexivity
        | intros [] ?; reflexivity | intros [] ?; reflexivity
        | leafJ
        | norm_proj; reflexivity
        | norm_proj; left; exact Hst
        | intros ? ? ]
  end.

Ltac wpJ_go := repeat first [wpJ_step | wpJ_publish].

Lemma onTRIGGERED_traced V (s : Sys W) d :
  Traced V t0 s -> mem s = Some d -> state d = Some TRIGGERED ->
  wpJ V (onTRIGGERED A recheck) (fun _ s' => Traced V t0 s') s.
Proof.
  intros HI Hm Hst. unfold onTRIGGERED.
  wpJ_go.
Qed.

Lemma onSC_WITHDRAWING_traced V (s : Sys W) d :
  Traced V t0 s -> mem s = Some d -> state d = Some SC_WITHDRAWING ->
  wpJ V (onSC_WITHDRAWING A recheck) (fun _ s' => Traced V t0 s') s.
Proof.
  intros HI Hm Hst. unfold onSC_WITHDRAWING.
  wpJ_go.
Qed.

Lemma onSC_WITHDRAWAL_CONFIRMED_traced V (s : Sys W) d :
  Traced V t0 s -> mem s = Some d -> state d = Some SC_WITHDRAWAL_CONFIRMED ->
  wpJ V (onSC_WITHDRAWAL_CONFIRMED A cfg recheck) (fun _ s' => Traced V t0 s') s.
Proof.
  intros HI Hm Hst. unfold onSC_WITHDRAWAL_CONFIRMED.
  wpJ_go.
Qed.

Lemma onOUT_TX_traced V (s : Sys W) d :
  Traced V t0 s -> mem s = Some d -> state d = Some OUT_TX ->
  wpJ V (onOUT_TX A recheck) (fun _ s' => Traced V t0 s') s.
Proof.
  intros HI Hm Hst. unfold onOUT_TX.
  wpJ_go.
Qed.

Lemma onOUT_TX_CONFIRMED_traced V (s : Sys W) d :
  Traced V t0 s -> mem s = Some d -> state d = Some OUT_TX_CONFIRMED ->
  wpJ V (onOUT_TX_CONFIRMED A recheck) (fun _ s' => Traced V t0 s') s.
Proof.
  intros HI Hm Hst. unfold onOUT_TX_CONFIRMED.
  wpJ_go.
Qed.

Lemma onDEPOSIT_RECEIVED_traced V (s : Sys W) d :
  Traced V t0 s -> mem s = Some d -> state d = Some DEPOSIT_RECEIVED ->
  wpJ V (onDEPOSIT_RECEIVED A recheck) (fun _ s' => Traced V t0 s') s.
Proof.
  intros HI Hm Hst. unfold onDEPOSIT_RECEIVED.
  wpJ_go.
Qed.

Lemma onTRADE_EXECUTING_traced V (s : Sys W) d :
  Traced V t0 s -> mem s = Some d -> state d = Some TRADE_EXECUTING ->
  wpJ V (onTRADE_EXECUTING A recheck) (fun _ s' => Traced V t0 s') s.
Proof.
  intros HI Hm Hst. unfold onTRADE_EXECUTING.
  wpJ_go.
Qed.

Lemma onTRADE_EXECUTED_traced V (s : Sys W) d :
  Traced V t0 s -> mem s = Some d -> state d = Some TRADE_EXECUTED ->
  wpJ V (onTRADE_EXECUTED A recheck) (fun _ s' => Traced V t0 s') s.
Proof.
  intros HI Hm Hst. unfold onTRADE_EXECUTED.
  wpJ_go.
Qed.

Lemma onFUNDS_TRANSFERING_traced V (s : Sys W) d :
  Traced V t0 s -> mem s = Some d -> state d = Some FUNDS_TRANSFERING ->
  wpJ V (onFUNDS_TRANSFERING A recheck) (fun _ s' => Traced V t0 s') s.
Proof.
  intros HI Hm Hst. unfold onFUNDS_TRANSFERING.
  wpJ_go.
Qed.

Lemma onFUNDS_TRANSFERED_traced V (s : Sys W) d :
  Traced V t0 s -> mem s = Some d -> state d = Some FUNDS_TRANSFERED ->
  wpJ V (onFUNDS_TRANSFERED A cfg recheck) (fun _ s' => Traced V t0 s') s.
Proof.
  intros HI Hm Hst. unfold onFUNDS_TRANSFERED.
  wpJ_go.
Qed.

Lemma onWITHDRAWING_traced V (s : Sys W) d :
  Traced V t0 s -> mem s = Some d -> state d = Some WITHDRAWING ->
  wpJ V (onWITHDRAWING A recheck) (fun _ s' => Traced V t0 s') s.
Proof.
  intros HI Hm Hst. unfold onWITHDRAWING.
  wpJ_go.
Qed.

Lemma onWITHDRAWAL_SENT_traced V (s : Sys W) d :
  Traced V t0 s -> mem s = Some d -> state d = Some WITHDRAWAL_SENT ->
  wpJ V (onWITHDRAWAL_SENT A recheck) (fun _ s' => Traced V t0 s') s.
Proof.
  intros HI Hm Hst.
  pose proof (Traced_learn t0 V s d WITHDRAWAL_SENT WITHDRAWING HI Hm Hst
                (or_intror eq_refl)) as HI'.
  apply (wp_conseq _ (fun _ s' => Traced (WITHDRAWING :: V) t0 s') _
                     (fun _ s' => Traced (WITHDRAWING :: V) t0 s') _
                     (Wormholed t0) (Wormholed t0)).
  - clear HI. unfold onWITHDRAWAL_SENT. wpJ_go.
  - intros _ s' H. apply (Traced_weaken t0 V (WITHDRAWING :: V)); [exact H|]. simpl; auto.
  - intros _ s' H. apply (Traced_weaken t0 V (WITHDRAWING :: V)); [exact H|]. simpl; auto.
  - auto.
Qed.

Lemma onIN_TX_CONFIRMED_traced V (s : Sys W) d :
  Traced V t0 s -> mem s = Some d -> state d = Some IN_TX_CONFIRMED ->
  wpJ V (onIN_TX_CONFIRMED A recheck) (fun _ s' => Traced V t0 s') s.
Proof.
  intros HI Hm Hst. unfold onIN_TX_CONFIRMED.
  wpJ_go.
Qed.

Lemma onSC_DEPOSITING_traced V (s : Sys W) d :
  Traced V t0 s -> mem s = Some d -> state d = Some SC_DEPOSITING ->
  wpJ V (onSC_DEPOSITING A recheck) (fun _ s' => Traced V t0 s') s.
Proof.
  intros HI Hm Hst. unfold onSC_DEPOSITING.
  wpJ_go.
Qed.

Lemma onSC_DEPOSITED_traced V (s : Sys W) d :
  Traced V t0 s -> mem s = Some d -> state d = Some SC_DEPOSITED ->
  wpJ V (onSC_DEPOSITED recheck) (fun _ s' => Traced V t0 s') s.
Proof.
  intros HI Hm Hst. unfold onSC_DEPOSITED.
  wpJ_go.
Qed.

Lemma onFINISHED_traced V (s : Sys W) d :
  Traced V t0 s -> mem s = Some d -> state d = Some FINISHED ->
  wpJ V (@onFINISHED W) (fun _ s' => Traced V t0 s') s.
Proof.
  intros HI Hm Hst. unfold onFINISHED.
  wpJ_go.
Qed.


Lemma wpJ_whenState V st (handler : M (Sys W) bool) rest :
  (forall s d, Traced V t0 s -> mem s = Some d -> state d = Some st ->
     wpJ V handler (fun _ s' => Traced V t0 s') s) ->
  (forall s, Traced V t0 s -> wpJ V rest (fun _ s' => Traced V t0 s') s) ->
  forall s, Traced V t0 s -> wpJ V (whenState st handler rest) (fun _ s' => Traced V t0 s') s.
Proof.
  intros Hh Hr s HI. unfold whenState.
  apply wp_bind, wp_getState; [|intros _; exact HI].
  intros d Hm. destruct (inState d st) eqn:E; [|by apply Hr].
  apply inState_true in E. apply wp_bind.
  eapply wp_mono; [exact (Hh s d HI Hm E)|].
  intros [] s' HI'; [exact HI'|by apply Hr].
Qed.

Lemma checkWith_traced V s :
  Traced V t0 s -> wpJ V (checkWith A cfg recheck) (fun _ s' => Traced V t0 s') s.
Proof.
  intros HI. unfold checkWith. apply wp_bind, wp_get.
  destruct (mem s) as [d|]; [|exact HI].
  destruct (opt_gt (cooldown d) (clock s)); [exact HI|].
  revert s HI.
  apply wpJ_whenState; [apply onRETRYING_traced|].
  apply wpJ_whenState; [apply onTRIGGERED_traced|].
  apply wpJ_whenState; [apply onSC_WITHDRAWING_traced|].
  apply wpJ_whenState; [apply onSC_WITHDRAWAL_CONFIRMED_traced|].
  apply wpJ_whenState; [apply onOUT_TX_traced|].
  apply wpJ_whenState; [apply onOUT_TX_CONFIRMED_traced|].
  apply wpJ_whenState; [apply onDEPOSIT_RECEIVED_traced|].
  apply wpJ_whenState; [apply onTRADE_EXECUTING_traced|].
  apply wpJ_whenState; [apply onTRADE_EXECUTED_traced|].
  apply wpJ_whenState; [apply onFUNDS_TRANSFERING_traced|].
  apply wpJ_whenState; [apply onFUNDS_TRANSFERED_traced|].
  apply wpJ_whenState; [apply onWITHDRAWING_traced|].
  apply wpJ_whenState; [apply onWITHDRAWAL_SENT_traced|].
  apply wpJ_whenState; [apply onIN_TX_CONFIRMED_traced|].
  apply wpJ_whenState; [apply onSC_DEPOSITING_traced|].
  apply wpJ_whenState; [apply onSC_DEPOSITED_traced|].
  apply wpJ_whenState; [apply onFINISHED_traced|].
  intros s HI. exact HI.
Qed.

End Wormholes.

Section Wormholes_check.
Import Hedging Spec.
Context {W : Type} (A : Adapters W) (cfg : Config).

Lemma check_traced t0 fuel : forall V (s : Sys W),
  Traced V t0 s ->
  wp3 True (check A cfg fuel) (fun _ s' => Traced V t0 s') (fun _ s' => Traced V t0 s')
      (Wormholed t0) s.
Proof.
  induction fuel as [|f IH]; intros V s HI; [exact I|].
  cbn [check]. apply (checkWith_traced A cfg (check A cfg f) t0 IH (check_blocked A cfg f)).
  exact HI.
Qed.

End Wormholes_check.

(** ** The life of a job *)

Section Job.
Import Hedging Spec.
Context {W : Type} (A : Adapters W) (cfg : Config).
Implicit Type s : Sys W.

(** The job enters TRIGGERED from the seeded document. *)
Lemma Traced_start t0 V s s' d d' :
  Traced V t0 s -> mem s = Some d -> state d = None ->
  transitions s' = (None, TRIGGERED) :: transitions s -> mem s' = Some d' ->
  state d' = Some TRIGGERED ->
  Traced V t0 s'.
Proof.
  intros (new & Ht & Hw & Hc & Hk & _) Hm Hn Ht' Hm' Hn'.
  exists ((None, TRIGGERED) :: new). rewrite Ht', Ht, Hm'.
  split; [reflexivity|]. split; [exact Hw|]. split; [|split].
  - intros st p Hp. rewrite !visited_cons. intros Hst.
    apply orb_true_iff in Hst as [Hst|Hst].
    + apply sameState_eq in Hst. subst. discriminate.
    + rewrite (Hc st p Hp Hst). apply orb_true_r.
  - intros x Hx. apply visited_mono. auto.
  - unfold docOK. rewrite Hn'. split; [reflexivity|]. split; discriminate.
Qed.

Lemma Traced_seed t0 V s job :
  Traced V t0 s -> state job = None -> Traced V t0 (with_mem (Some job) s).
Proof.
  intros (new & Ht & Hw & Hc & Hk & _) Hn. exists new. repeat split; auto.
  cbn [mem with_mem]. unfold docOK. by rewrite Hn.
Qed.

Lemma Traced_clock t0 V s c : Traced V t0 s -> Traced V t0 (with_clock c s).
Proof. intros H. by apply (Traced_touch t0 V s). Qed.

Lemma Logged_refl s : Logged (transitions s) s.
Proof. by exists []. Qed.

Lemma Traced_refl s d : mem s = Some d -> state d = None -> Traced [] (transitions s) s.
Proof.
  intros Hm Hn. exists []. split; [reflexivity|]. split; [reflexivity|]. split; [|split].
  - intros st p _. discriminate.
  - intros x [].
  - rewrite Hm. unfold docOK. by rewrite Hn.
Qed.

Lemma onBeforeTxReplace_traced t0 V oldTx oldTxId newTx newTxId s :
  Traced V t0 s ->
  wp3 True (onBeforeTxReplace oldTx oldTxId newTx newTxId)
      (fun _ s' => Traced V t0 s') (fun _ s' => Traced V t0 s') (Wormholed t0) s.
Proof.
  intros HI. unfold onBeforeTxReplace.
  repeat wp_step ltac:(fail) ltac:(cbv beta; norm_proj;
    match goal with
    | H : Traced ?V _ ?S |- Traced ?V _ _ =>
        first
        [ apply (Traced_touch t0 V S); [exact H | reflexivity | reflexivity]
        | eapply (Traced_same t0 V S);
            [ exact H | side | reflexivity | norm_proj; reflexivity
            | norm_proj; reflexivity | reflexivity | left; reflexivity ] ]
    | H : Traced ?V _ ?S |- Wormholed _ _ =>
        apply (Traced_log t0 V S); [exact H | reflexivity]
    end).
Qed.

Lemma deliver_logged t0 fuel e s :
  Logged t0 s ->
  wp3 True (deliver A cfg fuel e) (fun _ s' => Logged t0 s') (fun _ s' => Logged t0 s')
      (Logged t0) s.
Proof.
  intros HI. destruct e as [|dt|oldTx oldTxId newTx newTxId|change]; cbn [deliver].
  - unfold tick. apply wp_try_catch.
    eapply wp_conseq; [apply (check_logged A cfg t0 fuel s HI)|auto..].
  - unfold advance. apply wp_modify. by apply (Logged_touch t0 s).
  - apply wp_try_catch.
    eapply wp_conseq;
      [apply (onBeforeTxReplace_logged t0 oldTx oldTxId newTx newTxId s HI)|auto..].
  - apply wp_modify. by apply (Logged_touch t0 s).
Qed.

Lemma deliver_traced t0 V fuel e s :
  Traced V t0 s ->
  wp3 True (deliver A cfg fuel e) (fun _ s' => Traced V t0 s') (fun _ s' => Traced V t0 s')
      (Wormholed t0) s.
Proof.
  intros HI. destruct e as [|dt|oldTx oldTxId newTx newTxId|change]; cbn [deliver].
  - unfold tick. apply wp_try_catch.
    eapply wp_conseq; [apply (check_traced A cfg t0 fuel V s HI)|auto..].
  - unfold advance. apply wp_modify. by apply Traced_clock.
  - apply wp_try_catch.
    eapply wp_conseq;
      [apply (onBeforeTxReplace_traced t0 V oldTx oldTxId newTx newTxId s HI)|auto..].
  - apply wp_modify. by apply (Traced_touch t0 V s).
Qed.

Lemma jobLife_logged fuel job events s :
  state job = None ->
  wp3 True (jobLife A cfg fuel job events)
      (fun _ s' => Logged (transitions s) s') (fun _ s' => Logged (transitions s) s')
      (Logged (transitions s)) s.
Proof.
  intros Hn. unfold jobLife. set (t0 := transitions s).
  assert (HI : Logged t0 (with_mem (Some job) s)) by (by exists []).
  apply wp_bind, wp_try_catch, wp_bind, wp_modify.
  unfold setState.
  eapply wp_conseq;
    [apply (wpL_setState_any (check A cfg fuel) t0 (check_logged A cfg t0 fuel)
              (Some TRIGGERED) (with_mem (Some job) s)
              (fun _ s' => Logged t0 s') HI)| | |].
  - intros d st Hm [= <-]. cbn [mem with_mem] in Hm. injection Hm as <-.
    apply (Logged_cons t0 (with_mem (Some job) s) _ (state job) TRIGGERED HI);
      [reflexivity|by rewrite Hn].
  - auto.
  - intros ? s1 H1. cbv beta in H1. apply (wp_forEach (Logged t0)); [exact H1| |auto].
    intros ev s2 H2. by apply deliver_logged.
  - intros ? s1 H1. apply wp_ret. apply (wp_forEach (Logged t0)); [exact H1| |auto].
    intros ev s2 H2. by apply deliver_logged.
  - auto.
Qed.

Lemma jobLife_traced fuel job events s :
  state job = None ->
  wp3 True (jobLife A cfg fuel job events)
      (fun _ s' => Wormholed (transitions s) s') (fun _ s' => Wormholed (transitions s) s')
      (Wormholed (transitions s)) s.
Proof.
  intros Hn. unfold jobLife. set (t0 := transitions s).
  assert (HI : Traced [] t0 (with_mem (Some job) s)).
  { exists []. split; [reflexivity|]. split; [reflexivity|]. split; [|split].
    - intros st p _. discriminate.
    - intros x [].
    - cbn [mem with_mem]. unfold docOK. by rewrite Hn. }
  assert (Hev : forall s1, Traced [] t0 s1 ->
            wp3 True (forEach events (deliver A cfg fuel))
              (fun _ s' => Wormholed t0 s') (fun _ s' => Wormholed t0 s') (Wormholed t0) s1).
  { intros s1 H1. apply (wp_forEach (Traced [] t0)); [exact H1| |].
    - intros ev s2 H2.
      eapply wp_conseq; [by apply deliver_traced|auto| |auto].
      intros ? s3 H3. by apply (Traced_log t0 [] s3).
    - intros s2 H2. by apply (Traced_log t0 [] s2). }
  apply wp_bind, wp_try_catch, wp_bind, wp_modify.
  unfold setState.
  eapply wp_conseq;
    [apply (wpJ_setState_any (check A cfg fuel) t0 (check_traced A cfg t0 fuel)
              [] (Some TRIGGERED) (with_mem (Some job) s)
              (fun _ s' => Traced [] t0 s') HI)| | |].
  - intros d st Hm [= <-]. cbn [mem with_mem] in Hm. injection Hm as <-.
    apply (Traced_start t0 [] (with_mem (Some job) s) _ job (set_state (Some TRIGGERED) job)
             HI eq_refl Hn); [norm_proj; by rewrite Hn|reflexivity|reflexivity].
  - auto.
  - intros ? s1 H1. by apply Hev.
  - intros ? s1 H1. apply wp_ret. by apply Hev.
  - auto.
Qed.

End Job.

(** ** A job found in OUT_TX when the process starts *)

Section Restart.
Import Hedging Spec.
Context {W : Type} (A : Adapters W) (cfg : Config).
Implicit Type s : Sys W.

Lemma whenState_skip st (h : M (Sys W) bool) rest s d x :
  mem s = Some d -> state d = Some x -> sameState x st = false ->
  whenState st h rest s = rest s.
Proof.
  intros Hm Hx Hne. unfold whenState, bind, getState, get, nonNull, inState. cbn.
  rewrite Hm. cbn. rewrite Hx. unfold sameState in Hne. by rewrite Hne.
Qed.

Lemma whenState_hit st (h : M (Sys W) bool) rest s d :
  mem s = Some d -> state d = Some st ->
  whenState st h rest s = bind h (fun returned : bool => if returned then ret tt else rest) s.
Proof.
  intros Hm Hx. unfold whenState, bind, getState, get, nonNull, inState. cbn.
  rewrite Hm. cbn. rewrite Hx. by rewrite Z.eqb_refl.
Qed.

(** Nothing is done for a job in IDLE. *)
Lemma check_IDLE fuel s d :
  mem s = Some d -> state d = Some IDLE -> check A cfg (S fuel) s = Ret tt s.
Proof.
  intros Hm Hst. cbn [check]. unfold checkWith, bind, get. cbn beta iota. rewrite Hm.
  destruct (opt_gt (cooldown d) (clock s)); [reflexivity|].
  repeat (rewrite (whenState_skip _ _ _ s d IDLE Hm Hst); [|reflexivity]).
  reflexivity.
Qed.

Lemma setState_IDLE fuel s d :
  mem s = Some d -> crashAfter s = None ->
  setStateWith (check A cfg (S fuel)) (Some IDLE) s = Ret tt (persisted s d IDLE).
Proof.
  intros Hm Hc. rewrite (setStateWith_unfold (check A cfg (S fuel)) s d IDLE Hm).
  cbn [Spec.missingField REQUIRED_FIELDS List.find]. rewrite Hc.
  by apply (check_IDLE fuel _ (set_state (Some IDLE) d)).
Qed.

Lemma restart_OUT_TX fuel s d m w' :
  mem s = Some d -> state d = Some OUT_TX -> outTxs d = Some m ->
  opt_gt (cooldown d) (clock s) = false -> crashAfter s = None ->
  (srcToken d = Some "BTC-LN"
     /\ (exists e, ln_getPayment A (head (obj_keys m)) (world s) = (inl e, w')))
  \/ (srcToken d = Some "BTC"
      /\ btc_getTransaction A (head (obj_keys m)) (world s) = (inr None, w')) ->
  check A cfg (S (S fuel)) s = Ret tt (persisted (with_world w' s) d IDLE).
Proof.
  intros Hm Hst Hout Hcool Hcr Hsrc.
  cbn [check]. unfold checkWith, bind at 1, get. cbn beta iota. rewrite Hm, Hcool.
  do 4 (rewrite (whenState_skip _ _ _ s d OUT_TX Hm Hst); [|reflexivity]).
  rewrite (whenState_hit _ _ _ s d Hm Hst).
  assert (Hgo : onOUT_TX A (check A cfg (S fuel)) s
                = Ret true (persisted (with_world w' s) d IDLE)).
  { unfold onOUT_TX. rewrite (bind_Ret getState _ s d s);
      [|unfold getState, bind, get, nonNull; cbn; by rewrite Hm].
    rewrite Hout. rewrite (bind_Ret (nonNull (Some m)) _ s m s); [|reflexivity].
    destruct Hsrc as [[Hs (e & Hcall)] | [Hs Hcall]]; rewrite Hs; cbn [opt_is].
    - change (String.eqb "BTC-LN" "BTC") with false.
      change (String.eqb "BTC-LN" "BTC-LN") with true. cbn iota.
      rewrite (bind_Ret (tryOpt _) _ s None (with_world w' s)).
      + rewrite (bind_Ret (setStateWith _ _) _ (with_world w' s) tt
                   (persisted (with_world w' s) d IDLE)); [reflexivity|].
        by apply setState_IDLE.
      + unfold tryOpt, try_catch, bind.
        by rewrite (adapter_fail _ s e w' Hcr Hcall).
    - change (String.eqb "BTC" "BTC") with true. cbn iota.
      rewrite (bind_Ret (adapter _) _ s None (with_world w' s));
        [|by apply adapter_ok].
      rewrite (bind_Ret (setStateWith _ _) _ (with_world w' s) tt
                 (persisted (with_world w' s) d IDLE)); [reflexivity|].
      by apply setState_IDLE. }
  by rewrite (bind_Ret _ _ s true _ Hgo).
Qed.

End Restart.

(** ** [check] ends: the fuel that covers it *)

Section Depth.
Import Hedging Spec.
Context {W : Type}.
Implicit Types (s : Sys W) (d : HedgingPluginState Z).

Lemma stateDepth_pos st : (1 <= stateDepth st)%nat.
Proof. destruct st; cbn; lia. Qed.

Lemma stateDepth_max st : (stateDepth st <= 17)%nat.
Proof. destruct st; cbn; lia. Qed.

Lemma depth_pos c d : (1 <= depth c d)%nat.
Proof.
  unfold depth. destruct (state d) as [st|]; [|lia].
  pose proof (stateDepth_pos st).
  destruct st; try assumption.
  destruct (opt_lt _ _); [|lia]. destruct (retryState d); lia.
Qed.

Lemma depth_max c d : (depth c d <= 18)%nat.
Proof.
  unfold depth. destruct (state d) as [st|]; [|lia].
  pose proof (stateDepth_max st).
  destruct st; try lia.
  destruct (opt_lt _ _); [|lia]. destruct (retryState d) as [r|]; [|lia].
  pose proof (stateDepth_max r). lia.
Qed.

Lemma depth_state c d st :
  state d = Some st -> sameState st RETRYING = false -> depth c d = stateDepth st.
Proof. intros H Hne. unfold depth. rewrite H. by destruct st. Qed.

Lemma Fueled_pos f c s : Fueled f c s -> (1 <= f)%nat.
Proof.
  intros [_ H]. destruct (mem s) as [d|]; [|exact H].
  destruct H as [_ H]. pose proof (depth_pos c d). lia.
Qed.

Lemma Fueled_weaken f c s : Fueled f c s -> Fueled (S f) c s.
Proof.
  intros [Hc H]. split; [exact Hc|]. destruct (mem s); [|lia].
  destruct H. split; [assumption|lia].
Qed.

Lemma Fueled_touch f c s s' :
  Fueled f c s -> clock s' = clock s -> mem s' = mem s -> Fueled f c s'.
Proof. unfold Fueled. intros H -> ->. exact H. Qed.

(** The state is kept, the retry fields too. *)
Lemma Fueled_same f c s s' d d' :
  Fueled f c s -> mem s = Some d -> clock s' = clock s -> mem s' = Some d' ->
  state d' = state d -> retryAt d' = retryAt d -> retryState d' = retryState d ->
  Fueled f c s'.
Proof.
  intros [Hc H] Hm Hc' Hm' Hs Ha Hr. rewrite Hm in H. split; [congruence|].
  rewrite Hm'. unfold depth in *. by rewrite Hs, Ha, Hr.
Qed.

(** The job moves from [h] to [n], neither of them RETRYING. *)
Lemma Fueled_move f c s s' d d' h n :
  Fueled f c s -> mem s = Some d -> state d = Some h -> sameState h RETRYING = false ->
  clock s' = clock s -> mem s' = Some d' -> state d' = Some n ->
  sameState n RETRYING = false -> (stateDepth n <= stateDepth h)%nat ->
  retryState d' <> Some RETRYING ->
  Fueled f c s'.
Proof.
  intros [Hc H] Hm Hh Hhr Hc' Hm' Hn Hnr Hle Hwf. rewrite Hm in H. destruct H as [_ H].
  split; [congruence|]. rewrite Hm'. split; [exact Hwf|].
  rewrite (depth_state c d' n Hn Hnr). rewrite (depth_state c d h Hh Hhr) in H. lia.
Qed.

(** The job moves to a state of a smaller depth: one run of [check] less. *)
Lemma Fueled_lower f c s s' d d' h n :
  Fueled (S f) c s -> mem s = Some d -> state d = Some h -> sameState h RETRYING = false ->
  clock s' = clock s -> mem s' = Some d' -> state d' = Some n ->
  sameState n RETRYING = false -> (stateDepth n < stateDepth h)%nat ->
  retryState d' <> Some RETRYING ->
  Fueled f c s'.
Proof.
  intros [Hc H] Hm Hh Hhr Hc' Hm' Hn Hnr Hle Hwf. rewrite Hm in H. destruct H as [_ H].
  split; [congruence|]. rewrite Hm'. split; [exact Hwf|].
  rewrite (depth_state c d' n Hn Hnr). rewrite (depth_state c d h Hh Hhr) in H. lia.
Qed.

(** The job waits in RETRYING for a time that has not come. *)
Lemma Fueled_wait f c s' d' t r :
  (1 <= f)%nat -> clock s' = c -> mem s' = Some d' ->
  state d' = Some RETRYING -> retryAt d' = Some t -> c <= t ->
  retryState d' = Some r -> sameState r RETRYING = false ->
  Fueled f c s'.
Proof.
  intros Hf Hc Hm Hs Ha Hle Hr Hne. split; [exact Hc|]. rewrite Hm.
  split; [rewrite Hr; intros [= ->]; discriminate|].
  unfold depth. rewrite Hs, Ha. cbn [opt_lt].
  destruct (t <? c) eqn:E; [apply Z.ltb_lt in E; lia|exact Hf].
Qed.

(** The job leaves RETRYING for its retry state. *)
Lemma Fueled_exit f c s s' d d' r :
  Fueled (S f) c s -> mem s = Some d -> state d = Some RETRYING ->
  opt_lt (retryAt d) c = true -> retryState d = Some r ->
  clock s' = clock s -> mem s' = Some d' -> state d' = Some r ->
  retryState d' = retryState d ->
  Fueled f c s'.
Proof.
  intros [Hc H] Hm Hs Hlt Hr Hc' Hm' Hs' Hr'. rewrite Hm in H. destruct H as [Hwf H].
  split; [congruence|]. rewrite Hm'. split; [congruence|].
  unfold depth in H. rewrite Hs, Hlt, Hr in H.
  assert (Hne : sameState r RETRYING = false).
  { destruct r; try reflexivity. congruence. }
  rewrite (depth_state c d' r Hs' Hne). lia.
Qed.

(** The job is over. *)
Lemma Fueled_over f c s' d' :
  (1 <= f)%nat -> clock s' = c -> mem s' = Some d' -> state d' = None ->
  retryState d' <> Some RETRYING -> Fueled f c s'.
Proof.
  intros Hf Hc Hm Hs Hwf. split; [exact Hc|]. rewrite Hm. split; [exact Hwf|].
  unfold depth. by rewrite Hs.
Qed.

(** A retry is being scheduled in a document whose state is not known. *)
Lemma Fueled_later f c s s' d d' t :
  Fueled f c s -> mem s = Some d -> clock s' = clock s -> mem s' = Some d' ->
  state d' = state d -> retryAt d' = Some t -> c <= t ->
  retryState d' <> Some RETRYING ->
  Fueled f c s'.
Proof.
  intros [Hc H] Hm Hc' Hm' Hs Ha Hle Hwf. rewrite Hm in H. destruct H as [_ H].
  pose proof (depth_pos c d) as Hp.
  split; [congruence|]. rewrite Hm'. split; [exact Hwf|].
  unfold depth in *. rewrite Hs, Ha. destruct (state d) as [st|]; [|exact H].
  destruct st; try exact H. cbn [opt_lt].
  destruct (t <? c) eqn:E; [apply Z.ltb_lt in E; lia|lia].
Qed.

End Depth.

(** The handlers a third time: with [S f] units of fuel for a document of
    depth at most [S f], every [check] that a handler starts finds a
    document of depth at most [f]; a run that the fuel does not cover is
    not accepted here ([wp3 False]). *)
Section Total.
Import Hedging Spec.
Context {W : Type} (A : Adapters W) (cfg : Config).
Variable recheck : M (Sys W) unit.
Variables (f : nat) (c0 : Z).

Local Abbreviation wpF m Q s :=
  (wp3 False m Q (fun _ s' => Fueled (S f) c0 s') (fun _ => True) s) (only parsing).

Hypothesis Hre : forall s, Fueled f c0 s ->
  wp3 False recheck (fun _ s' => Fueled f c0 s') (fun _ s' => Fueled f c0 s')
      (fun _ => True) s.
Hypothesis Hblk : (1 <= f)%nat ->
  forall s d, mem s = Some d -> opt_gt (cooldown d) (clock s) = true -> recheck s = Ret tt s.

Lemma wpF_setState_any (o : option RebalancingState) s Q :
  Fueled (S f) c0 s ->
  (forall d st, mem s = Some d -> o = Some st -> Fueled f c0 (persisted s d st)) ->
  (forall s', Fueled f c0 s' -> Q tt s') ->
  wpF (setStateWith recheck o) Q s.
Proof.
  intros HI Hstep HQ.
  destruct o as [st|]; [|apply wp_bind, wp_nonNull; [discriminate|auto]].
  destruct (mem s) as [d|] eqn:Hm.
  - unfold wp3. rewrite (setStateWith_unfold recheck s d st Hm).
    destruct (Spec.missingField d st); [exact HI|].
    assert (Hp : forall cr, match recheck (with_crashAfter cr (persisted s d st)) with
                 | Ret a s' => Q a s' | Throw _ s' => Fueled (S f) c0 s'
                 | Crash s' => True
                 | OutOfFuel => False end).
    { intros cr.
      assert (HI' : Fueled f c0 (with_crashAfter cr (persisted s d st)))
        by (by apply (Fueled_touch f c0 (persisted s d st)); [apply Hstep|..]).
      specialize (Hre _ HI'). unfold wp3 in Hre.
      destruct (recheck _) as [[] ?| | |]; auto. by apply Fueled_weaken. }
    destruct (crashAfter s) as [[|n]|] eqn:Hc.
    + exact I.
    + apply Hp.
    + specialize (Hp None). rewrite with_crashAfter_None in Hp; [exact Hp|exact Hc].
  - unfold wp3, setStateWith, bind, nonNull, ret.
    destruct st; cbn; unfold bind, getState, get, nonNull, throw, bind; cbn; rewrite ?Hm; cbn;
      exact HI.
Qed.

Lemma wpF_setState_blocked st s d Q :
  mem s = Some d -> opt_gt (cooldown d) (clock s) = true -> (1 <= f)%nat ->
  Fueled (S f) c0 s -> Fueled (S f) c0 (persisted s d st) ->
  (forall cr, Fueled (S f) c0 (with_crashAfter cr (persisted s d st)) ->
              Q tt (with_crashAfter cr (persisted s d st))) ->
  wpF (setStateWith recheck (Some st)) Q s.
Proof.
  intros Hm Hb Hf HI HI' HQ.
  unfold wp3. rewrite (setStateWith_unfold recheck s d st Hm).
  destruct (Spec.missingField d st); [exact HI|].
  assert (Hp : forall cr, match recheck (with_crashAfter cr (persisted s d st)) with
               | Ret a s' => Q a s' | Throw _ s' => Fueled (S f) c0 s'
               | Crash s' => True
               | OutOfFuel => False end).
  { intros cr. rewrite (Hblk Hf (with_crashAfter cr (persisted s d st))
                          (set_state (Some st) d) eq_refl Hb).
    apply HQ. by apply (Fueled_touch (S f) c0 (persisted s d st)). }
  destruct (crashAfter s) as [[|n]|] eqn:Hc.
  + exact I.
  + apply Hp.
  + specialize (Hp None). rewrite with_crashAfter_None in Hp; [exact Hp|exact Hc].
Qed.

(** What is known of the clock and of the fuel. *)
Ltac fuel_facts :=
  repeat match goal with
  | H : Fueled ?n _ ?sy |- _ =>
      lazymatch goal with
      | _ : clock sy = c0 |- _ => fail
      | _ => pose proof (proj1 H : clock sy = c0)
      end
  end;
  try match goal with
  | H : Fueled f _ _ |- _ =>
      lazymatch goal with
      | _ : (1 <= f)%nat |- _ => fail
      | _ => pose proof (Fueled_pos _ _ _ H)
      end
  end;
  repeat match goal with
  | H : Fueled f _ ?sy |- _ =>
      lazymatch goal with
      | _ : Fueled (S f) _ sy |- _ => fail
      | _ => pose proof (Fueled_weaken _ _ _ H)
      end
  end.

Ltac solve_clock := norm_proj; first [assumption | reflexivity | congruence].

Ltac solve_wf :=
  norm_proj;
  first
    [ discriminate
    | match goal with
      | H : Fueled _ _ ?sy, Hm : mem ?sy = Some ?d |- retryState ?d <> _ =>
          let G := fresh in
          pose proof (proj2 H) as G; rewrite Hm in G; exact (proj1 G)
      end ].

Ltac solve_later :=
  norm_proj; unfold retryTime;
  repeat match goal with H : clock _ = c0 |- _ => rewrite H end; lia.

Ltac leafF :=
  cbv beta; norm_proj; fuel_facts;
  lazymatch goal with
  | |- True => exact I
  | |- Fueled _ _ _ =>
    match goal with
    | H : Fueled ?n _ ?sy |- Fueled ?n _ _ =>
        first
        [ apply (Fueled_touch n c0 sy); [exact H | reflexivity | reflexivity]
        | eapply (Fueled_same n c0 sy);
            [ exact H | side | reflexivity | norm_proj; reflexivity
            | norm_proj; reflexivity | norm_proj; reflexivity | norm_proj; reflexivity ]
        | eapply (Fueled_move n c0 sy);
            [ exact H | side | side | reflexivity | reflexivity | norm_proj; reflexivity
            | norm_proj; reflexivity | reflexivity | cbn; lia | solve_wf ]
        | eapply (Fueled_over n c0);
            [ assumption || lia | solve_clock | norm_proj; reflexivity
            | norm_proj; reflexivity | solve_wf ]
        | eapply (Fueled_later n c0 sy);
            [ exact H | side | reflexivity | norm_proj; reflexivity
            | norm_proj; reflexivity | norm_proj; reflexivity | solve_later | solve_wf ] ]
    | H : Fueled (S f) _ ?sy |- Fueled f _ _ =>
        first
        [ eapply (Fueled_lower f c0 sy);
            [ exact H | side | side | reflexivity | reflexivity | norm_proj; reflexivity
            | norm_proj; reflexivity | reflexivity | cbn; lia | solve_wf ]
        | eapply (Fueled_exit f c0 sy);
            [ exact H | side | side
            | match goal with Hc : clock _ = c0 |- _ => rewrite <- Hc end; eassumption
            | side | reflexivity | norm_proj; reflexivity | norm_proj; reflexivity
            | norm_proj; reflexivity ] ]
    | |- Fueled ?n _ _ =>
        eapply (Fueled_wait n c0);
          [ assumption || lia | solve_clock | norm_proj; reflexivity
          | norm_proj; reflexivity | norm_proj; reflexivity | solve_later
          | norm_proj; reflexivity | reflexivity ]
    end
  end.

Ltac setStateF :=
  first
    [ eapply wpF_setState_blocked;
        [ norm_proj; first [reflexivity | eassumption]
        | solve_blocked
        | assumption || lia
        | leafF
        | leafF
        | intros ? ? ]
    | eapply wpF_setState_any;
        [ leafF
        | let d := fresh "d" in let st := fresh "st" in
          let H1 := fresh in let H2 := fresh in
          intros d st H1 H2; norm_proj; use_mem; leafF
        | intros ? ? ] ].

Ltac goF := repeat wp_step setStateF leafF.

(** The fuel that the handler of a state needs. *)
Ltac handler_fuel HI Hm Hst :=
  let H := fresh "Hdep" in
  pose proof (proj2 HI) as H; rewrite Hm in H; destruct H as [_ H];
  unfold depth in H; rewrite Hst in H; cbn [stateDepth] in H;
  assert (1 <= f)%nat by lia.

Lemma wpF_sendAndConfirm
    (getm : HedgingPluginState Z -> option TxMap)
    (setm : option TxMap -> HedgingPluginState Z -> HedgingPluginState Z)
    (from target : RebalancingState) txs s d Q :
  (forall v d, state (setm v d) = state d) ->
  (forall v d, retryState (setm v d) = retryState d) ->
  sameState from RETRYING = false -> sameState target RETRYING = false ->
  (stateDepth target <= stateDepth from)%nat ->
  (1 <= f)%nat ->
  Fueled (S f) c0 s -> mem s = Some d ->
  (state d = Some from \/ state d = Some target) ->
  (forall s', Fueled (S f) c0 s' -> Q tt s') ->
  wpF (sendAndConfirm A txs (fun txId rawTx =>
         d <- getState;;
         m <- nonNull (getm d);;
         update (setm (Some (obj_set txId rawTx m)));;;
         setCooldown;;; setStateWith recheck (Some target))) Q s.
Proof.
  intros Hs Hr Hfr Htr Hle Hf HI Hm Hst HQ. unfold sendAndConfirm.
  apply (wp_forEach (fun s' => Fueled (S f) c0 s' /\ exists d', mem s' = Some d' /\
           (state d' = Some from \/ state d' = Some target))).
  - eauto.
  - intros tx s1 (HI1 & d1 & Hm1 & Hst1).
    assert (Hwf : retryState d1 <> Some RETRYING).
    { pose proof (proj2 HI1) as G. rewrite Hm1 in G. exact (proj1 G). }
    assert (Hd1 : exists h, state d1 = Some h /\ sameState h RETRYING = false
                            /\ (stateDepth target <= stateDepth h)%nat).
    { destruct Hst1 as [E|E]; eexists; (split; [exact E|]); split; auto. }
    destruct Hd1 as (h & Hh & Hhr & Hhle).
    assert (Hup : forall v w cr,
      Fueled (S f) c0 (with_mem (Some (setm v d1)) (with_world w (with_crashAfter cr s1)))).
    { intros v w cr.
      eapply (Fueled_move (S f) c0 s1 _ d1 _ h h);
        [exact HI1|exact Hm1|exact Hh|exact Hhr|reflexivity|reflexivity| | | |].
      - by rewrite Hs.
      - exact Hhr.
      - lia.
      - by rewrite Hr. }
    assert (Hup2 : forall v c w cr,
      Fueled (S f) c0 (with_mem (Some (set_cooldown c (setm v d1)))
                        (with_mem (Some (setm v d1))
                           (with_world w (with_crashAfter cr s1))))).
    { intros v c w cr.
      eapply (Fueled_move (S f) c0 s1 _ d1 _ h h);
        [exact HI1|exact Hm1|exact Hh|exact Hhr|reflexivity|reflexivity| | | |].
      - norm_proj. by rewrite Hs.
      - exact Hhr.
      - lia.
      - norm_proj. by rewrite Hr. }
    repeat wp_step setStateF ltac:(first [exact I | apply Hup | apply Hup2 | leafF]).
    norm_proj; use_mem.
    eapply wpF_setState_blocked.
    + norm_proj. reflexivity.
    + solve_blocked.
    + exact Hf.
    + apply Hup2.
    + eapply (Fueled_move (S f) c0 s1 _ d1 _ h target);
        [exact HI1|exact Hm1|exact Hh|exact Hhr|reflexivity|reflexivity
        |reflexivity|exact Htr|exact Hhle|norm_proj; by rewrite Hr].
    + intros cr1 Hper.
      repeat wp_step setStateF ltac:(first [exact I | leafF]).
      split; [leafF|]. norm_proj. eexists; split; [reflexivity|]. right. reflexivity.
  - intros s' [HI' _]. auto.
Qed.

Ltac publishF :=
  match goal with
  | Hst : state _ = Some ?from |- wp3 _ (sendAndConfirm _ _ _) _ _ _ _ =>
      eapply (wpF_sendAndConfirm _ _ from);
        [ reflexivity | reflexivity | reflexivity | reflexivity | cbn; lia
        | assumption || lia
        | leafF
        | norm_proj; reflexivity
        | norm_proj; left; exact Hst
        | intros ? ? ]
  end.

Ltac goF' := repeat first [wp_step setStateF leafF | publishF].

Lemma onRETRYING_total (s : Sys W) d :
  Fueled (S f) c0 s -> mem s = Some d -> state d = Some RETRYING ->
  wpF (onRETRYING recheck) (fun _ s' => Fueled (S f) c0 s') s.
Proof.
  intros HI Hm Hst. unfold onRETRYING. goF'.
Qed.

Lemma onTRIGGERED_total (s : Sys W) d :
  Fueled (S f) c0 s -> mem s = Some d -> state d = Some TRIGGERED ->
  wpF (onTRIGGERED A recheck) (fun _ s' => Fueled (S f) c0 s') s.
Proof.
  intros HI Hm Hst. handler_fuel HI Hm Hst. unfold onTRIGGERED. goF'.
Qed.

Lemma onSC_WITHDRAWING_total (s : Sys W) d :
  Fueled (S f) c0 s -> mem s = Some d -> state d = Some SC_WITHDRAWING ->
  wpF (onSC_WITHDRAWING A recheck) (fun _ s' => Fueled (S f) c0 s') s.
Proof.
  intros HI Hm Hst. handler_fuel HI Hm Hst. unfold onSC_WITHDRAWING. goF'.
Qed.

Lemma onSC_WITHDRAWAL_CONFIRMED_total (s : Sys W) d :
  Fueled (S f) c0 s -> mem s = Some d -> state d = Some SC_WITHDRAWAL_CONFIRMED ->
  wpF (onSC_WITHDRAWAL_CONFIRMED A cfg recheck) (fun _ s' => Fueled (S f) c0 s') s.
Proof.
  intros HI Hm Hst. handler_fuel HI Hm Hst. unfold onSC_WITHDRAWAL_CONFIRMED. goF'.
Qed.

Lemma onOUT_TX_total (s : Sys W) d :
  Fueled (S f) c0 s -> mem s = Some d -> state d = Some OUT_TX ->
  wpF (onOUT_TX A recheck) (fun _ s' => Fueled (S f) c0 s') s.
Proof.
  intros HI Hm Hst. handler_fuel HI Hm Hst. unfold onOUT_TX. goF'.
Qed.

Lemma onOUT_TX_CONFIRMED_total (s : Sys W) d :
  Fueled (S f) c0 s -> mem s = Some d -> state d = Some OUT_TX_CONFIRMED ->
  wpF (onOUT_TX_CONFIRMED A recheck) (fun _ s' => Fueled (S f) c0 s') s.
Proof.
  intros HI Hm Hst. handler_fuel HI Hm Hst. unfold onOUT_TX_CONFIRMED. goF'.
Qed.

Lemma onDEPOSIT_RECEIVED_total (s : Sys W) d :
  Fueled (S f) c0 s -> mem s = Some d -> state d = Some DEPOSIT_RECEIVED ->
  wpF (onDEPOSIT_RECEIVED A recheck) (fun _ s' => Fueled (S f) c0 s') s.
Proof.
  intros HI Hm Hst. handler_fuel HI Hm Hst. unfold onDEPOSIT_RECEIVED. goF'.
Qed.

Lemma onTRADE_EXECUTING_total (s : Sys W) d :
  Fueled (S f) c0 s -> mem s = Some d -> state d = Some TRADE_EXECUTING ->
  wpF (onTRADE_EXECUTING A recheck) (fun _ s' => Fueled (S f) c0 s') s.
Proof.
  intros HI Hm Hst. handler_fuel HI Hm Hst. unfold onTRADE_EXECUTING. goF'.
Qed.

Lemma onTRADE_EXECUTED_total (s : Sys W) d :
  Fueled (S f) c0 s -> mem s = Some d -> state d = Some TRADE_EXECUTED ->
  wpF (onTRADE_EXECUTED A recheck) (fun _ s' => Fueled (S f) c0 s') s.
Proof.
  intros HI Hm Hst. handler_fuel HI Hm Hst. unfold onTRADE_EXECUTED. goF'.
Qed.

Lemma onFUNDS_TRANSFERING_total (s : Sys W) d :
  Fueled (S f) c0 s -> mem s = Some d -> state d = Some FUNDS_TRANSFERING ->
  wpF (onFUNDS_TRANSFERING A recheck) (fun _ s' => Fueled (S f) c0 s') s.
Proof.
  intros HI Hm Hst. handler_fuel HI Hm Hst. unfold onFUNDS_TRANSFERING. goF'.
Qed.

Lemma onFUNDS_TRANSFERED_total (s : Sys W) d :
  Fueled (S f) c0 s -> mem s = Some d -> state d = Some FUNDS_TRANSFERED ->
  wpF (onFUNDS_TRANSFERED A cfg recheck) (fun _ s' => Fueled (S f) c0 s') s.
Proof.
  intros HI Hm Hst. handler_fuel HI Hm Hst. unfold onFUNDS_TRANSFERED. goF'.
Qed.

Lemma onWITHDRAWING_total (s : Sys W) d :
  Fueled (S f) c0 s -> mem s = Some d -> state d = Some WITHDRAWING ->
  wpF (onWITHDRAWING A recheck) (fun _ s' => Fueled (S f) c0 s') s.
Proof.
  intros HI Hm Hst. handler_fuel HI Hm Hst. unfold onWITHDRAWING. goF'.
Qed.

Lemma onWITHDRAWAL_SENT_total (s : Sys W) d :
  Fueled (S f) c0 s -> mem s = Some d -> state d = Some WITHDRAWAL_SENT ->
  wpF (onWITHDRAWAL_SENT A recheck) (fun _ s' => Fueled (S f) c0 s') s.
Proof.
  intros HI Hm Hst. handler_fuel HI Hm Hst. unfold onWITHDRAWAL_SENT. goF'.
Qed.

Lemma onIN_TX_CONFIRMED_total (s : Sys W) d :
  Fueled (S f) c0 s -> mem s = Some d -> state d = Some IN_TX_CONFIRMED ->
  wpF (onIN_TX_CONFIRMED A recheck) (fun _ s' => Fueled (S f) c0 s') s.
Proof.
  intros HI Hm Hst. handler_fuel HI Hm Hst. unfold onIN_TX_CONFIRMED. goF'.
Qed.

Lemma onSC_DEPOSITING_total (s : Sys W) d :
  Fueled (S f) c0 s -> mem s = Some d -> state d = Some SC_DEPOSITING ->
  wpF (onSC_DEPOSITING A recheck) (fun _ s' => Fueled (S f) c0 s') s.
Proof.
  intros HI Hm Hst. handler_fuel HI Hm Hst. unfold onSC_DEPOSITING. goF'.
Qed.

Lemma onSC_DEPOSITED_total (s : Sys W) d :
  Fueled (S f) c0 s -> mem s = Some d -> state d = Some SC_DEPOSITED ->
  wpF (onSC_DEPOSITED recheck) (fun _ s' => Fueled (S f) c0 s') s.
Proof.
  intros HI Hm Hst. handler_fuel HI Hm Hst. unfold onSC_DEPOSITED. goF'.
Qed.

Lemma onFINISHED_total (s : Sys W) d :
  Fueled (S f) c0 s -> mem s = Some d -> state d = Some FINISHED ->
  wpF (@onFINISHED W) (fun _ s' => Fueled (S f) c0 s') s.
Proof.
  intros HI Hm Hst. handler_fuel HI Hm Hst. unfold onFINISHED. goF'.
Qed.

Lemma wpF_whenState st (handler : M (Sys W) bool) rest :
  (forall s d, Fueled (S f) c0 s -> mem s = Some d -> state d = Some st ->
     wpF handler (fun _ s' => Fueled (S f) c0 s') s) ->
  (forall s, Fueled (S f) c0 s -> wpF rest (fun _ s' => Fueled (S f) c0 s') s) ->
  forall s, Fueled (S f) c0 s ->
    wpF (whenState st handler rest) (fun _ s' => Fueled (S f) c0 s') s.
Proof.
  intros Hh Hr s HI. unfold whenState.
  apply wp_bind, wp_getState; [|intros _; exact HI].
  intros d Hm. destruct (inState d st) eqn:E; [|by apply Hr].
  apply inState_true in E. apply wp_bind.
  eapply wp_mono; [exact (Hh s d HI Hm E)|].
  intros [] s' HI'; [exact HI'|by apply Hr].
Qed.

Lemma checkWith_total s :
  Fueled (S f) c0 s ->
  wpF (checkWith A cfg recheck) (fun _ s' => Fueled (S f) c0 s') s.
Proof.
  intros HI. unfold checkWith. apply wp_bind, wp_get.
  destruct (mem s) as [d|]; [|exact HI].
  destruct (opt_gt (cooldown d) (clock s)); [exact HI|].
  revert s HI.
  apply wpF_whenState; [apply onRETRYING_total|].
  apply wpF_whenState; [apply onTRIGGERED_total|].
  apply wpF_whenState; [apply onSC_WITHDRAWING_total|].
  apply wpF_whenState; [apply onSC_WITHDRAWAL_CONFIRMED_total|].
  apply wpF_whenState; [apply onOUT_TX_total|].
  apply wpF_whenState; [apply onOUT_TX_CONFIRMED_total|].
  apply wpF_whenState; [apply onDEPOSIT_RECEIVED_total|].
  apply wpF_whenState; [apply onTRADE_EXECUTING_total|].
  apply wpF_whenState; [apply onTRADE_EXECUTED_total|].
  apply wpF_whenState; [apply onFUNDS_TRANSFERING_total|].
  apply wpF_whenState; [apply onFUNDS_TRANSFERED_total|].
  apply wpF_whenState; [apply onWITHDRAWING_total|].
  apply wpF_whenState; [apply onWITHDRAWAL_SENT_total|].
  apply wpF_whenState; [apply onIN_TX_CONFIRMED_total|].
  apply wpF_whenState; [apply onSC_DEPOSITING_total|].
  apply wpF_whenState; [apply onSC_DEPOSITED_total|].
  apply wpF_whenState; [apply onFINISHED_total|].
  intros s HI. exact HI.
Qed.

(** The replacement callback keeps the state and the retry fields. *)
Lemma onBeforeTxReplace_total oldTx oldTxId newTx newTxId (s : Sys W) :
  Fueled (S f) c0 s ->
  wpF (onBeforeTxReplace oldTx oldTxId newTx newTxId) (fun _ s' => Fueled (S f) c0 s') s.
Proof. intros HI. unfold onBeforeTxReplace. goF'. Qed.

End Total.

Section Total_check.
Import Hedging Spec.
Context {W : Type} (A : Adapters W) (cfg : Config).
Implicit Type s : Sys W.

Lemma check_blocked_returns fuel s d :
  (1 <= fuel)%nat -> mem s = Some d -> opt_gt (cooldown d) (clock s) = true ->
  check A cfg fuel s = Ret tt s.
Proof.
  intros Hf Hm Hb. destruct fuel as [|f]; [lia|].
  cbn [check]. unfold checkWith, bind, get. by rewrite Hm, Hb.
Qed.

Lemma check_total fuel c0 : forall s,
  Fueled fuel c0 s ->
  wp3 False (check A cfg fuel) (fun _ s' => Fueled fuel c0 s') (fun _ s' => Fueled fuel c0 s')
      (fun _ => True) s.
Proof.
  induction fuel as [|f IH]; intros s HI.
  - apply Fueled_pos in HI. lia.
  - cbn [check].
    apply (checkWith_total A cfg (check A cfg f) f c0 IH
             (fun Hf s d => check_blocked_returns f s d Hf)).
    exact HI.
Qed.

Lemma Fueled_of_ok fuel s : retryTargetOK s -> (18 <= fuel)%nat -> Fueled fuel (clock s) s.
Proof.
  intros Hok Hf. split; [reflexivity|]. unfold retryTargetOK in Hok.
  destruct (mem s) as [d|]; [|lia]. split; [exact Hok|].
  pose proof (depth_max (clock s) d). lia.
Qed.

Lemma ok_of_Fueled fuel c s : Fueled fuel c s -> retryTargetOK s.
Proof.
  intros [_ H]. unfold retryTargetOK. destruct (mem s); [exact (proj1 H)|exact I].
Qed.

(** With fuel for eighteen nested runs, [check] ends. *)
Lemma check_ends fuel s :
  retryTargetOK s -> (18 <= fuel)%nat ->
  wp3 False (check A cfg fuel) (fun _ s' => retryTargetOK s') (fun _ s' => retryTargetOK s')
      (fun _ => True) s.
Proof.
  intros Hok Hf.
  eapply wp_conseq; [apply (check_total fuel (clock s) s (Fueled_of_ok fuel s Hok Hf))|..];
    cbv beta; eauto using ok_of_Fueled.
Qed.

Lemma deliver_ends fuel e s :
  retryTargetOK s -> (18 <= fuel)%nat ->
  wp3 False (deliver A cfg fuel e) (fun _ s' => retryTargetOK s')
      (fun _ s' => retryTargetOK s') (fun _ => True) s.
Proof.
  intros Hok Hf. destruct e as [|dt|oldTx oldTxId newTx newTxId|change]; cbn [deliver].
  - unfold tick. apply wp_try_catch.
    eapply wp_conseq; [by apply check_ends|auto| |auto].
    intros ? s' H'. by apply wp_ret.
  - unfold advance. apply wp_modify. exact Hok.
  - apply wp_try_catch. destruct fuel as [|f]; [lia|].
    eapply wp_conseq;
      [apply (onBeforeTxReplace_total f (clock s) oldTx oldTxId newTx newTxId s
                (Fueled_of_ok (S f) s Hok Hf))| | |auto].
    + intros ? s' H'. by apply (ok_of_Fueled (S f) (clock s)).
    + intros ? s' H'. apply wp_ret. by apply (ok_of_Fueled (S f) (clock s)).
  - apply wp_modify. exact Hok.
Qed.

Lemma jobLife_ends fuel job events s :
  retryState job = None -> (18 <= fuel)%nat ->
  wp3 False (jobLife A cfg fuel job events) (fun _ _ => True) (fun _ _ => True)
      (fun _ => True) s.
Proof.
  intros Hr Hf. unfold jobLife.
  assert (Hev : forall s1, retryTargetOK s1 ->
            wp3 False (forEach events (deliver A cfg fuel))
              (fun _ _ => True) (fun _ _ => True) (fun _ => True) s1).
  { intros s1 H1. apply (wp_forEach retryTargetOK); [exact H1| |auto].
    intros ev s2 H2. eapply wp_conseq; [by apply deliver_ends|auto..]. }
  assert (Hok : retryTargetOK (with_mem (Some job) s)).
  { unfold retryTargetOK. cbn [mem with_mem]. by rewrite Hr. }
  apply wp_bind, wp_try_catch, wp_bind, wp_modify. unfold setState.
  eapply wp_conseq;
    [apply (wpF_setState_any (check A cfg fuel) fuel (clock s)
              (check_total fuel (clock s)) (Some TRIGGERED) (with_mem (Some job) s)
              (fun _ s' => retryTargetOK s'))| | |].
  - apply Fueled_weaken. by apply (Fueled_of_ok fuel (with_mem (Some job) s)).
  - intros d st Hm [= <-]. cbn [mem with_mem] in Hm. injection Hm as <-.
    split; [reflexivity|]. norm_proj. split; [by rewrite Hr|].
    unfold depth. norm_proj. cbn [stateDepth]. lia.
  - intros s' H'. by apply (ok_of_Fueled fuel (clock s)).
  - intros ? s1 H1. by apply Hev.
  - intros ? s1 H1. apply wp_ret. apply Hev. by apply (ok_of_Fueled (S fuel) (clock s)).
  - auto.
Qed.

End Total_check.

(* ===================================================================== *)
(** * Crash safety and monotone progress *)
(* ===================================================================== *)

(** The Lightning job and the on-chain job of the simulation: without a
    crash the document ends archived and the live state absent; when the
    process dies right after OUT_TX is written (the third effect of the
    Lightning job, the fifth of the on-chain job), nothing has been paid
    or broadcast, and the process started again gives the job up in
    IDLE. *)
Lemma crash_before_payment_ends_IDLE :
  Sim.summary (Sim.runJob Sim.lnJob None 40) = Some (None, 1%nat)
  /\ (exists s, Sim.runJob Sim.lnJob (Some 3%nat) 40 = Crash s
        /\ Hedging.state <$> Hedging.disk s = Some (Some Hedging.OUT_TX)
        /\ Sim.ln_paid (Hedging.world s) = [])
  /\ Sim.summary (Sim.resume (Sim.runJob Sim.lnJob (Some 3%nat) 40) 30)
     = Some (Some (Some Hedging.IDLE), 0%nat)
  /\ Sim.summary (Sim.runJob Sim.btcJob None 40) = Some (None, 1%nat)
  /\ (exists s, Sim.runJob Sim.btcJob (Some 5%nat) 40 = Crash s
        /\ Hedging.state <$> Hedging.disk s = Some (Some Hedging.OUT_TX)
        /\ Sim.btc_sent (Hedging.world s) = [])
  /\ Sim.summary (Sim.resume (Sim.runJob Sim.btcJob (Some 5%nat) 40) 30)
     = Some (Some (Some Hedging.IDLE), 0%nat).
Proof.
  split; [vm_compute; reflexivity|].
  split; [eexists; split; [vm_compute; reflexivity|split; reflexivity]|].
  split; [vm_compute; reflexivity|].
  split; [vm_compute; reflexivity|].
  split; [eexists; split; [vm_compute; reflexivity|split; reflexivity]|].
  vm_compute; reflexivity.
Qed.

Lemma crashPoints_spec job giveUp twice n k :
  Sim.crashPoints job giveUp twice n = true -> (k < n)%nat ->
  Sim.restarted job k = Sim.expected giveUp twice k.
Proof.
  unfold Sim.crashPoints. rewrite forallb_forall. intros H Hk.
  assert (Hin : In k (seq 0 n)) by (apply in_seq; lia).
  apply H in Hin. by apply bool_decide_eq_true in Hin.
Qed.

(** C1, as the code has it.

    For every behaviour of the adapters: the engine is started on a job
    in OUT_TX whose source is BTC-LN or BTC, the cooldown over (what a
    process that died between the write of OUT_TX and the payment leaves).
    When the node does not know the payment ([getPayment] fails), or the
    Bitcoin node does not know the transaction ([getTransaction] gives
    [null]), [check] sets the job to IDLE, writes that, and returns: the
    job is given up, it is not taken to the state the run without a crash
    ends in.

    In the simulated world, for the Lightning, the on-chain and the
    smart-chain job: the run without a crash ends with the document
    archived once and no live document, and so does the run of a process
    that dies at any of its effects and is started again, but for three
    of them: the first write (the job is lost), the pay or broadcast call
    that follows the write of OUT_TX, or of SC_WITHDRAWING for the
    smart-chain job (the job is given up in IDLE), and the removal of the
    live document that follows the archive write (the document is
    archived twice). The runs have fewer than 80 effects. *)
Theorem crash_recovery :
  (forall W (A : Hedging.Adapters W) (cfg : Hedging.Config) (fuel : nat)
          (s : Hedging.Sys W) (d : Hedging.HedgingPluginState Z) (m : Hedging.TxMap)
          (w' : W),
     Hedging.mem s = Some d -> Hedging.state d = Some Hedging.OUT_TX ->
     Hedging.outTxs d = Some m ->
     Hedging.opt_gt (Hedging.cooldown d) (Hedging.clock s) = false ->
     Hedging.crashAfter s = None ->
     (Hedging.srcToken d = Some "BTC-LN"
        /\ (exists e, Hedging.ln_getPayment A (head (Hedging.obj_keys m)) (Hedging.world s)
                      = (inl e, w')))
     \/ (Hedging.srcToken d = Some "BTC"
         /\ Hedging.btc_getTransaction A (head (Hedging.obj_keys m)) (Hedging.world s)
            = (inr None, w')) ->
     Hedging.check A cfg (S (S fuel)) s
     = Ret tt (Hedging.persisted (Hedging.with_world w' s) d Hedging.IDLE))
  /\ (Sim.crashFree Sim.lnJob = Some (None, 1%nat)
      /\ Sim.dies (Sim.runJob Sim.lnJob (Some 80%nat) 40) = false
      /\ forall k, (k < 80)%nat -> Sim.restarted Sim.lnJob k = Sim.expected 3 32 k)
  /\ (Sim.crashFree Sim.btcJob = Some (None, 1%nat)
      /\ Sim.dies (Sim.runJob Sim.btcJob (Some 80%nat) 40) = false
      /\ forall k, (k < 80)%nat -> Sim.restarted Sim.btcJob k = Sim.expected 5 34 k)
  /\ (Sim.crashFree Sim.usdcJob = Some (None, 1%nat)
      /\ Sim.dies (Sim.runJob Sim.usdcJob (Some 80%nat) 40) = false
      /\ forall k, (k < 80)%nat -> Sim.restarted Sim.usdcJob k = Sim.expected 4 35 k).
Proof.
  split; [intros W A cfg fuel s d m w'; apply restart_OUT_TX|].
  split; [|split]; (split; [vm_compute; reflexivity|]; split; [vm_compute; reflexivity|]);
    intros k Hk; apply (crashPoints_spec _ _ _ 80); try exact Hk; vm_compute; reflexivity.
Qed.

Lemma crash_recovery_witness :
  Hedging.check Sim.simAdapters Sim.simConfig 2
    (Sim.startWith (Some Sim.btcJobOutTx) Sim.world0 None)
  = Ret tt (Hedging.persisted
              (Hedging.with_world Sim.world0
                 (Sim.startWith (Some Sim.btcJobOutTx) Sim.world0 None))
              Sim.btcJobOutTx Hedging.IDLE)
  /\ Sim.restarted Sim.lnJob 3 = Some (Some (Some Hedging.IDLE), 0%nat)
  /\ Sim.restarted Sim.lnJob 4 = Sim.crashFree Sim.lnJob.
Proof.
  split; [|split].
  - apply (proj1 crash_recovery Sim.World Sim.simAdapters Sim.simConfig 0%nat
             (Sim.startWith (Some Sim.btcJobOutTx) Sim.world0 None)
             Sim.btcJobOutTx [("T_out", "signedtx")] Sim.world0
             eq_refl eq_refl eq_refl eq_refl eq_refl).
    right. split; reflexivity.
  - apply (proj2 (proj2 (proj1 (proj2 crash_recovery))) 3%nat). lia.
  - rewrite (proj1 (proj1 (proj2 crash_recovery))).
    apply (proj2 (proj2 (proj1 (proj2 crash_recovery))) 4%nat). lia.
Defined.

(** A job in OUT_TX whose transaction the Bitcoin node does not know: the
    engine logs OUT_TX -> IDLE, a transition that lowers the index and does
    not leave RETRYING. *)
Lemma progress_fails_OUT_TX_to_IDLE :
  exists s',
    Hedging.check Sim.simAdapters Sim.simConfig 40
      (Sim.startWith (Some Sim.btcJobOutTx) Sim.world0 None) = Ret tt s'
    /\ Hedging.transitions s' = [(Some Hedging.OUT_TX, Hedging.IDLE)]
    /\ Spec.monotone (Some Hedging.OUT_TX) Hedging.IDLE = false.
Proof. eexists. split; [vm_compute; reflexivity|]. split; reflexivity. Qed.

(** *** Runs that overlap *)

Section Overlap.
Import Hedging.
Context {W : Type} (A : Adapters W) (cfg : Config).

Lemma bind_bind {St X Y Z} (m : M St X) (f : X -> M St Y) (g : Y -> M St Z) s :
  bind (bind m f) g s = bind m (fun x => bind (f x) g) s.
Proof. unfold bind. by destruct (m s). Qed.

Lemma bind_ext {St X Y} (m : M St X) (f g : X -> M St Y) s :
  (forall a s', f a s' = g a s') -> bind m f s = bind m g s.
Proof. intros H. unfold bind. destruct (m s); auto. Qed.

(** With nothing delivered in the meantime, the overlapped run is the run
    of the monitor: the seeded job is set to TRIGGERED and [check] is
    entered. *)
Lemma overlappedMonitor_alone (fuel : nat) (job : HedgingPluginState Z) (s : Sys W) :
  opt_is (srcToken job) "BTC" = false -> opt_is (srcToken job) "BTC-LN" = false ->
  opt_gt (cooldown job) (clock s) = false ->
  overlappedMonitor A cfg fuel job [] s
  = bind (modify (with_mem (Some job))) (fun _ => setState A cfg (S fuel) (Some TRIGGERED)) s.
Proof.
  intros Hb Hl Hcool. unfold overlappedMonitor, setState.
  rewrite !(bind_Ret (modify _) _ s tt (with_mem (Some job) s) eq_refl).
  set (s0 := with_mem (Some job) s).
  set (overtaken := bind getState _).
  assert (Hgo : forall s1, mem s1 = Some (set_state (Some TRIGGERED) job) -> clock s1 = clock s ->
            overtaken s1 = check A cfg (S fuel) s1).
  { intros s1 Hm Hck.
    assert (Hrun : exists rest, check A cfg (S fuel) s1
                   = bind (onTRIGGERED A (check A cfg fuel))
                       (fun returned : bool => if returned then ret tt else rest) s1).
    { eexists. cbn [check]. unfold checkWith, bind at 1, get. cbn beta iota. rewrite Hm.
      change (cooldown (set_state (Some TRIGGERED) job)) with (cooldown job).
      rewrite Hck, Hcool.
      rewrite (whenState_skip _ _ _ s1 _ TRIGGERED Hm eq_refl); [|reflexivity].
      rewrite (whenState_hit _ _ _ s1 _ Hm eq_refl). reflexivity. }
    destruct Hrun as [rest ->].
    assert (Hg : getState s1 = Ret (set_state (Some TRIGGERED) job) s1)
      by (unfold getState, bind, get, nonNull; by rewrite Hm).
    unfold overtaken, onTRIGGERED. rewrite bind_bind.
    rewrite !(bind_Ret getState _ s1 _ s1 Hg).
    change (srcToken (set_state (Some TRIGGERED) job)) with (srcToken job).
    rewrite Hb, Hl. cbn [orb]. rewrite bind_bind.
    apply bind_ext. intros withdrawTxs s2.
    cbn [forEach]. rewrite (bind_Ret (ret tt) _ s2 tt s2 eq_refl).
    unfold afterTxsWithdraw. rewrite !bind_bind.
    apply bind_ext. intros [] s3. rewrite !bind_bind.
    apply bind_ext. intros [] s4. reflexivity. }
  rewrite !(setStateWith_unfold _ s0 job TRIGGERED eq_refl).
  destruct (Spec.missingField job TRIGGERED); [reflexivity|].
  destruct (crashAfter s0) as [[|n]|]; [reflexivity| |]; by apply Hgo.
Qed.

End Overlap.

(** C3 as stated fails, in two ways. By the design of the handlers: a job
    in OUT_TX whose transaction is not known is given up for IDLE (above).
    And by runs that overlap: the monitor seeds a job with the source USDC
    and its run waits for [txsWithdraw]; meanwhile the timer of the checker
    fires twice and the checker takes the job through SC_WITHDRAWING and
    SC_WITHDRAWAL_CONFIRMED to OUT_TX; then the run of the monitor goes on,
    records its own withdrawal and logs OUT_TX -> SC_WITHDRAWING: the index
    is lowered, the job does not leave RETRYING, and it is not given up
    either. *)
Lemma monotone_progress_fails :
  (exists s',
     Hedging.check Sim.simAdapters Sim.simConfig 40
       (Sim.startWith (Some Sim.btcJobOutTx) Sim.world0 None) = Ret tt s'
     /\ Hedging.transitions s' = [(Some Hedging.OUT_TX, Hedging.IDLE)]
     /\ Spec.monotone (Some Hedging.OUT_TX) Hedging.IDLE = false)
  /\ (exists s',
        Hedging.overlappedMonitor Sim.simAdapters Sim.simConfig 40 Sim.usdcJob (Sim.ticks 2)
          (Sim.startWith None Sim.world0 None) = Ret tt s'
        /\ rev (Hedging.transitions s')
           = [ (None, Hedging.TRIGGERED);
               (Some Hedging.TRIGGERED, Hedging.SC_WITHDRAWING);
               (Some Hedging.SC_WITHDRAWING, Hedging.SC_WITHDRAWAL_CONFIRMED);
               (Some Hedging.SC_WITHDRAWAL_CONFIRMED, Hedging.OUT_TX);
               (Some Hedging.OUT_TX, Hedging.SC_WITHDRAWING) ]
        /\ Spec.monotone (Some Hedging.OUT_TX) Hedging.SC_WITHDRAWING = false
        /\ Spec.allowed (Some Hedging.OUT_TX) Hedging.SC_WITHDRAWING = false).
Proof.
  split; [exact progress_fails_OUT_TX_to_IDLE|].
  eexists. split; [vm_compute; reflexivity|]. repeat split.
Qed.

(** A run of [check] from any document, one found on the disk for
    instance, comes to an end and logs allowed transitions only. *)
Lemma check_transitions_allowed {W} (A : Hedging.Adapters W) (cfg : Hedging.Config)
    (fuel : nat) (s : Hedging.Sys W) :
  Spec.retryTargetOK s -> (18 <= fuel)%nat ->
  exists s', Hedging.final (Hedging.check A cfg fuel s) = Some s'
    /\ exists new, Hedging.transitions s' = new ++ Hedging.transitions s
                   /\ Forall (fun p => Spec.allowed (fst p) (snd p) = true) new.
Proof.
  intros Hok Hf.
  pose proof (check_logged A cfg (Hedging.transitions s) fuel s (Logged_refl s)) as HL.
  pose proof (check_ends A cfg fuel s Hok Hf) as HE.
  unfold wp3 in HL, HE.
  destruct (Hedging.check A cfg fuel s) as [a s'|e s'|s'|];
    [exists s'..|destruct HE]; cbn [Hedging.final]; by split.
Qed.

(** C3, as the code has it, for runs that do not overlap. Over the life
    of a job whose events are delivered one after the other (the run of the
    monitor that seeds the document, then any runs of the checker, waits
    and replacement callbacks, each started when the one before has ended),
    the engine comes to an end (fuel for eighteen nested runs of [check] is
    enough), and every logged transition keeps or raises the index, or
    enters or leaves RETRYING, or gives the job up for IDLE from TRIGGERED,
    SC_WITHDRAWING or OUT_TX; and every exit from RETRYING enters a state
    that the job had entered before. *)
Theorem monotone_progress {W} (A : Hedging.Adapters W) (cfg : Hedging.Config)
    (fuel : nat) (job : Hedging.HedgingPluginState Z) (events : list (@Hedging.Event W))
    (s : Hedging.Sys W) :
  Hedging.state job = None -> Hedging.retryState job = None -> (18 <= fuel)%nat ->
  exists s', Hedging.final (Hedging.jobLife A cfg fuel job events s) = Some s'
    /\ exists new, Hedging.transitions s' = new ++ Hedging.transitions s
                   /\ Spec.progress new.
Proof.
  intros Hn Hr Hf.
  pose proof (jobLife_logged A cfg fuel job events s Hn) as HL.
  pose proof (jobLife_traced A cfg fuel job events s Hn) as HT.
  pose proof (jobLife_ends A cfg fuel job events s Hr Hf) as HE.
  unfold wp3 in HL, HT, HE.
  assert (G : exists s', Hedging.final (Hedging.jobLife A cfg fuel job events s) = Some s'
              /\ Spec.Logged (Hedging.transitions s) s'
              /\ Spec.Wormholed (Hedging.transitions s) s').
  { destruct (Hedging.jobLife A cfg fuel job events s) as [a s'|e s'|s'|];
      [exists s'..|destruct HE]; cbn [Hedging.final]; by repeat split. }
  destruct G as (s' & Hfin & (new & Ht & Hall) & (new' & Ht' & Hw)).
  exists s'. split; [exact Hfin|].
  exists new. split; [exact Ht|]. split; [exact Hall|].
  rewrite Ht in Ht'. apply app_inv_tail in Ht'. by subst.
Qed.

Lemma monotone_progress_witness :
  exists s',
    Hedging.final (Hedging.jobLife Sim.simAdapters Sim.simConfig 40 Sim.lnJob
                     (Sim.ticks 1 ++ Hedging.Outside Sim.loseOrders :: Sim.ticks 40)
                     (Sim.startWith None Sim.world0 None)) = Some s'
    /\ exists new, Hedging.transitions s' = new ++ [] /\ Spec.progress new.
Proof.
  apply (monotone_progress Sim.simAdapters Sim.simConfig 40 Sim.lnJob
           (Sim.ticks 1 ++ Hedging.Outside Sim.loseOrders :: Sim.ticks 40)
           (Sim.startWith None Sim.world0 None)); [reflexivity|reflexivity|lia].
Defined.

(** The job of the witness: the exchange loses the order, the engine
    waits in RETRYING and places the order again from DEPOSIT_RECEIVED, a
    state the job had been in; the job then runs to its end and the
    document is archived. *)
Lemma simulated_job_retries :
  exists s',
    Hedging.final (Hedging.jobLife Sim.simAdapters Sim.simConfig 40 Sim.lnJob
                     (Sim.ticks 1 ++ Hedging.Outside Sim.loseOrders :: Sim.ticks 40)
                     (Sim.startWith None Sim.world0 None)) = Some s'
    /\ rev (Hedging.transitions s')
       = [ (None, Hedging.TRIGGERED);
           (Some Hedging.TRIGGERED, Hedging.OUT_TX);
           (Some Hedging.OUT_TX, Hedging.OUT_TX_CONFIRMED);
           (Some Hedging.OUT_TX_CONFIRMED, Hedging.DEPOSIT_RECEIVED);
           (Some Hedging.DEPOSIT_RECEIVED, Hedging.TRADE_EXECUTING);
           (Some Hedging.TRADE_EXECUTING, Hedging.RETRYING);
           (Some Hedging.RETRYING, Hedging.DEPOSIT_RECEIVED);
           (Some Hedging.DEPOSIT_RECEIVED, Hedging.TRADE_EXECUTING);
           (Some Hedging.TRADE_EXECUTING, Hedging.TRADE_EXECUTED);
           (Some Hedging.TRADE_EXECUTED, Hedging.FUNDS_TRANSFERING);
           (Some Hedging.FUNDS_TRANSFERING, Hedging.FUNDS_TRANSFERED);
           (Some Hedging.FUNDS_TRANSFERED, Hedging.WITHDRAWING);
           (Some Hedging.WITHDRAWING, Hedging.WITHDRAWAL_SENT);
           (Some Hedging.WITHDRAWAL_SENT, Hedging.IN_TX_CONFIRMED);
           (Some Hedging.IN_TX_CONFIRMED, Hedging.SC_DEPOSITING);
           (Some Hedging.SC_DEPOSITING, Hedging.SC_DEPOSITED);
           (Some Hedging.SC_DEPOSITED, Hedging.FINISHED) ]
    /\ List.length (Hedging.archived s') = 1%nat
    /\ Hedging.disk s' = None.
Proof. eexists. split; [vm_compute; reflexivity|]. repeat split. Qed.

(* ===================================================================== *)
(** * Further properties of the conversions and the adapters *)
(* ===================================================================== *)

(** ** What the two conversions compute *)

Section Decimal_values.
Import JS Spec.

Lemma fold_value acc s :
  forallb isDigit s = true ->
  parseDigits 10 acc s
  = Some (fold_left (fun a c => a * 10 + (Z.of_N (N_of_ascii c) - 48)) s acc).
Proof.
  revert acc. induction s as [|c s IH]; intros acc H; [reflexivity|].
  cbn [forallb] in H. apply andb_true_iff in H as [Hc Hs].
  cbn [parseDigits fold_left].
  assert (Hd : digitVal c = Some (Z.of_N (N_of_ascii c) - 48)).
  { unfold digitVal. unfold isDigit in Hc. cbv zeta in Hc. by rewrite Hc. }
  assert (Hr : (Z.of_N (N_of_ascii c) - 48 <? 10) = true).
  { unfold isDigit in Hc. cbv zeta in Hc. apply andb_true_iff in Hc as [H1 H2]. lia. }
  rewrite Hd, Hr. by apply IH.
Qed.

Lemma parse_value s : forallb isDigit s = true -> parseDigits 10 0 s = Some (digitsValue s).
Proof. apply fold_value. Qed.

Lemma BN_parse_value s : forallb isDigit s = true -> BN_parse 10 s = Some (digitsValue s).
Proof. intros H. rewrite BN_parse_isDigit by exact H. by apply parse_value. Qed.

Lemma value_bounds s : forallb isDigit s = true -> 0 <= digitsValue s < 10 ^ JS.length s.
Proof.
  induction s as [|c s IH] using rev_ind; intros H.
  - cbv. split; [discriminate|reflexivity].
  - rewrite forallb_app in H. apply andb_true_iff in H as [Hs Hc].
    cbn [forallb] in Hc. rewrite andb_true_r in Hc.
    unfold digitsValue. rewrite fold_left_app. cbn [fold_left]. fold (digitsValue s).
    specialize (IH Hs). unfold JS.length in *. rewrite length_app. cbn [List.length].
    replace (Z.of_nat (List.length s + 1)) with (Z.succ (Z.of_nat (List.length s))) by lia.
    rewrite Z.pow_succ_r by lia.
    unfold isDigit in Hc. cbv zeta in Hc. apply andb_true_iff in Hc as [H1 H2]. lia.
Qed.

Lemma value_app a b :
  forallb isDigit a = true -> forallb isDigit b = true ->
  digitsValue (a ++ b) = digitsValue a * 10 ^ JS.length b + digitsValue b.
Proof.
  intros Ha Hb.
  assert (Hab : forallb isDigit (a ++ b) = true) by (by rewrite forallb_app, Ha, Hb).
  pose proof (parse_value _ Hab) as H. rewrite parse_app, (parse_value a Ha) in H.
  clear Hab. revert H. generalize (digitsValue (a ++ b)) as v. generalize (digitsValue a) as x.
  induction b as [|c b IH] using rev_ind; intros x v H.
  - simpl in H. injection H as <-. change (digitsValue []) with 0.
    change (JS.length []) with 0. lia.
  - rewrite forallb_app in Hb. apply andb_true_iff in Hb as [Hb Hc].
    cbn [forallb] in Hc. rewrite andb_true_r in Hc.
    rewrite parse_app in H. destruct (parseDigits 10 x b) as [y|] eqn:E; [|discriminate].
    specialize (IH Hb x y E). subst y.
    rewrite (fold_value _ [c]) in H by (cbn; by rewrite Hc). cbn [fold_left] in H.
    injection H as <-.
    unfold digitsValue at 2. rewrite fold_left_app. cbn [fold_left]. fold (digitsValue b).
    unfold JS.length. rewrite length_app. cbn [List.length].
    replace (Z.of_nat (List.length b + 1)) with (Z.succ (Z.of_nat (List.length b))) by lia.
    rewrite Z.pow_succ_r by lia. unfold JS.length. lia.
Qed.

Lemma value_zeros k : digitsValue (replicate k "0"%char) = 0.
Proof.
  induction k as [|k IH]; [reflexivity|].
  rewrite replicate_S_end. unfold digitsValue in *. rewrite fold_left_app. cbn [fold_left].
  rewrite IH. reflexivity.
Qed.

Lemma isDigit_take k s : forallb isDigit s = true -> forallb isDigit (take k s) = true.
Proof.
  intros H. rewrite <- (take_drop k s), forallb_app in H. by apply andb_true_iff in H as [].
Qed.

Lemma isDigit_drop k s : forallb isDigit s = true -> forallb isDigit (drop k s) = true.
Proof.
  intros H. rewrite <- (take_drop k s), forallb_app in H. by apply andb_true_iff in H as [].
Qed.

Lemma value_take k s :
  forallb isDigit s = true -> (k <= List.length s)%nat ->
  digitsValue (take k s) = digitsValue s / 10 ^ (JS.length s - Z.of_nat k).
Proof.
  intros H Hk.
  pose proof (value_app (take k s) (drop k s) (isDigit_take k s H) (isDigit_drop k s H)) as E.
  rewrite take_drop in E.
  pose proof (value_bounds _ (isDigit_drop k s H)) as Hb.
  assert (Hl : JS.length (drop k s) = JS.length s - Z.of_nat k).
  { unfold JS.length. rewrite length_drop. lia. }
  rewrite Hl in *. rewrite E.
  rewrite Z.add_comm, Z.div_add by lia.
  rewrite Z.div_small by lia. lia.
Qed.

Lemma whole_part w X :
  forallb isDigit w = true -> forallb isDigit X = true ->
  BN_parse 10 ((if String.eqb (unstr w) "0" then [] else w) ++ X)
  = Some (digitsValue w * 10 ^ JS.length X + digitsValue X).
Proof.
  intros Hw HX. destruct (String.eqb (unstr w) "0") eqn:E.
  - apply String.eqb_eq in E. change "0"%string with (unstr ["0"%char]) in E.
    apply unstr_inj in E. subst w. cbn [app]. rewrite BN_parse_value by exact HX.
    change (digitsValue ["0"%char]) with 0. f_equal; lia.
  - rewrite BN_parse_value by (by rewrite forallb_app, Hw, HX).
    by rewrite value_app.
Qed.

Lemma fromDecimal_floor_point w f d :
  forallb isDigit w = true -> forallb isDigit f = true ->
  fromDecimal (unstr (w ++ "."%char :: f)) d
  = Some (if d <? 0 then digitsValue w / 10 ^ (- d)
          else digitsValue w * 10 ^ d + digitsValue f * 10 ^ d / 10 ^ JS.length f).
Proof.
  intros Hw Hf. unfold fromDecimal. rewrite str_unstr. unfold fromDecimalChars.
  rewrite includes_sep, split_sep, split_no_sep by auto using digits_no_dot.
  pose proof (value_bounds w Hw) as Bw. pose proof (value_bounds f Hf) as Bf.
  destruct (d <? 0) eqn:E.
  - apply Z.ltb_lt in E. unfold substring, clamp.
    replace (Z.to_nat (Z.min (Z.max 0 0) (JS.length w))) with 0%nat by (unfold JS.length; lia).
    rewrite Nat.min_0_l, Nat.max_0_l, Nat.sub_0_r, drop_0.
    set (k := Z.to_nat (Z.min _ _)).
    assert (Hk : (k <= List.length w)%nat) by (unfold k, JS.length; clear; lia).
    rewrite BN_parse_value by (by apply isDigit_take).
    rewrite value_take by assumption. f_equal.
    destruct (Z_le_gt_dec 0 (JS.length w + d)) as [Hle|Hgt].
    + f_equal. f_equal. unfold k, JS.length in *. lia.
    + replace k with 0%nat by (unfold k, JS.length in *; lia).
      rewrite Z.sub_0_r. rewrite !Z.div_small; [reflexivity| |lia].
      split; [lia|]. eapply Z.lt_le_trans; [apply Bw|].
      apply Z.pow_le_mono_r; unfold JS.length in *; lia.
  - apply Z.ltb_ge in E.
    destruct (JS.length f >? d) eqn:E2.
    + assert (JS.length f > d) by lia.
      rewrite substring_prefix by lia.
      rewrite whole_part by (auto using isDigit_take).
      f_equal.
      assert (Hlt : JS.length (take (Z.to_nat d) f) = d).
      { unfold JS.length in *. rewrite length_take. lia. }
      rewrite Hlt. f_equal.
      rewrite value_take by (auto; unfold JS.length in *; lia).
      rewrite Z2Nat.id by lia.
      replace (10 ^ JS.length f) with (10 ^ (JS.length f - d) * 10 ^ d)
        by (rewrite <- Z.pow_add_r by lia; f_equal; lia).
      rewrite Z.div_mul_cancel_r; [reflexivity| |]; apply Z.pow_nonzero; lia.
    + assert (JS.length f <= d) by lia.
      unfold padEnd, JS.repeat.
      assert (Hz := replicate_isDigit (Z.to_nat (d - JS.length f))).
      rewrite whole_part; [|exact Hw|by rewrite forallb_app, Hf, Hz].
      f_equal.
      assert (Hl : JS.length (f ++ replicate (Z.to_nat (d - JS.length f)) "0"%char) = d).
      { unfold JS.length in *. rewrite length_app, length_replicate. lia. }
      rewrite Hl. f_equal.
      rewrite value_app, value_zeros by assumption.
      unfold JS.length at 1. rewrite length_replicate, Z2Nat.id by lia.
      replace (10 ^ d) with (10 ^ (d - JS.length f) * 10 ^ JS.length f)
        by (rewrite <- Z.pow_add_r by (unfold JS.length in *; lia); f_equal; lia).
      rewrite Z.mul_assoc, Z.div_mul by (apply Z.pow_nonzero; unfold JS.length; lia). lia.
Qed.

Lemma fromDecimal_floor_whole w d :
  forallb isDigit w = true ->
  fromDecimal (unstr w) d
  = Some (if d <? 0 then digitsValue w / 10 ^ (- d) else digitsValue w * 10 ^ d).
Proof.
  intros Hw. unfold fromDecimal. rewrite str_unstr. unfold fromDecimalChars, includes.
  rewrite (digits_no_dot w Hw).
  pose proof (value_bounds w Hw) as Bw.
  destruct (d <? 0) eqn:E.
  - apply Z.ltb_lt in E. unfold substring, clamp.
    replace (Z.to_nat (Z.min (Z.max 0 0) (JS.length w))) with 0%nat by (unfold JS.length; lia).
    rewrite Nat.min_0_l, Nat.max_0_l, Nat.sub_0_r, drop_0.
    set (k := Z.to_nat (Z.min _ _)).
    assert (Hk : (k <= List.length w)%nat) by (unfold k, JS.length; clear; lia).
    rewrite BN_parse_value by (by apply isDigit_take).
    rewrite value_take by assumption. f_equal.
    destruct (Z_le_gt_dec 0 (JS.length w + d)) as [Hle|Hgt].
    + f_equal. f_equal. unfold k, JS.length in *. lia.
    + replace k with 0%nat by (unfold k, JS.length in *; lia).
      rewrite Z.sub_0_r. rewrite !Z.div_small; [reflexivity| |lia].
      split; [lia|]. eapply Z.lt_le_trans; [apply Bw|].
      apply Z.pow_le_mono_r; unfold JS.length in *; lia.
  - apply Z.ltb_ge in E. unfold JS.repeat.
    assert (Hz := replicate_isDigit (Z.to_nat d)).
    rewrite BN_parse_value by (by rewrite forallb_app, Hw, Hz).
    rewrite value_app, value_zeros by assumption.
    unfold JS.length. rewrite length_replicate, Z2Nat.id by lia. f_equal. lia.
Qed.



(** X1. [fromDecimal] truncates: for a string of digits [w], a point and a
    string of digits [f], it returns the floor of the number written, times
    [10^decimalCount]: with [N] the number the digits [w f] denote and [k] the
    length of [f], [N * 10^d / 10^k] for [d >= 0] (the digits of [f] past the
    [d]-th are cut, never rounded) and [N / (10^k * 10^-d)] for [d < 0]; and
    the same for digits without a point. *)
Theorem fromDecimal_floor (w f : JS.chars) (d : Z) :
  forallb isDigit w = true -> forallb isDigit f = true ->
  let N := digitsValue (w ++ f) in
  let k := JS.length f in
  fromDecimal (unstr (w ++ "."%char :: f)) d
  = Some (if d <? 0 then N / (10 ^ k * 10 ^ (- d)) else N * 10 ^ d / 10 ^ k)
  /\ fromDecimal (unstr w) d
     = Some (if d <? 0 then digitsValue w / 10 ^ (- d) else digitsValue w * 10 ^ d).
Proof.
  intros Hw Hf N k. split; [|by apply fromDecimal_floor_whole].
  rewrite fromDecimal_floor_point by assumption. f_equal.
  pose proof (value_bounds f Hf) as Bf. fold k in Bf.
  assert (Hk : 0 < 10 ^ k) by (apply Z.pow_pos_nonneg; unfold k, JS.length; lia).
  unfold N. rewrite value_app by assumption. fold k.
  destruct (d <? 0) eqn:E.
  - apply Z.ltb_lt in E.
    rewrite <- Z.div_div by (try apply Z.pow_pos_nonneg; lia).
    f_equal. rewrite Z.div_add_l by lia. rewrite (Z.div_small (digitsValue f)) by lia. lia.
  - apply Z.ltb_ge in E.
    rewrite Z.mul_add_distr_r.
    replace (digitsValue w * 10 ^ k * 10 ^ d) with (digitsValue w * 10 ^ d * 10 ^ k) by lia.
    rewrite Z.div_add_l by lia. reflexivity.
Qed.

Lemma fromDecimal_floor_witness :
  fromDecimal "1.23456789" 6 = Some 1234567 /\ fromDecimal "12" (-1) = Some 1.
Proof.
  pose proof (fromDecimal_floor (str "1") (str "23456789") 6 eq_refl eq_refl) as [H1 _].
  pose proof (fromDecimal_floor (str "12") [] (-1) eq_refl eq_refl) as [_ H2].
  split; [exact H1|exact H2].
Defined.

(** The first digit of a positive number is not a zero. *)
Lemma toDigits_first fuel n rest :
  0 < n -> n < 2 ^ Z.of_nat fuel ->
  exists c r, toDigits fuel 10 n rest = c :: r /\ Ascii.eqb c "0" = false.
Proof.
  revert n rest. induction fuel as [|f IH]; intros n rest Hn Hb.
  - simpl in Hb. lia.
  - cbn [toDigits]. destruct (n / 10 =? 0) eqn:E.
    + apply Z.eqb_eq in E. apply Z.div_small_iff in E; [|lia].
      destruct E as [E|E]; [|lia].
      rewrite Z.mod_small by lia.
      exists (digitChar n), rest. split; [reflexivity|].
      assert (Hd : In n [1; 2; 3; 4; 5; 6; 7; 8; 9]) by (cbn [In]; lia).
      cbn [In] in Hd. repeat (destruct Hd as [<- | Hd]; [reflexivity |]). contradiction.
    + apply Z.eqb_neq in E. apply IH.
      * assert (0 <= n / 10) by (apply Z.div_pos; lia). lia.
      * rewrite Nat2Z.inj_succ, Z.pow_succ_r in Hb by lia.
        apply Z.div_lt_upper_bound; lia.
Qed.

Lemma BN_toString_nonneg x :
  0 <= x ->
  forallb isDigit (BN_toString 10 x) = true
  /\ parseDigits 10 0 (BN_toString 10 x) = Some x
  /\ (BN_toString 10 x = ["0"%char] /\ x = 0
      \/ exists c r, BN_toString 10 x = c :: r /\ Ascii.eqb c "0" = false).
Proof.
  intros Hx.
  assert (Hd : forallb isDigit (BN_toString 10 x) = true).
  { unfold BN_toString. destruct (x <? 0) eqn:E1; [lia|]. by apply toDigits_isDigit. }
  split; [exact Hd|]. split.
  - rewrite <- BN_parse_isDigit by exact Hd. apply BN_parse_toString. lia.
  - destruct (Z.eq_dec x 0) as [->|Hne]; [left; split; reflexivity|right].
    unfold BN_toString. destruct (x <? 0) eqn:E1; [lia|].
    apply toDigits_first; [lia|]. apply digitsFuel_bound. lia.
Qed.

Lemma digits_count x k :
  0 <= x < 10 ^ k -> 1 <= k -> JS.length (BN_toString 10 x) <= k.
Proof.
  intros Hx Hk.
  destruct (BN_toString_nonneg x (proj1 Hx)) as (Hd & Hp & [[E _]|(c & r & E & Hc)]).
  - rewrite E. unfold JS.length. simpl. lia.
  - rewrite (parse_value _ Hd) in Hp. injection Hp as Hp.
    rewrite E in Hd, Hp. cbn [forallb] in Hd. apply andb_true_iff in Hd as [Hc1 Hr].
    pose proof (value_app [c] r) as Ha. cbn [app] in Ha.
    rewrite Ha in Hp by (cbn [forallb]; rewrite ?Hc1; auto). clear Ha.
    assert (1 <= digitsValue [c]).
    { destruct (isDigit_spec c Hc1) as (dd & Hdd & Hrr & Hch).
      unfold digitsValue. cbn [fold_left].
      assert (dd <> 0). { intros ->. simpl in Hch. subst c. discriminate. }
      unfold digitVal in Hdd. unfold isDigit in Hc1. cbv zeta in Hc1, Hdd.
      rewrite Hc1 in Hdd. injection Hdd as Hdd. lia. }
    pose proof (value_bounds r Hr) as Br.
    rewrite E. unfold JS.length in *. cbn [List.length].
    destruct (Z_le_gt_dec (Z.of_nat (S (List.length r))) k) as [|Hgt]; [assumption|exfalso].
    assert (10 ^ k <= 10 ^ Z.of_nat (List.length r)) by (apply Z.pow_le_mono_r; lia).
    nia.
Qed.

(** X2. For a non-negative amount and a positive decimal count [d],
    [toDecimal] prints the quotient of the amount by [10^d], a point, and
    the remainder padded with zeros on the left to exactly [d] digits. *)
Theorem toDecimal_value (x d : Z) :
  0 <= x -> 0 < d ->
  toDecimal x d
  = unstr (BN_toString 10 (x / 10 ^ d) ++ "."%char ::
           padStart (BN_toString 10 (x mod 10 ^ d)) d "0")
  /\ JS.length (padStart (BN_toString 10 (x mod 10 ^ d)) d "0") = d.
Proof.
  intros Hx Hd.
  assert (Hp : 0 < 10 ^ d) by (apply Z.pow_pos_nonneg; lia).
  set (q := x / 10 ^ d). set (r := x mod 10 ^ d).
  assert (Hq : 0 <= q) by (apply Z.div_pos; lia).
  assert (Hr : 0 <= r < 10 ^ d) by (apply Z.mod_pos_bound; lia).
  destruct (BN_toString_nonneg q Hq) as (Wd & Wp & Wh).
  destruct (BN_toString_nonneg r (proj1 Hr)) as (Rd & Rp & _).
  pose proof (digits_count r d Hr ltac:(lia)) as Rl.
  set (W := BN_toString 10 q) in *. set (R := BN_toString 10 r) in *.
  set (F := padStart R d "0").
  assert (Fl : JS.length F = d).
  { unfold F, padStart, JS.repeat, JS.length in *. rewrite length_app, length_replicate. lia. }
  assert (Fd : forallb isDigit F = true).
  { unfold F, padStart, JS.repeat. by rewrite forallb_app, replicate_isDigit. }
  assert (Fv : digitsValue F = r).
  { unfold F, padStart, JS.repeat. rewrite value_app, value_zeros by auto using replicate_isDigit.
    rewrite (parse_value _ Rd) in Rp. injection Rp as ->. lia. }
  split; [|exact Fl].
  unfold toDecimal. f_equal.
  assert (Wn : (1 <= List.length W)%nat).
  { destruct Wh as [[E _]|(c & r0 & E & _)]; rewrite E; simpl; lia. }
  rewrite (toDecimalChars_digits (W ++ F) x (List.length W) d).
  - by rewrite take_app_length, drop_app_length.
  - by rewrite forallb_app, Wd, Fd.
  - rewrite parse_value by (by rewrite forallb_app, Wd, Fd).
    rewrite value_app, Fl, Fv by assumption.
    rewrite (parse_value _ Wd) in Wp. injection Wp as ->.
    f_equal. unfold q, r. rewrite (Z.div_mod x (10 ^ d)) at 3 by lia. lia.
  - exact Hd.
  - exact Wn.
  - unfold JS.length in *. rewrite length_app. lia.
  - destruct Wh as [[E _]|(c & r0 & E & Hc)].
    + left. by rewrite E.
    + right. exists c, (r0 ++ F). rewrite E. split; [reflexivity|exact Hc].
Qed.

Lemma toDecimal_value_witness :
  toDecimal 123 8 = "0.00000123"%string /\ toDecimal 2050000000 8 = "20.50000000"%string.
Proof.
  split.
  - exact (proj1 (toDecimal_value 123 8 ltac:(lia) ltac:(lia))).
  - exact (proj1 (toDecimal_value 2050000000 8 ltac:(lia) ltac:(lia))).
Defined.

Lemma toString_no_dot x : existsb (Ascii.eqb ".") (BN_toString 10 x) = false.
Proof.
  unfold BN_toString. destruct (x <? 0) eqn:E.
  - cbn [existsb]. change (Ascii.eqb "." "-") with false. cbn [orb].
    apply digits_no_dot, toDigits_isDigit; [lia|reflexivity].
  - apply digits_no_dot, toDigits_isDigit; [lia|reflexivity].
Qed.

(** X3. For a decimal count [d <= 0], [toDecimal] prints the amount followed
    by [-d] zeros and [fromDecimal] reads the amount back, whatever its
    sign. *)
Theorem decimal_round_trip_nonpositive (x d : Z) :
  d <= 0 ->
  toDecimal x d = unstr (BN_toString 10 x ++ replicate (Z.to_nat (- d)) "0"%char)
  /\ fromDecimal (toDecimal x d) d = Some x.
Proof.
  intros Hd. unfold toDecimal, fromDecimal. rewrite str_unstr. unfold toDecimalChars.
  destruct (d <=? 0) eqn:E; [|lia]. split; [reflexivity|].
  unfold fromDecimalChars, includes, JS.repeat. rewrite existsb_app, toString_no_dot.
  rewrite digits_no_dot by apply replicate_isDigit. cbn [orb].
  destruct (d <? 0) eqn:E2.
  - rewrite substring_prefix.
    + unfold JS.length. rewrite length_app, length_replicate.
      replace (Z.to_nat (Z.of_nat (List.length (BN_toString 10 x) + Z.to_nat (- d)) + d))
        with (List.length (BN_toString 10 x)) by lia.
      rewrite take_app_length. apply BN_parse_toString. lia.
    + unfold JS.length. rewrite length_app, length_replicate. lia.
  - replace d with 0 by lia. cbn [Z.opp Z.to_nat replicate]. rewrite !app_nil_r.
    apply BN_parse_toString. lia.
Qed.

Lemma decimal_round_trip_nonpositive_witness :
  toDecimal (-5) (-2) = "-500"%string /\ fromDecimal "-500" (-2) = Some (-5).
Proof.
  destruct (decimal_round_trip_nonpositive (-5) (-2) ltac:(lia)) as [H1 H2].
  split; [exact H1|]. rewrite H1 in H2. exact H2.
Defined.

End Decimal_values.

(** ** Trading pairs and orders *)

Ltac split_eqb :=
  repeat match goal with
  | |- context [String.eqb ?a ?b] =>
      lazymatch a with
      | String _ _ => fail
      | EmptyString => fail
      | _ => destruct (String.eqb_spec a b); [try subst a|]
      end
  end.

Lemma quiet_ret {St R} (a : R) : quiet (ret (St := St) a).
Proof. by intros s. Qed.

Lemma quiet_throw {St R} e : quiet (throw (St := St) (A := R) e).
Proof. by intros s. Qed.

Lemma quiet_bind {St R R'} (m : M St R) (k : R -> M St R') :
  quiet m -> (forall a, quiet (k a)) -> quiet (bind m k).
Proof.
  intros Hm Hk s. unfold bind. specialize (Hm s).
  destruct (m s) as [a s'| | |]; simpl in Hm; try (injection Hm as ->); try discriminate;
    [apply Hk|reflexivity|reflexivity].
Qed.

Lemma quiet_at0 v : quiet (OKX.at0 v).
Proof.
  intros s. destruct v as [[| | |[|c r]|l|f]|]; try reflexivity.
Qed.

Lemma quiet_prop k v : quiet (OKX.prop k v).
Proof. intros s. destruct v as [[]|]; reflexivity. Qed.

Lemma quiet_findChain name l : quiet (OKX.findChain name l).
Proof.
  induction l as [|e l IH]; [apply quiet_ret|]. cbn [OKX.findChain].
  apply quiet_bind; [apply quiet_prop|]. intros [[| | |c| |]|]; try exact IH.
  destruct (String.eqb c name); [apply quiet_ret|exact IH].
Qed.

Lemma call_then_quiet {R} venue r (k : json -> M (list OKX.Request) R) sent :
  (forall a, quiet (k a)) -> stateOf (bind (OKX.call venue r) k sent) = Some (r :: sent).
Proof.
  intros Hk. unfold OKX.call, bind, modify. destruct (venue r); [reflexivity|apply Hk].
Qed.

Lemma request_then_quiet {X R} r (answer : string + X) (k : X -> M (list Binance.Sent) R) sent :
  (forall a, quiet (k a)) ->
  stateOf (bind (Binance.request r answer) k sent) = Some (r :: sent).
Proof.
  intros Hk. unfold Binance.request, bind, modify. destruct answer; [reflexivity|apply Hk].
Qed.

Create HintDb quiet.
#[local] Hint Resolve quiet_ret quiet_throw quiet_at0 quiet_prop quiet_findChain : quiet.

Section Pairs.
Import Spec.

(** X4. [getTradingPair] is defined exactly when one currency is BTC or
    BTC-LN and the other one of USDC, USDT, ETH and SOL, and the order it
    describes spends the source currency: on a sell the instrument is
    source-destination (the source is the base asset), on a buy it is
    destination-source (the source is the quote asset), BTC-LN being traded as
    BTC; Binance writes the two assets without the dash and has the same
    flag. *)
Theorem getTradingPair_orientation (src dst : string) :
  (is_Some (tradingPair (OKX.getTradingPair src dst))
   <-> (isBtcLike src && inList dst counterparts)
       || (isBtcLike dst && inList src counterparts) = true)
  /\ (forall p, tradingPair (OKX.getTradingPair src dst) = Some p ->
        exists b, buy (OKX.getTradingPair src dst) = Some b
          /\ p = if b : bool then tradedAs dst +:+ "-" +:+ tradedAs src
                 else tradedAs src +:+ "-" +:+ tradedAs dst)
  /\ (forall p, tradingPair (Binance.getTradingPair src dst) = Some p ->
        exists b, buy (Binance.getTradingPair src dst) = Some b
          /\ buy (OKX.getTradingPair src dst) = Some b
          /\ p = if b : bool then tradedAs dst +:+ tradedAs src
                 else tradedAs src +:+ tradedAs dst).
Proof.
  unfold OKX.getTradingPair, Binance.getTradingPair, getTradingPairWith, isBtcLike,
    inList, counterparts, tradedAs. cbn [existsb].
  split; [|split].
  - split_eqb; cbn; split; intros H; try (by eauto); try discriminate; try (by destruct H).
  - intros p. split_eqb; cbn; intros H; try discriminate; injection H as <-;
      eexists; (split; [reflexivity|]); cbn; reflexivity.
  - intros p. split_eqb; cbn; intros H; try discriminate; injection H as <-;
      eexists; (split; [reflexivity|]); (split; [reflexivity|]); cbn; reflexivity.
Qed.

Lemma getTradingPair_orientation_witness :
  tradingPair (OKX.getTradingPair "BTC-LN" "ETH") = Some "ETH-BTC"%string
  /\ buy (OKX.getTradingPair "BTC-LN" "ETH") = Some true.
Proof.
  destruct (proj1 (proj2 (getTradingPair_orientation "BTC-LN" "ETH")) "ETH-BTC"%string eq_refl)
    as (b & Hb & Hp).
  split; [reflexivity|]. rewrite Hb. f_equal. by destruct b.
Defined.

Lemma pair_defined_buy (usdc usdt eth sol src dst : string) :
  is_Some (tradingPair (getTradingPairWith usdc usdt eth sol src dst))
  <-> is_Some (buy (getTradingPairWith usdc usdt eth sol src dst)).
Proof.
  unfold getTradingPairWith, isBtcLike.
  split_eqb; cbn; split; intros H; try (by eauto); by destruct H.
Qed.

(** X5. [marketTrade], on both adapters: without a trading pair it throws
    "Invalid trade pair" and sends nothing; with one it sends one market
    order under the caller's order id, whose side is the buy flag and whose
    size is the source amount in the decimals of the source currency; Binance
    names it [quantity] on a sell and [quoteOrderQty] on a buy, OKX sends it
    as [sz] either way. *)
Theorem marketTrade_order
    (submit : Binance.OrderParams -> string + Z) (venue : OKX.Request -> Exn + json)
    (src dst : string) (amount : Z) (orderId : string) :
  (tradingPair (Binance.getTradingPair src dst) = None ->
     forall sent, Binance.marketTrade submit src dst amount orderId sent
                  = Throw (Error "Invalid trade pair") sent)
  /\ (tradingPair (OKX.getTradingPair src dst) = None ->
        forall sent, OKX.marketTrade venue src dst amount orderId sent
                     = Throw (Error "Invalid trade pair") sent)
  /\ (forall pair b,
        tradingPair (Binance.getTradingPair src dst) = Some pair ->
        buy (Binance.getTradingPair src dst) = Some b ->
        forall sent, exists p,
          stateOf (Binance.marketTrade submit src dst amount orderId sent)
          = Some (Binance.SubmitNewOrder p :: sent)
          /\ Binance.symbol p = pair
          /\ Binance.side p = (if b : bool then "BUY" else "SELL")
          /\ Binance.type p = "MARKET"
          /\ Binance.newClientOrderId p = orderId
          /\ (Binance.quantity p, Binance.quoteOrderQty p)
             = (let amt := toDecimalAt amount (Binance.currencyDecimals src) in
                if b then (None, Some amt) else (Some amt, None)))
  /\ (forall pair b,
        tradingPair (OKX.getTradingPair src dst) = Some pair ->
        buy (OKX.getTradingPair src dst) = Some b ->
        forall sent, exists r fields,
          stateOf (OKX.marketTrade venue src dst amount orderId sent) = Some (r :: sent)
          /\ OKX.path r = "/api/v5/trade/order" /\ OKX.method r = OKX.POST
          /\ OKX.data r = Some fields
          /\ assoc "instId" fields = Some pair
          /\ assoc "clOrdId" fields = Some orderId
          /\ assoc "side" fields = Some (if b : bool then "buy" else "sell")
          /\ assoc "ordType" fields = Some "market"
          /\ assoc "sz" fields = Some (toDecimalAt amount (OKX.currencyDecimals src))).
Proof.
  split; [|split; [|split]].
  - intros Hn sent. unfold Binance.marketTrade. by rewrite Hn.
  - intros Hn sent. unfold OKX.marketTrade. by rewrite Hn.
  - intros pair b Hp Hb sent. unfold Binance.marketTrade. rewrite Hp, Hb.
    destruct b; (eexists; split;
      [apply request_then_quiet; auto with quiet|cbn; repeat split; reflexivity]).
  - intros pair b Hp Hb sent. unfold OKX.marketTrade. rewrite Hp, Hb.
    destruct b; (eexists; eexists; split;
      [apply call_then_quiet; intros a; apply quiet_bind; auto with quiet
      |cbn; repeat split; reflexivity]).
Qed.

Lemma marketTrade_order_witness :
  exists p,
    stateOf (Binance.marketTrade (fun _ => inr 7) "USDC" "BTC" 20500000 "id1" [])
    = Some [Binance.SubmitNewOrder p]
    /\ Binance.symbol p = "BTCUSDC"%string
    /\ Binance.side p = "BUY"%string
    /\ Binance.quoteOrderQty p = Some "20.500000"%string.
Proof.
  destruct (proj1 (proj2 (proj2 (marketTrade_order (fun _ => inr 7) (fun _ => inr JNull)
                            "USDC" "BTC" 20500000 "id1")))
              "BTCUSDC"%string true eq_refl eq_refl [])
    as (p & H1 & H2 & H3 & _ & _ & H4).
  exists p. split; [exact H1|]. split; [exact H2|]. split; [exact H3|].
  by injection H4 as _ ->.
Defined.

End Pairs.

(** ** The Binance adapter *)

Section Binance_methods.
Import Binance.

(** X6. [Binance.getTrade] of an order the client returns: the average
    price is the quote quantity (read at 12 decimals) divided, rounding
    towards zero, by the executed quantity (read at 9 decimals), printed
    at 3 decimals; the state is "filled" exactly for the status FILLED and
    is undefined for a status outside the five the adapter knows; and when
    the executed quantity is zero (an order with no fill) the division
    fails and the call throws instead of returning the state. *)
Theorem binance_getTrade_price
    (getOrder : string -> string -> string + OrderResponse)
    (src dst orderId pair : string) (resp : OrderResponse) (quote executed : Z)
    (sent : list Sent) :
  tradingPair (getTradingPair src dst) = Some pair ->
  getOrder pair orderId = inr resp ->
  fromDecimal (cummulativeQuoteQty resp) 12 = Some quote ->
  fromDecimal (executedQty resp) 9 = Some executed ->
  (executed = 0 ->
     getTrade getOrder src dst orderId sent
     = Throw (Error "Assertion failed") (GetOrder pair orderId :: sent))
  /\ (executed <> 0 ->
        exists info,
          getTrade getOrder src dst orderId sent = Ret info (GetOrder pair orderId :: sent)
          /\ averagePrice info = toDecimal (Z.quot quote executed) 3
          /\ tradeOrderId info = Number_toString (respOrderId resp)
          /\ (tradeState info = Some "filled"%string <-> orderStatus resp = "FILLED"%string)
          /\ (~ In (orderStatus resp)
                  ["CANCELED"; "NEW"; "PARTIALLY_FILLED"; "FILLED"; "REJECTED"]%string ->
              tradeState info = None)).
Proof.
  intros Hp Hr Hq He.
  unfold getTrade. rewrite Hp. unfold request, bind, modify, parsed, ret, throw.
  rewrite Hr, Hq, He. unfold JS.BN_div.
  split; intros Hz.
  - subst executed. reflexivity.
  - destruct (executed =? 0) eqn:E; [lia|].
    eexists. split; [reflexivity|]. cbn [averagePrice tradeOrderId tradeState].
    split; [reflexivity|]. split; [reflexivity|]. split.
    + split_eqb; cbn; split; congruence.
    + intros Hn. cbn [In] in Hn. split_eqb; cbn; try reflexivity; exfalso; apply Hn; auto 10.
Qed.

Lemma binance_getTrade_price_witness :
  getTrade (fun _ _ => inr {| orderStatus := "NEW"; cummulativeQuoteQty := "0.00000000";
                              executedQty := "0.00000000"; respOrderId := 5 |})
    "BTC" "USDC" "id1" []
  = Throw (Error "Assertion failed") [GetOrder "BTCUSDC" "id1"].
Proof.
  apply (proj1 (binance_getTrade_price
                  (fun _ _ => inr {| orderStatus := "NEW"; cummulativeQuoteQty := "0.00000000";
                                     executedQty := "0.00000000"; respOrderId := 5 |})
                  "BTC" "USDC" "id1" "BTCUSDC"
                  {| orderStatus := "NEW"; cummulativeQuoteQty := "0.00000000";
                     executedQty := "0.00000000"; respOrderId := 5 |} 0 0 []
                  eq_refl eq_refl eq_refl eq_refl)).
  reflexivity.
Defined.

(** X7. [getBalance]: on Binance, BTC-LN reads the balance of BTC; a
    currency the account does not list has the balance zero, and a listed
    one the [free] amount of its first entry, read at the decimals of the
    currency; one request is sent. On OKX the currency is sent as it is
    given (BTC-LN is not renamed) and an answer without details for it is
    the balance zero. *)
Theorem getBalance_value
    (balances : list CoinBalance) (venue : OKX.Request -> Exn + json) (currency : string) :
  (forall sent, getBalance (inr balances) "BTC-LN" sent = getBalance (inr balances) "BTC" sent)
  /\ (currency <> "BTC-LN"%string ->
      (forall e, In e balances -> balanceCoin e <> currency) ->
      forall sent, getBalance (inr balances) currency sent = Ret 0 (GetBalances :: sent))
  /\ (forall before entry after v,
        currency <> "BTC-LN"%string ->
        balances = before ++ entry :: after ->
        (forall e, In e before -> balanceCoin e <> currency) ->
        balanceCoin entry = currency ->
        fromDecimalAt (free entry) (currencyDecimals currency) = Some v ->
        forall sent, getBalance (inr balances) currency sent = Ret v (GetBalances :: sent))
  /\ (forall sent, exists r,
        stateOf (OKX.getBalance venue currency sent) = Some (r :: sent)
        /\ OKX.path r = "/api/v5/account/balance"%string
        /\ OKX.params r = Some [("ccy", currency)]%string)
  /\ (forall sent other,
        let r := {| OKX.path := "/api/v5/account/balance"; OKX.method := OKX.GET;
                    OKX.params := Some [("ccy", currency)]%string; OKX.data := None |} in
        venue r = inr (JArr [JObj (("details", JArr []) :: other)%string]) ->
        OKX.getBalance venue currency sent = Ret 0 (r :: sent)).
Proof.
  assert (Hfind : forall (l : list CoinBalance) c,
            (forall e, In e l -> balanceCoin e <> c) ->
            forall r, List.find (fun e => String.eqb (balanceCoin e) c) (l ++ r)
                      = List.find (fun e => String.eqb (balanceCoin e) c) r).
  { intros l c. induction l as [|x l IH]; intros Hl r; [reflexivity|].
    cbn [app List.find]. destruct (String.eqb_spec (balanceCoin x) c) as [E|E].
    - exfalso. apply (Hl x); [by left|exact E].
    - apply IH. intros e He. apply Hl. by right. }
  split; [|split; [|split; [|split]]].
  - reflexivity.
  - intros Hne Hno sent. unfold getBalance.
    destruct (String.eqb_spec currency "BTC-LN") as [E|_]; [contradiction|].
    unfold request, bind, modify, ret.
    rewrite <- (app_nil_r balances), (Hfind balances currency Hno []). reflexivity.
  - intros before entry after v Hne -> Hb He Hv sent. unfold getBalance.
    destruct (String.eqb_spec currency "BTC-LN") as [E|_]; [contradiction|].
    unfold request, bind, modify, ret. rewrite (Hfind before currency Hb).
    cbn [List.find]. rewrite He, String.eqb_refl. unfold parsed. rewrite Hv. reflexivity.
  - intros sent. eexists. split.
    + unfold OKX.getBalance. apply call_then_quiet. intros a.
      apply quiet_bind; [auto with quiet|intros first].
      apply quiet_bind; [auto with quiet|intros details].
      apply quiet_bind; [auto with quiet|intros detail].
      destruct detail as [[]|]; auto with quiet;
        destruct (jstring _); auto with quiet; destruct (fromDecimalAt _ _); auto with quiet.
    + split; reflexivity.
  - intros sent other r Hv. unfold OKX.getBalance, OKX.call, bind, modify. fold r.
    rewrite Hv. reflexivity.
Qed.

Lemma getBalance_value_witness :
  getBalance (inr [{| balanceCoin := "ETH"; free := "1"; networkList := [] |};
                   {| balanceCoin := "BTC"; free := "0.5"; networkList := [] |}]) "BTC-LN" []
  = Ret 50000000 [GetBalances].
Proof.
  destruct (getBalance_value
              [{| balanceCoin := "ETH"; free := "1"; networkList := [] |};
               {| balanceCoin := "BTC"; free := "0.5"; networkList := [] |}]
              (fun _ => inr JNull) "BTC") as (H1 & _ & H3 & _).
  rewrite H1.
  apply (H3 [{| balanceCoin := "ETH"; free := "1"; networkList := [] |}]
            {| balanceCoin := "BTC"; free := "0.5"; networkList := [] |} []);
    [discriminate|reflexivity| |reflexivity|reflexivity].
  intros e [<-|[]]. discriminate.
Defined.

(** X8. On Binance the chain argument is ignored for bitcoin: for BTC and
    BTC-LN the withdrawal fee, the deposit address and the withdrawal are
    the same whatever chain is passed. The deposit address of BTC is asked
    for on the network SEGWITBTC and that of BTC-LN on LIGHTNING with the
    amount at 8 decimals, while a withdrawal of BTC goes to the network BTC;
    for any other currency the chain passed is the network of the request. *)
Theorem binance_bitcoin_networks
    (balances : string + list CoinBalance)
    (depositAddress : string -> string -> option string -> string + string)
    (client : WithdrawParams -> string + json) (bolt11_satoshis : string -> option Z)
    (currency chain1 chain2 address withdrawalId : string) (fee : Z) (amount : option Z) :
  (currency = "BTC"%string \/ currency = "BTC-LN"%string ->
     (forall sent, getWithdrawalFee balances currency chain1 sent
                   = getWithdrawalFee balances currency chain2 sent)
     /\ (forall sent, getDepositAddress depositAddress currency chain1 amount sent
                      = getDepositAddress depositAddress currency chain2 amount sent)
     /\ (forall sent, withdraw client bolt11_satoshis currency chain1 address withdrawalId
                        fee amount sent
                      = withdraw client bolt11_satoshis currency chain2 address withdrawalId
                          fee amount sent))
  /\ (forall sent,
        stateOf (getDepositAddress depositAddress "BTC" chain1 amount sent)
        = Some (GetDepositAddress "BTC" "SEGWITBTC" None :: sent))
  /\ (forall a sent,
        stateOf (getDepositAddress depositAddress "BTC-LN" chain1 (Some a) sent)
        = Some (GetDepositAddress "BTC" "LIGHTNING" (Some (toDecimal a 8)) :: sent))
  /\ (forall a sent, exists p,
        stateOf (withdraw client bolt11_satoshis "BTC" chain1 address withdrawalId fee
                   (Some a) sent) = Some (p :: sent)
        /\ coin p = "BTC"%string /\ network p = "BTC"%string)
  /\ (currency <> "BTC"%string -> currency <> "BTC-LN"%string ->
      forall sent,
        stateOf (getDepositAddress depositAddress currency chain1 amount sent)
        = Some (GetDepositAddress currency chain1 None :: sent)).
Proof.
  split; [|split; [|split; [|split]]].
  - intros [-> | ->]; (split; [|split]); intros sent; reflexivity.
  - intros sent. unfold getDepositAddress. cbn [String.eqb Ascii.eqb Bool.eqb].
    unfold request, bind, modify. by destruct (depositAddress _ _ _).
  - intros a sent. unfold getDepositAddress. cbn [String.eqb Ascii.eqb Bool.eqb].
    unfold request, bind, modify. by destruct (depositAddress _ _ _).
  - intros a sent. unfold withdraw, bind, modify, ret. cbn [String.eqb Ascii.eqb Bool.eqb].
    eexists. split; [by destruct (client _)|]. split; reflexivity.
  - intros H1 H2 sent. unfold getDepositAddress.
    destruct (String.eqb_spec currency "BTC-LN") as [|_]; [contradiction|].
    destruct (String.eqb_spec currency "BTC") as [|_]; [contradiction|].
    unfold request, bind, modify. by destruct (depositAddress _ _ _).
Qed.

Lemma binance_bitcoin_networks_witness :
  getWithdrawalFee (inr [{| balanceCoin := "BTC"; free := "1";
                            networkList := [{| networkName := "BTC"; withdrawFee := "0.0002" |}] |}])
    "BTC" "Polygon" []
  = Ret 20000 [GetBalances].
Proof.
  rewrite (proj1 (proj1 (binance_bitcoin_networks
                     (inr [{| balanceCoin := "BTC"; free := "1";
                              networkList := [{| networkName := "BTC"; withdrawFee := "0.0002" |}] |}])
                     (fun _ _ _ => inr ""%string) (fun _ => inr JNull) (fun _ => None)
                     "BTC" "Polygon" "BTC" "" "" 0 None) (or_introl eq_refl)) []).
  reflexivity.
Defined.

(** X9. [Binance.getWithdrawal] and [Binance.getDeposit] return null
    exactly when the history the client returns is empty. Otherwise the
    first entry decides: the transaction id is passed on, a withdrawal is
    "2" (completed) exactly for the status 6 and failed ("-1", "-2" or
    "-3") exactly for the statuses 1, 3 and 5; a deposit is credited ("1"
    or "2") exactly for the statuses 6 and 1; and a status the adapter does
    not know leaves the state undefined. *)
Theorem binance_history_states
    (withdrawHistory depositHistory : string -> string + list HistoryEntry)
    (id : string) (entries : list HistoryEntry) (sent : list Sent) :
  (withdrawHistory id = inr entries ->
     exists r, getWithdrawal withdrawHistory id sent = Ret r (GetWithdrawHistory id :: sent)
       /\ (r = None <-> entries = [])
       /\ forall first rest, entries = first :: rest ->
            exists info, r = Some info
              /\ withdrawalTxId info = entryTxId first
              /\ (withdrawalState info = Some "2"%string <-> entryStatus first = 6)
              /\ (In (withdrawalState info) [Some "-1"; Some "-2"; Some "-3"]%string
                  <-> In (entryStatus first) [1; 3; 5])
              /\ (withdrawalState info = None <-> ~ 0 <= entryStatus first <= 6))
  /\ (depositHistory id = inr entries ->
      exists r, getDeposit depositHistory id sent = Ret r (GetDepositHistory id :: sent)
        /\ (r = None <-> entries = [])
        /\ forall first rest, entries = first :: rest ->
             exists info, r = Some info
               /\ depId info = entryTxId first
               /\ (In (depositState info) [Some "1"; Some "2"]%string
                   <-> In (entryStatus first) [6; 1])
               /\ (depositState info = None <-> ~ In (entryStatus first) [0; 1; 6; 7; 8])).
Proof.
  split; intros Hh.
  - unfold getWithdrawal, request, bind, modify, ret. rewrite Hh.
    destruct entries as [|first rest].
    + eexists. split; [reflexivity|]. split; [done|]. discriminate.
    + eexists. split; [reflexivity|]. split; [split; discriminate|].
      intros f r [= <- <-]. eexists. split; [reflexivity|].
      cbn [withdrawalTxId withdrawalState]. split; [reflexivity|].
      set (st := entryStatus first).
      destruct (Z.eqb_spec st 6); [|destruct (Z.eqb_spec st 4); [|destruct (Z.eqb_spec st 0);
        [|destruct (Z.eqb_spec st 2); [|destruct (Z.eqb_spec st 1); [|destruct (Z.eqb_spec st 3);
        [|destruct (Z.eqb_spec st 5)]]]]]];
        repeat match goal with H : st = _ |- _ => rewrite H; clear H end; cbn;
        (split; [split; (congruence || lia)|]);
        (split; [split; intros; repeat match goal with H : _ \/ _ |- _ => destruct H end;
                   try congruence; try lia; try tauto; auto 6
                |split; intros; try congruence; try lia]).
  - unfold getDeposit, request, bind, modify, ret. rewrite Hh.
    destruct entries as [|first rest].
    + eexists. split; [reflexivity|]. split; [done|]. discriminate.
    + eexists. split; [reflexivity|]. split; [split; discriminate|].
      intros f r [= <- <-]. eexists. split; [reflexivity|].
      cbn [depId depositState]. split; [reflexivity|].
      set (st := entryStatus first).
      destruct (Z.eqb_spec st 1); [|destruct (Z.eqb_spec st 6); [|destruct (Z.eqb_spec st 0);
        [|destruct (Z.eqb_spec st 8); [|destruct (Z.eqb_spec st 7)]]]];
        repeat match goal with H : st = _ |- _ => rewrite H; clear H end; cbn;
        (split; [split; intros; repeat match goal with H : _ \/ _ |- _ => destruct H end;
                   try congruence; try lia; try tauto; auto 6
                |split; intros; try congruence; try lia; try tauto]).
Qed.

Lemma binance_history_states_witness :
  getWithdrawal (fun _ => inr []) "w1" [] = Ret None [GetWithdrawHistory "w1"].
Proof.
  destruct (proj1 (binance_history_states (fun _ => inr []) (fun _ => inr []) "w1" [] [])
              eq_refl) as (r & Hr & Hn & _).
  rewrite Hr. f_equal. by apply Hn.
Defined.

End Binance_methods.

(** ** The OKX adapter *)

Section OKX_methods.
Import OKX.
Variable venue : Request -> Exn + json.

(** X10. [OKX.getWithdrawalFee] of a currency other than BTC-LN sends one
    currencies request and decides on the first entry of the answer whose
    chain is the currency, a dash and the chain passed, or Bitcoin for BTC
    whatever chain is passed. The entries being objects: it throws "Chain
    in currency not found" when there is no such entry, "Cannot withdraw
    the desired currency" when the entry cannot be withdrawn, and otherwise
    returns its maximum fee, digits with a point, read at the decimals of
    the currency (the digits past them cut). *)
Theorem okx_getWithdrawalFee_chain (currency chain : string) (amount : Z)
    (entries : list json) (sent : list Request) :
  let r := {| path := "/api/v5/asset/currencies"; method := GET;
              params := Some [("ccy", currency)]%string; data := None |} in
  let name := (currency +:+ "-" +:+ (if String.eqb currency "BTC" then "Bitcoin" else chain))%string in
  currency <> "BTC-LN"%string ->
  venue r = inr (JArr entries) ->
  ((forall e, In e entries -> exists o, e = JObj o /\ assoc "chain" o <> Some (JStr name)) ->
     getWithdrawalFee venue currency chain amount sent
     = Throw (Error "Chain in currency not found") (r :: sent))
  /\ (forall before canWd (w f : JS.chars) other after d,
        entries = before ++ Spec.chainEntry name canWd (JS.unstr (w ++ "."%char :: f)) other
                            :: after ->
        (forall e, In e before -> exists o, e = JObj o /\ assoc "chain" o <> Some (JStr name)) ->
        forallb Spec.isDigit w = true -> forallb Spec.isDigit f = true ->
        currencyDecimals currency = Some d ->
        getWithdrawalFee venue currency chain amount sent
        = if canWd then
            Ret (Spec.digitsValue w * 10 ^ d + Spec.digitsValue f * 10 ^ d / 10 ^ JS.length f)
                (r :: sent)
          else Throw (Error "Cannot withdraw the desired currency") (r :: sent)).
Proof.
  intros r name Hne Hv.
  set (test := fun e => match jstring (jfield "chain" e) with
                        | Some c => String.eqb c (chainName currency chain)
                        | None => false
                        end).
  assert (Hobj : forall e, (exists o, e = JObj o /\ assoc "chain" o <> Some (JStr name)) ->
            jstring (jfield "chain" e) <> Some name).
  { intros e (o & -> & Ho) E. cbn [jfield] in E.
    destruct (assoc "chain" o) as [[| | |c| |]|]; try discriminate E.
    cbn [jstring] in E. congruence. }
  assert (Hskip : forall l, (forall e, In e l -> jstring (jfield "chain" e) <> Some name) ->
            forall rest, List.find test (l ++ rest) = List.find test rest).
  { induction l as [|x l IH]; intros Hl rest; [reflexivity|].
    cbn [app List.find]. unfold test at 1.
    destruct (jstring (jfield "chain" x)) as [c|] eqn:E.
    - destruct (String.eqb_spec c (chainName currency chain)) as [->|_].
      + exfalso. apply (Hl x); [by left|exact E].
      + apply IH. intros e He. apply Hl. by right.
    - apply IH. intros e He. apply Hl. by right. }
  assert (Hrun : getWithdrawalFee venue currency chain amount sent
                 = match List.find test entries with
                   | None => Throw (Error "Chain in currency not found") (r :: sent)
                   | Some currencyData =>
                       if negb (jtruthy (jfield "canWd" currencyData)) then
                         Throw (Error "Cannot withdraw the desired currency") (r :: sent)
                       else
                         match jstring (jfield "maxFee" currencyData) with
                         | None => Throw TypeError (r :: sent)
                         | Some maxFee =>
                             match fromDecimalAt maxFee (currencyDecimals currency) with
                             | Some fee => Ret fee (r :: sent)
                             | None => Throw (Error "Invalid character") (r :: sent)
                             end
                         end
                   end).
  { unfold getWithdrawalFee.
    destruct (String.eqb_spec currency "BTC-LN") as [|_]; [contradiction|].
    unfold call, bind, modify. fold r. rewrite Hv. fold test. unfold ret at 1. cbv iota.
    destruct (List.find test entries) as [cd|]; [|reflexivity].
    destruct (negb _); [reflexivity|]. destruct (jstring _); [|reflexivity].
    destruct (fromDecimalAt _ _); reflexivity. }
  rewrite Hrun. split.
  - intros Hno. rewrite <- (app_nil_r entries), (Hskip entries (fun e He => Hobj e (Hno e He)) []).
    reflexivity.
  - intros before canWd w f other after d -> Hb Hw Hf Hd.
    rewrite (Hskip before (fun e He => Hobj e (Hb e He))).
    cbn [List.find]. unfold test at 1, Spec.chainEntry at 1. cbn [jfield assoc String.eqb Ascii.eqb Bool.eqb jstring].
    fold name. unfold chainName. rewrite String.eqb_refl.
    unfold Spec.chainEntry. cbn [jfield assoc String.eqb Ascii.eqb Bool.eqb jstring jtruthy].
    destruct canWd; [|reflexivity]. cbn [negb].
    assert (Hpos : (d <? 0) = false).
    { apply Z.ltb_ge. unfold currencyDecimals in Hd.
      repeat (destruct (String.eqb currency _); [injection Hd as <-; lia|]). discriminate Hd. }
    rewrite Hd. unfold fromDecimalAt.
    rewrite (fromDecimal_floor_point w f d Hw Hf), Hpos. reflexivity.
Qed.


(** X11. A withdrawal of a currency other than BTC-LN needs an amount:
    without one [withdraw] throws before any request is sent, on both
    adapters, and so does the Binance adapter for a Lightning invoice it
    cannot decode. A Lightning withdrawal on OKX sends the invoice and the
    currency BTC to the Lightning endpoint and nothing else: the result does
    not depend on the chain, the withdrawal id, the fee or the amount
    passed. *)
Theorem withdraw_requirements
    (client : Binance.WithdrawParams -> string + json) (bolt11_satoshis : string -> option Z)
    (currency chain address withdrawalId : string) (fee : Z) :
  (currency <> "BTC-LN"%string ->
     (forall sent, Binance.withdraw client bolt11_satoshis currency chain address
                     withdrawalId fee None sent
                   = Throw (Error "Withdrawals must have an amount!") sent)
     /\ (forall sent, withdraw venue currency chain address withdrawalId fee None sent
                      = Throw (Error "Withdrawals must have an amount!") sent))
  /\ (bolt11_satoshis address = None ->
      forall amount sent,
        Binance.withdraw client bolt11_satoshis "BTC-LN" chain address withdrawalId fee
          amount sent
        = Throw (Error "bolt11.decode") sent)
  /\ (forall chain' withdrawalId' fee' amount amount' sent,
        withdraw venue "BTC-LN" chain address withdrawalId fee amount sent
        = withdraw venue "BTC-LN" chain' address withdrawalId' fee' amount' sent)
  /\ (forall amount sent,
        stateOf (withdraw venue "BTC-LN" chain address withdrawalId fee amount sent)
        = Some ({| path := "/api/v5/asset/withdrawal-lightning"; method := POST;
                   params := None;
                   data := Some [("ccy", "BTC"); ("invoice", address)]%string |} :: sent)).
Proof.
  split; [|split; [|split]].
  - intros Hne. split; intros sent.
    + unfold Binance.withdraw, bind.
      destruct (String.eqb_spec currency "BTC-LN") as [|_]; [contradiction|]. reflexivity.
    + unfold withdraw.
      destruct (String.eqb_spec currency "BTC-LN") as [|_]; [contradiction|]. reflexivity.
  - intros Hd amount sent. unfold Binance.withdraw, bind.
    cbn [String.eqb Ascii.eqb Bool.eqb]. by rewrite Hd.
  - reflexivity.
  - intros amount sent. unfold withdraw. cbn [String.eqb Ascii.eqb Bool.eqb].
    apply call_then_quiet. auto with quiet.
Qed.


(** X12. [OKX.getDepositAddress]: a Lightning deposit needs an amount,
    without one it throws before any request is sent; with one it asks the
    Lightning endpoint for an invoice of the amount at 8 decimals. For
    another currency it asks for the deposit addresses of the currency and
    returns the address of the first entry whose chain is the currency, a
    dash and the chain passed (Bitcoin for BTC); when no entry has that
    chain it returns undefined and does not throw. *)
Theorem okx_getDepositAddress_chain (currency chain : string) (sent : list Request) :
  (forall sent, getDepositAddress venue "BTC-LN" chain None sent
                = Throw (Error "Lightning deposits must have an amount!") sent)
  /\ (forall amount,
        stateOf (getDepositAddress venue "BTC-LN" chain (Some amount) sent)
        = Some ({| path := "/api/v5/asset/deposit-lightning"; method := GET;
                   params := Some [("ccy", "BTC"); ("amt", toDecimal amount 8);
                                   ("to", "18")]%string;
                   data := None |} :: sent))
  /\ (let r := {| path := "/api/v5/asset/deposit-address"; method := GET;
                  params := Some [("ccy", currency); ("to", "18")]%string; data := None |} in
      let name := chainName currency chain in
      currency <> "BTC-LN"%string ->
      forall entries amount, venue r = inr (JArr entries) ->
        ((forall e, In e entries -> exists f, e = JObj f /\ assoc "chain" f <> Some (JStr name)) ->
           getDepositAddress venue currency chain amount sent = Ret None (r :: sent))
        /\ (forall before f after,
              entries = before ++ JObj f :: after ->
              (forall e, In e before ->
                 exists f, e = JObj f /\ assoc "chain" f <> Some (JStr name)) ->
              assoc "chain" f = Some (JStr name) ->
              getDepositAddress venue currency chain amount sent
              = Ret (assoc "addr" f) (r :: sent))).
Proof.
  split; [|split].
  - reflexivity.
  - intros amount. unfold getDepositAddress. cbn [String.eqb Ascii.eqb Bool.eqb].
    apply call_then_quiet. intros a. apply quiet_bind; auto with quiet.
  - intros r name Hne entries amount Hv.
    assert (Hskip : forall l s,
              (forall e, In e l -> exists f, e = JObj f /\ assoc "chain" f <> Some (JStr name)) ->
              forall rest, findChain name (l ++ rest) s = findChain name rest s).
    { induction l as [|x l IH]; intros s Hl rest; [reflexivity|].
      destruct (Hl x (or_introl eq_refl)) as (f & -> & Hf).
      cbn [app findChain]. unfold bind, prop, ret. cbn [jfield].
      assert (Hrest : findChain name (l ++ rest) s = findChain name rest s).
      { apply IH. intros e He. apply Hl. by right. }
      destruct (assoc "chain" f) as [[| | |c| |]|]; try exact Hrest.
      destruct (String.eqb_spec c name) as [->|_]; [congruence|exact Hrest]. }
    assert (Hrun : getDepositAddress venue currency chain amount sent
                   = bind (findChain name entries)
                       (fun found => match found with
                                     | None => ret None
                                     | Some found => ret (jfield "addr" found)
                                     end) (r :: sent)).
    { unfold getDepositAddress.
      destruct (String.eqb_spec currency "BTC-LN") as [|_]; [contradiction|].
      unfold call. unfold bind at 1. unfold bind at 1, modify. fold r. rewrite Hv.
      reflexivity. }
    rewrite Hrun. split.
    + intros Hno. unfold bind.
      rewrite <- (app_nil_r entries), (Hskip entries _ Hno []). reflexivity.
    + intros before f after -> Hb Hf. unfold bind. rewrite (Hskip before _ Hb).
      cbn [findChain]. unfold bind, prop, ret. cbn [jfield]. rewrite Hf, String.eqb_refl.
      reflexivity.
Qed.


(** X13. When the exchange answers with an empty list, [getDeposit],
    [getWithdrawal] and [getFundsTransfer] return undefined, which the
    caller can test, whereas [getTrade], [marketTrade], [fundsTransfer] and
    [getBalance] read a property of the missing first element and throw a
    [TypeError], each after its one request was sent. *)
Theorem okx_empty_answer (src dst id currency fromAcc toAcc : string) (amount : Z)
    (sent : list Request) :
  (forall r, venue r = inr (JArr [])) ->
  (exists r, getDeposit venue id sent = Ret None (r :: sent))
  /\ (exists r, getWithdrawal venue id sent = Ret None (r :: sent))
  /\ (exists r, getFundsTransfer venue id sent = Ret None (r :: sent))
  /\ (is_Some (tradingPair (getTradingPair src dst)) ->
      (exists r, getTrade venue src dst id sent = Throw TypeError (r :: sent))
      /\ (exists r, marketTrade venue src dst amount id sent = Throw TypeError (r :: sent)))
  /\ (exists r, fundsTransfer venue currency fromAcc toAcc amount id sent
                = Throw TypeError (r :: sent))
  /\ (exists r, getBalance venue currency sent = Throw TypeError (r :: sent)).
Proof.
  intros Hv.
  repeat split.
  - eexists. unfold getDeposit, call, bind, modify. rewrite Hv. reflexivity.
  - eexists. unfold getWithdrawal, call, bind, modify. rewrite Hv. reflexivity.
  - eexists. unfold getFundsTransfer, call, bind, modify. rewrite Hv. reflexivity.
  - destruct H as [p Hp]. eexists. unfold getTrade. rewrite Hp.
    unfold call, bind, modify. rewrite Hv. reflexivity.
  - destruct H as [p Hp]. eexists. unfold marketTrade. rewrite Hp.
    unfold call, bind, modify. rewrite Hv. reflexivity.
  - eexists. unfold fundsTransfer, call, bind, modify. rewrite Hv. reflexivity.
  - eexists. unfold getBalance, call, bind, modify. rewrite Hv. reflexivity.
Qed.


End OKX_methods.

Lemma withdraw_requirements_witness :
  Binance.withdraw (fun _ => inr JNull) (fun _ => None) "USDC" "MATIC" "0xown" "id" 1 None []
  = Throw (Error "Withdrawals must have an amount!") [].
Proof.
  exact (proj1 (proj1 (withdraw_requirements (fun _ => inr JNull) (fun _ => inr JNull)
                         (fun _ => None) "USDC" "MATIC" "0xown" "id" 1)
                  ltac:(discriminate)) []).
Defined.

Lemma okx_getDepositAddress_chain_witness :
  OKX.getDepositAddress
    (fun _ => inr (JArr [JObj [("chain", JStr "USDC-Polygon"); ("addr", JStr "0xdeposit")]%string]))
    "USDC" "Solana" None []
  = Ret None [{| OKX.path := "/api/v5/asset/deposit-address"; OKX.method := OKX.GET;
                 OKX.params := Some [("ccy", "USDC"); ("to", "18")]%string;
                 OKX.data := None |}].
Proof.
  apply (proj1 (proj2 (proj2 (okx_getDepositAddress_chain
                  (fun _ => inr (JArr [JObj [("chain", JStr "USDC-Polygon");
                                             ("addr", JStr "0xdeposit")]%string]))
                  "USDC" "Solana" [])) ltac:(discriminate)
                  [JObj [("chain", JStr "USDC-Polygon"); ("addr", JStr "0xdeposit")]%string]
                  None eq_refl)).
  intros e [<-|[]]. eexists. split; [reflexivity|]. discriminate.
Defined.

Lemma okx_empty_answer_witness :
  exists r, OKX.getWithdrawal (fun _ => inr (JArr [])) "w1" [] = Ret None [r].
Proof.
  exact (proj1 (proj2 (okx_empty_answer (fun _ => inr (JArr [])) "BTC" "USDC" "w1" "BTC"
                         "funding" "trading" 1 [] (fun _ => eq_refl)))).
Defined.

Lemma okx_getWithdrawalFee_chain_witness :
  OKX.getWithdrawalFee
    (fun _ => inr (JArr [Spec.chainEntry "BTC-Lightning" true "0.00001" [];
                         Spec.chainEntry "BTC-Bitcoin" true "0.0004" []]))
    "BTC" "Polygon" 5 []
  = Ret 40000 [{| OKX.path := "/api/v5/asset/currencies"; OKX.method := OKX.GET;
                  OKX.params := Some [("ccy", "BTC")]%string; OKX.data := None |}].
Proof.
  apply (proj2 (okx_getWithdrawalFee_chain
                  (fun _ => inr (JArr [Spec.chainEntry "BTC-Lightning" true "0.00001" [];
                                       Spec.chainEntry "BTC-Bitcoin" true "0.0004" []]))
                  "BTC" "Polygon" 5
                  [Spec.chainEntry "BTC-Lightning" true "0.00001" [];
                   Spec.chainEntry "BTC-Bitcoin" true "0.0004" []] []
                  ltac:(discriminate) eq_refl)
           [Spec.chainEntry "BTC-Lightning" true "0.00001" []] true
           (JS.str "0") (JS.str "0004") [] [] 8);
    [reflexivity| |reflexivity|reflexivity|reflexivity].
  intros e [<-|[]]. eexists. split; [reflexivity|discriminate].
Defined.

(* ===================================================================== *)
(** * Further properties of the engine *)
(* ===================================================================== *)

(** ** When [check] does nothing, and the two ends of a job *)

Section Idle.
Import Hedging Spec.
Context {W : Type} (A : Adapters W) (cfg : Config).
Implicit Type s : Sys W.

Lemma whenState_none st (h : M (Sys W) bool) rest s d :
  mem s = Some d -> state d = None -> whenState st h rest s = rest s.
Proof.
  intros Hm Hx. unfold whenState, bind, getState, get, nonNull, inState. cbn.
  rewrite Hm. cbn. by rewrite Hx.
Qed.

Lemma getState_ok s d : mem s = Some d -> getState s = Ret d s.
Proof. intros Hm. unfold getState, bind, get, nonNull. by rewrite Hm. Qed.

Lemma update_ok f s d : mem s = Some d -> update f s = Ret tt (with_mem (Some (f d)) s).
Proof. intros Hm. unfold update, bind. by rewrite (getState_ok s d Hm). Qed.

Lemma setCooldown_ok s d :
  mem s = Some d ->
  setCooldown s = Ret tt (with_mem (Some (set_cooldown (Some (clock s + 5 * 1000)) d)) s).
Proof. intros Hm. unfold setCooldown, bind, now. by rewrite (update_ok _ s d Hm). Qed.

Lemma bind_unit {St} (m : M St unit) (s0 : St) : bind m (fun _ => ret tt) s0 = m s0.
Proof. unfold bind, ret. by destruct (m s0) as [[] ?| | |]. Qed.

(** X14. [check] does nothing at all, whatever the adapters would answer
    and even for a process about to die: it returns with the plugin, its
    disk and the world as they are, when there is no document, when the
    cooldown of the document is in the future, when the state of the
    document is null or IDLE, and when the job is in RETRYING and the retry
    time is not yet in the past (or is missing). *)
Theorem check_does_nothing (fuel : nat) (s : Sys W) :
  (mem s = None -> check A cfg (S fuel) s = Ret tt s)
  /\ (forall d, mem s = Some d ->
        opt_gt (cooldown d) (clock s) = true
        \/ state d = None
        \/ state d = Some IDLE
        \/ (state d = Some RETRYING /\ opt_lt (retryAt d) (clock s) = false) ->
        check A cfg (S fuel) s = Ret tt s).
Proof.
  split.
  - intros Hm. cbn [check]. unfold checkWith, bind, get. by rewrite Hm.
  - intros d Hm H. cbn [check]. unfold checkWith, bind at 1, get. cbn beta iota. rewrite Hm.
    destruct (opt_gt (cooldown d) (clock s)) eqn:Hc; [reflexivity|].
    destruct H as [H|[H|[H|[H Hr]]]]; [discriminate| | |].
    + repeat (rewrite (whenState_none _ _ _ s d Hm H)). reflexivity.
    + repeat (rewrite (whenState_skip _ _ _ s d IDLE Hm H); [|reflexivity]). reflexivity.
    + rewrite (whenState_hit _ _ _ s d Hm H).
      unfold onRETRYING, bind, getState, get, nonNull, now, ret. cbn. rewrite Hm. cbn.
      rewrite Hr. reflexivity.
Qed.

(** A job in RETRYING waits: nothing is done while the retry time is not in
    the past. *)
Lemma check_RETRYING_waits fuel s d :
  mem s = Some d -> state d = Some RETRYING -> opt_lt (retryAt d) (clock s) = false ->
  check A cfg (S fuel) s = Ret tt s.
Proof.
  intros Hm H Hr. cbn [check]. unfold checkWith, bind at 1, get. cbn beta iota. rewrite Hm.
  destruct (opt_gt (cooldown d) (clock s)) eqn:Hc; [reflexivity|].
  rewrite (whenState_hit _ _ _ s d Hm H).
  unfold onRETRYING, bind, getState, get, nonNull, now, ret. cbn. rewrite Hm. cbn.
  rewrite Hr. reflexivity.
Qed.

Lemma check_RETRYING_resumes fuel s d :
  mem s = Some d -> state d = Some RETRYING -> opt_gt (cooldown d) (clock s) = false ->
  opt_lt (retryAt d) (clock s) = true ->
  check A cfg (S fuel) s = setState A cfg fuel (retryState d) s.
Proof.
  intros Hm H Hc Hr. cbn [check]. unfold checkWith, bind at 1, get. cbn beta iota.
  rewrite Hm, Hc. rewrite (whenState_hit _ _ _ s d Hm H).
  unfold onRETRYING. unfold bind at 1. unfold bind at 1.
  unfold getState at 1. unfold bind at 1, get, nonNull. rewrite Hm. unfold ret at 1.
  unfold bind at 1, now. rewrite Hr. unfold setState.
  unfold bind. destruct (setStateWith _ _ s) as [[] ?| | |]; reflexivity.
Qed.

(** What [scheduleRetry] leaves: the document in RETRYING, persisted. *)
Lemma scheduleRetry_run fuel target s d :
  mem s = Some d -> crashAfter s = None ->
  scheduleRetry (check A cfg (S fuel)) target s
  = Ret tt (persisted
              (with_mem (Some (set_retryState (Some target)
                                 (set_retryAt (Some (clock s + retryTime)) d))) s)
              (set_retryState (Some target) (set_retryAt (Some (clock s + retryTime)) d))
              RETRYING).
Proof.
  intros Hm Hc.
  set (d1 := set_retryState (Some target) (set_retryAt (Some (clock s + retryTime)) d)).
  unfold scheduleRetry.
  rewrite (bind_Ret now _ s (clock s) s) by reflexivity.
  rewrite (bind_Ret (update _) _ s tt
             (with_mem (Some (set_retryAt (Some (clock s + retryTime)) d)) s)).
  2:{ by apply update_ok. }
  rewrite (bind_Ret (update _) _ _ tt (with_mem (Some d1) s)).
  2:{ by rewrite (update_ok _ _ (set_retryAt (Some (clock s + retryTime)) d)). }
  rewrite (setStateWith_unfold _ (with_mem (Some d1) s) d1 RETRYING eq_refl).
  cbn [missingField REQUIRED_FIELDS List.find isNullField String.eqb Ascii.eqb Bool.eqb
       d1 retryAt retryState set_retryState set_retryAt].
  cbn [crashAfter with_mem]. rewrite Hc.
  apply (check_RETRYING_waits fuel (persisted (with_mem (Some d1) s) d1 RETRYING)
           (set_state (Some RETRYING) d1) eq_refl eq_refl).
  cbn. unfold retryTime. apply Z.ltb_ge. lia.
Qed.

(** X15. The retry cycle. [scheduleRetry(target)] at time [t] writes
    [retryAt = t + 15000] and [retryState = target] to the document, enters
    RETRYING, persists that and returns, the [check] it ends with finding
    the retry time in the future. From then on [check] does nothing as long
    as the clock is at most [t + 15000] (at exactly [retryAt] it still
    waits), and the first [check] after that, the cooldown permitting, is
    [setState(target)]. *)
Theorem retry_cycle (fuel : nat) (target : RebalancingState) (s : Sys W)
    (d : HedgingPluginState Z) :
  let d1 := set_retryState (Some target) (set_retryAt (Some (clock s + retryTime)) d) in
  let s1 := persisted (with_mem (Some d1) s) d1 RETRYING in
  mem s = Some d -> crashAfter s = None ->
  scheduleRetry (check A cfg (S fuel)) target s = Ret tt s1
  /\ (forall dt, dt <= retryTime ->
        check A cfg (S fuel) (with_clock (clock s + dt) s1)
        = Ret tt (with_clock (clock s + dt) s1))
  /\ (forall dt, retryTime < dt -> opt_gt (cooldown d) (clock s + dt) = false ->
        check A cfg (S fuel) (with_clock (clock s + dt) s1)
        = setState A cfg fuel (Some target) (with_clock (clock s + dt) s1)).
Proof.
  intros d1 s1 Hm Hc.
  assert (Hst : state (set_state (Some RETRYING) d1) = Some RETRYING) by reflexivity.
  split; [|split].
  - exact (scheduleRetry_run fuel target s d Hm Hc).
  - intros dt Hdt.
    apply (check_RETRYING_waits fuel (with_clock (clock s + dt) s1)
             (set_state (Some RETRYING) d1) eq_refl Hst).
    cbn. apply Z.ltb_ge. lia.
  - intros dt Hdt Hcool.
    apply (check_RETRYING_resumes fuel (with_clock (clock s + dt) s1)
             (set_state (Some RETRYING) d1) eq_refl Hst).
    + exact Hcool.
    + cbn. apply Z.ltb_lt. lia.
Qed.

(** [check] in FINISHED: the archive is written, then the state file is
    removed. *)
Lemma check_FINISHED fuel s d :
  mem s = Some d -> state d = Some FINISHED ->
  opt_gt (cooldown d) (clock s) = false -> crashAfter s = None ->
  check A cfg (S fuel) s
  = match disk s with
    | Some _ =>
        Ret tt (with_mem (Some emptyState)
                  (with_disk None
                     (with_archived ((clock s, serializeState d) :: archived s) s)))
    | None => Throw (Error "ENOENT") (with_archived ((clock s, serializeState d) :: archived s) s)
    end.
Proof.
  intros Hm Hst Hcool Hc.
  set (archive := with_archived ((clock s, serializeState d) :: archived s) s).
  assert (Hrun : check A cfg (S fuel) s
                 = bind onFINISHED (fun returned : bool => if returned then ret tt else ret tt) s).
  { cbn [check]. unfold checkWith, bind at 1, get. cbn beta iota. rewrite Hm, Hcool.
    do 16 (rewrite (whenState_skip _ _ _ s d FINISHED Hm Hst); [|reflexivity]).
    by rewrite (whenState_hit _ _ _ s d Hm Hst). }
  rewrite Hrun.
  assert (Harch : archiveState s
                  = match disk s with
                    | Some _ => Ret tt (with_disk None archive)
                    | None => Throw (Error "ENOENT") archive
                    end).
  { unfold archiveState. rewrite (bind_Ret getState _ s d s) by (by apply getState_ok).
    rewrite (bind_Ret now _ s (clock s) s) by reflexivity.
    rewrite (bind_Ret effect _ s tt s) by (unfold effect; by rewrite Hc).
    rewrite (bind_Ret (modify _) _ s tt archive) by reflexivity.
    rewrite (bind_Ret effect _ archive tt archive) by (unfold effect; cbn; by rewrite Hc).
    rewrite (bind_Ret get _ archive archive archive) by reflexivity.
    change (disk archive) with (disk s). by destruct (disk s). }
  unfold onFINISHED. unfold bind at 1. unfold bind at 1. unfold bind at 1. rewrite Harch.
  by destruct (disk s).
Qed.

(** X16. The end of a job. In FINISHED, [check] writes the document to the
    archive under the current time, removes the state file and resets the
    document in memory to [{state: null}], so that no job is running any
    more; no transition is logged. When the state file is not there, the
    removal fails after the archive was written: [check] throws, the
    document stays in FINISHED, and the archive has one more copy. *)
Theorem finished_job_archived (fuel : nat) (s : Sys W) (d : HedgingPluginState Z) :
  let archive := with_archived ((clock s, serializeState d) :: archived s) s in
  mem s = Some d -> state d = Some FINISHED ->
  opt_gt (cooldown d) (clock s) = false -> crashAfter s = None ->
  (forall j, disk s = Some j ->
     check A cfg (S fuel) s = Ret tt (with_mem (Some emptyState) (with_disk None archive))
     /\ jobRunning (with_mem (Some emptyState) (with_disk None archive)) = false
     /\ transitions (with_mem (Some emptyState) (with_disk None archive)) = transitions s)
  /\ (disk s = None ->
      check A cfg (S fuel) s = Throw (Error "ENOENT") archive
      /\ mem archive = Some d).
Proof.
  intros archive Hm Hst Hcool Hc. rewrite (check_FINISHED fuel s d Hm Hst Hcool Hc).
  split.
  - intros j Hj. rewrite Hj. split; [reflexivity|]. split; reflexivity.
  - intros Hj. rewrite Hj. split; [reflexivity|exact Hm].
Qed.

End Idle.

Lemma check_does_nothing_witness :
  Hedging.check Sim.simAdapters Sim.simConfig 1
    (Sim.startWith
       (Some (Hedging.set_state (Some Hedging.RETRYING)
                (Hedging.set_retryAt (Some 1000000) Sim.lnJob)))
       Sim.world0 (Some 0%nat))
  = Ret tt (Sim.startWith
              (Some (Hedging.set_state (Some Hedging.RETRYING)
                       (Hedging.set_retryAt (Some 1000000) Sim.lnJob)))
              Sim.world0 (Some 0%nat)).
Proof.
  apply (proj2 (check_does_nothing Sim.simAdapters Sim.simConfig 0
                  (Sim.startWith
                     (Some (Hedging.set_state (Some Hedging.RETRYING)
                              (Hedging.set_retryAt (Some 1000000) Sim.lnJob)))
                     Sim.world0 (Some 0%nat)))
           (Hedging.set_state (Some Hedging.RETRYING)
              (Hedging.set_retryAt (Some 1000000) Sim.lnJob)) eq_refl).
  right. right. right. split; reflexivity.
Defined.

Lemma retry_cycle_witness :
  Hedging.check Sim.simAdapters Sim.simConfig 1
    (Hedging.with_clock (1000000 + 15000)
       (Hedging.persisted
          (Hedging.with_mem
             (Some (Hedging.set_retryState (Some Hedging.DEPOSIT_RECEIVED)
                      (Hedging.set_retryAt (Some (1000000 + Hedging.retryTime)) Sim.lnJob)))
             (Sim.startWith (Some Sim.lnJob) Sim.world0 None))
          (Hedging.set_retryState (Some Hedging.DEPOSIT_RECEIVED)
             (Hedging.set_retryAt (Some (1000000 + Hedging.retryTime)) Sim.lnJob))
          Hedging.RETRYING))
  = Ret tt
      (Hedging.with_clock (1000000 + 15000)
         (Hedging.persisted
            (Hedging.with_mem
               (Some (Hedging.set_retryState (Some Hedging.DEPOSIT_RECEIVED)
                        (Hedging.set_retryAt (Some (1000000 + Hedging.retryTime)) Sim.lnJob)))
               (Sim.startWith (Some Sim.lnJob) Sim.world0 None))
            (Hedging.set_retryState (Some Hedging.DEPOSIT_RECEIVED)
               (Hedging.set_retryAt (Some (1000000 + Hedging.retryTime)) Sim.lnJob))
            Hedging.RETRYING)).
Proof.
  apply (proj1 (proj2 (retry_cycle Sim.simAdapters Sim.simConfig 0 Hedging.DEPOSIT_RECEIVED
                         (Sim.startWith (Some Sim.lnJob) Sim.world0 None) Sim.lnJob
                         eq_refl eq_refl)) 15000).
  unfold Hedging.retryTime. lia.
Defined.

Lemma finished_job_archived_witness :
  Hedging.check Sim.simAdapters Sim.simConfig 1
    (Hedging.persisted (Sim.startWith (Some Sim.lnJob) Sim.world0 None) Sim.lnJob
       Hedging.FINISHED)
  = Ret tt
      (Hedging.with_mem (Some Hedging.emptyState)
         (Hedging.with_disk None
            (Hedging.with_archived
               [(1000000, Hedging.serializeState
                            (Hedging.set_state (Some Hedging.FINISHED) Sim.lnJob))]
               (Hedging.persisted (Sim.startWith (Some Sim.lnJob) Sim.world0 None) Sim.lnJob
                  Hedging.FINISHED)))).
Proof.
  apply (proj1 (proj1 (finished_job_archived Sim.simAdapters Sim.simConfig 0
                         (Hedging.persisted (Sim.startWith (Some Sim.lnJob) Sim.world0 None)
                            Sim.lnJob Hedging.FINISHED)
                         (Hedging.set_state (Some Hedging.FINISHED) Sim.lnJob)
                         eq_refl eq_refl eq_refl eq_refl)
                  (Hedging.serializeState (Hedging.set_state (Some Hedging.FINISHED) Sim.lnJob))
                  eq_refl)).
Defined.

(** ** What is on the disk when a request leaves *)

Section Write_ahead.
Import Hedging Spec.
Context {W : Type} (A : Adapters W) (cfg : Config).
Implicit Type s : Sys W.

Lemma random_ok s :
  random A s = Ret (fst (randomBytes16 A (world s)))
                   (with_world (snd (randomBytes16 A (world s))) s).
Proof. unfold random. by destruct (randomBytes16 A (world s)). Qed.

(** An adapter call, by the crash budget. *)
Lemma adapter_run {R} (c : Call W R) s :
  adapter c s
  = match crashAfter s with
    | Some O => Crash s
    | cr =>
        match c (world s) with
        | (inl e, w) => Throw e (with_world w (with_crashAfter (Nat.pred <$> cr) s))
        | (inr a, w) => Ret a (with_world w (with_crashAfter (Nat.pred <$> cr) s))
        end
    end.
Proof.
  unfold adapter, bind, effect. destruct (crashAfter s) as [[|n]|] eqn:E; try reflexivity.
  cbn. rewrite <- E. destruct s; cbn. by destruct (c _) as [[] ?].
Qed.

Lemma check_cooling fuel s d :
  mem s = Some d -> opt_gt (cooldown d) (clock s) = true -> check A cfg (S fuel) s = Ret tt s.
Proof. intros Hm Hb. cbn [check]. unfold checkWith, bind, get. by rewrite Hm, Hb. Qed.

(** [setState] under a cooldown that has just been set. *)
Lemma setState_cooling fuel s d st :
  mem s = Some d -> opt_gt (cooldown d) (clock s) = true -> missingField d st = None ->
  setStateWith (check A cfg (S fuel)) (Some st) s
  = match crashAfter s with
    | Some O => Crash (with_mem (Some (set_state (Some st) d)) s)
    | cr => Ret tt (with_crashAfter (Nat.pred <$> cr) (persisted s d st))
    end.
Proof.
  intros Hm Hb Hf. rewrite (setStateWith_unfold _ s d st Hm), Hf.
  destruct (crashAfter s) as [[|n]|] eqn:E; [reflexivity| |].
  - by apply (check_cooling fuel _ (set_state (Some st) d)).
  - rewrite (check_cooling fuel _ (set_state (Some st) d)); [|reflexivity|exact Hb].
    f_equal. cbn. unfold persisted. destruct s; cbn in *. by subst.
Qed.

(** X17. The order id is on the disk before the order leaves. In
    DEPOSIT_RECEIVED, [check] draws a client order id, writes it to the
    document with a cooldown, persists the document in TRADE_EXECUTING and
    only then sends the market order under that id. So wherever the
    process dies, and whatever the exchange answers: either the exchange was
    not called, or the document on the disk is in TRADE_EXECUTING with the
    id the order was sent under. If the process does not die, [check]
    returns (an error of the order is swallowed) with that document on the
    disk. *)
Theorem order_id_written_first (fuel : nat) (s : Sys W) (d : HedgingPluginState Z) :
  let id := fst (randomBytes16 A (world s)) in
  let w1 := snd (randomBytes16 A (world s)) in
  let d1 := set_state (Some TRADE_EXECUTING)
              (set_cooldown (Some (clock s + 5 * 1000)) (set_clientOrderId (Some id) d)) in
  let sent := snd (okx_marketTrade A (srcToken d) (dstToken d) (amountOut d) id w1) in
  mem s = Some d -> state d = Some DEPOSIT_RECEIVED ->
  opt_gt (cooldown d) (clock s) = false ->
  (exists s', final (check A cfg (S (S fuel)) s) = Some s'
     /\ (world s' = w1 /\ (disk s' = disk s \/ disk s' = Some (serializeState d1))
         \/ world s' = sent /\ disk s' = Some (serializeState d1)))
  /\ (crashAfter s = None ->
      exists s', check A cfg (S (S fuel)) s = Ret tt s'
        /\ world s' = sent /\ disk s' = Some (serializeState d1) /\ mem s' = Some d1).
Proof.
  intros id w1 d1 sent Hm Hst Hcool.
  assert (Hrun : exists rest, check A cfg (S (S fuel)) s
                 = bind (onDEPOSIT_RECEIVED A (check A cfg (S fuel)))
                     (fun returned : bool => if returned then ret tt else rest) s).
  { eexists. cbn [check]. unfold checkWith, bind at 1, get. cbn beta iota. rewrite Hm, Hcool.
    do 6 (rewrite (whenState_skip _ _ _ s d DEPOSIT_RECEIVED Hm Hst); [|reflexivity]).
    rewrite (whenState_hit _ _ _ s d Hm Hst). reflexivity. }
  destruct Hrun as [rest Hrun].
  set (sa := with_world w1 s).
  set (da := set_cooldown (Some (clock s + 5 * 1000)) (set_clientOrderId (Some id) d)).
  set (sc := with_mem (Some da) sa).
  assert (Hpre : onDEPOSIT_RECEIVED A (check A cfg (S fuel)) s
                 = bind (setStateWith (check A cfg (S fuel)) (Some TRADE_EXECUTING))
                     (fun _ => bind (tryOpt (bind getState (fun d =>
                                 adapter (okx_marketTrade A (srcToken d) (dstToken d)
                                            (amountOut d) id))))
                               (fun _ => ret true)) sc).
  { unfold onDEPOSIT_RECEIVED. rewrite (bind_Ret (random A) _ s id sa) by exact (random_ok s).
    rewrite (bind_Ret (update _) _ sa tt (with_mem (Some (set_clientOrderId (Some id) d)) sa))
      by exact (update_ok _ sa d Hm).
    rewrite (bind_Ret setCooldown _ _ tt sc)
      by exact (setCooldown_ok (with_mem (Some (set_clientOrderId (Some id) d)) sa) _ eq_refl).
    reflexivity. }
  assert (Hset := setState_cooling fuel sc da TRADE_EXECUTING eq_refl
                    ltac:(cbn; apply Z.gtb_lt; lia) eq_refl).
  change (crashAfter sc) with (crashAfter s) in Hset.
  assert (Hcall : exists res w2,
            okx_marketTrade A (srcToken d) (dstToken d) (amountOut d) id w1 = (res, w2))
    by (destruct (okx_marketTrade A (srcToken d) (dstToken d) (amountOut d) id w1); eauto).
  destruct Hcall as (res & w2 & Hcall).
  assert (Hsent : sent = w2) by (unfold sent; by rewrite Hcall).
  assert (Htry : forall cr,
            tryOpt (bind getState (fun d0 =>
                      adapter (okx_marketTrade A (srcToken d0) (dstToken d0) (amountOut d0) id)))
              (with_crashAfter cr (persisted sc da TRADE_EXECUTING))
            = match cr with
              | Some O => Crash (with_crashAfter cr (persisted sc da TRADE_EXECUTING))
              | _ => Ret (match res with inl _ => None | inr a => Some a end)
                       (with_world w2 (with_crashAfter (Nat.pred <$> cr)
                                         (persisted sc da TRADE_EXECUTING)))
              end).
  { intros cr. unfold tryOpt, try_catch. unfold bind at 1. unfold bind at 1.
    rewrite (getState_ok _ d1) by reflexivity.
    rewrite adapter_run. cbn [crashAfter with_crashAfter].
    change (world (with_crashAfter cr (persisted sc da TRADE_EXECUTING))) with w1.
    change (srcToken d1) with (srcToken d). change (dstToken d1) with (dstToken d).
    change (amountOut d1) with (amountOut d). rewrite Hcall.
    destruct cr as [[|n]|]; [reflexivity| |]; destruct res; reflexivity. }
  assert (Hout : check A cfg (S (S fuel)) s
                 = match crashAfter s with
                   | Some O => Crash (with_mem (Some d1) sc)
                   | Some (S O) => Crash (with_crashAfter (Some O) (persisted sc da TRADE_EXECUTING))
                   | cr => Ret tt (with_world w2
                                     (with_crashAfter (Nat.pred <$> (Nat.pred <$> cr))
                                        (persisted sc da TRADE_EXECUTING)))
                   end).
  { rewrite Hrun. unfold bind at 1. rewrite Hpre. unfold bind at 1. rewrite Hset.
    destruct (crashAfter s) as [[|[|n]]|]; [reflexivity| | |];
      cbn [fmap option_fmap option_map Nat.pred]; unfold bind at 1;
      rewrite Htry; reflexivity. }
  rewrite Hout. split.
  - destruct (crashAfter s) as [[|[|n]]|] eqn:Hc.
    + eexists. split; [reflexivity|]. left. split; [reflexivity|]. left. reflexivity.
    + eexists. split; [reflexivity|]. left. split; [reflexivity|]. right. reflexivity.
    + eexists. split; [reflexivity|]. right. split; [by rewrite Hsent|reflexivity].
    + eexists. split; [reflexivity|]. right. split; [by rewrite Hsent|reflexivity].
  - intros Hc. rewrite Hc. eexists. split; [reflexivity|].
    split; [by rewrite Hsent|]. split; reflexivity.
Qed.

(** X18. The payment hash is on the disk before the payment leaves. In
    TRIGGERED with the source BTC-LN, [check] asks the exchange for a
    deposit invoice, records its payment hash and the invoice as the only
    candidate, persists the document in OUT_TX under a cooldown and only
    then pays the invoice. So wherever the process dies: either the payment
    was not sent, or the document on the disk holds the candidate, in OUT_TX,
    or in IDLE when the payment call failed and the job was given up. If
    the process does not die, [check] returns with the document on the disk
    in OUT_TX when the payment call returned and in IDLE when it threw. *)
Theorem payment_hash_written_first (fuel : nat) (s : Sys W) (d : HedgingPluginState Z)
    (pr h : string) (w1 : W) :
  let d1 := set_state (Some OUT_TX)
              (set_cooldown (Some (clock s + 5 * 1000)) (set_outTxs (Some [(h, pr)]) d)) in
  let paid := snd (ln_pay A pr w1) in
  mem s = Some d -> state d = Some TRIGGERED -> srcToken d = Some "BTC-LN"%string ->
  opt_gt (cooldown d) (clock s) = false ->
  okx_getDepositAddress A (Some "BTC-LN"%string) None (amountOut d) (world s)
  = (inr (Some pr), w1) ->
  bolt11_payment_hash A pr = Some h ->
  (exists s', final (check A cfg (S (S fuel)) s) = Some s'
     /\ ((world s' = world s \/ world s' = w1)
         \/ world s' = paid
            /\ (disk s' = Some (serializeState d1)
                \/ disk s' = Some (serializeState (set_state (Some IDLE) d1)))))
  /\ (crashAfter s = None ->
      exists s', check A cfg (S (S fuel)) s = Ret tt s' /\ world s' = paid
        /\ disk s' = Some (serializeState
                             (match fst (ln_pay A pr w1) with
                              | inl _ => set_state (Some IDLE) d1
                              | inr _ => d1
                              end))).
Proof.
  intros d1 paid Hm Hst Hsrc Hcool Hdep Hhash.
  assert (Hrun : exists rest, check A cfg (S (S fuel)) s
                 = bind (onTRIGGERED A (check A cfg (S fuel)))
                     (fun returned : bool => if returned then ret tt else rest) s).
  { eexists. cbn [check]. unfold checkWith, bind at 1, get. cbn beta iota. rewrite Hm, Hcool.
    rewrite (whenState_skip _ _ _ s d TRIGGERED Hm Hst); [|reflexivity].
    rewrite (whenState_hit _ _ _ s d Hm Hst). reflexivity. }
  destruct Hrun as [rest Hrun].
  set (da := set_cooldown (Some (clock s + 5 * 1000)) (set_outTxs (Some [(h, pr)]) d)).
  assert (Hcall : exists res w2, ln_pay A pr w1 = (res, w2))
    by (destruct (ln_pay A pr w1); eauto).
  destruct Hcall as (res & w2 & Hcall).
  assert (Hpaid : paid = w2) by (unfold paid; by rewrite Hcall).
  (* after the deposit address, with the crash budget [cr] *)
  set (sc := fun cr => with_mem (Some da) (with_world w1 (with_crashAfter cr s))).
  assert (Hhead : onTRIGGERED A (check A cfg (S fuel)) s
                  = match crashAfter s with
                    | Some O => Crash s
                    | cr =>
                        bind (setStateWith (check A cfg (S fuel)) (Some OUT_TX))
                          (fun _ => bind (tryOpt (adapter (ln_pay A pr)))
                             (fun payment =>
                                match payment with
                                | None => bind (setStateWith (check A cfg (S fuel)) (Some IDLE))
                                            (fun _ => ret true)
                                | Some _ => ret true
                                end)) (sc (Nat.pred <$> cr))
                    end).
  { unfold onTRIGGERED. rewrite (bind_Ret getState _ s d s) by (by apply getState_ok).
    rewrite Hsrc. cbn [opt_is String.eqb Ascii.eqb Bool.eqb orb]. cbv iota.
    unfold bind at 1. rewrite adapter_run, Hdep.
    assert (Hgo : forall cr,
              (bind (update (set_outTxs (Some [(h, pr)])))
                 (fun _ => bind setCooldown
                    (fun _ => bind (setStateWith (check A cfg (S fuel)) (Some OUT_TX))
                       (fun _ => bind (tryOpt (adapter (ln_pay A pr)))
                          (fun payment =>
                             match payment with
                             | None => bind (setStateWith (check A cfg (S fuel)) (Some IDLE))
                                         (fun _ => ret true)
                             | Some _ => ret true
                             end)))) (with_world w1 (with_crashAfter cr s)))
              = bind (setStateWith (check A cfg (S fuel)) (Some OUT_TX))
                  (fun _ => bind (tryOpt (adapter (ln_pay A pr)))
                     (fun payment =>
                        match payment with
                        | None => bind (setStateWith (check A cfg (S fuel)) (Some IDLE))
                                    (fun _ => ret true)
                        | Some _ => ret true
                        end)) (sc cr)).
    { intros cr. set (s1 := with_world w1 (with_crashAfter cr s)). unfold bind at 1.
      rewrite (update_ok (set_outTxs (Some [(h, pr)])) s1 d Hm).
      unfold bind at 1.
      rewrite (setCooldown_ok (with_mem (Some (set_outTxs (Some [(h, pr)]) d)) s1)
                 (set_outTxs (Some [(h, pr)]) d) eq_refl).
      reflexivity. }
    destruct (crashAfter s) as [[|n]|] eqn:Hc; [reflexivity| |];
      cbn [fmap option_fmap option_map Nat.pred]; cbv beta iota;
      unfold bind at 1, ret at 1; rewrite Hhash; unfold bind at 1, ret at 1;
      apply Hgo. }
  assert (Hset : forall cr,
            setStateWith (check A cfg (S fuel)) (Some OUT_TX) (sc cr)
            = match cr with
              | Some O => Crash (with_mem (Some d1) (sc cr))
              | _ => Ret tt (with_crashAfter (Nat.pred <$> cr) (persisted (sc cr) da OUT_TX))
              end).
  { intros cr.
    rewrite (setState_cooling fuel (sc cr) da OUT_TX eq_refl
               ltac:(cbn; apply Z.gtb_lt; lia) eq_refl).
    by destruct cr as [[|n]|]. }
  set (sp := fun cr => with_crashAfter cr (persisted (sc None) da OUT_TX)).
  assert (Hsp : forall cr cr', with_crashAfter cr' (persisted (sc cr) da OUT_TX) = sp cr')
    by reflexivity.
  assert (Hpay : forall cr,
            tryOpt (adapter (ln_pay A pr)) (sp cr)
            = match cr with
              | Some O => Crash (sp cr)
              | _ => Ret (match res with inl _ => None | inr a => Some a end)
                       (with_world w2 (sp (Nat.pred <$> cr)))
              end).
  { intros cr. unfold tryOpt, try_catch. unfold bind at 1.
    rewrite adapter_run.
    change (world (sp cr)) with w1. change (crashAfter (sp cr)) with cr. rewrite Hcall.
    destruct cr as [[|n]|]; [reflexivity| |]; destruct res; reflexivity. }
  assert (Hidle : forall cr,
            setStateWith (check A cfg (S fuel)) (Some IDLE) (with_world w2 (sp cr))
            = match cr with
              | Some O => Crash (with_mem (Some (set_state (Some IDLE) d1)) (with_world w2 (sp cr)))
              | _ => Ret tt (with_crashAfter (Nat.pred <$> cr)
                               (persisted (with_world w2 (sp cr)) d1 IDLE))
              end).
  { intros cr.
    rewrite (setState_cooling fuel (with_world w2 (sp cr)) d1 IDLE eq_refl
               ltac:(cbn; apply Z.gtb_lt; lia) eq_refl).
    by destruct cr as [[|n]|]. }
  assert (Hout : exists s', final (check A cfg (S (S fuel)) s) = Some s'
            /\ ((world s' = world s \/ world s' = w1)
                \/ world s' = w2
                   /\ (disk s' = Some (serializeState d1)
                       \/ disk s' = Some (serializeState (set_state (Some IDLE) d1))))
            /\ (crashAfter s = None ->
                check A cfg (S (S fuel)) s = Ret tt s' /\ world s' = w2
                /\ disk s' = Some (serializeState
                                     (match res with inl _ => set_state (Some IDLE) d1 | inr _ => d1 end)))).
  { assert (Hstart : check A cfg (S (S fuel)) s
                     = match onTRIGGERED A (check A cfg (S fuel)) s with
                       | Ret returned s1 => (if returned then ret tt else rest) s1
                       | Throw e s1 => Throw e s1
                       | Crash s1 => Crash s1
                       | OutOfFuel => OutOfFuel
                       end) by (rewrite Hrun; reflexivity).
    rewrite Hhead in Hstart.
    destruct (crashAfter s) as [[|[|[|[|n]]]]|] eqn:Hc;
      cbn [fmap option_fmap option_map Nat.pred] in Hstart; cbv iota in Hstart.
    - rewrite Hstart.
      eexists. split; [reflexivity|]. split; [left; left; reflexivity|discriminate].
    - unfold bind at 1 in Hstart. rewrite Hset in Hstart. rewrite Hstart.
      eexists. split; [reflexivity|]. split; [left; right; reflexivity|discriminate].
    - unfold bind at 1 in Hstart. rewrite Hset in Hstart.
      cbn [fmap option_fmap option_map Nat.pred] in Hstart. rewrite Hsp in Hstart.
      unfold bind at 1 in Hstart. rewrite Hpay in Hstart. rewrite Hstart.
      eexists. split; [reflexivity|]. split; [left; right; reflexivity|discriminate].
    - unfold bind at 1 in Hstart. rewrite Hset in Hstart.
      cbn [fmap option_fmap option_map Nat.pred] in Hstart. rewrite Hsp in Hstart.
      unfold bind at 1 in Hstart. rewrite Hpay in Hstart.
      cbn [fmap option_fmap option_map Nat.pred] in Hstart.
      destruct res as [e|[]].
      + unfold bind at 1 in Hstart. rewrite Hidle in Hstart. rewrite Hstart.
        eexists. split; [reflexivity|]. split; [right; split; [reflexivity|left; reflexivity]|].
        discriminate.
      + rewrite Hstart.
        eexists. split; [reflexivity|]. split; [right; split; [reflexivity|left; reflexivity]|].
        discriminate.
    - unfold bind at 1 in Hstart. rewrite Hset in Hstart.
      cbn [fmap option_fmap option_map Nat.pred] in Hstart. rewrite Hsp in Hstart.
      unfold bind at 1 in Hstart. rewrite Hpay in Hstart.
      cbn [fmap option_fmap option_map Nat.pred] in Hstart.
      destruct res as [e|[]].
      + unfold bind at 1 in Hstart. rewrite Hidle in Hstart.
        cbn [fmap option_fmap option_map Nat.pred] in Hstart. rewrite Hstart.
        eexists. split; [reflexivity|]. split; [right; split; [reflexivity|right; reflexivity]|].
        discriminate.
      + rewrite Hstart.
        eexists. split; [reflexivity|]. split; [right; split; [reflexivity|left; reflexivity]|].
        discriminate.
    - unfold bind at 1 in Hstart. rewrite Hset in Hstart.
      cbn [fmap option_fmap option_map Nat.pred] in Hstart. rewrite Hsp in Hstart.
      unfold bind at 1 in Hstart. rewrite Hpay in Hstart.
      cbn [fmap option_fmap option_map Nat.pred] in Hstart.
      destruct res as [e|[]].
      + unfold bind at 1 in Hstart. rewrite Hidle in Hstart.
        cbn [fmap option_fmap option_map Nat.pred] in Hstart. rewrite Hstart.
        eexists. split; [reflexivity|]. split; [right; split; [reflexivity|right; reflexivity]|].
        intros _. split; [reflexivity|]. split; reflexivity.
      + rewrite Hstart.
        eexists. split; [reflexivity|]. split; [right; split; [reflexivity|left; reflexivity]|].
        intros _. split; [reflexivity|]. split; reflexivity. }
  destruct Hout as (s' & Hf & Hw & Halive). rewrite Hpaid. split.
  - exists s'. split; [exact Hf|exact Hw].
  - intros Hc. exists s'. destruct (Halive Hc) as (H1 & H2 & H3).
    split; [exact H1|]. split; [exact H2|]. rewrite H3. by rewrite Hcall.
Qed.

End Write_ahead.

Lemma order_id_written_first_witness :
  exists s',
    Hedging.check Sim.simAdapters Sim.simConfig 2
      (Sim.startWith (Some (Hedging.set_state (Some Hedging.DEPOSIT_RECEIVED) Sim.lnJob))
         Sim.world0 None) = Ret tt s'
    /\ Hedging.world s' = Sim.order "a" (Sim.draw Sim.world0)
    /\ Hedging.disk s'
       = Some (Hedging.serializeState
                 (Hedging.set_state (Some Hedging.TRADE_EXECUTING)
                    (Hedging.set_cooldown (Some 1005000)
                       (Hedging.set_clientOrderId (Some "a"%string)
                          (Hedging.set_state (Some Hedging.DEPOSIT_RECEIVED) Sim.lnJob)))))
    /\ Hedging.mem s'
       = Some (Hedging.set_state (Some Hedging.TRADE_EXECUTING)
                 (Hedging.set_cooldown (Some 1005000)
                    (Hedging.set_clientOrderId (Some "a"%string)
                       (Hedging.set_state (Some Hedging.DEPOSIT_RECEIVED) Sim.lnJob)))).
Proof.
  exact (proj2 (order_id_written_first Sim.simAdapters Sim.simConfig 0
                  (Sim.startWith
                     (Some (Hedging.set_state (Some Hedging.DEPOSIT_RECEIVED) Sim.lnJob))
                     Sim.world0 None)
                  (Hedging.set_state (Some Hedging.DEPOSIT_RECEIVED) Sim.lnJob)
                  eq_refl eq_refl eq_refl) eq_refl).
Defined.

Lemma payment_hash_written_first_witness :
  exists s',
    Hedging.check Sim.simAdapters Sim.simConfig 2
      (Sim.startWith (Some (Hedging.set_state (Some Hedging.TRIGGERED) Sim.lnJob))
         Sim.world0 None) = Ret tt s'
    /\ Hedging.world s' = Sim.pay "lnbc1deposit" Sim.world0
    /\ Hedging.disk s'
       = Some (Hedging.serializeState
                 (Hedging.set_state (Some Hedging.OUT_TX)
                    (Hedging.set_cooldown (Some 1005000)
                       (Hedging.set_outTxs (Some [("hash1", "lnbc1deposit")]%string)
                          (Hedging.set_state (Some Hedging.TRIGGERED) Sim.lnJob))))).
Proof.
  exact (proj2 (payment_hash_written_first Sim.simAdapters Sim.simConfig 0
                  (Sim.startWith
                     (Some (Hedging.set_state (Some Hedging.TRIGGERED) Sim.lnJob))
                     Sim.world0 None)
                  (Hedging.set_state (Some Hedging.TRIGGERED) Sim.lnJob)
                  "lnbc1deposit" "hash1" Sim.world0
                  eq_refl eq_refl eq_refl eq_refl eq_refl eq_refl) eq_refl).
Defined.

(** ** The confirmation scans of the smart-chain states *)

Section Scans.
Import Hedging Spec.
Context {W : Type} (A : Adapters W) (cfg : Config).
Implicit Type s : Sys W.

Lemma with_world_self s : with_world (world s) s = s.
Proof. by destruct s. Qed.

Lemma scanTxs_pure status entries : forall p n s,
  crashAfter s = None -> statusOracle A status s ->
  scanTxs A entries p n s
  = Ret (match firstConfirmed status entries with
         | Some txId => Confirmed txId
         | None => Flags (p || somePending status entries) (n || someFailed status entries)
         end) s.
Proof.
  induction entries as [|[txId raw] r IH]; intros p n s Hc Ho.
  - cbn. by rewrite !orb_false_r.
  - cbn [scanTxs].
    rewrite (bind_Ret _ _ s (status raw) s).
    2:{ rewrite (adapter_ok _ s (status raw) (world s) Hc (Ho raw)).
        by rewrite with_world_self. }
    unfold firstConfirmed, somePending, someFailed in *. cbn [List.find existsb snd fst].
    destruct (status raw) eqn:E; try rewrite (IH _ _ s Hc Ho); try reflexivity;
      destruct (List.find _ r) as [[]|]; cbn [fmap option_fmap option_map fst];
      try reflexivity; by rewrite ?orb_true_r, ?orb_true_l, ?orb_false_l.
Qed.

Lemma returned_true (m : M (Sys W) unit) (rest : M (Sys W) unit) s :
  bind (bind m (fun _ => ret true)) (fun returned : bool => if returned then ret tt else rest) s
  = m s.
Proof. unfold bind, ret. by destruct (m s) as [[] ?| | |]. Qed.

Lemma onSC_WITHDRAWING_scan recheck status s d m :
  mem s = Some d -> scWithdrawTxs d = Some m -> crashAfter s = None ->
  statusOracle A status s ->
  onSC_WITHDRAWING A recheck s
  = match firstConfirmed status m with
    | Some txId =>
        bind (update (set_scWithdrawTxId (Some txId)))
          (fun _ => bind (setStateWith recheck (Some SC_WITHDRAWAL_CONFIRMED))
                      (fun _ => ret true)) s
    | None =>
        bind (if someFailed status m && negb (somePending status m)
              then bind (update (set_scWithdrawTxs (Some [])))
                     (fun _ => setStateWith recheck (Some IDLE))
              else ret tt) (fun _ => ret true) s
    end.
Proof.
  intros Hm Hmap Hc Ho. unfold onSC_WITHDRAWING.
  rewrite (bind_Ret getState _ s d s) by (by apply getState_ok).
  rewrite Hmap. rewrite (bind_Ret (nonNull (Some m)) _ s m s) by reflexivity.
  rewrite (bind_Ret (scanTxs A m false false) _ s _ s (scanTxs_pure status m _ _ s Hc Ho)).
  by destruct (firstConfirmed status m).
Qed.

Lemma onOUT_TX_scan recheck status s d m :
  mem s = Some d -> outTxs d = Some m ->
  opt_is (srcToken d) "BTC" = false -> opt_is (srcToken d) "BTC-LN" = false ->
  crashAfter s = None -> statusOracle A status s ->
  onOUT_TX A recheck s
  = match firstConfirmed status m with
    | Some txId =>
        bind (update (set_outTxId (Some txId)))
          (fun _ => bind (setStateWith recheck (Some OUT_TX_CONFIRMED))
                      (fun _ => ret true)) s
    | None =>
        bind (if someFailed status m && negb (somePending status m)
              then bind (update (set_outTxs (Some [])))
                     (fun _ => scheduleRetry recheck SC_WITHDRAWAL_CONFIRMED)
              else ret tt) (fun _ => ret true) s
    end.
Proof.
  intros Hm Hmap Hb Hl Hc Ho. unfold onOUT_TX.
  rewrite (bind_Ret getState _ s d s) by (by apply getState_ok).
  rewrite Hmap. rewrite (bind_Ret (nonNull (Some m)) _ s m s) by reflexivity.
  rewrite Hb, Hl.
  rewrite (bind_Ret (scanTxs A m false false) _ s _ s (scanTxs_pure status m _ _ s Hc Ho)).
  by destruct (firstConfirmed status m).
Qed.

Lemma onSC_DEPOSITING_scan recheck status s d :
  mem s = Some d -> crashAfter s = None -> statusOracle A status s ->
  onSC_DEPOSITING A recheck s
  = match firstConfirmed status (default [] (scDepositTxs d)) with
    | Some txId =>
        bind (update (set_scDepositTxId (Some txId)))
          (fun _ => bind (setStateWith recheck (Some SC_DEPOSITED))
                      (fun _ => ret true)) s
    | None =>
        bind (if someFailed status (default [] (scDepositTxs d))
                 && negb (somePending status (default [] (scDepositTxs d)))
              then scheduleRetry recheck IN_TX_CONFIRMED
              else ret tt) (fun _ => ret true) s
    end.
Proof.
  intros Hm Hc Ho. unfold onSC_DEPOSITING.
  rewrite (bind_Ret getState _ s d s) by (by apply getState_ok).
  rewrite (bind_Ret (scanTxs A _ false false) _ s _ s (scanTxs_pure status _ _ _ s Hc Ho)).
  by destruct (firstConfirmed status _).
Qed.

(** [check] in one the three states is the body of that state. *)
Lemma check_scanning fuel s d m :
  mem s = Some d -> opt_gt (cooldown d) (clock s) = false -> scanning d m ->
  exists rest,
    check A cfg (S fuel) s
    = bind (match state d with
            | Some SC_WITHDRAWING => onSC_WITHDRAWING A (check A cfg fuel)
            | Some OUT_TX => onOUT_TX A (check A cfg fuel)
            | _ => onSC_DEPOSITING A (check A cfg fuel)
            end) (fun returned : bool => if returned then ret tt else rest) s.
Proof.
  intros Hm Hcool Hs.
  destruct Hs as [[Hst _]|[[Hst _]|[Hst _]]]; rewrite Hst; eexists; cbn [check];
    unfold checkWith, bind at 1, get; cbn beta iota; rewrite Hm, Hcool.
  - do 2 (rewrite (whenState_skip _ _ _ s d SC_WITHDRAWING Hm Hst); [|reflexivity]).
    rewrite (whenState_hit _ _ _ s d Hm Hst). reflexivity.
  - do 4 (rewrite (whenState_skip _ _ _ s d OUT_TX Hm Hst); [|reflexivity]).
    rewrite (whenState_hit _ _ _ s d Hm Hst). reflexivity.
  - do 14 (rewrite (whenState_skip _ _ _ s d SC_DEPOSITING Hm Hst); [|reflexivity]).
    rewrite (whenState_hit _ _ _ s d Hm Hst). reflexivity.
Qed.


(** X20. When every candidate is lost. When no candidate transaction has
    succeeded, none is pending and at least one is missing or reverted, the
    three scanning states differ: SC_WITHDRAWING empties the map and gives
    the job up for IDLE; OUT_TX of a smart-chain source empties the map and
    schedules a retry from SC_WITHDRAWAL_CONFIRMED; SC_DEPOSITING schedules a
    retry from IN_TX_CONFIRMED and keeps its map. In each case the document
    is persisted and [check] returns. *)
Theorem scan_all_failed (fuel : nat) (status : string -> TxStatus) (s : Sys W)
    (d : HedgingPluginState Z) (m : TxMap) :
  let retrying target d0 :=
    set_retryState (Some target) (set_retryAt (Some (clock s + retryTime)) d0) in
  mem s = Some d -> opt_gt (cooldown d) (clock s) = false -> crashAfter s = None ->
  statusOracle A status s -> scanning d m ->
  firstConfirmed status m = None -> somePending status m = false ->
  someFailed status m = true ->
  match state d with
  | Some SC_WITHDRAWING =>
      check A cfg (S (S fuel)) s
      = Ret tt (persisted (with_mem (Some (set_scWithdrawTxs (Some []) d)) s)
                  (set_scWithdrawTxs (Some []) d) IDLE)
  | Some OUT_TX =>
      check A cfg (S (S fuel)) s
      = Ret tt (persisted
                  (with_mem (Some (retrying SC_WITHDRAWAL_CONFIRMED (set_outTxs (Some []) d))) s)
                  (retrying SC_WITHDRAWAL_CONFIRMED (set_outTxs (Some []) d)) RETRYING)
  | _ =>
      check A cfg (S (S fuel)) s
      = Ret tt (persisted (with_mem (Some (retrying IN_TX_CONFIRMED d)) s)
                  (retrying IN_TX_CONFIRMED d) RETRYING)
  end.
Proof.
  intros retrying Hm Hcool Hc Ho Hs Hnone Hpend Hfail.
  destruct (check_scanning (S fuel) s d m Hm Hcool Hs) as [rest ->].
  destruct Hs as [[Hst Hmap]|[(Hst & Hmap & Hb & Hl)|[Hst Hmap]]]; rewrite Hst.
  - unfold bind at 1.
    rewrite (onSC_WITHDRAWING_scan _ status s d m Hm Hmap Hc Ho), Hnone, Hpend, Hfail.
    cbn [andb negb].
    rewrite (bind_Ret _ _ s tt (persisted (with_mem (Some (set_scWithdrawTxs (Some []) d)) s)
                                  (set_scWithdrawTxs (Some []) d) IDLE)); [reflexivity|].
    rewrite (bind_Ret (update _) _ s tt (with_mem (Some (set_scWithdrawTxs (Some []) d)) s))
      by (by apply update_ok).
    by apply setState_IDLE.
  - unfold bind at 1.
    rewrite (onOUT_TX_scan _ status s d m Hm Hmap Hb Hl Hc Ho), Hnone, Hpend, Hfail.
    cbn [andb negb].
    rewrite (bind_Ret _ _ s tt
               (persisted
                  (with_mem (Some (retrying SC_WITHDRAWAL_CONFIRMED (set_outTxs (Some []) d))) s)
                  (retrying SC_WITHDRAWAL_CONFIRMED (set_outTxs (Some []) d)) RETRYING));
      [reflexivity|].
    rewrite (bind_Ret (update _) _ s tt (with_mem (Some (set_outTxs (Some []) d)) s))
      by (by apply update_ok).
    by rewrite (scheduleRetry_run A cfg fuel SC_WITHDRAWAL_CONFIRMED _ (set_outTxs (Some []) d)).
  - unfold bind at 1.
    rewrite (onSC_DEPOSITING_scan _ status s d Hm Hc Ho), Hmap, Hnone, Hpend, Hfail.
    cbn [andb negb].
    rewrite (bind_Ret _ _ s tt (persisted (with_mem (Some (retrying IN_TX_CONFIRMED d)) s)
                                  (retrying IN_TX_CONFIRMED d) RETRYING)); [reflexivity|].
    by rewrite (scheduleRetry_run A cfg fuel IN_TX_CONFIRMED s d).
Qed.

(** X21. The first confirmed candidate wins. When a candidate transaction
    has succeeded, the scanning state records the id of the first such
    candidate in the order of the map, whatever became of the others,
    persists the document in the next state (SC_WITHDRAWAL_CONFIRMED,
    OUT_TX_CONFIRMED, SC_DEPOSITED; the recorded id is the field that
    state requires) and goes on with the [check] of that state. *)
Theorem scan_first_success (fuel : nat) (status : string -> TxStatus) (s : Sys W)
    (d : HedgingPluginState Z) (m : TxMap) (txId : string) :
  mem s = Some d -> opt_gt (cooldown d) (clock s) = false -> crashAfter s = None ->
  statusOracle A status s -> scanning d m ->
  firstConfirmed status m = Some txId ->
  match state d with
  | Some SC_WITHDRAWING =>
      check A cfg (S fuel) s
      = check A cfg fuel
          (persisted (with_mem (Some (set_scWithdrawTxId (Some txId) d)) s)
             (set_scWithdrawTxId (Some txId) d) SC_WITHDRAWAL_CONFIRMED)
  | Some OUT_TX =>
      check A cfg (S fuel) s
      = check A cfg fuel
          (persisted (with_mem (Some (set_outTxId (Some txId) d)) s)
             (set_outTxId (Some txId) d) OUT_TX_CONFIRMED)
  | _ =>
      check A cfg (S fuel) s
      = check A cfg fuel
          (persisted (with_mem (Some (set_scDepositTxId (Some txId) d)) s)
             (set_scDepositTxId (Some txId) d) SC_DEPOSITED)
  end.
Proof.
  intros Hm Hcool Hc Ho Hs Hfirst.
  destruct (check_scanning fuel s d m Hm Hcool Hs) as [rest ->].
  destruct Hs as [[Hst Hmap]|[(Hst & Hmap & Hb & Hl)|[Hst Hmap]]]; rewrite Hst.
  - unfold bind at 1.
    rewrite (onSC_WITHDRAWING_scan _ status s d m Hm Hmap Hc Ho), Hfirst.
    rewrite (bind_Ret (update _) _ s tt (with_mem (Some (set_scWithdrawTxId (Some txId) d)) s))
      by (by apply update_ok).
    unfold bind at 1.
    rewrite (setStateWith_unfold _ (with_mem (Some (set_scWithdrawTxId (Some txId) d)) s)
               (set_scWithdrawTxId (Some txId) d) SC_WITHDRAWAL_CONFIRMED eq_refl).
    cbn [missingField REQUIRED_FIELDS List.find isNullField String.eqb Ascii.eqb Bool.eqb
         scWithdrawTxId set_scWithdrawTxId crashAfter with_mem]. rewrite Hc.
    by destruct (check A cfg fuel _) as [[] ?| | |].
  - unfold bind at 1.
    rewrite (onOUT_TX_scan _ status s d m Hm Hmap Hb Hl Hc Ho), Hfirst.
    rewrite (bind_Ret (update _) _ s tt (with_mem (Some (set_outTxId (Some txId) d)) s))
      by (by apply update_ok).
    unfold bind at 1.
    rewrite (setStateWith_unfold _ (with_mem (Some (set_outTxId (Some txId) d)) s)
               (set_outTxId (Some txId) d) OUT_TX_CONFIRMED eq_refl).
    cbn [missingField REQUIRED_FIELDS List.find isNullField String.eqb Ascii.eqb Bool.eqb
         outTxId set_outTxId crashAfter with_mem]. rewrite Hc.
    by destruct (check A cfg fuel _) as [[] ?| | |].
  - unfold bind at 1.
    rewrite (onSC_DEPOSITING_scan _ status s d Hm Hc Ho), Hmap, Hfirst.
    rewrite (bind_Ret (update _) _ s tt (with_mem (Some (set_scDepositTxId (Some txId) d)) s))
      by (by apply update_ok).
    unfold bind at 1.
    rewrite (setStateWith_unfold _ (with_mem (Some (set_scDepositTxId (Some txId) d)) s)
               (set_scDepositTxId (Some txId) d) SC_DEPOSITED eq_refl).
    cbn [missingField REQUIRED_FIELDS List.find isNullField String.eqb Ascii.eqb Bool.eqb
         scDepositTxId set_scDepositTxId crashAfter with_mem]. rewrite Hc.
    by destruct (check A cfg fuel _) as [[] ?| | |].
Qed.

End Scans.


Lemma scan_all_failed_witness :
  Hedging.check Sim.simAdapters Sim.simConfig 2
    (Sim.startWith (Some Sim.usdcJobOutTx) Sim.world0 None)
  = Ret tt
      (Hedging.persisted
         (Hedging.with_mem
            (Some (Hedging.set_retryState (Some Hedging.SC_WITHDRAWAL_CONFIRMED)
                     (Hedging.set_retryAt (Some (1000000 + Hedging.retryTime))
                        (Hedging.set_outTxs (Some []) Sim.usdcJobOutTx))))
            (Sim.startWith (Some Sim.usdcJobOutTx) Sim.world0 None))
         (Hedging.set_retryState (Some Hedging.SC_WITHDRAWAL_CONFIRMED)
            (Hedging.set_retryAt (Some (1000000 + Hedging.retryTime))
               (Hedging.set_outTxs (Some []) Sim.usdcJobOutTx)))
         Hedging.RETRYING).
Proof.
  apply (scan_all_failed Sim.simAdapters Sim.simConfig 0 (fun _ => Hedging.not_found)
           (Sim.startWith (Some Sim.usdcJobOutTx) Sim.world0 None) Sim.usdcJobOutTx
           [("t1", "raw1")]%string eq_refl eq_refl eq_refl).
  - intros raw. reflexivity.
  - right. left. repeat split.
  - reflexivity.
  - reflexivity.
  - reflexivity.
Defined.

Lemma scan_first_success_witness :
  Hedging.check Sim.simAdapters Sim.simConfig 2
    (Sim.startWith (Some Sim.usdcJobWithdrawn) (Sim.sendSc "raw:withdraw" Sim.world0) None)
  = Hedging.check Sim.simAdapters Sim.simConfig 1
      (Hedging.persisted
         (Hedging.with_mem
            (Some (Hedging.set_scWithdrawTxId (Some "id:withdraw"%string) Sim.usdcJobWithdrawn))
            (Sim.startWith (Some Sim.usdcJobWithdrawn) (Sim.sendSc "raw:withdraw" Sim.world0)
               None))
         (Hedging.set_scWithdrawTxId (Some "id:withdraw"%string) Sim.usdcJobWithdrawn)
         Hedging.SC_WITHDRAWAL_CONFIRMED).
Proof.
  apply (scan_first_success Sim.simAdapters Sim.simConfig 1
           (fun raw => if Sim.mem_str raw ["raw:withdraw"%string]
                       then Hedging.success else Hedging.not_found)
           (Sim.startWith (Some Sim.usdcJobWithdrawn) (Sim.sendSc "raw:withdraw" Sim.world0)
              None)
           Sim.usdcJobWithdrawn [("id:withdraw", "raw:withdraw")]%string "id:withdraw"
           eq_refl eq_refl eq_refl).
  - intros raw. reflexivity.
  - left. split; reflexivity.
  - reflexivity.
Defined.

(** ** The funding inputs of a failed on-chain payment *)

Section Unlocking.
Import Hedging Spec.
Context {W : Type} (A : Adapters W) (cfg : Config).
Implicit Type s : Sys W.

Lemma tryOpt_adapter {R} (c : Call W R) s res w :
  crashAfter s = None -> c (world s) = (res, w) ->
  tryOpt (adapter c) s
  = Ret (match res with inl _ => None | inr a => Some a end) (with_world w s).
Proof.
  intros Hc Hw. unfold tryOpt, try_catch. unfold bind at 1.
  destruct res as [e|a].
  - by rewrite (adapter_fail c s e w Hc Hw).
  - by rewrite (adapter_ok c s a w Hc Hw).
Qed.

Lemma unlockUtxos_run f : forall s,
  crashAfter s = None ->
  unlockUtxos A f s
  = match unlockAll A (inputs f) (world s) with
    | (None, w) => Ret tt (with_world w s)
    | (Some e, w) => Throw e (with_world w s)
    end.
Proof.
  unfold unlockUtxos. induction (inputs f) as [|input r IH]; intros s Hc.
  - cbn. by rewrite with_world_self.
  - cbn [forEach unlockAll]. unfold bind at 1.
    destruct (ln_unlockUtxo A input (world s)) as [[e|[]] w'] eqn:E.
    + by rewrite (adapter_fail _ s e w' Hc E).
    + rewrite (adapter_ok _ s tt w' Hc E). rewrite (IH (with_world w' s) Hc).
      cbn [world with_world]. by destruct (unlockAll A r w') as [[e|] w].
Qed.

(** X22. The funding inputs of a failed on-chain payment are unlocked. In
    TRIGGERED with the source BTC and an amount below [2^53] in absolute
    value (one that [toNumber] turns into a number for [fundPsbt]), once
    [fundPsbt] has reserved the inputs of the payment: when signing fails,
    and when signing works but the broadcast fails (the document is then
    already persisted in OUT_TX with the signed transaction as its
    candidate), [check] unlocks the reserved inputs in turn and then gives
    the job up for IDLE. When the unlocking
    of an input fails, [check] throws that error: the inputs after it stay
    locked and the job is not given up (it stays in TRIGGERED, or in OUT_TX
    after a failed broadcast). *)
Theorem utxos_unlocked_on_failure (fuel : nat) (s : Sys W) (d : HedgingPluginState Z)
    (dest : option string) (amt : Z) (f : FundPsbtResponse) (w1 w2 : W) :
  mem s = Some d -> state d = Some TRIGGERED -> srcToken d = Some "BTC"%string ->
  amountOut d = Some amt -> Z.abs amt < 2 ^ 53 ->
  opt_gt (cooldown d) (clock s) = false -> crashAfter s = None ->
  okx_getDepositAddress A (Some "BTC"%string) None (Some amt) (world s) = (inr dest, w1) ->
  ln_fundPsbt A dest amt w1 = (inr f, w2) ->
  (forall e w3, ln_signPsbt A (psbt f) w2 = (inl e, w3) ->
     check A cfg (S (S fuel)) s
     = match unlockAll A (inputs f) w3 with
       | (None, w) => Ret tt (persisted (with_world w s) d IDLE)
       | (Some e', w) => Throw e' (with_world w s)
       end)
  /\ (forall tx w3 txId e w4,
        ln_signPsbt A (psbt f) w2 = (inr tx, w3) -> bitcoin_txId A tx = Some txId ->
        ln_broadcastChainTransaction A tx w3 = (inl e, w4) ->
        let d1 := set_outTxs (Some [(txId, tx)])
                    (set_cooldown (Some (clock s + 5 * 1000)) d) in
        check A cfg (S (S fuel)) s
        = match unlockAll A (inputs f) w4 with
          | (None, w) =>
              Ret tt (persisted (with_world w (persisted s d1 OUT_TX))
                        (set_state (Some OUT_TX) d1) IDLE)
          | (Some e', w) => Throw e' (with_world w (persisted s d1 OUT_TX))
          end).
Proof.
  intros Hm Hst Hsrc Hamt Hsafe Hcool Hc Hdep Hfund.
  assert (Hrun : exists rest, check A cfg (S (S fuel)) s
                 = bind (onTRIGGERED A (check A cfg (S fuel)))
                     (fun returned : bool => if returned then ret tt else rest) s).
  { eexists. cbn [check]. unfold checkWith, bind at 1, get. cbn beta iota. rewrite Hm, Hcool.
    rewrite (whenState_skip _ _ _ s d TRIGGERED Hm Hst); [|reflexivity].
    rewrite (whenState_hit _ _ _ s d Hm Hst). reflexivity. }
  destruct Hrun as [rest Hrun].
  (* up to the funded transaction *)
  assert (Hfunded : tryOpt (bind getState (fun d0 =>
                       bind (nonNull (amountOut d0)) (fun tokens =>
                         adapter (ln_fundPsbt A dest tokens)))) (with_world w1 s)
                    = Ret (Some f) (with_world w2 s)).
  { unfold tryOpt, try_catch. unfold bind at 1.
    rewrite (bind_Ret getState _ _ d (with_world w1 s)) by (by apply getState_ok).
    rewrite Hamt. rewrite (bind_Ret (nonNull (Some amt)) _ _ amt (with_world w1 s)) by reflexivity.
    by rewrite (adapter_ok _ (with_world w1 s) f w2 Hc Hfund). }
  assert (Hto : onTRIGGERED A (check A cfg (S fuel)) s
                = bind (tryOpt (adapter (ln_signPsbt A (psbt f))))
                    (fun signedPsbt =>
                       match signedPsbt with
                       | None =>
                           bind (unlockUtxos A f)
                             (fun _ => bind (setStateWith (check A cfg (S fuel)) (Some IDLE))
                                         (fun _ => ret true))
                       | Some transaction =>
                           bind (match bitcoin_txId A transaction with
                                 | Some i => ret i
                                 | None => throw (Error "Transaction.fromHex")
                                 end)
                             (fun txId =>
                                bind setCooldown (fun _ =>
                                bind (update (set_outTxs (Some [(txId, transaction)]))) (fun _ =>
                                bind (setStateWith (check A cfg (S fuel)) (Some OUT_TX)) (fun _ =>
                                bind (tryOpt (adapter (ln_broadcastChainTransaction A transaction)))
                                  (fun txSendResult =>
                                     match txSendResult with
                                     | None =>
                                         bind (unlockUtxos A f)
                                           (fun _ =>
                                              bind (setStateWith (check A cfg (S fuel)) (Some IDLE))
                                                (fun _ => ret true))
                                     | Some _ => ret true
                                     end)))))
                       end) (with_world w2 s)).
  { unfold onTRIGGERED. rewrite (bind_Ret getState _ s d s) by (by apply getState_ok).
    rewrite Hsrc, Hamt. cbn [opt_is String.eqb Ascii.eqb Bool.eqb orb]. cbv iota.
    rewrite (bind_Ret (adapter _) _ s dest (with_world w1 s)) by (by apply adapter_ok).
    rewrite (bind_Ret (tryOpt _) _ _ (Some f) (with_world w2 s) Hfunded). reflexivity. }
  split.
  - intros e w3 Hsign. rewrite Hrun. unfold bind at 1. rewrite Hto.
    rewrite (bind_Ret (tryOpt _) _ _ None (with_world w3 s)).
    2:{ by rewrite (tryOpt_adapter _ (with_world w2 s) (inl e) w3 Hc Hsign). }
    unfold bind at 1. rewrite (unlockUtxos_run f (with_world w3 s) Hc).
    change (world (with_world w3 s)) with w3.
    destruct (unlockAll A (inputs f) w3) as [[e'|] w]; [reflexivity|].
    change (with_world w (with_world w3 s)) with (with_world w s).
    unfold bind at 1.
    by rewrite (setState_IDLE A cfg fuel (with_world w s) d Hm Hc).
  - intros tx w3 txId e w4 Hsign Hid Hsend d1. rewrite Hrun. unfold bind at 1. rewrite Hto.
    rewrite (bind_Ret (tryOpt _) _ _ (Some tx) (with_world w3 s)).
    2:{ by rewrite (tryOpt_adapter _ (with_world w2 s) (inr tx) w3 Hc Hsign). }
    rewrite Hid. rewrite (bind_Ret (ret txId) _ _ txId (with_world w3 s)) by reflexivity.
    rewrite (bind_Ret setCooldown _ _ tt
               (with_mem (Some (set_cooldown (Some (clock s + 5 * 1000)) d)) (with_world w3 s)))
      by exact (setCooldown_ok (with_world w3 s) d Hm).
    rewrite (bind_Ret (update _) _ _ tt (with_mem (Some d1) (with_world w3 s)))
      by (by rewrite (update_ok _ _ (set_cooldown (Some (clock s + 5 * 1000)) d))).
    rewrite (bind_Ret (setStateWith _ _) _ _ tt (persisted (with_world w3 s) d1 OUT_TX)).
    2:{ rewrite (setState_cooling A cfg fuel (with_mem (Some d1) (with_world w3 s)) d1 OUT_TX
                   eq_refl ltac:(cbn; apply Z.gtb_lt; lia) eq_refl).
        change (crashAfter (with_mem (Some d1) (with_world w3 s))) with (crashAfter s).
        rewrite Hc. cbn [fmap option_fmap option_map].
        rewrite with_crashAfter_None by exact Hc. reflexivity. }
    rewrite (bind_Ret (tryOpt _) _ _ None (with_world w4 (persisted s d1 OUT_TX))).
    2:{ by rewrite (tryOpt_adapter _ (persisted (with_world w3 s) d1 OUT_TX) (inl e) w4 Hc Hsend). }
    unfold bind at 1. rewrite (unlockUtxos_run f (with_world w4 (persisted s d1 OUT_TX)) Hc).
    change (world (with_world w4 (persisted s d1 OUT_TX))) with w4.
    destruct (unlockAll A (inputs f) w4) as [[e'|] w]; [reflexivity|].
    change (with_world w (with_world w4 (persisted s d1 OUT_TX)))
      with (with_world w (persisted s d1 OUT_TX)).
    unfold bind at 1.
    by rewrite (setState_IDLE A cfg fuel (with_world w (persisted s d1 OUT_TX))
                  (set_state (Some OUT_TX) d1) eq_refl Hc).
Qed.

End Unlocking.

Lemma utxos_unlocked_on_failure_witness :
  Hedging.check (Spec.withSignPsbt (fun _ w => (inl (Error "signPsbt"), w)) Sim.simAdapters)
    Sim.simConfig 2
    (Sim.startWith (Some (Hedging.set_state (Some Hedging.TRIGGERED) Sim.btcJob))
       Sim.world0 None)
  = Ret tt
      (Hedging.persisted
         (Hedging.with_world (Sim.unlock "lock" Sim.world0)
            (Sim.startWith (Some (Hedging.set_state (Some Hedging.TRIGGERED) Sim.btcJob))
               Sim.world0 None))
         (Hedging.set_state (Some Hedging.TRIGGERED) Sim.btcJob) Hedging.IDLE).
Proof.
  exact (proj1 (utxos_unlocked_on_failure
                  (Spec.withSignPsbt (fun _ w => (inl (Error "signPsbt"), w)) Sim.simAdapters)
                  Sim.simConfig 0
                  (Sim.startWith (Some (Hedging.set_state (Some Hedging.TRIGGERED) Sim.btcJob))
                     Sim.world0 None)
                  (Hedging.set_state (Some Hedging.TRIGGERED) Sim.btcJob)
                  (Some "bc1qdeposit"%string) 100000
                  {| Hedging.psbt := "psbt";
                     Hedging.inputs := [{| Hedging.lock_id := "lock";
                                           Hedging.transaction_id := "utxo";
                                           Hedging.transaction_vout := 0 |}] |}
                  Sim.world0 Sim.world0
                  eq_refl eq_refl eq_refl eq_refl eq_refl eq_refl eq_refl eq_refl eq_refl)
           (Error "signPsbt") Sim.world0 eq_refl).
Defined.

(** ** The last run of a job *)

Section Last_run.
Import Hedging Spec.
Context {W : Type} (A : Adapters W) (cfg : Config).
Implicit Type s : Sys W.

Lemma setState_FINISHED fuel s d :
  mem s = Some d -> opt_gt (cooldown d) (clock s) = false -> crashAfter s = None ->
  setStateWith (check A cfg (S fuel)) (Some FINISHED) s
  = Ret tt (with_mem (Some emptyState)
              (with_disk None
                 (with_archived
                    ((clock s, serializeState (set_state (Some FINISHED) d)) :: archived s)
                    (persisted s d FINISHED)))).
Proof.
  intros Hm Hcool Hc. rewrite (setStateWith_unfold _ s d FINISHED Hm).
  cbn [missingField REQUIRED_FIELDS List.find]. rewrite Hc.
  by rewrite (check_FINISHED A cfg fuel (persisted s d FINISHED) (set_state (Some FINISHED) d)
                eq_refl eq_refl Hcool Hc).
Qed.

(** X23. The last run of a job. From SC_DEPOSITED, and from IN_TX_CONFIRMED
    when the destination is BTC or BTC-LN, one run of [check] ends the job:
    the transition to FINISHED is persisted and logged, the finished
    document is archived once under the current time, the state file is
    removed (it was just written, so the removal cannot fail, whatever was
    on the disk before) and the document in memory is reset to
    [{state: null}]. *)
Theorem job_archived_in_one_run (fuel : nat) (s : Sys W) (d : HedgingPluginState Z) :
  mem s = Some d -> opt_gt (cooldown d) (clock s) = false -> crashAfter s = None ->
  state d = Some SC_DEPOSITED
  \/ (state d = Some IN_TX_CONFIRMED
      /\ opt_is (dstToken d) "BTC" || opt_is (dstToken d) "BTC-LN" = true) ->
  check A cfg (S (S fuel)) s
  = Ret tt (with_mem (Some emptyState)
              (with_disk None
                 (with_archived
                    ((clock s, serializeState (set_state (Some FINISHED) d)) :: archived s)
                    (persisted s d FINISHED)))).
Proof.
  intros Hm Hcool Hc [Hst|[Hst Hdst]].
  - assert (Hrun : check A cfg (S (S fuel)) s
                   = bind (onSC_DEPOSITED (check A cfg (S fuel)))
                       (fun returned : bool =>
                          if returned then ret tt else whenState FINISHED onFINISHED (ret tt)) s).
    { cbn [check]. unfold checkWith, bind at 1, get. cbn beta iota. rewrite Hm, Hcool.
      do 15 (rewrite (whenState_skip _ _ _ s d SC_DEPOSITED Hm Hst); [|reflexivity]).
      rewrite (whenState_hit _ _ _ s d Hm Hst). reflexivity. }
    rewrite Hrun. unfold onSC_DEPOSITED. unfold bind at 1. unfold bind at 1.
    rewrite (setState_FINISHED fuel s d Hm Hcool Hc). unfold ret at 1.
    set (s2 := with_mem (Some emptyState) _).
    exact (whenState_none FINISHED _ _ s2 emptyState eq_refl eq_refl).
  - assert (Hrun : exists rest,
              check A cfg (S (S fuel)) s
              = bind (onIN_TX_CONFIRMED A (check A cfg (S fuel)))
                  (fun returned : bool => if returned then ret tt else rest) s).
    { eexists. cbn [check]. unfold checkWith, bind at 1, get. cbn beta iota. rewrite Hm, Hcool.
      do 13 (rewrite (whenState_skip _ _ _ s d IN_TX_CONFIRMED Hm Hst); [|reflexivity]).
      rewrite (whenState_hit _ _ _ s d Hm Hst). reflexivity. }
    destruct Hrun as [rest ->].
    unfold onIN_TX_CONFIRMED. unfold bind at 1.
    rewrite (bind_Ret getState _ s d s) by (by apply getState_ok).
    rewrite <- negb_orb, Hdst. cbn [negb].
    unfold bind at 1.
    by rewrite (setState_FINISHED fuel s d Hm Hcool Hc).
Qed.

End Last_run.

Lemma job_archived_in_one_run_witness :
  Hedging.check Sim.simAdapters Sim.simConfig 2
    (Sim.startWith (Some (Hedging.set_state (Some Hedging.SC_DEPOSITED) Sim.lnJob))
       Sim.world0 None)
  = Ret tt
      (Hedging.with_mem (Some Hedging.emptyState)
         (Hedging.with_disk None
            (Hedging.with_archived
               [(1000000,
                 Hedging.serializeState (Hedging.set_state (Some Hedging.FINISHED) Sim.lnJob))]
               (Hedging.persisted
                  (Sim.startWith
                     (Some (Hedging.set_state (Some Hedging.SC_DEPOSITED) Sim.lnJob))
                     Sim.world0 None)
                  (Hedging.set_state (Some Hedging.SC_DEPOSITED) Sim.lnJob)
                  Hedging.FINISHED)))).
Proof.
  apply (job_archived_in_one_run Sim.simAdapters Sim.simConfig 0
           (Sim.startWith (Some (Hedging.set_state (Some Hedging.SC_DEPOSITED) Sim.lnJob))
              Sim.world0 None)
           (Hedging.set_state (Some Hedging.SC_DEPOSITED) Sim.lnJob)
           eq_refl eq_refl eq_refl).
  left. reflexivity.
Defined.

(** ** The poll of the market order *)

Section Trade_poll.
Import Hedging Spec.
Context {W : Type} (A : Adapters W) (cfg : Config).
Implicit Type s : Sys W.

(** [check] in TRADE_EXECUTING is the body of that state, followed by the
    later states when the body does not return. *)
Lemma check_TRADE_EXECUTING fuel s d :
  mem s = Some d -> state d = Some TRADE_EXECUTING ->
  opt_gt (cooldown d) (clock s) = false ->
  exists rest,
    check A cfg (S fuel) s
    = bind (onTRADE_EXECUTING A (check A cfg fuel))
        (fun returned : bool => if returned then ret tt else rest) s
    /\ forall s', mem s' = Some d -> rest s' = Ret tt s'.
Proof.
  intros Hm Hst Hcool. eexists. split.
  - cbn [check]. unfold checkWith, bind at 1, get. cbn beta iota. rewrite Hm, Hcool.
    do 7 (rewrite (whenState_skip _ _ _ s d TRADE_EXECUTING Hm Hst); [|reflexivity]).
    rewrite (whenState_hit _ _ _ s d Hm Hst). reflexivity.
  - intros s' Hm'. cbv beta.
    do 9 (rewrite (whenState_skip _ _ _ s' d TRADE_EXECUTING Hm' Hst); [|reflexivity]).
    reflexivity.
Qed.

(** X24. The poll of the market order. In TRADE_EXECUTING, [check] asks the
    exchange for the order under the recorded client order id. When the
    exchange rejects the request with the code 52907 or 51603, or answers
    that the order is [canceled] or [mmp_canceled], a retry from
    DEPOSIT_RECEIVED is scheduled (where a new order will be placed under a
    new id). On any other error, and on any other state than [filled], the
    job waits in TRADE_EXECUTING: nothing is written. *)
Theorem trade_poll_outcomes (fuel : nat) (s : Sys W) (d : HedgingPluginState Z)
    (res : Exn + Trade) (w : W) :
  let d1 := set_retryState (Some DEPOSIT_RECEIVED)
              (set_retryAt (Some (clock s + retryTime)) d) in
  mem s = Some d -> state d = Some TRADE_EXECUTING ->
  opt_gt (cooldown d) (clock s) = false -> crashAfter s = None ->
  okx_getTrade A (srcToken d) (dstToken d) (clientOrderId d) (world s) = (res, w) ->
  orderFilled res = false ->
  check A cfg (S (S fuel)) s
  = if orderGone res
    then Ret tt (persisted (with_mem (Some d1) (with_world w s)) d1 RETRYING)
    else Ret tt (with_world w s).
Proof.
  intros d1 Hm Hst Hcool Hc Hcall Hnf.
  destruct (check_TRADE_EXECUTING (S fuel) s d Hm Hst Hcool) as (rest & -> & Hrest).
  assert (Hretry : scheduleRetry (check A cfg (S fuel)) DEPOSIT_RECEIVED (with_world w s)
                   = Ret tt (persisted (with_mem (Some d1) (with_world w s)) d1 RETRYING))
    by exact (scheduleRetry_run A cfg fuel DEPOSIT_RECEIVED (with_world w s) d Hm Hc).
  unfold bind at 1. unfold onTRADE_EXECUTING.
  rewrite (bind_Ret getState _ s d s) by (by apply getState_ok).
  unfold bind at 1. unfold try_catch. unfold bind at 1.
  destruct res as [e|tradeData].
  - rewrite (adapter_fail _ s e w Hc Hcall). cbn [orderGone].
    destruct e as [errorCode| | |]; try reflexivity.
    destruct (String.eqb errorCode "52907" || String.eqb errorCode "51603"); [|reflexivity].
    unfold bind at 1. by rewrite Hretry.
  - rewrite (adapter_ok _ s tradeData w Hc Hcall). unfold ret at 1.
    cbn [orderGone orderFilled] in *. rewrite Hnf.
    destruct (String.eqb (trade_state tradeData) "canceled"
              || String.eqb (trade_state tradeData) "mmp_canceled").
    + unfold bind at 1. by rewrite Hretry.
    + unfold ret at 1. by apply Hrest.
Qed.

(** X25. What a filled order leaves. When the exchange answers that the
    order is [filled], with an order id and an average price, [check]
    records both, asks for the balance of the destination currency on the
    exchange and records the whole of that balance as [amountIn] (not the
    amount the order bought), persists the document in TRADE_EXECUTED and
    goes on with the [check] of that state. *)
Theorem filled_order_amount (fuel : nat) (s : Sys W) (d : HedgingPluginState Z)
    (tradeData : Trade) (ordId avgPx : string) (balance : Z) (w w' : W) :
  let d1 := set_amountIn (Some balance)
              (set_price (Some avgPx) (set_orderId (Some ordId) d)) in
  mem s = Some d -> state d = Some TRADE_EXECUTING ->
  opt_gt (cooldown d) (clock s) = false -> crashAfter s = None ->
  okx_getTrade A (srcToken d) (dstToken d) (clientOrderId d) (world s) = (inr tradeData, w) ->
  trade_state tradeData = "filled"%string ->
  trade_orderId tradeData = Some ordId -> averagePrice tradeData = Some avgPx ->
  okx_getBalance A (dstToken d) w = (inr balance, w') ->
  check A cfg (S fuel) s
  = check A cfg fuel (persisted (with_mem (Some d1) (with_world w' s)) d1 TRADE_EXECUTED).
Proof.
  intros d1 Hm Hst Hcool Hc Hcall Hfilled Hid Hpx Hbal.
  destruct (check_TRADE_EXECUTING fuel s d Hm Hst Hcool) as (rest & -> & _).
  unfold bind at 1. unfold onTRADE_EXECUTING.
  rewrite (bind_Ret getState _ s d s) by (by apply getState_ok).
  unfold bind at 1. unfold try_catch. unfold bind at 1.
  rewrite (adapter_ok _ s tradeData w Hc Hcall). unfold ret at 1.
  rewrite Hfilled, Hid, Hpx. cbn [String.eqb Ascii.eqb Bool.eqb orb]. cbv iota.
  rewrite (bind_Ret (update _) _ _ tt (with_mem (Some (set_orderId (Some ordId) d))
                                         (with_world w s)))
    by (by apply update_ok).
  rewrite (bind_Ret (update _) _ _ tt
             (with_mem (Some (set_price (Some avgPx) (set_orderId (Some ordId) d)))
                (with_world w s)))
    by (by rewrite (update_ok _ _ (set_orderId (Some ordId) d))).
  rewrite (bind_Ret getState _ _ (set_price (Some avgPx) (set_orderId (Some ordId) d))
             (with_mem (Some (set_price (Some avgPx) (set_orderId (Some ordId) d)))
                (with_world w s)))
    by (by apply getState_ok).
  rewrite (bind_Ret (adapter _) _ _ balance
             (with_mem (Some (set_price (Some avgPx) (set_orderId (Some ordId) d)))
                (with_world w' s)))
    by exact (adapter_ok _ (with_mem (Some (set_price (Some avgPx)
                                              (set_orderId (Some ordId) d)))
                              (with_world w s)) balance w' Hc Hbal).
  rewrite (bind_Ret (update _) _ _ tt (with_mem (Some d1) (with_world w' s)))
    by (by rewrite (update_ok _ _ (set_price (Some avgPx) (set_orderId (Some ordId) d)))).
  unfold bind at 1.
  rewrite (setStateWith_unfold _ (with_mem (Some d1) (with_world w' s)) d1 TRADE_EXECUTED
             eq_refl).
  cbn [missingField REQUIRED_FIELDS List.find isNullField String.eqb Ascii.eqb Bool.eqb
       d1 orderId price amountIn set_amountIn set_price set_orderId].
  change (crashAfter (with_mem (Some d1) (with_world w' s))) with (crashAfter s). rewrite Hc.
  by destruct (check A cfg fuel _) as [[] ?| | |].
Qed.

End Trade_poll.

Lemma trade_poll_outcomes_witness :
  Hedging.check Sim.simAdapters Sim.simConfig 2
    (Sim.startWith
       (Some (Hedging.set_state (Some Hedging.TRADE_EXECUTING)
                (Hedging.set_clientOrderId (Some "a"%string) Sim.lnJob)))
       Sim.world0 None)
  = Ret tt
      (Hedging.persisted
         (Hedging.with_mem
            (Some (Hedging.set_retryState (Some Hedging.DEPOSIT_RECEIVED)
                     (Hedging.set_retryAt (Some (1000000 + Hedging.retryTime))
                        (Hedging.set_state (Some Hedging.TRADE_EXECUTING)
                           (Hedging.set_clientOrderId (Some "a"%string) Sim.lnJob)))))
            (Sim.startWith
               (Some (Hedging.set_state (Some Hedging.TRADE_EXECUTING)
                        (Hedging.set_clientOrderId (Some "a"%string) Sim.lnJob)))
               Sim.world0 None))
         (Hedging.set_retryState (Some Hedging.DEPOSIT_RECEIVED)
            (Hedging.set_retryAt (Some (1000000 + Hedging.retryTime))
               (Hedging.set_state (Some Hedging.TRADE_EXECUTING)
                  (Hedging.set_clientOrderId (Some "a"%string) Sim.lnJob))))
         Hedging.RETRYING).
Proof.
  exact (trade_poll_outcomes Sim.simAdapters Sim.simConfig 0
           (Sim.startWith
              (Some (Hedging.set_state (Some Hedging.TRADE_EXECUTING)
                       (Hedging.set_clientOrderId (Some "a"%string) Sim.lnJob)))
              Sim.world0 None)
           (Hedging.set_state (Some Hedging.TRADE_EXECUTING)
              (Hedging.set_clientOrderId (Some "a"%string) Sim.lnJob))
           (inl (OKXError "51603")) Sim.world0
           eq_refl eq_refl eq_refl eq_refl eq_refl eq_refl).
Defined.

Lemma filled_order_amount_witness :
  Hedging.check Sim.simAdapters Sim.simConfig 2
    (Sim.startWith
       (Some (Hedging.set_state (Some Hedging.TRADE_EXECUTING)
                (Hedging.set_clientOrderId (Some "a"%string) Sim.lnJob)))
       (Sim.order "a" Sim.world0) None)
  = Hedging.check Sim.simAdapters Sim.simConfig 1
      (Hedging.persisted
         (Hedging.with_mem
            (Some (Hedging.set_amountIn (Some 20000000)
                     (Hedging.set_price (Some "24.5"%string)
                        (Hedging.set_orderId (Some "O"%string)
                           (Hedging.set_state (Some Hedging.TRADE_EXECUTING)
                              (Hedging.set_clientOrderId (Some "a"%string) Sim.lnJob))))))
            (Sim.startWith
               (Some (Hedging.set_state (Some Hedging.TRADE_EXECUTING)
                        (Hedging.set_clientOrderId (Some "a"%string) Sim.lnJob)))
               (Sim.order "a" Sim.world0) None))
         (Hedging.set_amountIn (Some 20000000)
            (Hedging.set_price (Some "24.5"%string)
               (Hedging.set_orderId (Some "O"%string)
                  (Hedging.set_state (Some Hedging.TRADE_EXECUTING)
                     (Hedging.set_clientOrderId (Some "a"%string) Sim.lnJob)))))
         Hedging.TRADE_EXECUTED).
Proof.
  exact (filled_order_amount Sim.simAdapters Sim.simConfig 1
           (Sim.startWith
              (Some (Hedging.set_state (Some Hedging.TRADE_EXECUTING)
                       (Hedging.set_clientOrderId (Some "a"%string) Sim.lnJob)))
              (Sim.order "a" Sim.world0) None)
           (Hedging.set_state (Some Hedging.TRADE_EXECUTING)
              (Hedging.set_clientOrderId (Some "a"%string) Sim.lnJob))
           {| Hedging.averagePrice := Some "24.5"%string; Hedging.trade_state := "filled";
              Hedging.trade_orderId := Some "O"%string |}
           "O" "24.5" 20000000 (Sim.order "a" Sim.world0) (Sim.order "a" Sim.world0)
           eq_refl eq_refl eq_refl eq_refl eq_refl eq_refl eq_refl eq_refl eq_refl).
Defined.

(** ** When the balance monitor starts no job, and the start of the plugin *)

Section Monitor_idle.
Import Hedging Spec.
Context {W : Type} (A : Adapters W) (cfg : Config).
Implicit Type s : Sys W.

(** X26. When the balance monitor starts no job. While a job is running the
    monitor returns at once, without a single request. Otherwise, with the
    readings taken: when the BTC value of the USDC inventory and the
    on-chain balance are both zero (their sum is zero), the division of
    bn.js fails and the callback throws, no job seeded; and when the
    difference of the two shares is within the threshold (equal to it
    included), it returns, no job seeded. *)
Theorem balance_monitor_no_trigger (fuel : nat) (s : Sys W) :
  (jobRunning s = true -> balanceMonitor A cfg fuel s = Ret tt s)
  /\ (forall s1 usable btcOfSC onchain,
        jobRunning s = false ->
        monitorReadings A cfg s = Ret (usable, btcOfSC, onchain) s1 ->
        let sum := btcOfSC + onchain in
        let diff := Z.quot (btcOfSC * 1000000) sum - Z.quot (onchain * 1000000) sum in
        (sum = 0 -> balanceMonitor A cfg fuel s = Throw (Error "Assertion failed") s1)
        /\ (sum <> 0 -> Z.abs diff <= rebalanceThresholdPPM cfg ->
            balanceMonitor A cfg fuel s = Ret tt s1)).
Proof.
  split.
  - intros Hrun. unfold balanceMonitor. unfold bind at 1, get. by rewrite Hrun.
  - intros s1 usable btcOfSC onchain Hidle Hread sum diff.
    assert (Hmon : balanceMonitor A cfg fuel s
                   = rebalance A cfg fuel usable btcOfSC onchain s1).
    { unfold balanceMonitor. unfold bind at 1, get. rewrite Hidle.
      unfold bind at 1. rewrite Hread. reflexivity. }
    rewrite Hmon. unfold rebalance, bn_div, JS.BN_div. fold sum. split.
    + intros ->. reflexivity.
    + intros Hsum Hthr.
      destruct (sum =? 0) eqn:E; [apply Z.eqb_eq in E; lia|].
      unfold bind at 1, ret at 1. unfold bind at 1, ret at 1. fold diff.
      destruct (Z.abs diff >? rebalanceThresholdPPM cfg) eqn:E2; [lia|reflexivity].
Qed.

Lemma check_no_document fuel s : mem s = None -> check A cfg (S fuel) s = Ret tt s.
Proof. intros Hm. cbn [check]. unfold checkWith, bind, get. by rewrite Hm. Qed.

Lemma checker_no_document fuel n : forall s,
  mem s = None ->
  runSwapStateChecker A cfg n (S fuel) s
  = Ret tt (with_clock (clock s + Z.of_nat n * checkInterval) s).
Proof.
  induction n as [|n IH]; intros s Hm.
  - cbn [runSwapStateChecker]. unfold ret.
    replace (clock s + Z.of_nat 0 * checkInterval) with (clock s) by lia. by destruct s.
  - cbn [runSwapStateChecker]. unfold bind at 1. unfold tick, try_catch.
    rewrite (check_no_document fuel s Hm). unfold bind at 1, advance, modify.
    rewrite (IH (with_clock (clock s + checkInterval) s) Hm).
    replace (clock s + Z.of_nat (S n) * checkInterval)
      with (clock s + checkInterval + Z.of_nat n * checkInterval)
      by (unfold checkInterval; lia).
    reflexivity.
Qed.

(** X27. The start of the plugin. [onEnable] loads the document and asks
    the node for its chain addresses before the first run of the checker.
    When the node has no address that is not a change address, it throws a
    TypeError there, and the checker never runs, whatever document was
    loaded. On a fresh installation (no document in memory, no state file)
    with such an address, the [n] runs of the checker do nothing, five
    seconds apart. *)
Theorem plugin_start (n fuel : nat) (s : Sys W) (addresses : list ChainAddress) (w : W) :
  crashAfter s = None ->
  ln_getChainAddresses A (world s) = (inr addresses, w) ->
  (List.find (fun addr => negb (is_change addr)) addresses = None ->
   exists s', onEnable A cfg n fuel s = Throw TypeError s' /\ world s' = w
              /\ disk s' = disk s /\ transitions s' = transitions s)
  /\ (forall addrObj,
        List.find (fun addr => negb (is_change addr)) addresses = Some addrObj ->
        mem s = None -> disk s = None ->
        onEnable A cfg n (S fuel) s
        = Ret tt (with_clock (clock s + Z.of_nat n * checkInterval) (with_world w s))).
Proof.
  intros Hc Hcall.
  assert (Hload : exists s0, loadState s = Ret tt s0 /\ world s0 = world s
                             /\ crashAfter s0 = crashAfter s /\ disk s0 = disk s
                             /\ transitions s0 = transitions s
                             /\ (disk s = None -> s0 = s)).
  { unfold loadState. destruct (disk s) as [j|] eqn:Hd.
    - destruct (parseState j); eexists; (split; [reflexivity|]); cbn; rewrite ?Hd;
        repeat split; discriminate.
    - eexists. split; [reflexivity|]. by repeat split. }
  destruct Hload as (s0 & Hload & Hw0 & Hc0 & Hd0 & Ht0 & Hfresh).
  rewrite <- Hw0 in Hcall. rewrite <- Hc0 in Hc.
  split.
  - intros Hnone. exists (with_world w s0). split; [|by repeat split].
    unfold onEnable. rewrite (bind_Ret loadState _ s tt s0 Hload).
    rewrite (bind_Ret (adapter _) _ s0 addresses (with_world w s0))
      by exact (adapter_ok _ s0 addresses w Hc Hcall).
    by rewrite Hnone.
  - intros addrObj Hsome Hm Hd. rewrite (Hfresh Hd) in *.
    unfold onEnable. rewrite (bind_Ret loadState _ s tt s Hload).
    rewrite (bind_Ret (adapter _) _ s addresses (with_world w s))
      by exact (adapter_ok _ s addresses w Hc Hcall).
    rewrite Hsome. rewrite (bind_Ret (nonNull (Some addrObj)) _ _ addrObj (with_world w s))
      by reflexivity.
    exact (checker_no_document fuel n (with_world w s) Hm).
Qed.

End Monitor_idle.

Lemma balance_monitor_no_trigger_witness :
  Hedging.balanceMonitor Sim.simAdapters Sim.simConfig 20
    (Sim.startWith (Some (Hedging.set_state (Some Hedging.OUT_TX) Sim.lnJob)) Sim.world0 None)
  = Ret tt
      (Sim.startWith (Some (Hedging.set_state (Some Hedging.OUT_TX) Sim.lnJob)) Sim.world0 None).
Proof.
  exact (proj1 (balance_monitor_no_trigger Sim.simAdapters Sim.simConfig 20
                  (Sim.startWith (Some (Hedging.set_state (Some Hedging.OUT_TX) Sim.lnJob))
                     Sim.world0 None)) eq_refl).
Defined.

Lemma plugin_start_witness :
  Hedging.onEnable Sim.simAdapters Sim.simConfig 3 1 (Sim.startWith None Sim.world0 None)
  = Ret tt
      (Hedging.with_clock (1000000 + Z.of_nat 3 * Hedging.checkInterval)
         (Hedging.with_world Sim.world0 (Sim.startWith None Sim.world0 None))).
Proof.
  exact (proj2 (plugin_start Sim.simAdapters Sim.simConfig 3 0
                  (Sim.startWith None Sim.world0 None)
                  [{| Hedging.address := "bc1qown"; Hedging.is_change := false |}] Sim.world0
                  eq_refl eq_refl)
           {| Hedging.address := "bc1qown"; Hedging.is_change := false |}
           eq_refl eq_refl eq_refl).
Defined.

(** ** The balances the monitor finds in the swaps *)

Section Inventory.
Import Hedging Spec.
Context {W : Type} (A : Adapters W) (cfg : Config).
Implicit Type s : Sys W.

Lemma amounts_app token l1 l2 : amounts token (l1 ++ l2) = amounts token l1 ++ amounts token l2.
Proof. unfold amounts. apply flat_map_app. Qed.

Lemma total_snoc l a :
  total (l ++ [a]) = Some (match total l with Some b => b + a | None => a end).
Proof.
  unfold total. destruct l as [|x l]; cbn [app].
  - cbn. f_equal. lia.
  - f_equal. cbn [fold_right]. rewrite fold_right_app. cbn [fold_right].
    generalize (x :: l). intros l0.
    assert (G : forall (l1 : list Z) c, fold_right Z.add c l1 = fold_right Z.add 0 l1 + c).
    { induction l1 as [|y l1 IH]; intros c; cbn [fold_right]; [lia|]. rewrite IH. lia. }
    rewrite <- Z.add_assoc. f_equal. rewrite (G l (a + 0)). lia.
Qed.

Lemma lookup_addBalance (m : gmap string Z) tk a t :
  addBalance m tk a !! t
  = if String.eqb tk t
    then Some (match m !! tk with Some b => b + a | None => a end)
    else m !! t.
Proof.
  unfold addBalance. destruct (String.eqb tk t) eqn:E.
  - apply String.eqb_eq in E. subst t. destruct (m !! tk); by rewrite lookup_insert_eq.
  - apply String.eqb_neq in E. destruct (m !! tk); by rewrite lookup_insert_ne.
Qed.

Lemma tallies_add m l swap data :
  swap_data swap = Some data -> tallies m l ->
  tallies (addBalance m (getToken data) (getAmount data)) (l ++ [swap]).
Proof.
  intros Hd Hm token. rewrite lookup_addBalance, amounts_app.
  unfold amounts at 2. cbn [flat_map]. rewrite Hd, app_nil_r.
  destruct (String.eqb (getToken data) token) eqn:E.
  - apply String.eqb_eq in E. subst token. rewrite total_snoc. by rewrite (Hm (getToken data)).
  - rewrite app_nil_r. apply Hm.
Qed.

Lemma filter_one (c : Swap -> bool) swap l :
  List.filter c (swap :: l) = List.filter c [swap] ++ List.filter c l.
Proof. cbn [List.filter]. by destruct (c swap). Qed.

Lemma tallies_count (c : bool) m l swap data :
  swap_data swap = Some data -> tallies m l ->
  tallies (if c then addBalance m (getToken data) (getAmount data) else m)
          (l ++ (if c then [swap] else [])).
Proof.
  intros Hd Hm. destruct c; [by apply tallies_add|]. by rewrite app_nil_r.
Qed.

Lemma foldM_counts (f : gmap string Z * gmap string Z -> Swap
                        -> M (Sys W) (gmap string Z * gmap string Z))
    (cl cr : Swap -> bool) s :
  (forall b swap data L R,
     swap_data swap = Some data -> tallies (fst b) L -> tallies (snd b) R ->
     exists b', f b swap s = Ret b' s
                /\ tallies (fst b') (L ++ (if cl swap then [swap] else []))
                /\ tallies (snd b') (R ++ (if cr swap then [swap] else []))) ->
  forall l b L R,
    Forall (fun swap => swap_data swap <> None) l ->
    tallies (fst b) L -> tallies (snd b) R ->
    exists b', foldM f l b s = Ret b' s
               /\ tallies (fst b') (L ++ List.filter cl l)
               /\ tallies (snd b') (R ++ List.filter cr l).
Proof.
  intros Hstep. induction l as [|swap l IH]; intros b L R Hall HL HR.
  - exists b. cbn [foldM List.filter]. rewrite !app_nil_r. by repeat split.
  - apply Forall_cons in Hall as [Hd Hall].
    destruct (swap_data swap) as [data|] eqn:Hdata; [|done].
    destruct (Hstep b swap data L R Hdata HL HR) as (b1 & Hrun & HL1 & HR1).
    destruct (IH b1 _ _ Hall HL1 HR1) as (b2 & Hrun2 & HL2 & HR2).
    exists b2. cbn [foldM]. rewrite (bind_Ret _ _ s b1 s Hrun).
    split; [exact Hrun2|].
    rewrite (filter_one cl), (filter_one cr). cbn [List.filter].
    rewrite !app_assoc.
    split; [by destruct (cl swap); rewrite ?app_nil_r in *
           |by destruct (cr swap); rewrite ?app_nil_r in *].
Qed.

Lemma addSwap_run (m : gmap string Z) swap data s :
  swap_data swap = Some data ->
  addSwap m swap s = Ret (addBalance m (getToken data) (getAmount data)) s.
Proof. intros Hd. unfold addSwap. by rewrite Hd. Qed.

Lemma isCommited_run committed data s :
  crashAfter s = None -> commitOracle A committed s ->
  adapter (sc_isCommited A data) s = Ret (committed data) s.
Proof.
  intros Hc Ho. rewrite (adapter_ok _ s (committed data) (world s) Hc (Ho data)).
  by rewrite with_world_self.
Qed.

Lemma store_counts (f : gmap string Z * gmap string Z -> Swap
                        -> M (Sys W) (gmap string Z * gmap string Z))
    (cl cr : Swap -> bool) s (store : option (list Swap)) b L R :
  (forall b swap data L R,
     swap_data swap = Some data -> tallies (fst b) L -> tallies (snd b) R ->
     exists b', f b swap s = Ret b' s
                /\ tallies (fst b') (L ++ (if cl swap then [swap] else []))
                /\ tallies (snd b') (R ++ (if cr swap then [swap] else []))) ->
  Forall (fun swap => swap_data swap <> None) (default [] store) ->
  tallies (fst b) L -> tallies (snd b) R ->
  exists b', match store with
             | None => ret b
             | Some swaps => foldM f swaps b
             end s = Ret b' s
             /\ tallies (fst b') (L ++ List.filter cl (default [] store))
             /\ tallies (snd b') (R ++ List.filter cr (default [] store)).
Proof.
  intros Hstep Hall HL HR. destruct store as [l|]; cbn [default] in *.
  - by apply foldM_counts.
  - exists b. cbn [List.filter]. rewrite !app_nil_r. by repeat split.
Qed.

(** The scan of the four stores. *)
Lemma scanSwaps_tallies (committed : option SwapData -> bool) (stores : SwapStores) (s : Sys W) :
  crashAfter s = None -> commitOracle A committed s ->
  Forall (fun swap => swap_data swap <> None) (allSwaps stores) ->
  exists lockedBalances returningBalances,
    scanSwaps A stores s = Ret (lockedBalances, returningBalances) s
    /\ tallies lockedBalances (lockedSwaps committed stores)
    /\ tallies returningBalances (returningSwaps stores).
Proof.
  intros Hc Ho Hall. unfold allSwaps in Hall.
  apply Forall_app in Hall as [H1 Hall]. apply Forall_app in Hall as [H2 Hall].
  apply Forall_app in Hall as [H3 H4].
  assert (H0 : tallies (∅ : gmap string Z) []) by (intros token; apply lookup_empty).
  unfold scanSwaps, lockedSwaps, returningSwaps.
  (* the swaps from Lightning *)
  match goal with
  | |- context [match fromBtcLn stores with
                | Some swaps => foldM ?f swaps ?b
                | None => _
                end] =>
      destruct (store_counts f (lockedFromBtcLn committed) (inSwapState FromBtcLn_CANCELED)
                  s (fromBtcLn stores) b [] []) as ([lb1 rb1] & R1 & L1 & T1);
        [|exact H1|exact H0|exact H0|]
  end.
  { intros [lb rb] swap data L R Hd HL HR. cbn [fst snd] in *.
    rewrite Hd. unfold lockedFromBtcLn, inSwapState. rewrite Hd.
    destruct (decide (swap_state swap = FromBtcLn_RECEIVED)) as [E1|E1];
      destruct (decide (swap_state swap = FromBtcLn_COMMITED)) as [E2|E2];
      destruct (decide (swap_state swap = FromBtcLn_CANCELED)) as [E3|E3];
      try congruence;
      rewrite ?(bool_decide_eq_true_2 _ E1), ?(bool_decide_eq_true_2 _ E2),
        ?(bool_decide_eq_true_2 _ E3), ?(bool_decide_eq_false_2 _ E1),
        ?(bool_decide_eq_false_2 _ E2), ?(bool_decide_eq_false_2 _ E3);
      cbn [andb orb];
      rewrite ?(bind_Ret (adapter _) _ s _ s (isCommited_run committed (Some data) s Hc Ho));
      rewrite ?(bind_Ret (ret false) _ s false s eq_refl);
      try destruct (committed (Some data));
      rewrite ?(bind_Ret (addSwap lb swap) _ s _ s (addSwap_run lb swap data s Hd));
      rewrite ?(bind_Ret (ret lb) _ s lb s eq_refl);
      rewrite ?(bind_Ret (addSwap rb swap) _ s _ s (addSwap_run rb swap data s Hd));
      rewrite ?(bind_Ret (ret rb) _ s rb s eq_refl);
      eexists; (split; [reflexivity|]); cbn [fst snd]; rewrite ?app_nil_r;
      split; try assumption; by apply tallies_add. }
  cbn [fst snd app] in L1, T1. rewrite (bind_Ret _ _ s _ s R1).
  (* the swaps from the chain *)
  match goal with
  | |- context [match fromBtc stores with
                | Some swaps => foldM ?f swaps ?b
                | None => _
                end] =>
      edestruct (store_counts f (lockedFromBtc committed) (fun _ => false)
                   s (fromBtc stores) b) as ([lb2 rb2] & R2 & L2 & T2);
        [|exact H2|exact L1|exact T1|]
  end.
  { intros [lb rb] swap data L R Hd HL HR. cbn [fst snd] in *.
    unfold lockedFromBtc. rewrite Hd.
    destruct (decide (swap_state swap = FromBtc_CREATED)) as [E1|E1];
      destruct (decide (swap_state swap = FromBtc_COMMITED)) as [E2|E2];
      try congruence;
      rewrite ?(bool_decide_eq_true_2 _ E1), ?(bool_decide_eq_true_2 _ E2),
        ?(bool_decide_eq_false_2 _ E1), ?(bool_decide_eq_false_2 _ E2);
      cbn [andb orb];
      rewrite ?(bind_Ret (adapter _) _ s _ s (isCommited_run committed (Some data) s Hc Ho));
      rewrite ?(bind_Ret (ret false) _ s false s eq_refl);
      try destruct (committed (Some data));
      rewrite ?(bind_Ret (addSwap lb swap) _ s _ s (addSwap_run lb swap data s Hd));
      rewrite ?(bind_Ret (ret lb) _ s lb s eq_refl);
      eexists; (split; [reflexivity|]); cbn [fst snd]; rewrite ?app_nil_r;
      split; try assumption; by apply tallies_add. }
  cbn [fst snd] in L2, T2. rewrite (bind_Ret _ _ s _ s R2).
  (* the swaps to the chain *)
  match goal with
  | |- context [match toBtc stores with
                | Some swaps => foldM ?f swaps ?b
                | None => _
                end] =>
      edestruct (store_counts f (fun _ => false) (inSwapState ToBtc_BTC_SENT)
                   s (toBtc stores) b) as ([lb3 rb3] & R3 & L3 & T3);
        [|exact H3|exact L2|exact T2|]
  end.
  { intros [lb rb] swap data L R Hd HL HR. cbn [fst snd] in *. unfold inSwapState.
    destruct (decide (swap_state swap = ToBtc_BTC_SENT)) as [E1|E1];
      rewrite ?(bool_decide_eq_true_2 _ E1), ?(bool_decide_eq_false_2 _ E1);
      rewrite ?(bind_Ret (addSwap rb swap) _ s _ s (addSwap_run rb swap data s Hd));
      eexists; (split; [reflexivity|]); cbn [fst snd]; rewrite ?app_nil_r;
      split; try assumption; by apply tallies_add. }
  cbn [fst snd] in L3, T3. rewrite (bind_Ret _ _ s _ s R3).
  (* the swaps to Lightning *)
  match goal with
  | |- context [match toBtcLn stores with
                | Some swaps => foldM ?f swaps ?b
                | None => _
                end] =>
      edestruct (store_counts f (fun _ => false) (inSwapState ToBtcLn_PAID)
                   s (toBtcLn stores) b) as ([lb4 rb4] & R4 & L4 & T4);
        [|exact H4|exact L3|exact T3|]
  end.
  { intros [lb rb] swap data L R Hd HL HR. cbn [fst snd] in *. unfold inSwapState.
    destruct (decide (swap_state swap = ToBtcLn_PAID)) as [E1|E1];
      rewrite ?(bool_decide_eq_true_2 _ E1), ?(bool_decide_eq_false_2 _ E1);
      rewrite ?(bind_Ret (addSwap rb swap) _ s _ s (addSwap_run rb swap data s Hd));
      eexists; (split; [reflexivity|]); cbn [fst snd]; rewrite ?app_nil_r;
      split; try assumption; by apply tallies_add. }
  cbn [fst snd] in L4, T4.
  exists lb4, rb4. split; [exact R4|].
  assert (Hf : forall l : list Swap, List.filter (fun _ => false) l = [])
    by (induction l; auto).
  rewrite !Hf, ?app_nil_r in *. rewrite <- !app_assoc in T4. by split.
Qed.

(** X28. The balances the monitor finds in the swaps. The scan of the four
    swap stores changes nothing and returns two records of balances by
    token. The locked balance of a token is the total of the amounts of the
    swaps in that token that are committed in the contract: the
    from-Lightning swaps in COMMITED, or in RECEIVED when the contract says
    they are committed, and the from-chain swaps in COMMITED, or in CREATED
    when the contract says so. The returning balance is the total of the
    from-Lightning swaps in CANCELED, the to-chain swaps in BTC_SENT and the
    to-Lightning swaps in PAID. A token without such a swap has no entry. *)
Theorem swap_balances (committed : option SwapData -> bool) (stores : SwapStores) (s : Sys W) :
  crashAfter s = None -> commitOracle A committed s ->
  Forall (fun swap => swap_data swap <> None) (allSwaps stores) ->
  exists lockedBalances returningBalances : gmap string Z,
    scanSwaps A stores s = Ret (lockedBalances, returningBalances) s
    /\ forall token,
         lockedBalances !! token = total (amounts token (lockedSwaps committed stores))
         /\ returningBalances !! token = total (amounts token (returningSwaps stores)).
Proof.
  intros Hc Ho Hall.
  destruct (scanSwaps_tallies committed stores s Hc Ho Hall) as (lb & rb & Hrun & HL & HR).
  exists lb, rb. split; [exact Hrun|].
  intros token. split; [apply HL|apply HR].
Qed.

(** X29. The inventory the monitor decides on. The USDC inventory that the
    monitor values in BTC is the balance of the contract plus the USDC
    locked in committed incoming swaps plus the USDC on its way back from
    canceled or paid-out swaps; the usable balance it checks a USDC job
    against is the balance of the contract alone. The Lightning channel
    balance is read and left out. *)
Theorem monitor_inventory (committed : option SwapData -> bool) (s : Sys W)
    (balanceUSDC value channel onchain : Z) (w1 w2 w3 w4 : W) :
  let USDC := tokenAddresses_USDC cfg in
  let inventory :=
    balanceUSDC
    + default 0 (total (amounts USDC (lockedSwaps committed (swapStores A w1))))
    + default 0 (total (amounts USDC (returningSwaps (swapStores A w1)))) in
  crashAfter s = None ->
  sc_getBalance A (sc_toTokenAddress A USDC) (world s) = (inr balanceUSDC, w1) ->
  commitOracle A committed (with_world w1 s) ->
  Forall (fun swap => swap_data swap <> None) (allSwaps (swapStores A w1)) ->
  pricing_getToBtcSwapAmount A inventory (sc_toTokenAddress A USDC) w1 = (inr value, w2) ->
  ln_getChannelBalance A w2 = (inr channel, w3) ->
  ln_getChainBalance A w3 = (inr onchain, w4) ->
  monitorReadings A cfg s = Ret (balanceUSDC, value, onchain) (with_world w4 s).
Proof.
  intros USDC inventory Hc Hbal Ho Hall Hprice Hchan Hchain.
  destruct (scanSwaps_tallies committed (swapStores A w1) (with_world w1 s) Hc Ho Hall)
    as (lb & rb & Hrun & HL & HR).
  unfold monitorReadings.
  rewrite (bind_Ret (adapter _) _ s balanceUSDC (with_world w1 s))
    by exact (adapter_ok _ s balanceUSDC w1 Hc Hbal).
  rewrite (bind_Ret get _ _ (with_world w1 s) (with_world w1 s)) by reflexivity.
  change (world (with_world w1 s)) with w1.
  rewrite (bind_Ret (scanSwaps A _) _ _ (lb, rb) (with_world w1 s) Hrun).
  fold USDC. rewrite (HL USDC), (HR USDC).
  assert (Hinv : match total (amounts USDC (returningSwaps (swapStores A w1))) with
                 | Some r =>
                     match total (amounts USDC (lockedSwaps committed (swapStores A w1))) with
                     | Some l => balanceUSDC + l
                     | None => balanceUSDC
                     end + r
                 | None =>
                     match total (amounts USDC (lockedSwaps committed (swapStores A w1))) with
                     | Some l => balanceUSDC + l
                     | None => balanceUSDC
                     end
                 end = inventory).
  { unfold inventory.
    destruct (total (amounts USDC (returningSwaps _))), (total (amounts USDC (lockedSwaps _ _)));
      unfold default, from_option, id; lia. }
  rewrite Hinv.
  rewrite (bind_Ret (adapter _) _ _ value (with_world w2 s))
    by exact (adapter_ok _ (with_world w1 s) value w2 Hc Hprice).
  rewrite (bind_Ret (adapter _) _ _ channel (with_world w3 s))
    by exact (adapter_ok _ (with_world w2 s) channel w3 Hc Hchan).
  rewrite (bind_Ret (adapter _) _ _ onchain (with_world w4 s))
    by exact (adapter_ok _ (with_world w3 s) onchain w4 Hc Hchain).
  reflexivity.
Qed.

End Inventory.

Lemma swap_balances_witness :
  exists lockedBalances returningBalances : gmap string Z,
    Hedging.scanSwaps Sim.simAdapters
      {| Hedging.fromBtcLn :=
           Some [{| Hedging.swap_state := Hedging.FromBtcLn_COMMITED;
                    Hedging.swap_data :=
                      Some {| Hedging.getToken := "0xusdc"; Hedging.getAmount := 7 |} |};
                 {| Hedging.swap_state := Hedging.FromBtcLn_CANCELED;
                    Hedging.swap_data :=
                      Some {| Hedging.getToken := "0xusdc"; Hedging.getAmount := 5 |} |}];
         Hedging.fromBtc :=
           Some [{| Hedging.swap_state := Hedging.FromBtc_CREATED;
                    Hedging.swap_data :=
                      Some {| Hedging.getToken := "0xusdc"; Hedging.getAmount := 11 |} |}];
         Hedging.toBtc := None;
         Hedging.toBtcLn := Some [] |}
      (Sim.startWith None Sim.world0 None)
    = Ret (lockedBalances, returningBalances) (Sim.startWith None Sim.world0 None)
    /\ forall token,
         lockedBalances !! token
         = Spec.total (Spec.amounts token
             (Spec.lockedSwaps (fun _ => true)
      {| Hedging.fromBtcLn :=
           Some [{| Hedging.swap_state := Hedging.FromBtcLn_COMMITED;
                    Hedging.swap_data :=
                      Some {| Hedging.getToken := "0xusdc"; Hedging.getAmount := 7 |} |};
                 {| Hedging.swap_state := Hedging.FromBtcLn_CANCELED;
                    Hedging.swap_data :=
                      Some {| Hedging.getToken := "0xusdc"; Hedging.getAmount := 5 |} |}];
         Hedging.fromBtc :=
           Some [{| Hedging.swap_state := Hedging.FromBtc_CREATED;
                    Hedging.swap_data :=
                      Some {| Hedging.getToken := "0xusdc"; Hedging.getAmount := 11 |} |}];
         Hedging.toBtc := None;
         Hedging.toBtcLn := Some [] |}))
         /\ returningBalances !! token
            = Spec.total (Spec.amounts token
                (Spec.returningSwaps
      {| Hedging.fromBtcLn :=
           Some [{| Hedging.swap_state := Hedging.FromBtcLn_COMMITED;
                    Hedging.swap_data :=
                      Some {| Hedging.getToken := "0xusdc"; Hedging.getAmount := 7 |} |};
                 {| Hedging.swap_state := Hedging.FromBtcLn_CANCELED;
                    Hedging.swap_data :=
                      Some {| Hedging.getToken := "0xusdc"; Hedging.getAmount := 5 |} |}];
         Hedging.fromBtc :=
           Some [{| Hedging.swap_state := Hedging.FromBtc_CREATED;
                    Hedging.swap_data :=
                      Some {| Hedging.getToken := "0xusdc"; Hedging.getAmount := 11 |} |}];
         Hedging.toBtc := None;
         Hedging.toBtcLn := Some [] |})).
Proof.
  apply (swap_balances Sim.simAdapters (fun _ => true)
      {| Hedging.fromBtcLn :=
           Some [{| Hedging.swap_state := Hedging.FromBtcLn_COMMITED;
                    Hedging.swap_data :=
                      Some {| Hedging.getToken := "0xusdc"; Hedging.getAmount := 7 |} |};
                 {| Hedging.swap_state := Hedging.FromBtcLn_CANCELED;
                    Hedging.swap_data :=
                      Some {| Hedging.getToken := "0xusdc"; Hedging.getAmount := 5 |} |}];
         Hedging.fromBtc :=
           Some [{| Hedging.swap_state := Hedging.FromBtc_CREATED;
                    Hedging.swap_data :=
                      Some {| Hedging.getToken := "0xusdc"; Hedging.getAmount := 11 |} |}];
         Hedging.toBtc := None;
         Hedging.toBtcLn := Some [] |}
           (Sim.startWith None Sim.world0 None) eq_refl).
  - intros data. reflexivity.
  - repeat constructor; discriminate.
Defined.

Lemma monitor_inventory_witness :
  Hedging.monitorReadings
    (Spec.withSwaps (fun _ => Sim.usdcSwaps) (Sim.ok 5000000) Sim.simAdapters)
    Sim.simConfig (Sim.startWith None Sim.world0 None)
  = Ret (50000000, (50000000 + (7000000 + 2000000) + (1000000 + 3000000 + 4000000)) / 25,
         3000000)
      (Hedging.with_world Sim.world0 (Sim.startWith None Sim.world0 None)).
Proof.
  apply (monitor_inventory
           (Spec.withSwaps (fun _ => Sim.usdcSwaps) (Sim.ok 5000000) Sim.simAdapters)
           Sim.simConfig (fun _ => true)
           (Sim.startWith None Sim.world0 None) 50000000 2680000 5000000 3000000
           Sim.world0 Sim.world0 Sim.world0 Sim.world0 eq_refl eq_refl).
  - intros data. reflexivity.
  - repeat constructor; discriminate.
  - reflexivity.
  - reflexivity.
  - reflexivity.
Defined.

(** ** The withdrawal from the exchange *)

Section Withdrawal.
Import Hedging Spec.
Context {W : Type} (A : Adapters W) (cfg : Config).
Implicit Type s : Sys W.

(** X30. The withdrawal from the exchange to the smart chain. In
    FUNDS_TRANSFERED with a destination other than BTC and BTC-LN, [check]
    asks for the withdrawal fee of the whole [amountIn], takes what
    [swapContract.getAddress()] returns as the receiving address, draws a
    withdrawal id, persists the document in WITHDRAWING with the fee, the
    address, the id and a cooldown, and only then requests the withdrawal
    of [amountIn - fee] under that id. When the exchange rejects the
    request with an [OKXError], a retry from FUNDS_TRANSFERED is scheduled;
    on any other error, as on success, the job stays in WITHDRAWING. *)
Theorem withdrawal_request (fuel : nat) (s : Sys W) (d : HedgingPluginState Z)
    (amount fee : Z) (res : Exn + unit) (w1 w3 : W) :
  let withdrawalId := fst (randomBytes16 A w1) in
  let w2 := snd (randomBytes16 A w1) in
  let d1 := set_cooldown (Some (clock s + 5 * 1000))
              (set_withdrawalId (Some withdrawalId)
                 (set_receivingAddress (Some (sc_getAddress A w1))
                    (set_withdrawalFee (Some fee) d))) in
  let requested := with_world w3 (persisted (with_world w2 s) d1 WITHDRAWING) in
  let d2 := set_retryState (Some FUNDS_TRANSFERED)
              (set_retryAt (Some (clock s + retryTime)) (set_state (Some WITHDRAWING) d1)) in
  mem s = Some d -> state d = Some FUNDS_TRANSFERED ->
  opt_gt (cooldown d) (clock s) = false -> crashAfter s = None ->
  opt_is (dstToken d) "BTC" = false -> opt_is (dstToken d) "BTC-LN" = false ->
  amountIn d = Some amount ->
  okx_getWithdrawalFee A (dstToken d) (okxSmartChainName cfg) (Some amount) (world s)
  = (inr fee, w1) ->
  okx_withdraw A (dstToken d) (okxSmartChainName cfg) (Some (sc_getAddress A w1))
    withdrawalId fee (amount - fee) w2 = (res, w3) ->
  check A cfg (S (S fuel)) s
  = match res with
    | inl (OKXError _) => Ret tt (persisted (with_mem (Some d2) requested) d2 RETRYING)
    | _ => Ret tt requested
    end.
Proof.
  intros withdrawalId w2 d1 requested d2 Hm Hst Hcool Hc Hb Hl Hamt Hfee Hwd.
  assert (Hrun : exists rest, check A cfg (S (S fuel)) s
                 = bind (onFUNDS_TRANSFERED A cfg (check A cfg (S fuel)))
                     (fun returned : bool => if returned then ret tt else rest) s).
  { eexists. cbn [check]. unfold checkWith, bind at 1, get. cbn beta iota. rewrite Hm, Hcool.
    do 10 (rewrite (whenState_skip _ _ _ s d FUNDS_TRANSFERED Hm Hst); [|reflexivity]).
    rewrite (whenState_hit _ _ _ s d Hm Hst). reflexivity. }
  destruct Hrun as [rest ->].
  set (da := set_withdrawalFee (Some fee) d).
  set (db := set_receivingAddress (Some (sc_getAddress A w1)) da).
  set (dc := set_withdrawalId (Some withdrawalId) db).
  unfold bind at 1. unfold onFUNDS_TRANSFERED.
  rewrite (bind_Ret getState _ s d s) by (by apply getState_ok).
  rewrite Hamt, Hb, Hl.
  rewrite (bind_Ret (adapter _) _ s fee (with_world w1 s))
    by exact (adapter_ok _ s fee w1 Hc Hfee).
  rewrite (bind_Ret (update _) _ _ tt (with_mem (Some da) (with_world w1 s)))
    by exact (update_ok _ (with_world w1 s) d Hm).
  rewrite (bind_Ret (bind get _) _ _ tt (with_mem (Some db) (with_world w1 s))).
  2:{ unfold bind at 1, get. exact (update_ok _ (with_mem (Some da) (with_world w1 s)) da eq_refl). }
  rewrite (bind_Ret (random A) _ _ withdrawalId (with_mem (Some db) (with_world w2 s)))
    by exact (random_ok A (with_mem (Some db) (with_world w1 s))).
  rewrite (bind_Ret (update _) _ _ tt (with_mem (Some dc) (with_world w2 s)))
    by exact (update_ok _ (with_mem (Some db) (with_world w2 s)) db eq_refl).
  rewrite (bind_Ret setCooldown _ _ tt (with_mem (Some d1) (with_world w2 s)))
    by exact (setCooldown_ok (with_mem (Some dc) (with_world w2 s)) dc eq_refl).
  rewrite (bind_Ret (setStateWith _ _) _ _ tt (persisted (with_world w2 s) d1 WITHDRAWING)).
  2:{ rewrite (setState_cooling A cfg fuel (with_mem (Some d1) (with_world w2 s)) d1 WITHDRAWING
                 eq_refl ltac:(cbn; apply Z.gtb_lt; lia) eq_refl).
      change (crashAfter (with_mem (Some d1) (with_world w2 s))) with (crashAfter s).
      rewrite Hc. cbn [fmap option_fmap option_map].
      rewrite with_crashAfter_None by exact Hc. reflexivity. }
  assert (Hreq : bind getState (fun d0 =>
                   bind (nonNull (amountIn d0)) (fun amountIn =>
                     bind (nonNull (withdrawalFee d0)) (fun withdrawalFee =>
                       adapter (okx_withdraw A (dstToken d0) (okxSmartChainName cfg)
                                  (receivingAddress d0) withdrawalId withdrawalFee
                                  (amountIn - withdrawalFee)))))
                   (persisted (with_world w2 s) d1 WITHDRAWING)
                 = match res with
                   | inl e => Throw e requested
                   | inr a => Ret a requested
                   end).
  { rewrite (bind_Ret getState _ _ (set_state (Some WITHDRAWING) d1)
               (persisted (with_world w2 s) d1 WITHDRAWING)) by reflexivity.
    change (amountIn (set_state (Some WITHDRAWING) d1)) with (amountIn d). rewrite Hamt.
    rewrite (bind_Ret (nonNull (Some amount)) _ _ amount
               (persisted (with_world w2 s) d1 WITHDRAWING)) by reflexivity.
    rewrite (bind_Ret (nonNull _) _ _ fee (persisted (with_world w2 s) d1 WITHDRAWING))
      by reflexivity.
    destruct res as [e|[]].
    - exact (adapter_fail _ (persisted (with_world w2 s) d1 WITHDRAWING) e w3 Hc Hwd).
    - exact (adapter_ok _ (persisted (with_world w2 s) d1 WITHDRAWING) tt w3 Hc Hwd). }
  unfold bind at 1. unfold try_catch. rewrite Hreq.
  destruct res as [e|[]]; [|reflexivity].
  destruct e as [errorCode| | |]; try reflexivity.
  by rewrite (scheduleRetry_run A cfg fuel FUNDS_TRANSFERED requested
                (set_state (Some WITHDRAWING) d1) eq_refl Hc).
Qed.

End Withdrawal.

Lemma withdrawal_request_witness :
  Hedging.check Sim.simAdapters Sim.simConfig 2
    (Sim.startWith
       (Some (Hedging.set_state (Some Hedging.FUNDS_TRANSFERED)
                (Hedging.set_amountIn (Some 2500000) Sim.lnJob)))
       Sim.world0 None)
  = Ret tt
      (Hedging.with_world (Sim.requestWithdrawal "a" (Sim.draw Sim.world0))
         (Hedging.persisted
            (Hedging.with_world (Sim.draw Sim.world0)
               (Sim.startWith
                  (Some (Hedging.set_state (Some Hedging.FUNDS_TRANSFERED)
                           (Hedging.set_amountIn (Some 2500000) Sim.lnJob)))
                  Sim.world0 None))
            (Hedging.set_cooldown (Some 1005000)
               (Hedging.set_withdrawalId (Some "a"%string)
                  (Hedging.set_receivingAddress (Some "0xown"%string)
                     (Hedging.set_withdrawalFee (Some 1000)
                        (Hedging.set_state (Some Hedging.FUNDS_TRANSFERED)
                           (Hedging.set_amountIn (Some 2500000) Sim.lnJob))))))
            Hedging.WITHDRAWING)).
Proof.
  exact (withdrawal_request Sim.simAdapters Sim.simConfig 0
           (Sim.startWith
              (Some (Hedging.set_state (Some Hedging.FUNDS_TRANSFERED)
                       (Hedging.set_amountIn (Some 2500000) Sim.lnJob)))
              Sim.world0 None)
           (Hedging.set_state (Some Hedging.FUNDS_TRANSFERED)
              (Hedging.set_amountIn (Some 2500000) Sim.lnJob))
           2500000 1000 (inr tt) Sim.world0 (Sim.requestWithdrawal "a" (Sim.draw Sim.world0))
           eq_refl eq_refl eq_refl eq_refl eq_refl eq_refl eq_refl eq_refl eq_refl).
Defined.
